(** * TinyG cartesian trajectory planner (firmware/tinyg_316.18/planner.c)

    A shallow embedding of planner.c and the properties of its buffer ring,
    producers, region solver, backward replanner and segment runners.

    Numbers.  A C [double] is modelled by a real number of [R]: arithmetic is
    exact, there is no NaN, infinity or rounding.  [sqrt], [cos], [sin],
    [acos] are the Standard Library's; [pow], [ceil], [round] and the integer
    casts are defined below.  A [uint32_t] is a [Z] reduced modulo 2^32.
    The one computation whose result changes in kind with rounding, the
    factor of a junction, is given a second time over IEEE binary64 in
    module [Double].

    Pointers.  A [struct mpBuffer *] into [mb.bf] is the slot's index; a
    pointer that may be NULL is an [option nat].

    Collaborators.  The motor queue is the list of directives queued so far;
    [mq_test_motor_buffer ()] is the boolean [room] handed to a runner;
    [ik_kinematics] is not modelled: a queued line records the cartesian
    travel given to it.  [TRAP] appends its message to a log. *)

From Stdlib Require Import Reals Lra Lia ZArith List Bool String.
From Stdlib Require PrimFloat FloatOps SpecFloat.
From stdpp Require Import base list.
Import ListNotations.
Local Open Scope R_scope.

(** ** C arithmetic on reals *)

(** [fabs] *)
Definition fabs (x : R) : R := Rabs x.

(** Modelled from the spec: the [square] macro of util.h is missing from the sources. *)
Definition square (a : R) : R := a * a.

(** [pow x y] for [y > 0]: 0 at [x = 0], [exp (y * ln x)] for [x > 0].
    A negative base with a fractional exponent is NaN in C; it is 0 here. *)
Definition pow (x y : R) : R := if Rle_dec x 0 then 0 else Rpower x y.

(** Modelled from the spec: the [cubert] macro of util.h is missing from the
    sources; the spec calls the cached value the cube root of Jm. *)
Definition cubert (a : R) : R := pow a (/ 3).

(** [hypot] *)
Definition hypot (x y : R) : R := sqrt (x * x + y * y).

(** [floor] and [ceil] as integers, from the Archimedean [up]. *)
Definition floorZ (x : R) : Z := (up x - 1)%Z.
Definition ceilZ (x : R) : Z := (1 - up (- x))%Z.

(** [ceil] *)
Definition ceil (x : R) : R := IZR (ceilZ x).

(** [round]: to nearest, halves away from zero. *)
Definition round (x : R) : R :=
  if Rle_dec 0 x then IZR (floorZ (x + / 2)) else IZR (ceilZ (x - / 2)).

(** A cast of a [double] to an integer type truncates towards zero. *)
Definition truncZ (x : R) : Z := if Rle_dec 0 x then floorZ x else ceilZ x.

(** [(uint32_t) x] and [(uint16_t) x] *)
Definition to_uint32 (x : R) : Z := (truncZ x mod 2 ^ 32)%Z.
Definition to_uint16 (x : R) : Z := (truncZ x mod 2 ^ 16)%Z.

(** [--c] on a [uint32_t] *)
Definition dec_uint32 (c : Z) : Z := ((c - 1) mod 2 ^ 32)%Z.

(** Comparisons of doubles are decided as comparisons of reals. *)
#[global] Instance Rlt_decision (x y : R) : Decision (x < y) := Rlt_dec x y.
#[global] Instance Rgt_decision (x y : R) : Decision (x > y) := Rgt_dec x y.
#[global] Instance Rle_decision (x y : R) : Decision (x <= y) := Rle_dec x y.
#[global] Instance Req_decision (x y : R) : Decision (x = y) := Req_dec_T x y.

(** [min] *)
Definition min (a b : R) : R := if Rlt_dec a b then a else b.

(** Modelled from the spec: ONE_MINUTE_OF_MICROSECONDS = 60·10^6 and the
    [uSec] macro (minutes to microseconds, rounded) are missing from the sources. *)
Definition ONE_MINUTE_OF_MICROSECONDS : R := 60000000.
Definition uSec (minutes : R) : R := round (minutes * ONE_MINUTE_OF_MICROSECONDS).

(** ** Vectors over the axes *)

(** Modelled from the spec: AXES is missing from the sources; the angular
    jerk factor reads the six axes X, Y, Z, A, B, C. *)
Definition AXES : nat := 6.
Module Axis.
Definition X : nat := 0.
Definition Y : nat := 1.
Definition Z : nat := 2.
Definition A : nat := 3.
Definition B : nat := 4.
Definition C : nat := 5.
End Axis.

(** [v[i]] *)
Definition vget (v : list R) (i : nat) : R := nth i v 0.

(** [for (i=0; i<AXES; i++) dest[i] = f i] *)
Definition vec_init (f : nat -> R) : list R := map f (seq 0 AXES).

Definition zero_vector : list R := vec_init (fun _ => 0).

(** ** Enumerations *)

Inductive mpBufferState :=
  | MP_BUFFER_EMPTY | MP_BUFFER_LOADING | MP_BUFFER_QUEUED
  | MP_BUFFER_PENDING | MP_BUFFER_RUNNING.

Inductive mpMoveType :=
  | MP_TYPE_NULL | MP_TYPE_ACCEL | MP_TYPE_CRUISE | MP_TYPE_DECEL | MP_TYPE_LINE
  | MP_TYPE_ARC | MP_TYPE_DWELL | MP_TYPE_START | MP_TYPE_STOP | MP_TYPE_END.

Inductive mpMoveState :=
  | MP_STATE_NEW | MP_STATE_RUNNING_1 | MP_STATE_RUNNING_2
  | MP_STATE_FINALIZE | MP_STATE_END.

Definition MP_STATE_RUNNING : mpMoveState := MP_STATE_RUNNING_1.

(** Status codes of tinyg.h that planner.c returns. *)
Inductive tgStatus :=
  | TG_OK | TG_ERR | TG_EAGAIN | TG_NOOP | TG_COMPLETE
  | TG_ZERO_LENGTH_MOVE | TG_BUFFER_FULL_FATAL.

(** Path control modes of the canonical machine. *)
Inductive cmPathControlMode :=
  | PATH_EXACT_STOP | PATH_EXACT_PATH | PATH_CONTINUOUS.

(** Directives handed to the motor queue. *)
Inductive mqCommand :=
  | MqLine (travel : list R) (microseconds : R)
  | MqDwell (microseconds : Z)
  | MqStops (move_type : mpMoveType).

#[global] Instance mpBufferState_eq_dec : EqDecision mpBufferState.
Proof. solve_decision. Defined.
#[global] Instance mpMoveType_eq_dec : EqDecision mpMoveType.
Proof. solve_decision. Defined.
#[global] Instance mpMoveState_eq_dec : EqDecision mpMoveState.
Proof. solve_decision. Defined.
#[global] Instance tgStatus_eq_dec : EqDecision tgStatus.
Proof. solve_decision. Defined.
#[global] Instance cmPathControlMode_eq_dec : EqDecision cmPathControlMode.
Proof. solve_decision. Defined.

(** ** Structures *)

Record mpBufferArc := {
  a_theta : R;
  a_radius : R;
  a_angular_travel : R;
  a_linear_travel : R;
  a_axis_1 : nat;
  a_axis_2 : nat;
  a_axis_linear : nat
}.

Record mpBuffer := {
  bf_nx : nat;
  bf_pv : nat;
  bf_target : list R;
  bf_unit_vec : list R;
  bf_a : mpBufferArc;
  bf_buffer_state : mpBufferState;
  bf_move_type : mpMoveType;
  bf_move_state : mpMoveState;
  bf_replannable : bool;
  bf_time : R;
  bf_length : R;
  bf_start_velocity : R;
  bf_end_velocity : R;
  bf_request_velocity : R
}.

Record mpBufferPool := {
  mb_w : nat;
  mb_q : nat;
  mb_r : nat;
  mb_bf : list mpBuffer
}.

Record mpMoveMasterSingleton := {
  mm_position : list R;
  mm_target : list R;
  mm_unit_vec : list R;
  mm_ang_jerk_vec : list R;
  mm_linear_jerk_div2 : R;
  mm_linear_jerk_rad3 : R
}.

Record mpMovePlanner := {
  m_path_mode : cmPathControlMode;
  m_head : option nat;
  m_body : option nat;
  m_tail : option nat;
  m_length : R;
  m_head_length : R;
  m_body_length : R;
  m_tail_length : R;
  m_initial_velocity_req : R;
  m_initial_velocity : R;
  m_target_velocity : R;
  m_cruise_velocity : R;
  m_final_velocity : R
}.

Record mpMoveRuntimeSingleton := {
  mr_run_flag : bool;
  mr_run_move : mpMoveType;
  mr_position : list R;
  mr_target : list R;
  mr_length : R;
  mr_time : R;
  mr_microseconds : R;
  mr_elapsed_time : R;
  mr_midpoint_velocity : R;
  mr_midpoint_acceleration : R;
  mr_segments : R;
  mr_segment_count : Z;
  mr_segment_time : R;
  mr_segment_length : R;
  mr_segment_velocity : R;
  mr_segment_theta : R;
  mr_center_1 : R;
  mr_center_2 : R
}.

(** The module's static data: [mm], [mp[2]], [mr], [mb]; the motor queue
    and the trap log stand for the collaborators. *)
Record planner := {
  mm : mpMoveMasterSingleton;
  mp_0 : mpMovePlanner;
  mp_1 : mpMovePlanner;
  mr : mpMoveRuntimeSingleton;
  mb : mpBufferPool;
  mq : list mqCommand;
  traps : list string
}.

(** ** Field assignments *)

Definition set_a_theta (v : R) (x : mpBufferArc) : mpBufferArc :=
  {| a_theta := v; a_radius := a_radius x; a_angular_travel := a_angular_travel x;
     a_linear_travel := a_linear_travel x; a_axis_1 := a_axis_1 x;
     a_axis_2 := a_axis_2 x; a_axis_linear := a_axis_linear x |}.
Definition set_bf_nx (v : nat) (x : mpBuffer) : mpBuffer :=
  {| bf_nx := v; bf_pv := bf_pv x; bf_target := bf_target x; bf_unit_vec := bf_unit_vec x; bf_a := bf_a x; bf_buffer_state := bf_buffer_state x; bf_move_type := bf_move_type x; bf_move_state := bf_move_state x; bf_replannable := bf_replannable x; bf_time := bf_time x; bf_length := bf_length x; bf_start_velocity := bf_start_velocity x; bf_end_velocity := bf_end_velocity x; bf_request_velocity := bf_request_velocity x |}.
Definition set_bf_pv (v : nat) (x : mpBuffer) : mpBuffer :=
  {| bf_nx := bf_nx x; bf_pv := v; bf_target := bf_target x; bf_unit_vec := bf_unit_vec x; bf_a := bf_a x; bf_buffer_state := bf_buffer_state x; bf_move_type := bf_move_type x; bf_move_state := bf_move_state x; bf_replannable := bf_replannable x; bf_time := bf_time x; bf_length := bf_length x; bf_start_velocity := bf_start_velocity x; bf_end_velocity := bf_end_velocity x; bf_request_velocity := bf_request_velocity x |}.
Definition set_bf_target (v : list R) (x : mpBuffer) : mpBuffer :=
  {| bf_nx := bf_nx x; bf_pv := bf_pv x; bf_target := v; bf_unit_vec := bf_unit_vec x; bf_a := bf_a x; bf_buffer_state := bf_buffer_state x; bf_move_type := bf_move_type x; bf_move_state := bf_move_state x; bf_replannable := bf_replannable x; bf_time := bf_time x; bf_length := bf_length x; bf_start_velocity := bf_start_velocity x; bf_end_velocity := bf_end_velocity x; bf_request_velocity := bf_request_velocity x |}.
Definition set_bf_unit_vec (v : list R) (x : mpBuffer) : mpBuffer :=
  {| bf_nx := bf_nx x; bf_pv := bf_pv x; bf_target := bf_target x; bf_unit_vec := v; bf_a := bf_a x; bf_buffer_state := bf_buffer_state x; bf_move_type := bf_move_type x; bf_move_state := bf_move_state x; bf_replannable := bf_replannable x; bf_time := bf_time x; bf_length := bf_length x; bf_start_velocity := bf_start_velocity x; bf_end_velocity := bf_end_velocity x; bf_request_velocity := bf_request_velocity x |}.
Definition set_bf_a (v : mpBufferArc) (x : mpBuffer) : mpBuffer :=
  {| bf_nx := bf_nx x; bf_pv := bf_pv x; bf_target := bf_target x; bf_unit_vec := bf_unit_vec x; bf_a := v; bf_buffer_state := bf_buffer_state x; bf_move_type := bf_move_type x; bf_move_state := bf_move_state x; bf_replannable := bf_replannable x; bf_time := bf_time x; bf_length := bf_length x; bf_start_velocity := bf_start_velocity x; bf_end_velocity := bf_end_velocity x; bf_request_velocity := bf_request_velocity x |}.
Definition set_bf_buffer_state (v : mpBufferState) (x : mpBuffer) : mpBuffer :=
  {| bf_nx := bf_nx x; bf_pv := bf_pv x; bf_target := bf_target x; bf_unit_vec := bf_unit_vec x; bf_a := bf_a x; bf_buffer_state := v; bf_move_type := bf_move_type x; bf_move_state := bf_move_state x; bf_replannable := bf_replannable x; bf_time := bf_time x; bf_length := bf_length x; bf_start_velocity := bf_start_velocity x; bf_end_velocity := bf_end_velocity x; bf_request_velocity := bf_request_velocity x |}.
Definition set_bf_move_type (v : mpMoveType) (x : mpBuffer) : mpBuffer :=
  {| bf_nx := bf_nx x; bf_pv := bf_pv x; bf_target := bf_target x; bf_unit_vec := bf_unit_vec x; bf_a := bf_a x; bf_buffer_state := bf_buffer_state x; bf_move_type := v; bf_move_state := bf_move_state x; bf_replannable := bf_replannable x; bf_time := bf_time x; bf_length := bf_length x; bf_start_velocity := bf_start_velocity x; bf_end_velocity := bf_end_velocity x; bf_request_velocity := bf_request_velocity x |}.
Definition set_bf_move_state (v : mpMoveState) (x : mpBuffer) : mpBuffer :=
  {| bf_nx := bf_nx x; bf_pv := bf_pv x; bf_target := bf_target x; bf_unit_vec := bf_unit_vec x; bf_a := bf_a x; bf_buffer_state := bf_buffer_state x; bf_move_type := bf_move_type x; bf_move_state := v; bf_replannable := bf_replannable x; bf_time := bf_time x; bf_length := bf_length x; bf_start_velocity := bf_start_velocity x; bf_end_velocity := bf_end_velocity x; bf_request_velocity := bf_request_velocity x |}.
Definition set_bf_replannable (v : bool) (x : mpBuffer) : mpBuffer :=
  {| bf_nx := bf_nx x; bf_pv := bf_pv x; bf_target := bf_target x; bf_unit_vec := bf_unit_vec x; bf_a := bf_a x; bf_buffer_state := bf_buffer_state x; bf_move_type := bf_move_type x; bf_move_state := bf_move_state x; bf_replannable := v; bf_time := bf_time x; bf_length := bf_length x; bf_start_velocity := bf_start_velocity x; bf_end_velocity := bf_end_velocity x; bf_request_velocity := bf_request_velocity x |}.
Definition set_bf_time (v : R) (x : mpBuffer) : mpBuffer :=
  {| bf_nx := bf_nx x; bf_pv := bf_pv x; bf_target := bf_target x; bf_unit_vec := bf_unit_vec x; bf_a := bf_a x; bf_buffer_state := bf_buffer_state x; bf_move_type := bf_move_type x; bf_move_state := bf_move_state x; bf_replannable := bf_replannable x; bf_time := v; bf_length := bf_length x; bf_start_velocity := bf_start_velocity x; bf_end_velocity := bf_end_velocity x; bf_request_velocity := bf_request_velocity x |}.
Definition set_bf_length (v : R) (x : mpBuffer) : mpBuffer :=
  {| bf_nx := bf_nx x; bf_pv := bf_pv x; bf_target := bf_target x; bf_unit_vec := bf_unit_vec x; bf_a := bf_a x; bf_buffer_state := bf_buffer_state x; bf_move_type := bf_move_type x; bf_move_state := bf_move_state x; bf_replannable := bf_replannable x; bf_time := bf_time x; bf_length := v; bf_start_velocity := bf_start_velocity x; bf_end_velocity := bf_end_velocity x; bf_request_velocity := bf_request_velocity x |}.
Definition set_bf_start_velocity (v : R) (x : mpBuffer) : mpBuffer :=
  {| bf_nx := bf_nx x; bf_pv := bf_pv x; bf_target := bf_target x; bf_unit_vec := bf_unit_vec x; bf_a := bf_a x; bf_buffer_state := bf_buffer_state x; bf_move_type := bf_move_type x; bf_move_state := bf_move_state x; bf_replannable := bf_replannable x; bf_time := bf_time x; bf_length := bf_length x; bf_start_velocity := v; bf_end_velocity := bf_end_velocity x; bf_request_velocity := bf_request_velocity x |}.
Definition set_bf_end_velocity (v : R) (x : mpBuffer) : mpBuffer :=
  {| bf_nx := bf_nx x; bf_pv := bf_pv x; bf_target := bf_target x; bf_unit_vec := bf_unit_vec x; bf_a := bf_a x; bf_buffer_state := bf_buffer_state x; bf_move_type := bf_move_type x; bf_move_state := bf_move_state x; bf_replannable := bf_replannable x; bf_time := bf_time x; bf_length := bf_length x; bf_start_velocity := bf_start_velocity x; bf_end_velocity := v; bf_request_velocity := bf_request_velocity x |}.
Definition set_bf_request_velocity (v : R) (x : mpBuffer) : mpBuffer :=
  {| bf_nx := bf_nx x; bf_pv := bf_pv x; bf_target := bf_target x; bf_unit_vec := bf_unit_vec x; bf_a := bf_a x; bf_buffer_state := bf_buffer_state x; bf_move_type := bf_move_type x; bf_move_state := bf_move_state x; bf_replannable := bf_replannable x; bf_time := bf_time x; bf_length := bf_length x; bf_start_velocity := bf_start_velocity x; bf_end_velocity := bf_end_velocity x; bf_request_velocity := v |}.
Definition set_mb_w (v : nat) (x : mpBufferPool) : mpBufferPool :=
  {| mb_w := v; mb_q := mb_q x; mb_r := mb_r x; mb_bf := mb_bf x |}.
Definition set_mb_q (v : nat) (x : mpBufferPool) : mpBufferPool :=
  {| mb_w := mb_w x; mb_q := v; mb_r := mb_r x; mb_bf := mb_bf x |}.
Definition set_mb_r (v : nat) (x : mpBufferPool) : mpBufferPool :=
  {| mb_w := mb_w x; mb_q := mb_q x; mb_r := v; mb_bf := mb_bf x |}.
Definition set_mb_bf (v : list mpBuffer) (x : mpBufferPool) : mpBufferPool :=
  {| mb_w := mb_w x; mb_q := mb_q x; mb_r := mb_r x; mb_bf := v |}.
Definition set_mm_position (v : list R) (x : mpMoveMasterSingleton) : mpMoveMasterSingleton :=
  {| mm_position := v; mm_target := mm_target x; mm_unit_vec := mm_unit_vec x; mm_ang_jerk_vec := mm_ang_jerk_vec x; mm_linear_jerk_div2 := mm_linear_jerk_div2 x; mm_linear_jerk_rad3 := mm_linear_jerk_rad3 x |}.
Definition set_mm_target (v : list R) (x : mpMoveMasterSingleton) : mpMoveMasterSingleton :=
  {| mm_position := mm_position x; mm_target := v; mm_unit_vec := mm_unit_vec x; mm_ang_jerk_vec := mm_ang_jerk_vec x; mm_linear_jerk_div2 := mm_linear_jerk_div2 x; mm_linear_jerk_rad3 := mm_linear_jerk_rad3 x |}.
Definition set_mm_unit_vec (v : list R) (x : mpMoveMasterSingleton) : mpMoveMasterSingleton :=
  {| mm_position := mm_position x; mm_target := mm_target x; mm_unit_vec := v; mm_ang_jerk_vec := mm_ang_jerk_vec x; mm_linear_jerk_div2 := mm_linear_jerk_div2 x; mm_linear_jerk_rad3 := mm_linear_jerk_rad3 x |}.
Definition set_mm_ang_jerk_vec (v : list R) (x : mpMoveMasterSingleton) : mpMoveMasterSingleton :=
  {| mm_position := mm_position x; mm_target := mm_target x; mm_unit_vec := mm_unit_vec x; mm_ang_jerk_vec := v; mm_linear_jerk_div2 := mm_linear_jerk_div2 x; mm_linear_jerk_rad3 := mm_linear_jerk_rad3 x |}.
Definition set_mm_linear_jerk_div2 (v : R) (x : mpMoveMasterSingleton) : mpMoveMasterSingleton :=
  {| mm_position := mm_position x; mm_target := mm_target x; mm_unit_vec := mm_unit_vec x; mm_ang_jerk_vec := mm_ang_jerk_vec x; mm_linear_jerk_div2 := v; mm_linear_jerk_rad3 := mm_linear_jerk_rad3 x |}.
Definition set_mm_linear_jerk_rad3 (v : R) (x : mpMoveMasterSingleton) : mpMoveMasterSingleton :=
  {| mm_position := mm_position x; mm_target := mm_target x; mm_unit_vec := mm_unit_vec x; mm_ang_jerk_vec := mm_ang_jerk_vec x; mm_linear_jerk_div2 := mm_linear_jerk_div2 x; mm_linear_jerk_rad3 := v |}.
Definition set_m_path_mode (v : cmPathControlMode) (x : mpMovePlanner) : mpMovePlanner :=
  {| m_path_mode := v; m_head := m_head x; m_body := m_body x; m_tail := m_tail x; m_length := m_length x; m_head_length := m_head_length x; m_body_length := m_body_length x; m_tail_length := m_tail_length x; m_initial_velocity_req := m_initial_velocity_req x; m_initial_velocity := m_initial_velocity x; m_target_velocity := m_target_velocity x; m_cruise_velocity := m_cruise_velocity x; m_final_velocity := m_final_velocity x |}.
Definition set_m_head (v : option nat) (x : mpMovePlanner) : mpMovePlanner :=
  {| m_path_mode := m_path_mode x; m_head := v; m_body := m_body x; m_tail := m_tail x; m_length := m_length x; m_head_length := m_head_length x; m_body_length := m_body_length x; m_tail_length := m_tail_length x; m_initial_velocity_req := m_initial_velocity_req x; m_initial_velocity := m_initial_velocity x; m_target_velocity := m_target_velocity x; m_cruise_velocity := m_cruise_velocity x; m_final_velocity := m_final_velocity x |}.
Definition set_m_body (v : option nat) (x : mpMovePlanner) : mpMovePlanner :=
  {| m_path_mode := m_path_mode x; m_head := m_head x; m_body := v; m_tail := m_tail x; m_length := m_length x; m_head_length := m_head_length x; m_body_length := m_body_length x; m_tail_length := m_tail_length x; m_initial_velocity_req := m_initial_velocity_req x; m_initial_velocity := m_initial_velocity x; m_target_velocity := m_target_velocity x; m_cruise_velocity := m_cruise_velocity x; m_final_velocity := m_final_velocity x |}.
Definition set_m_tail (v : option nat) (x : mpMovePlanner) : mpMovePlanner :=
  {| m_path_mode := m_path_mode x; m_head := m_head x; m_body := m_body x; m_tail := v; m_length := m_length x; m_head_length := m_head_length x; m_body_length := m_body_length x; m_tail_length := m_tail_length x; m_initial_velocity_req := m_initial_velocity_req x; m_initial_velocity := m_initial_velocity x; m_target_velocity := m_target_velocity x; m_cruise_velocity := m_cruise_velocity x; m_final_velocity := m_final_velocity x |}.
Definition set_m_length (v : R) (x : mpMovePlanner) : mpMovePlanner :=
  {| m_path_mode := m_path_mode x; m_head := m_head x; m_body := m_body x; m_tail := m_tail x; m_length := v; m_head_length := m_head_length x; m_body_length := m_body_length x; m_tail_length := m_tail_length x; m_initial_velocity_req := m_initial_velocity_req x; m_initial_velocity := m_initial_velocity x; m_target_velocity := m_target_velocity x; m_cruise_velocity := m_cruise_velocity x; m_final_velocity := m_final_velocity x |}.
Definition set_m_head_length (v : R) (x : mpMovePlanner) : mpMovePlanner :=
  {| m_path_mode := m_path_mode x; m_head := m_head x; m_body := m_body x; m_tail := m_tail x; m_length := m_length x; m_head_length := v; m_body_length := m_body_length x; m_tail_length := m_tail_length x; m_initial_velocity_req := m_initial_velocity_req x; m_initial_velocity := m_initial_velocity x; m_target_velocity := m_target_velocity x; m_cruise_velocity := m_cruise_velocity x; m_final_velocity := m_final_velocity x |}.
Definition set_m_body_length (v : R) (x : mpMovePlanner) : mpMovePlanner :=
  {| m_path_mode := m_path_mode x; m_head := m_head x; m_body := m_body x; m_tail := m_tail x; m_length := m_length x; m_head_length := m_head_length x; m_body_length := v; m_tail_length := m_tail_length x; m_initial_velocity_req := m_initial_velocity_req x; m_initial_velocity := m_initial_velocity x; m_target_velocity := m_target_velocity x; m_cruise_velocity := m_cruise_velocity x; m_final_velocity := m_final_velocity x |}.
Definition set_m_tail_length (v : R) (x : mpMovePlanner) : mpMovePlanner :=
  {| m_path_mode := m_path_mode x; m_head := m_head x; m_body := m_body x; m_tail := m_tail x; m_length := m_length x; m_head_length := m_head_length x; m_body_length := m_body_length x; m_tail_length := v; m_initial_velocity_req := m_initial_velocity_req x; m_initial_velocity := m_initial_velocity x; m_target_velocity := m_target_velocity x; m_cruise_velocity := m_cruise_velocity x; m_final_velocity := m_final_velocity x |}.
Definition set_m_initial_velocity_req (v : R) (x : mpMovePlanner) : mpMovePlanner :=
  {| m_path_mode := m_path_mode x; m_head := m_head x; m_body := m_body x; m_tail := m_tail x; m_length := m_length x; m_head_length := m_head_length x; m_body_length := m_body_length x; m_tail_length := m_tail_length x; m_initial_velocity_req := v; m_initial_velocity := m_initial_velocity x; m_target_velocity := m_target_velocity x; m_cruise_velocity := m_cruise_velocity x; m_final_velocity := m_final_velocity x |}.
Definition set_m_initial_velocity (v : R) (x : mpMovePlanner) : mpMovePlanner :=
  {| m_path_mode := m_path_mode x; m_head := m_head x; m_body := m_body x; m_tail := m_tail x; m_length := m_length x; m_head_length := m_head_length x; m_body_length := m_body_length x; m_tail_length := m_tail_length x; m_initial_velocity_req := m_initial_velocity_req x; m_initial_velocity := v; m_target_velocity := m_target_velocity x; m_cruise_velocity := m_cruise_velocity x; m_final_velocity := m_final_velocity x |}.
Definition set_m_target_velocity (v : R) (x : mpMovePlanner) : mpMovePlanner :=
  {| m_path_mode := m_path_mode x; m_head := m_head x; m_body := m_body x; m_tail := m_tail x; m_length := m_length x; m_head_length := m_head_length x; m_body_length := m_body_length x; m_tail_length := m_tail_length x; m_initial_velocity_req := m_initial_velocity_req x; m_initial_velocity := m_initial_velocity x; m_target_velocity := v; m_cruise_velocity := m_cruise_velocity x; m_final_velocity := m_final_velocity x |}.
Definition set_m_cruise_velocity (v : R) (x : mpMovePlanner) : mpMovePlanner :=
  {| m_path_mode := m_path_mode x; m_head := m_head x; m_body := m_body x; m_tail := m_tail x; m_length := m_length x; m_head_length := m_head_length x; m_body_length := m_body_length x; m_tail_length := m_tail_length x; m_initial_velocity_req := m_initial_velocity_req x; m_initial_velocity := m_initial_velocity x; m_target_velocity := m_target_velocity x; m_cruise_velocity := v; m_final_velocity := m_final_velocity x |}.
Definition set_m_final_velocity (v : R) (x : mpMovePlanner) : mpMovePlanner :=
  {| m_path_mode := m_path_mode x; m_head := m_head x; m_body := m_body x; m_tail := m_tail x; m_length := m_length x; m_head_length := m_head_length x; m_body_length := m_body_length x; m_tail_length := m_tail_length x; m_initial_velocity_req := m_initial_velocity_req x; m_initial_velocity := m_initial_velocity x; m_target_velocity := m_target_velocity x; m_cruise_velocity := m_cruise_velocity x; m_final_velocity := v |}.
Definition set_mr_run_flag (v : bool) (x : mpMoveRuntimeSingleton) : mpMoveRuntimeSingleton :=
  {| mr_run_flag := v; mr_run_move := mr_run_move x; mr_position := mr_position x; mr_target := mr_target x; mr_length := mr_length x; mr_time := mr_time x; mr_microseconds := mr_microseconds x; mr_elapsed_time := mr_elapsed_time x; mr_midpoint_velocity := mr_midpoint_velocity x; mr_midpoint_acceleration := mr_midpoint_acceleration x; mr_segments := mr_segments x; mr_segment_count := mr_segment_count x; mr_segment_time := mr_segment_time x; mr_segment_length := mr_segment_length x; mr_segment_velocity := mr_segment_velocity x; mr_segment_theta := mr_segment_theta x; mr_center_1 := mr_center_1 x; mr_center_2 := mr_center_2 x |}.
Definition set_mr_run_move (v : mpMoveType) (x : mpMoveRuntimeSingleton) : mpMoveRuntimeSingleton :=
  {| mr_run_flag := mr_run_flag x; mr_run_move := v; mr_position := mr_position x; mr_target := mr_target x; mr_length := mr_length x; mr_time := mr_time x; mr_microseconds := mr_microseconds x; mr_elapsed_time := mr_elapsed_time x; mr_midpoint_velocity := mr_midpoint_velocity x; mr_midpoint_acceleration := mr_midpoint_acceleration x; mr_segments := mr_segments x; mr_segment_count := mr_segment_count x; mr_segment_time := mr_segment_time x; mr_segment_length := mr_segment_length x; mr_segment_velocity := mr_segment_velocity x; mr_segment_theta := mr_segment_theta x; mr_center_1 := mr_center_1 x; mr_center_2 := mr_center_2 x |}.
Definition set_mr_position (v : list R) (x : mpMoveRuntimeSingleton) : mpMoveRuntimeSingleton :=
  {| mr_run_flag := mr_run_flag x; mr_run_move := mr_run_move x; mr_position := v; mr_target := mr_target x; mr_length := mr_length x; mr_time := mr_time x; mr_microseconds := mr_microseconds x; mr_elapsed_time := mr_elapsed_time x; mr_midpoint_velocity := mr_midpoint_velocity x; mr_midpoint_acceleration := mr_midpoint_acceleration x; mr_segments := mr_segments x; mr_segment_count := mr_segment_count x; mr_segment_time := mr_segment_time x; mr_segment_length := mr_segment_length x; mr_segment_velocity := mr_segment_velocity x; mr_segment_theta := mr_segment_theta x; mr_center_1 := mr_center_1 x; mr_center_2 := mr_center_2 x |}.
Definition set_mr_target (v : list R) (x : mpMoveRuntimeSingleton) : mpMoveRuntimeSingleton :=
  {| mr_run_flag := mr_run_flag x; mr_run_move := mr_run_move x; mr_position := mr_position x; mr_target := v; mr_length := mr_length x; mr_time := mr_time x; mr_microseconds := mr_microseconds x; mr_elapsed_time := mr_elapsed_time x; mr_midpoint_velocity := mr_midpoint_velocity x; mr_midpoint_acceleration := mr_midpoint_acceleration x; mr_segments := mr_segments x; mr_segment_count := mr_segment_count x; mr_segment_time := mr_segment_time x; mr_segment_length := mr_segment_length x; mr_segment_velocity := mr_segment_velocity x; mr_segment_theta := mr_segment_theta x; mr_center_1 := mr_center_1 x; mr_center_2 := mr_center_2 x |}.
Definition set_mr_length (v : R) (x : mpMoveRuntimeSingleton) : mpMoveRuntimeSingleton :=
  {| mr_run_flag := mr_run_flag x; mr_run_move := mr_run_move x; mr_position := mr_position x; mr_target := mr_target x; mr_length := v; mr_time := mr_time x; mr_microseconds := mr_microseconds x; mr_elapsed_time := mr_elapsed_time x; mr_midpoint_velocity := mr_midpoint_velocity x; mr_midpoint_acceleration := mr_midpoint_acceleration x; mr_segments := mr_segments x; mr_segment_count := mr_segment_count x; mr_segment_time := mr_segment_time x; mr_segment_length := mr_segment_length x; mr_segment_velocity := mr_segment_velocity x; mr_segment_theta := mr_segment_theta x; mr_center_1 := mr_center_1 x; mr_center_2 := mr_center_2 x |}.
Definition set_mr_time (v : R) (x : mpMoveRuntimeSingleton) : mpMoveRuntimeSingleton :=
  {| mr_run_flag := mr_run_flag x; mr_run_move := mr_run_move x; mr_position := mr_position x; mr_target := mr_target x; mr_length := mr_length x; mr_time := v; mr_microseconds := mr_microseconds x; mr_elapsed_time := mr_elapsed_time x; mr_midpoint_velocity := mr_midpoint_velocity x; mr_midpoint_acceleration := mr_midpoint_acceleration x; mr_segments := mr_segments x; mr_segment_count := mr_segment_count x; mr_segment_time := mr_segment_time x; mr_segment_length := mr_segment_length x; mr_segment_velocity := mr_segment_velocity x; mr_segment_theta := mr_segment_theta x; mr_center_1 := mr_center_1 x; mr_center_2 := mr_center_2 x |}.
Definition set_mr_microseconds (v : R) (x : mpMoveRuntimeSingleton) : mpMoveRuntimeSingleton :=
  {| mr_run_flag := mr_run_flag x; mr_run_move := mr_run_move x; mr_position := mr_position x; mr_target := mr_target x; mr_length := mr_length x; mr_time := mr_time x; mr_microseconds := v; mr_elapsed_time := mr_elapsed_time x; mr_midpoint_velocity := mr_midpoint_velocity x; mr_midpoint_acceleration := mr_midpoint_acceleration x; mr_segments := mr_segments x; mr_segment_count := mr_segment_count x; mr_segment_time := mr_segment_time x; mr_segment_length := mr_segment_length x; mr_segment_velocity := mr_segment_velocity x; mr_segment_theta := mr_segment_theta x; mr_center_1 := mr_center_1 x; mr_center_2 := mr_center_2 x |}.
Definition set_mr_elapsed_time (v : R) (x : mpMoveRuntimeSingleton) : mpMoveRuntimeSingleton :=
  {| mr_run_flag := mr_run_flag x; mr_run_move := mr_run_move x; mr_position := mr_position x; mr_target := mr_target x; mr_length := mr_length x; mr_time := mr_time x; mr_microseconds := mr_microseconds x; mr_elapsed_time := v; mr_midpoint_velocity := mr_midpoint_velocity x; mr_midpoint_acceleration := mr_midpoint_acceleration x; mr_segments := mr_segments x; mr_segment_count := mr_segment_count x; mr_segment_time := mr_segment_time x; mr_segment_length := mr_segment_length x; mr_segment_velocity := mr_segment_velocity x; mr_segment_theta := mr_segment_theta x; mr_center_1 := mr_center_1 x; mr_center_2 := mr_center_2 x |}.
Definition set_mr_midpoint_velocity (v : R) (x : mpMoveRuntimeSingleton) : mpMoveRuntimeSingleton :=
  {| mr_run_flag := mr_run_flag x; mr_run_move := mr_run_move x; mr_position := mr_position x; mr_target := mr_target x; mr_length := mr_length x; mr_time := mr_time x; mr_microseconds := mr_microseconds x; mr_elapsed_time := mr_elapsed_time x; mr_midpoint_velocity := v; mr_midpoint_acceleration := mr_midpoint_acceleration x; mr_segments := mr_segments x; mr_segment_count := mr_segment_count x; mr_segment_time := mr_segment_time x; mr_segment_length := mr_segment_length x; mr_segment_velocity := mr_segment_velocity x; mr_segment_theta := mr_segment_theta x; mr_center_1 := mr_center_1 x; mr_center_2 := mr_center_2 x |}.
Definition set_mr_midpoint_acceleration (v : R) (x : mpMoveRuntimeSingleton) : mpMoveRuntimeSingleton :=
  {| mr_run_flag := mr_run_flag x; mr_run_move := mr_run_move x; mr_position := mr_position x; mr_target := mr_target x; mr_length := mr_length x; mr_time := mr_time x; mr_microseconds := mr_microseconds x; mr_elapsed_time := mr_elapsed_time x; mr_midpoint_velocity := mr_midpoint_velocity x; mr_midpoint_acceleration := v; mr_segments := mr_segments x; mr_segment_count := mr_segment_count x; mr_segment_time := mr_segment_time x; mr_segment_length := mr_segment_length x; mr_segment_velocity := mr_segment_velocity x; mr_segment_theta := mr_segment_theta x; mr_center_1 := mr_center_1 x; mr_center_2 := mr_center_2 x |}.
Definition set_mr_segments (v : R) (x : mpMoveRuntimeSingleton) : mpMoveRuntimeSingleton :=
  {| mr_run_flag := mr_run_flag x; mr_run_move := mr_run_move x; mr_position := mr_position x; mr_target := mr_target x; mr_length := mr_length x; mr_time := mr_time x; mr_microseconds := mr_microseconds x; mr_elapsed_time := mr_elapsed_time x; mr_midpoint_velocity := mr_midpoint_velocity x; mr_midpoint_acceleration := mr_midpoint_acceleration x; mr_segments := v; mr_segment_count := mr_segment_count x; mr_segment_time := mr_segment_time x; mr_segment_length := mr_segment_length x; mr_segment_velocity := mr_segment_velocity x; mr_segment_theta := mr_segment_theta x; mr_center_1 := mr_center_1 x; mr_center_2 := mr_center_2 x |}.
Definition set_mr_segment_count (v : Z) (x : mpMoveRuntimeSingleton) : mpMoveRuntimeSingleton :=
  {| mr_run_flag := mr_run_flag x; mr_run_move := mr_run_move x; mr_position := mr_position x; mr_target := mr_target x; mr_length := mr_length x; mr_time := mr_time x; mr_microseconds := mr_microseconds x; mr_elapsed_time := mr_elapsed_time x; mr_midpoint_velocity := mr_midpoint_velocity x; mr_midpoint_acceleration := mr_midpoint_acceleration x; mr_segments := mr_segments x; mr_segment_count := v; mr_segment_time := mr_segment_time x; mr_segment_length := mr_segment_length x; mr_segment_velocity := mr_segment_velocity x; mr_segment_theta := mr_segment_theta x; mr_center_1 := mr_center_1 x; mr_center_2 := mr_center_2 x |}.
Definition set_mr_segment_time (v : R) (x : mpMoveRuntimeSingleton) : mpMoveRuntimeSingleton :=
  {| mr_run_flag := mr_run_flag x; mr_run_move := mr_run_move x; mr_position := mr_position x; mr_target := mr_target x; mr_length := mr_length x; mr_time := mr_time x; mr_microseconds := mr_microseconds x; mr_elapsed_time := mr_elapsed_time x; mr_midpoint_velocity := mr_midpoint_velocity x; mr_midpoint_acceleration := mr_midpoint_acceleration x; mr_segments := mr_segments x; mr_segment_count := mr_segment_count x; mr_segment_time := v; mr_segment_length := mr_segment_length x; mr_segment_velocity := mr_segment_velocity x; mr_segment_theta := mr_segment_theta x; mr_center_1 := mr_center_1 x; mr_center_2 := mr_center_2 x |}.
Definition set_mr_segment_length (v : R) (x : mpMoveRuntimeSingleton) : mpMoveRuntimeSingleton :=
  {| mr_run_flag := mr_run_flag x; mr_run_move := mr_run_move x; mr_position := mr_position x; mr_target := mr_target x; mr_length := mr_length x; mr_time := mr_time x; mr_microseconds := mr_microseconds x; mr_elapsed_time := mr_elapsed_time x; mr_midpoint_velocity := mr_midpoint_velocity x; mr_midpoint_acceleration := mr_midpoint_acceleration x; mr_segments := mr_segments x; mr_segment_count := mr_segment_count x; mr_segment_time := mr_segment_time x; mr_segment_length := v; mr_segment_velocity := mr_segment_velocity x; mr_segment_theta := mr_segment_theta x; mr_center_1 := mr_center_1 x; mr_center_2 := mr_center_2 x |}.
Definition set_mr_segment_velocity (v : R) (x : mpMoveRuntimeSingleton) : mpMoveRuntimeSingleton :=
  {| mr_run_flag := mr_run_flag x; mr_run_move := mr_run_move x; mr_position := mr_position x; mr_target := mr_target x; mr_length := mr_length x; mr_time := mr_time x; mr_microseconds := mr_microseconds x; mr_elapsed_time := mr_elapsed_time x; mr_midpoint_velocity := mr_midpoint_velocity x; mr_midpoint_acceleration := mr_midpoint_acceleration x; mr_segments := mr_segments x; mr_segment_count := mr_segment_count x; mr_segment_time := mr_segment_time x; mr_segment_length := mr_segment_length x; mr_segment_velocity := v; mr_segment_theta := mr_segment_theta x; mr_center_1 := mr_center_1 x; mr_center_2 := mr_center_2 x |}.
Definition set_mr_segment_theta (v : R) (x : mpMoveRuntimeSingleton) : mpMoveRuntimeSingleton :=
  {| mr_run_flag := mr_run_flag x; mr_run_move := mr_run_move x; mr_position := mr_position x; mr_target := mr_target x; mr_length := mr_length x; mr_time := mr_time x; mr_microseconds := mr_microseconds x; mr_elapsed_time := mr_elapsed_time x; mr_midpoint_velocity := mr_midpoint_velocity x; mr_midpoint_acceleration := mr_midpoint_acceleration x; mr_segments := mr_segments x; mr_segment_count := mr_segment_count x; mr_segment_time := mr_segment_time x; mr_segment_length := mr_segment_length x; mr_segment_velocity := mr_segment_velocity x; mr_segment_theta := v; mr_center_1 := mr_center_1 x; mr_center_2 := mr_center_2 x |}.
Definition set_mr_center_1 (v : R) (x : mpMoveRuntimeSingleton) : mpMoveRuntimeSingleton :=
  {| mr_run_flag := mr_run_flag x; mr_run_move := mr_run_move x; mr_position := mr_position x; mr_target := mr_target x; mr_length := mr_length x; mr_time := mr_time x; mr_microseconds := mr_microseconds x; mr_elapsed_time := mr_elapsed_time x; mr_midpoint_velocity := mr_midpoint_velocity x; mr_midpoint_acceleration := mr_midpoint_acceleration x; mr_segments := mr_segments x; mr_segment_count := mr_segment_count x; mr_segment_time := mr_segment_time x; mr_segment_length := mr_segment_length x; mr_segment_velocity := mr_segment_velocity x; mr_segment_theta := mr_segment_theta x; mr_center_1 := v; mr_center_2 := mr_center_2 x |}.
Definition set_mr_center_2 (v : R) (x : mpMoveRuntimeSingleton) : mpMoveRuntimeSingleton :=
  {| mr_run_flag := mr_run_flag x; mr_run_move := mr_run_move x; mr_position := mr_position x; mr_target := mr_target x; mr_length := mr_length x; mr_time := mr_time x; mr_microseconds := mr_microseconds x; mr_elapsed_time := mr_elapsed_time x; mr_midpoint_velocity := mr_midpoint_velocity x; mr_midpoint_acceleration := mr_midpoint_acceleration x; mr_segments := mr_segments x; mr_segment_count := mr_segment_count x; mr_segment_time := mr_segment_time x; mr_segment_length := mr_segment_length x; mr_segment_velocity := mr_segment_velocity x; mr_segment_theta := mr_segment_theta x; mr_center_1 := mr_center_1 x; mr_center_2 := v |}.
Definition set_mm (v : mpMoveMasterSingleton) (s : planner) : planner :=
  {| mm := v; mp_0 := mp_0 s; mp_1 := mp_1 s; mr := mr s; mb := mb s; mq := mq s; traps := traps s |}.
Definition set_mp_0 (v : mpMovePlanner) (s : planner) : planner :=
  {| mm := mm s; mp_0 := v; mp_1 := mp_1 s; mr := mr s; mb := mb s; mq := mq s; traps := traps s |}.
Definition set_mp_1 (v : mpMovePlanner) (s : planner) : planner :=
  {| mm := mm s; mp_0 := mp_0 s; mp_1 := v; mr := mr s; mb := mb s; mq := mq s; traps := traps s |}.
Definition set_mr (v : mpMoveRuntimeSingleton) (s : planner) : planner :=
  {| mm := mm s; mp_0 := mp_0 s; mp_1 := mp_1 s; mr := v; mb := mb s; mq := mq s; traps := traps s |}.
Definition set_mb (v : mpBufferPool) (s : planner) : planner :=
  {| mm := mm s; mp_0 := mp_0 s; mp_1 := mp_1 s; mr := mr s; mb := v; mq := mq s; traps := traps s |}.
Definition set_mq (v : list mqCommand) (s : planner) : planner :=
  {| mm := mm s; mp_0 := mp_0 s; mp_1 := mp_1 s; mr := mr s; mb := mb s; mq := v; traps := traps s |}.

(** [TRAP (msg)] *)
Definition TRAP (msg : string) (s : planner) : planner :=
  {| mm := mm s; mp_0 := mp_0 s; mp_1 := mp_1 s; mr := mr s; mb := mb s; mq := mq s;
     traps := traps s ++ [msg] |}.

(** [memset (&x, 0, sizeof x)] of each structure. *)
Definition zero_arc : mpBufferArc :=
  {| a_theta := 0; a_radius := 0; a_angular_travel := 0; a_linear_travel := 0;
     a_axis_1 := 0; a_axis_2 := 0; a_axis_linear := 0 |}.

Definition zero_buffer : mpBuffer :=
  {| bf_nx := 0; bf_pv := 0; bf_target := zero_vector; bf_unit_vec := zero_vector;
     bf_a := zero_arc; bf_buffer_state := MP_BUFFER_EMPTY; bf_move_type := MP_TYPE_NULL;
     bf_move_state := MP_STATE_NEW; bf_replannable := false; bf_time := 0;
     bf_length := 0; bf_start_velocity := 0; bf_end_velocity := 0;
     bf_request_velocity := 0 |}.

Definition zero_mm : mpMoveMasterSingleton :=
  {| mm_position := zero_vector; mm_target := zero_vector; mm_unit_vec := zero_vector;
     mm_ang_jerk_vec := zero_vector; mm_linear_jerk_div2 := 0; mm_linear_jerk_rad3 := 0 |}.

Definition zero_planner : mpMovePlanner :=
  {| m_path_mode := PATH_EXACT_STOP; m_head := None; m_body := None; m_tail := None;
     m_length := 0; m_head_length := 0; m_body_length := 0; m_tail_length := 0;
     m_initial_velocity_req := 0; m_initial_velocity := 0; m_target_velocity := 0;
     m_cruise_velocity := 0; m_final_velocity := 0 |}.

Definition zero_mr : mpMoveRuntimeSingleton :=
  {| mr_run_flag := false; mr_run_move := MP_TYPE_NULL; mr_position := zero_vector;
     mr_target := zero_vector; mr_length := 0; mr_time := 0; mr_microseconds := 0;
     mr_elapsed_time := 0; mr_midpoint_velocity := 0; mr_midpoint_acceleration := 0;
     mr_segments := 0; mr_segment_count := 0%Z; mr_segment_time := 0;
     mr_segment_length := 0; mr_segment_velocity := 0; mr_segment_theta := 0;
     mr_center_1 := 0; mr_center_2 := 0 |}.

(** Modelled from the spec: the build constants of tinyg.h and planner.h are
    missing from the sources. *)
Record mpConstants := {
  EPSILON : R;
  MIN_LINE_LENGTH : R;
  MP_BUFFER_SIZE : nat;
  MP_MAX_LOOKBACK_DEPTH : nat
}.

(** The fields of the configuration structure [cfg] that planner.c reads. *)
Record cfgStructure := {
  linear_jerk_max : R;
  min_segment_len : R;
  min_segment_time : R
}.

Section Model.

Variable K : mpConstants.
Variable cfg : cfgStructure.

(** ** Move queue routines *)

(** [mb.bf[i]], read through a pointer. *)
Definition deref (p : mpBufferPool) (i : nat) : mpBuffer :=
  default zero_buffer (mb_bf p !! i).

(** An assignment through a pointer: [*i = f ( *i )]. *)
Definition modify (i : nat) (f : mpBuffer -> mpBuffer) (p : mpBufferPool) : mpBufferPool :=
  set_mb_bf (alter f i (mb_bf p)) p.

(** Modelled from the spec: the [_mp_bump] macro of planner.h is missing from
    the sources; the ring is closed, the last slot is followed by the first. *)
Definition _mp_bump (i : nat) : nat :=
  if (i <? MP_BUFFER_SIZE K - 1)%nat then S i else O.

(** The loop of [_mp_init_buffers]: slot [i] gets [nx = _mp_bump i] and the
    running [pv]. *)
Fixpoint init_ring (i n pv : nat) : list mpBuffer :=
  match n with
  | O => []
  | S n' => set_bf_pv pv (set_bf_nx (_mp_bump i) zero_buffer) :: init_ring (S i) n' i
  end.

Definition _mp_init_buffers : mpBufferPool :=
  {| mb_w := 0; mb_q := 0; mb_r := 0;
     mb_bf := init_ring 0 (MP_BUFFER_SIZE K) (MP_BUFFER_SIZE K - 1) |}.

Fixpoint check_from (p : mpBufferPool) (w : nat) (count : nat) : bool :=
  match count with
  | O => true
  | S c =>
      if decide (bf_buffer_state (deref p w) = MP_BUFFER_EMPTY)
      then check_from p (bf_nx (deref p w)) c
      else false
  end.

Definition mp_check_for_write_buffers (p : mpBufferPool) (count : nat) : bool :=
  check_from p (mb_w p) count.

(** [memset] of a buffer that keeps its ring pointers. *)
Definition clear_keep_links (b : mpBuffer) : mpBuffer :=
  let nx := bf_nx b in
  let pv := bf_pv b in
  set_bf_pv pv (set_bf_nx nx zero_buffer).

Definition _mp_get_write_buffer (p : mpBufferPool) : option nat * mpBufferPool :=
  if decide (bf_buffer_state (deref p (mb_w p)) = MP_BUFFER_EMPTY) then
    let w := mb_w p in
    let p := modify w clear_keep_links p in
    let p := modify w (set_bf_buffer_state MP_BUFFER_LOADING) p in
    let p := set_mb_w (bf_nx (deref p w)) p in
    (Some w, p)
  else (None, p).

Definition _mp_unget_write_buffer (p : mpBufferPool) : mpBufferPool :=
  let p := set_mb_w (bf_pv (deref p (mb_w p))) p in
  modify (mb_w p) (set_bf_buffer_state MP_BUFFER_EMPTY) p.

Definition _mp_queue_write_buffer (move_type : mpMoveType) (p : mpBufferPool) : mpBufferPool :=
  let p := modify (mb_q p) (set_bf_move_type move_type) p in
  let p := modify (mb_q p) (set_bf_move_state MP_STATE_NEW) p in
  let p := modify (mb_q p) (set_bf_buffer_state MP_BUFFER_QUEUED) p in
  set_mb_q (bf_nx (deref p (mb_q p))) p.

Definition _mp_get_run_buffer (p : mpBufferPool) : option nat * mpBufferPool :=
  let p :=
    if decide (bf_buffer_state (deref p (mb_r p)) = MP_BUFFER_QUEUED
               \/ bf_buffer_state (deref p (mb_r p)) = MP_BUFFER_PENDING)
    then modify (mb_r p) (set_bf_buffer_state MP_BUFFER_RUNNING) p
    else p in
  if decide (bf_buffer_state (deref p (mb_r p)) = MP_BUFFER_RUNNING)
  then (Some (mb_r p), p)
  else (None, p).

Definition _mp_clear_buffer (bf : nat) (p : mpBufferPool) : mpBufferPool :=
  modify bf clear_keep_links p.

Definition _mp_finalize_run_buffer (p : mpBufferPool) : mpBufferPool :=
  let p := _mp_clear_buffer (mb_r p) p in
  let p := modify (mb_r p) (set_bf_buffer_state MP_BUFFER_EMPTY) p in
  let p := set_mb_r (bf_nx (deref p (mb_r p))) p in
  if decide (bf_buffer_state (deref p (mb_r p)) = MP_BUFFER_QUEUED)
  then modify (mb_r p) (set_bf_buffer_state MP_BUFFER_PENDING) p
  else p.

Definition _mp_get_prev_buffer_implicit (p : mpBufferPool) : nat :=
  bf_pv (deref p (mb_w p)).


(** ** Simple helpers *)

(** [mp_copy_vector (dest, src, AXES)] *)
Definition mp_copy_vector (src : list R) : list R :=
  vec_init (fun i => vget src i).

Definition mp_get_axis_vector_length (target position : list R) : R :=
  sqrt (fold_left (fun length i => length + square (vget target i - vget position i))
                  (seq 0 AXES) 0).

Definition _mp_set_mm_position (target : list R) (s : planner) : planner :=
  set_mm (set_mm_position (vec_init (fun i => vget target i)) (mm s)) s.

Definition _mp_set_mr_position (target : list R) (s : planner) : planner :=
  set_mr (set_mr_position (vec_init (fun i => vget target i)) (mr s)) s.

Definition mp_set_position (position : list R) (s : planner) : tgStatus * planner :=
  let s := set_mm (set_mm_position (vec_init (fun i => vget position i)) (mm s)) s in
  let s := _mp_set_mr_position (mm_position (mm s)) s in
  (TG_OK, s).

Definition _mp_get_unit_vector (target position : list R) : list R :=
  let length := mp_get_axis_vector_length target position in
  vec_init (fun i => (vget target i - vget position i) / length).

(** [mp_init] *)
Definition mp_init : planner :=
  {| mm := zero_mm; mp_0 := zero_planner; mp_1 := zero_planner; mr := zero_mr;
     mb := _mp_init_buffers; mq := []; traps := [] |}.

(** ** Queued stop, start and end; dwell; line; arc *)

(** The three directives are [void]: the caller gets the state only. *)
Definition mp_queued_stop (s : planner) : planner :=
  match _mp_get_write_buffer (mb s) with
  | (None, _) => TRAP "Failed to get buffer in mp_queued_stop()" s
  | (Some _, p) => set_mb (_mp_queue_write_buffer MP_TYPE_STOP p) s
  end.

Definition mp_queued_start (s : planner) : planner :=
  match _mp_get_write_buffer (mb s) with
  | (None, _) => TRAP "Failed to get buffer in mp_queued_start()" s
  | (Some _, p) => set_mb (_mp_queue_write_buffer MP_TYPE_START p) s
  end.

Definition mp_queued_end (s : planner) : planner :=
  match _mp_get_write_buffer (mb s) with
  | (None, _) => TRAP "Failed to get buffer in mp_queued_end()" s
  | (Some _, p) => set_mb (_mp_queue_write_buffer MP_TYPE_END p) s
  end.

Definition mp_dwell (seconds : R) (s : planner) : tgStatus * planner :=
  match _mp_get_write_buffer (mb s) with
  | (None, _) => (TG_BUFFER_FULL_FATAL, TRAP "Failed to get buffer in mp_dwell()" s)
  | (Some bf, p) =>
      let p := modify bf (set_bf_time seconds) p in
      (TG_OK, set_mb (_mp_queue_write_buffer MP_TYPE_DWELL p) s)
  end.

Definition mp_line (target : list R) (minutes : R) (s : planner) : tgStatus * planner :=
  if Rlt_dec minutes (EPSILON K) then (TG_ZERO_LENGTH_MOVE, s)
  else
    match _mp_get_write_buffer (mb s) with
    | (None, _) => (TG_BUFFER_FULL_FATAL, TRAP "Failed to get buffer in mp_line()" s)
    | (Some bf, p) =>
        let p := modify bf (set_bf_time minutes) p in
        let p := modify bf (set_bf_target (mp_copy_vector target)) p in
        let p := modify bf (set_bf_length
                   (mp_get_axis_vector_length target (mr_position (mr s)))) p in
        if Rlt_dec (bf_length (deref p bf)) (MIN_LINE_LENGTH K) then
          (TG_ZERO_LENGTH_MOVE, set_mb (_mp_unget_write_buffer p) s)
        else
          let p := modify bf (fun b => set_bf_request_velocity
                                         (bf_length b / bf_time b) b) p in
          let target' := bf_target (deref p bf) in
          let s := set_mb (_mp_queue_write_buffer MP_TYPE_LINE p) s in
          (TG_OK, _mp_set_mm_position target' s)
    end.

Definition mp_arc (target : list R) (i j k theta radius angular_travel linear_travel : R)
    (axis_1 axis_2 axis_linear : nat) (minutes : R) (s : planner) : tgStatus * planner :=
  match _mp_get_write_buffer (mb s) with
  | (None, _) => (TG_BUFFER_FULL_FATAL, TRAP "Failed to get buffer in mp_arc()" s)
  | (Some bf, p) =>
      let p := modify bf (set_bf_length
                 (hypot (angular_travel * radius) (fabs linear_travel))) p in
      if Rlt_dec (bf_length (deref p bf)) (min_segment_len cfg) then
        (TG_ZERO_LENGTH_MOVE, set_mb (_mp_unget_write_buffer p) s)
      else
        let p := modify bf (set_bf_target (mp_copy_vector target)) p in
        let p := modify bf (set_bf_time minutes) p in
        let p := modify bf (set_bf_a
                   {| a_theta := theta; a_radius := radius;
                      a_angular_travel := angular_travel;
                      a_linear_travel := linear_travel;
                      a_axis_1 := axis_1; a_axis_2 := axis_2;
                      a_axis_linear := axis_linear |}) p in
        let p := modify bf (fun b => set_bf_start_velocity
                                       (bf_length b / bf_time b) b) p in
        let p := modify bf (fun b => set_bf_end_velocity (bf_start_velocity b) b) p in
        let target' := bf_target (deref p bf) in
        let s := _mp_set_mm_position target' s in
        (TG_OK, set_mb (_mp_queue_write_buffer MP_TYPE_ARC p) s)
  end.

(** ** Aline helpers *)

(** A read through a pointer that may be NULL; reading NULL is outside the
    model and yields the zeroed buffer. *)
Definition deref_opt (p : mpBufferPool) (o : option nat) : mpBuffer :=
  match o with
  | Some i => deref p i
  | None => zero_buffer
  end.

(** An assignment through a pointer that may be NULL. *)
Definition modify_opt (o : option nat) (f : mpBuffer -> mpBuffer) (p : mpBufferPool)
    : mpBufferPool :=
  match o with
  | Some i => modify i f p
  | None => p
  end.

Definition _mp_get_prev_buffer (p : mpBufferPool) (bf : option nat) : nat :=
  bf_pv (deref_opt p bf).

Definition _mp_get_length (Vi Vf : R) : R :=
  let deltaV := fabs (Vf - Vi) in
  deltaV * sqrt (deltaV / linear_jerk_max cfg).

Definition _mp_get_velocity (mm : mpMoveMasterSingleton) (V L : R) : R :=
  mm_linear_jerk_rad3 mm * pow L 0.6666667 + V.

(** Over [R] [acos] is total, and equal to [acos 1] above 1; C's [acos] has a
    domain error there.  [Double._mp_get_angular_jerk_factor] below gives the
    function on binary64, NaN included. *)
Definition _mp_get_angular_jerk_factor (mm : mpMoveMasterSingleton) (p : mpBuffer) : R :=
  let cosine := vget (mm_unit_vec mm) Axis.X * vget (bf_unit_vec p) Axis.X
              + vget (mm_unit_vec mm) Axis.Y * vget (bf_unit_vec p) Axis.Y
              + vget (mm_unit_vec mm) Axis.Z * vget (bf_unit_vec p) Axis.Z
              + vget (mm_unit_vec mm) Axis.A * vget (bf_unit_vec p) Axis.A
              + vget (mm_unit_vec mm) Axis.B * vget (bf_unit_vec p) Axis.B
              + vget (mm_unit_vec mm) Axis.C * vget (bf_unit_vec p) Axis.C in
  cos (acos cosine / 2).

Definition _mp_get_move_type (bf : mpBuffer) : mpMoveType :=
  if Rlt_dec (bf_length bf) (MIN_LINE_LENGTH K) then MP_TYPE_NULL
  else if Rlt_dec (fabs (bf_start_velocity bf - bf_end_velocity bf)) (EPSILON K)
       then MP_TYPE_CRUISE
  else if Rlt_dec (bf_start_velocity bf) (bf_end_velocity bf) then MP_TYPE_ACCEL
  else MP_TYPE_DECEL.

Definition _mp_queue_buffer (Vs Ve Vr len : R) (s : planner) : option nat * planner :=
  match _mp_get_write_buffer (mb s) with
  | (None, _) => (None, s)
  | (Some bf, p) =>
      let p := modify bf (set_bf_start_velocity Vs) p in
      let p := modify bf (set_bf_end_velocity Ve) p in
      let p := modify bf (set_bf_request_velocity Vr) p in
      let p := modify bf (set_bf_length len) p in
      let unit_vec := vec_init (fun i => vget (mm_unit_vec (mm s)) i) in
      let position :=
        vec_init (fun i => vget (mm_position (mm s)) i + len * vget unit_vec i) in
      let p := modify bf (set_bf_unit_vec unit_vec) p in
      let s := set_mm (set_mm_position position (mm s)) s in
      let p := modify bf (set_bf_target position) p in
      let p := modify bf (set_bf_replannable true) p in
      let p := _mp_queue_write_buffer (_mp_get_move_type (deref p bf)) p in
      (Some bf, set_mb p s)
  end.

Definition _mp_queue_move (m : mpMovePlanner) (s : planner)
    : tgStatus * mpMovePlanner * planner :=
  let '(head, s) := _mp_queue_buffer (m_initial_velocity m) (m_cruise_velocity m)
                      (m_initial_velocity_req m) (m_head_length m) s in
  let m := set_m_head head m in
  if decide (head = None) then (TG_BUFFER_FULL_FATAL, m, s) else
  let '(body, s) := _mp_queue_buffer (m_cruise_velocity m) (m_cruise_velocity m)
                      (m_target_velocity m) (m_body_length m) s in
  let m := set_m_body body m in
  if decide (body = None) then (TG_BUFFER_FULL_FATAL, m, s) else
  let '(tail, s) := _mp_queue_buffer (m_cruise_velocity m) (m_final_velocity m)
                      (m_target_velocity m) (m_tail_length m) s in
  let m := set_m_tail tail m in
  if decide (tail = None) then (TG_BUFFER_FULL_FATAL, m, s) else
  (TG_OK, m, s).

(** *** _mp_compute_regions, block by block *)

(** "setup M struct with initial values" *)
Definition regions_setup (Vir Vt Vf : R) (m : mpMovePlanner) : mpMovePlanner :=
  let m := set_m_initial_velocity_req Vir m in
  let m := set_m_initial_velocity Vir m in
  let m := set_m_target_velocity Vt m in
  let m := set_m_cruise_velocity Vt m in
  let m := set_m_final_velocity Vf m in
  let m := set_m_head_length 0 m in
  let m := set_m_body_length 0 m in
  set_m_tail_length 0 m.

(** "HBT case": compute optimal head and tail lengths. *)
Definition regions_hbt_lengths (Vir Vt Vf : R) (m : mpMovePlanner) : mpMovePlanner :=
  let m := set_m_head_length (_mp_get_length Vir Vt) m in
  let m := set_m_tail_length (_mp_get_length Vt Vf) m in
  set_m_body_length (m_length m - m_head_length m - m_tail_length m) m.

(** "add sub-minimum heads and tails to body length" *)
Definition regions_hbt_fold (m : mpMovePlanner) : mpMovePlanner :=
  let m := if Rlt_dec (m_head_length m) (MIN_LINE_LENGTH K)
           then set_m_head_length 0
                  (set_m_body_length (m_body_length m + m_head_length m) m)
           else m in
  if Rlt_dec (m_tail_length m) (MIN_LINE_LENGTH K)
  then set_m_tail_length 0 (set_m_body_length (m_body_length m + m_tail_length m) m)
  else m.

(** "T case" *)
Definition regions_tail_only (mm : mpMoveMasterSingleton) (Vf : R) (m : mpMovePlanner)
    : mpMovePlanner :=
  let m := set_m_head_length 0 m in
  let m := set_m_tail_length (m_length m) m in
  let m := set_m_initial_velocity (_mp_get_velocity mm Vf (m_tail_length m)) m in
  set_m_cruise_velocity (m_initial_velocity m) m.

(** "H case" *)
Definition regions_head_only (mm : mpMoveMasterSingleton) (Vir : R) (m : mpMovePlanner)
    : mpMovePlanner :=
  let m := set_m_head_length (m_length m) m in
  let m := set_m_tail_length 0 m in
  let m := set_m_initial_velocity (m_initial_velocity_req m) m in
  let m := set_m_cruise_velocity (_mp_get_velocity mm Vir (m_head_length m)) m in
  set_m_final_velocity (m_cruise_velocity m) m.

(** "B case" *)
Definition regions_body_only (m : mpMovePlanner) : mpMovePlanner :=
  let m := set_m_head_length 0 m in
  let m := set_m_tail_length 0 m in
  set_m_body_length (m_length m) m.

(** The body of the [do ... while] of the "HT case", up to the new
    [body_length]: the adjusted planner and [_tmp_length]. *)
Definition ht_adjust (mm : mpMoveMasterSingleton) (m : mpMovePlanner)
    : mpMovePlanner * R :=
  let deltaVh := fabs (m_initial_velocity m - m_cruise_velocity m) in
  let m := set_m_head_length
             (m_length m * (deltaVh / (deltaVh +
                fabs (m_cruise_velocity m - m_final_velocity m)))) m in
  let m := set_m_cruise_velocity
             (_mp_get_velocity mm (m_initial_velocity m) (m_head_length m)) m in
  let m := set_m_head_length
             (_mp_get_length (m_cruise_velocity m) (m_initial_velocity m)) m in
  let m := set_m_tail_length
             (_mp_get_length (m_cruise_velocity m) (m_final_velocity m)) m in
  let _tmp_length := m_body_length m in
  (set_m_body_length (m_length m - m_head_length m - m_tail_length m) m, _tmp_length).

(** The [do ... while] of the "HT case".  [n] counts the iterations left
    before [++i > 100]: the loop is entered with [n = 100] and runs at most
    101 times. *)
Fixpoint ht_iterate (n : nat) (mm : mpMoveMasterSingleton) (m : mpMovePlanner)
    : mpMovePlanner * list string :=
  let '(m, _tmp_length) := ht_adjust mm m in
  match n with
  | O => (m, ["Iteration error"%string])
  | S n' =>
      if Rgt_dec (fabs (_tmp_length - m_body_length m)) (EPSILON K)
      then ht_iterate n' mm m
      else (m, [])
  end.

(** What follows the loop of the "HT case". *)
Definition regions_head_tail (mm : mpMoveMasterSingleton) (m : mpMovePlanner)
    : nat * mpMovePlanner * list string :=
  let '(m, t1) := ht_iterate 100 mm m in
  let t2 := if Rgt_dec (m_body_length m) 0.01 then ["Region error"%string] else [] in
  let m := set_m_body_length 0 m in
  let m := if Rlt_dec (m_head_length m) (EPSILON K) then set_m_head_length 0 m else m in
  let m := if Rlt_dec (m_tail_length m) (EPSILON K) then set_m_tail_length 0 m else m in
  (2%nat, m, t1 ++ t2).

Definition _mp_compute_regions (mm : mpMoveMasterSingleton) (Vir Vt Vf : R)
    (m : mpMovePlanner) : nat * mpMovePlanner * list string :=
  let m := regions_setup Vir Vt Vf m in
  (* 0 case - line is too short or can't span *)
  if Rlt_dec (m_length m) (MIN_LINE_LENGTH K) then
    (0%nat, m, ["Line too short in _mp_compute_regions"%string])
  else
  (* HBT case *)
  let m := regions_hbt_lengths Vir Vt Vf m in
  if Rgt_dec (m_body_length m) 0 then (3%nat, regions_hbt_fold m, [])
  else
  (* H, B and T single region cases *)
  let m := set_m_body_length 0 m in
  if decide (Vf < Vir /\ m_length m < m_tail_length m) then
    (1%nat, regions_tail_only mm Vf m, [])
  else if decide (Vf > Vir /\ m_length m < m_head_length m) then
    (1%nat, regions_head_only mm Vir m, [])
  else if decide (fabs (Vf - Vir) < EPSILON K /\ fabs (Vf - Vt) < EPSILON K) then
    (1%nat, regions_body_only m, [])
  else
  (* HT case *)
  regions_head_tail mm m.

(** ** Backward replanning *)

Definition _mp_make_previous_move (pool : mpBufferPool) (m : mpMovePlanner)
    : tgStatus * mpMovePlanner :=
  let p := zero_planner in
  (* setup buffer linkages *)
  let p := set_m_tail (Some (_mp_get_prev_buffer pool (m_head m))) p in
  let p := set_m_body (Some (_mp_get_prev_buffer pool (m_tail p))) p in
  let p := set_m_head (Some (_mp_get_prev_buffer pool (m_body p))) p in
  let head := deref_opt pool (m_head p) in
  let body := deref_opt pool (m_body p) in
  let tail := deref_opt pool (m_tail p) in
  (* return if the move is not replannable *)
  if decide (bf_replannable tail = false \/ bf_replannable body = false) then
    (TG_COMPLETE, p)
  else
    let p := set_m_initial_velocity_req (bf_request_velocity head) p in
    let p := set_m_initial_velocity (bf_start_velocity head) p in
    let p := set_m_target_velocity (bf_request_velocity body) p in
    let p := set_m_cruise_velocity (bf_start_velocity body) p in
    let p := set_m_final_velocity (bf_end_velocity tail) p in
    let p := set_m_head_length (bf_length head) p in
    let p := set_m_body_length (bf_length body) p in
    let p := set_m_tail_length (bf_length tail) p in
    let p := set_m_length (m_head_length p + m_body_length p + m_tail_length p) p in
    (TG_OK, p).

(** The [do ... while] of [_mp_set_braking_velocity]; [n] counts the
    iterations left before [++i > MP_MAX_LOOKBACK_DEPTH]. *)
Fixpoint braking_walk (n : nat) (pool : mpBufferPool) (p : mpMovePlanner)
    : mpMovePlanner * list string :=
  let p := set_m_tail (Some (bf_pv (deref_opt pool (m_head p)))) p in
  let p := set_m_body (Some (bf_pv (deref_opt pool (m_tail p)))) p in
  let p := set_m_head (Some (bf_pv (deref_opt pool (m_body p)))) p in
  let p := set_m_length (m_length p + (bf_length (deref_opt pool (m_head p))
                                       + bf_length (deref_opt pool (m_body p))
                                       + bf_length (deref_opt pool (m_tail p)))) p in
  match n with
  | O => (p, ["Lookback error in _mp_set_braking_velocity"%string])
  | S n' =>
      if decide (bf_replannable (deref pool (bf_pv (deref_opt pool (m_head p)))) = true)
      then braking_walk n' pool p
      else (p, [])
  end.

(** [m] is only read; the result is the scratch structure [p]. *)
Definition _mp_set_braking_velocity (mm : mpMoveMasterSingleton) (pool : mpBufferPool)
    (m : mpMovePlanner) : mpMovePlanner * list string :=
  let p := zero_planner in
  let p := set_m_head (m_head m) p in
  let p := set_m_body (m_body m) p in
  let p := set_m_tail (m_tail m) p in
  let p := set_m_length (m_length m) p in
  let p := set_m_initial_velocity_req (m_initial_velocity_req m) p in
  let '(p, t) := braking_walk (MP_MAX_LOOKBACK_DEPTH K) pool p in
  (* compute and conditionally apply max braking velocity *)
  let p := set_m_initial_velocity_req
             (min (_mp_get_velocity mm 0 (m_length m)) (m_initial_velocity_req p)) p in
  (p, t).

Definition _mp_update_move (p m : mpMovePlanner) (pool : mpBufferPool) : mpBufferPool :=
  (* update region buffers from planning structure *)
  let pool := modify_opt (m_head p) (set_bf_start_velocity (m_initial_velocity p)) pool in
  let pool := modify_opt (m_head p) (set_bf_end_velocity (m_cruise_velocity p)) pool in
  let pool := modify_opt (m_head p) (set_bf_request_velocity (m_initial_velocity_req p)) pool in
  let pool := modify_opt (m_head p) (set_bf_length (m_head_length p)) pool in
  let pool := modify_opt (m_head p) (fun b => set_bf_move_type (_mp_get_move_type b) b) pool in
  let pool := modify_opt (m_body p) (set_bf_start_velocity (m_cruise_velocity p)) pool in
  let pool := modify_opt (m_body p) (set_bf_end_velocity (m_cruise_velocity p)) pool in
  let pool := modify_opt (m_body p) (set_bf_request_velocity (m_target_velocity p)) pool in
  let pool := modify_opt (m_body p) (set_bf_length (m_body_length p)) pool in
  let pool := modify_opt (m_body p) (fun b => set_bf_move_type (_mp_get_move_type b) b) pool in
  let pool := modify_opt (m_tail p) (set_bf_start_velocity (m_cruise_velocity p)) pool in
  let pool := modify_opt (m_tail p) (set_bf_end_velocity (m_final_velocity p)) pool in
  let pool := modify_opt (m_tail p) (set_bf_request_velocity (m_final_velocity p)) pool in
  let pool := modify_opt (m_tail p) (set_bf_length (m_tail_length p)) pool in
  let pool := modify_opt (m_tail p) (fun b => set_bf_move_type (_mp_get_move_type b) b) pool in
  (* set to non-replannable if the move is now optimally planned *)
  if decide (fabs (bf_start_velocity (deref_opt pool (m_head p)) - m_initial_velocity_req p)
               < EPSILON K
             /\ fabs (bf_start_velocity (deref_opt pool (m_body p)) - m_target_velocity p)
               < EPSILON K
             /\ fabs (bf_end_velocity (deref_opt pool (m_tail p)) - m_initial_velocity_req m)
               < EPSILON K)
  then
    let pool := modify_opt (m_head p) (set_bf_replannable false) pool in
    let pool := modify_opt (m_body p) (set_bf_replannable false) pool in
    modify_opt (m_tail p) (set_bf_replannable false) pool
  else pool.

(** The planning structures [m] and [p] of a backplanning walk with the pool
    and the traps it has raised.  [m] and [p] point into [mp[2]]; [bk_swapped]
    tells whether [m] is [&mp[1]] at this point. *)
Record backplanWalk := {
  bk_m : mpMovePlanner;
  bk_p : mpMovePlanner;
  bk_swapped : bool;
  bk_pool : mpBufferPool;
  bk_traps : list string
}.

(** The [while] of [_mp_backplan]; [n] counts the iterations left before
    [++i > MP_MAX_LOOKBACK_DEPTH]. *)
Fixpoint backplan_walk (n : nat) (mm : mpMoveMasterSingleton) (b : backplanWalk)
    : backplanWalk :=
  let '(status, p) := _mp_make_previous_move (bk_pool b) (bk_m b) in
  if decide (status = TG_COMPLETE) then
    {| bk_m := bk_m b; bk_p := p; bk_swapped := bk_swapped b;
       bk_pool := bk_pool b; bk_traps := bk_traps b |}
  else
    let '(_, p, t) := _mp_compute_regions mm (m_initial_velocity_req p)
                        (m_target_velocity p) (m_initial_velocity (bk_m b)) p in
    let pool := _mp_update_move p (bk_m b) (bk_pool b) in
    (* shuffle buffers to walk backwards *)
    let b' := {| bk_m := p; bk_p := bk_m b; bk_swapped := negb (bk_swapped b);
                 bk_pool := pool; bk_traps := bk_traps b ++ t |} in
    match n with
    | O => {| bk_m := bk_m b'; bk_p := bk_p b'; bk_swapped := bk_swapped b';
              bk_pool := bk_pool b';
              bk_traps := bk_traps b' ++ ["Lookback error in _mp_backplan"%string] |}
    | S n' => backplan_walk n' mm b'
    end.

(** [_mp_backplan (m)] with [m = &mp[0]] and [p = &mp[1]]. *)
Definition _mp_backplan (s : planner) : planner :=
  let m := mp_0 s in
  if decide (m_path_mode m = PATH_EXACT_STOP) then
    (* set previous move non-replannable if current move is exact stop *)
    let '(_, p) := _mp_make_previous_move (mb s) m in
    let pool := modify_opt (m_head p) (set_bf_replannable false) (mb s) in
    let pool := modify_opt (m_body p) (set_bf_replannable false) pool in
    let pool := modify_opt (m_tail p) (set_bf_replannable false) pool in
    set_mb pool (set_mp_1 p s)
  else
    (* do backplanning passes *)
    let '(p, t) := _mp_set_braking_velocity (mm s) (mb s) m in
    let b := backplan_walk (MP_MAX_LOOKBACK_DEPTH K) (mm s)
               {| bk_m := m; bk_p := p; bk_swapped := false;
                  bk_pool := mb s; bk_traps := traps s ++ t |} in
    {| mm := mm s;
       mp_0 := if bk_swapped b then bk_p b else bk_m b;
       mp_1 := if bk_swapped b then bk_m b else bk_p b;
       mr := mr s; mb := bk_pool b; mq := mq s; traps := bk_traps b |}.

(** ** mp_aline *)

(** "setup initial move values", up to the length of the move. *)
Definition aline_set_length (target : list R) (s : planner) : planner :=
  let s := set_mp_0 zero_planner s in
  let s := set_mm (set_mm_target (mp_copy_vector target) (mm s)) s in
  set_mp_0 (set_m_length (mp_get_axis_vector_length (mm_target (mm s))
                            (mm_position (mm s))) (mp_0 s)) s.

(** The requested target velocity, the unit vector and the jerk terms. *)
Definition aline_set_velocity_and_jerk (minutes : R) (s : planner) : planner :=
  let s := set_mp_0 (set_m_target_velocity (m_length (mp_0 s) / minutes) (mp_0 s)) s in
  let s := set_mm (set_mm_unit_vec (_mp_get_unit_vector (mm_target (mm s))
                                      (mm_position (mm s))) (mm s)) s in
  (* initialize jerk terms *)
  let s := set_mm (set_mm_linear_jerk_div2 (linear_jerk_max cfg / 2) (mm s)) s in
  set_mm (set_mm_linear_jerk_rad3 (cubert (linear_jerk_max cfg)) (mm s)) s.

(** [_mp_compute_regions (m->initial_velocity_req, m->target_velocity, 0, m)]
    on [m = &mp[0]], with its traps logged. *)
Definition aline_compute_regions (s : planner) : nat * planner :=
  let '(regions, m, tr) := _mp_compute_regions (mm s) (m_initial_velocity_req (mp_0 s))
                             (m_target_velocity (mp_0 s)) 0 (mp_0 s) in
  (regions, fold_left (fun s msg => TRAP msg s) tr (set_mp_0 m s)).

(** [_mp_queue_move (m)] on [m = &mp[0]]. *)
Definition aline_queue_move (s : planner) : tgStatus * planner :=
  let '(status, m, s) := _mp_queue_move (mp_0 s) s in
  (status, set_mp_0 m s).

(** "handle case where previous move is a queued or running arc" *)
Definition aline_after_arc (t : mpBuffer) (s : planner) : tgStatus * planner :=
  let s := set_mp_0 (set_m_initial_velocity_req (bf_end_velocity t) (mp_0 s)) s in
  let '(_, s) := aline_compute_regions s in
  let '(status, s) := aline_queue_move s in
  if decide (status = TG_OK) then (TG_OK, s) else (status, s).

(** "handle straight line (non-arc) cases": the path mode and the requested
    initial velocity. *)
Definition aline_set_initial_velocity (path_control_mode : cmPathControlMode)
    (t : mpBuffer) (s : planner) : planner :=
  let s := set_mp_0 (set_m_path_mode path_control_mode (mp_0 s)) s in
  if decide (bf_buffer_state t <> MP_BUFFER_QUEUED) then
    set_mp_0 (set_m_initial_velocity_req 0
                (set_m_path_mode PATH_EXACT_STOP (mp_0 s))) s
  else
    let s := set_mp_0 (set_m_initial_velocity_req
                         (bf_request_velocity t * _mp_get_angular_jerk_factor (mm s) t)
                         (mp_0 s)) s in
    set_mp_0 (set_m_initial_velocity_req
                (min (m_initial_velocity_req (mp_0 s)) (m_target_velocity (mp_0 s)))
                (mp_0 s)) s.

(** "do the actual work" *)
Definition aline_after_line (path_control_mode : cmPathControlMode) (t : mpBuffer)
    (s : planner) : tgStatus * planner :=
  let s := aline_set_initial_velocity path_control_mode t s in
  let '(regions, s) := aline_compute_regions s in
  if decide (regions = 0%nat) then (TG_OK, s) else
  let '(status, s) := aline_queue_move s in
  if decide (status = TG_OK) then (TG_OK, _mp_backplan s) else (status, s).

(** [cm_get_path_control_mode ()] is the argument [path_control_mode]. *)
Definition mp_aline (path_control_mode : cmPathControlMode) (target : list R)
    (minutes : R) (s : planner) : tgStatus * planner :=
  if Rlt_dec minutes (EPSILON K) then (TG_ZERO_LENGTH_MOVE, s) else
  let s := aline_set_length target s in
  if Rlt_dec (m_length (mp_0 s)) (MIN_LINE_LENGTH K) then (TG_ZERO_LENGTH_MOVE, s) else
  let s := aline_set_velocity_and_jerk minutes s in
  let t := deref (mb s) (_mp_get_prev_buffer_implicit (mb s)) in
  if decide (bf_move_type t = MP_TYPE_ARC /\ bf_buffer_state t <> MP_BUFFER_EMPTY)
  then aline_after_arc t s
  else aline_after_line path_control_mode t s.

(** ** Run routines *)

(** [mq_queue_line] after [ik_kinematics]: the queued line records the travel. *)
Definition mq_queue_line (travel : list R) (microseconds : R) (s : planner) : planner :=
  set_mq (mq s ++ [MqLine travel microseconds]) s.

Definition modify_run (bf : nat) (f : mpBuffer -> mpBuffer) (s : planner) : planner :=
  set_mb (modify bf f (mb s)) s.

Definition _mp_run_null (bf : nat) (s : planner) : tgStatus * planner :=
  (TG_OK, modify_run bf (set_bf_replannable false) s).

Definition _mp_run_stops (room : bool) (bf : nat) (s : planner) : tgStatus * planner :=
  if negb room then (TG_EAGAIN, s)
  else (TG_OK, set_mq (mq s ++ [MqStops (bf_move_type (deref (mb s) bf))]) s).

Definition _mp_run_dwell (room : bool) (bf : nat) (s : planner) : tgStatus * planner :=
  if negb room then (TG_EAGAIN, s)
  else (TG_OK, set_mq (mq s ++ [MqDwell (to_uint32 (bf_time (deref (mb s) bf) * 1000000))]) s).

Definition _mp_run_line (room : bool) (bf : nat) (s : planner) : tgStatus * planner :=
  if negb room then (TG_EAGAIN, s)
  else
    let b := deref (mb s) bf in
    let travel := vec_init (fun i => vget (bf_target b) i - vget (mr_position (mr s)) i) in
    let s := set_mr (set_mr_microseconds (uSec (bf_time b)) (mr s)) s in
    let s := mq_queue_line travel (mr_microseconds (mr s)) s in
    (TG_OK, _mp_set_mr_position (bf_target b) s).

(** "initialize arc variables" *)
Definition arc_initialize (bf : nat) (s : planner) : planner :=
  let b := deref (mb s) bf in
  let r := mr s in
  let r := set_mr_segments (ceil (bf_length b / min_segment_len cfg)) r in
  let r := set_mr_segment_count (to_uint32 (mr_segments r)) r in
  let r := set_mr_segment_theta (a_angular_travel (bf_a b) / mr_segments r) r in
  let r := set_mr_segment_length (a_linear_travel (bf_a b) / mr_segments r) r in
  let r := set_mr_microseconds (uSec (bf_time b / mr_segments r)) r in
  let r := set_mr_center_1 (vget (mr_position r) (a_axis_1 (bf_a b))
                            - sin (a_theta (bf_a b)) * a_radius (bf_a b)) r in
  let r := set_mr_center_2 (vget (mr_position r) (a_axis_2 (bf_a b))
                            - cos (a_theta (bf_a b)) * a_radius (bf_a b)) r in
  let r := set_mr_target (<[a_axis_linear (bf_a b) :=
                             vget (mr_position r) (a_axis_linear (bf_a b))]>
                            (mr_target r)) r in
  modify_run bf (set_bf_move_state MP_STATE_RUNNING) (set_mr r s).

(** "compute an arc segment and exit" *)
Definition arc_segment (bf : nat) (s : planner) : tgStatus * planner :=
  let s := modify_run bf (fun b => set_bf_a
             (set_a_theta (a_theta (bf_a b) + mr_segment_theta (mr s)) (bf_a b)) b) s in
  let b := deref (mb s) bf in
  let r := mr s in
  let r := set_mr_target (<[a_axis_1 (bf_a b) :=
             mr_center_1 r + sin (a_theta (bf_a b)) * a_radius (bf_a b)]>
             (mr_target r)) r in
  let r := set_mr_target (<[a_axis_2 (bf_a b) :=
             mr_center_2 r + cos (a_theta (bf_a b)) * a_radius (bf_a b)]>
             (mr_target r)) r in
  let r := set_mr_target (<[a_axis_linear (bf_a b) :=
             vget (mr_target r) (a_axis_linear (bf_a b)) + mr_segment_length r]>
             (mr_target r)) r in
  let travel := vec_init (fun i => vget (mr_target r) i - vget (mr_position r) i) in
  let s := mq_queue_line travel (mr_microseconds r) (set_mr r s) in
  let s := _mp_set_mr_position (mr_target (mr s)) s in
  let s := set_mr (set_mr_segment_count (dec_uint32 (mr_segment_count (mr s))) (mr s)) s in
  if decide (mr_segment_count (mr s) > 0)%Z then (TG_EAGAIN, s) else (TG_OK, s).

Definition _mp_run_arc (room : bool) (bf : nat) (s : planner) : tgStatus * planner :=
  if negb room then (TG_EAGAIN, s)
  else
    let s := if decide (bf_move_state (deref (mb s) bf) = MP_STATE_NEW)
             then arc_initialize bf s else s in
    if decide (bf_move_state (deref (mb s) bf) = MP_STATE_RUNNING)
    then arc_segment bf s
    else (TG_OK, s).

Definition _mp_run_cruise (room : bool) (bf : nat) (s : planner) : tgStatus * planner :=
  if negb room then (TG_EAGAIN, s)
  else
    let s := modify_run bf (set_bf_replannable false) s in
    let b := deref (mb s) bf in
    if decide (bf_length b < MIN_LINE_LENGTH K \/ bf_end_velocity b < EPSILON K) then
      (TG_OK, s)
    else
      let s := modify_run bf (fun b => set_bf_time (bf_length b / bf_end_velocity b) b) s in
      let s := if decide (bf_time (deref (mb s) bf) = 0) then TRAP "Time" s else s in
      let s := set_mr (set_mr_microseconds (uSec (bf_time (deref (mb s) bf))) (mr s)) s in
      let b := deref (mb s) bf in
      let s := set_mr (set_mr_target (vec_init (fun i => vget (bf_target b) i)) (mr s)) s in
      let s := modify_run bf (set_bf_target
                 (vec_init (fun i => vget (mr_position (mr s)) i
                                     + vget (bf_unit_vec b) i * bf_length b))) s in
      let b := deref (mb s) bf in
      let travel := vec_init (fun i => vget (bf_target b) i - vget (mr_position (mr s)) i) in
      let s := mq_queue_line travel (mr_microseconds (mr s)) s in
      (TG_OK, _mp_set_mr_position (bf_target b) s).

Definition _mp_aline_run_segment (bf : nat) (s : planner) : tgStatus * planner :=
  let b := deref (mb s) bf in
  let s := modify_run bf (set_bf_target
             (vec_init (fun i => vget (mr_position (mr s)) i
                                 + vget (bf_unit_vec b) i * mr_segment_velocity (mr s)
                                   * mr_segment_time (mr s)))) s in
  let b := deref (mb s) bf in
  let travel := vec_init (fun i => vget (bf_target b) i - vget (mr_position (mr s)) i) in
  (* queue the line and adjust the variables for the next iteration *)
  let s := mq_queue_line travel (mr_microseconds (mr s)) s in
  let s := set_mr (set_mr_elapsed_time (mr_elapsed_time (mr s) + mr_segment_time (mr s))
                     (mr s)) s in
  let s := _mp_set_mr_position (bf_target b) s in
  let s := set_mr (set_mr_segment_count (dec_uint32 (mr_segment_count (mr s))) (mr s)) s in
  if decide (mr_segment_count (mr s) > 0)%Z then (TG_EAGAIN, s) else (TG_OK, s).

Definition _mp_aline_run_finalize (bf : nat) (s : planner) : planner :=
  let b := deref (mb s) bf in
  (* finalize - do the last segment to maintain position accuracy *)
  let s := set_mr (set_mr_length (mp_get_axis_vector_length (mr_target (mr s))
                                    (mr_position (mr s))) (mr s)) s in
  if decide (mr_length (mr s) < MIN_LINE_LENGTH K \/ bf_end_velocity b < EPSILON K) then s
  else
    let s := set_mr (set_mr_time (mr_length (mr s) / bf_end_velocity b) (mr s)) s in
    let s := set_mr (set_mr_microseconds (uSec (mr_time (mr s))) (mr s)) s in
    let travel := vec_init (fun i => vget (mr_target (mr s)) i
                                     - vget (mr_position (mr s)) i) in
    let s := mq_queue_line travel (mr_microseconds (mr s)) s in
    _mp_set_mr_position (mr_target (mr s)) s.

(** "initialize for acceleration", after the toss of a region that is too
    short: [Some] when the block returns. *)
Definition accel_setup (bf : nat) (s : planner) : option tgStatus * planner :=
  let b := deref (mb s) bf in
  let s := set_mr (set_mr_midpoint_velocity
                     ((bf_start_velocity b + bf_end_velocity b) / 2) (mr s)) s in
  let s := if decide (mr_midpoint_velocity (mr s) = 0)
           then TRAP "Accel Midpoint Velocity" s else s in
  let s := set_mr (set_mr_time (bf_length b / mr_midpoint_velocity (mr s)) (mr s)) s in
  let s := set_mr (set_mr_midpoint_acceleration
                     (mr_time (mr s) * mm_linear_jerk_div2 (mm s)) (mr s)) s in
  let s := set_mr (set_mr_target (vec_init (fun i => vget (bf_target b) i)) (mr s)) s in
  (* number of segments in each half *)
  let s := set_mr (set_mr_segments
                     (round (round (ONE_MINUTE_OF_MICROSECONDS
                                    * (mr_time (mr s) / min_segment_time cfg)) / 2))
                     (mr s)) s in
  if decide (to_uint16 (mr_segments (mr s)) = 0%Z) then
    (Some TG_OK, TRAP "Acceleration Segments" s)
  else
    let s := set_mr (set_mr_segment_time (mr_time (mr s) / (2 * mr_segments (mr s)))
                       (mr s)) s in
    let s := set_mr (set_mr_elapsed_time (mr_segment_time (mr s) / 2) (mr s)) s in
    let s := set_mr (set_mr_microseconds (uSec (mr_segment_time (mr s))) (mr s)) s in
    let s := set_mr (set_mr_segment_count (to_uint32 (mr_segments (mr s))) (mr s)) s in
    (None, modify_run bf (set_bf_move_state MP_STATE_RUNNING_1) s).

(** "initialize for acceleration" *)
Definition accel_initialize (bf : nat) (s : planner) : option tgStatus * planner :=
  let s := modify_run bf (set_bf_replannable false) s in
  if decide (bf_length (deref (mb s) bf) < MIN_LINE_LENGTH K) then (Some TG_OK, s)
  else accel_setup bf s.

(** "first half of acceleration": the concave portion of the curve. *)
Definition accel_first_half (bf : nat) (s : planner) : tgStatus * planner :=
  let b := deref (mb s) bf in
  let s := set_mr (set_mr_segment_velocity
                     (bf_start_velocity b
                      + mm_linear_jerk_div2 (mm s) * square (mr_elapsed_time (mr s)))
                     (mr s)) s in
  let '(status, s) := _mp_aline_run_segment bf s in
  if decide (status <> TG_OK) then (status, s)
  else
    (* setup for second half *)
    let s := set_mr (set_mr_segment_count (to_uint32 (mr_segments (mr s))) (mr s)) s in
    let s := set_mr (set_mr_elapsed_time (mr_segment_time (mr s) / 2) (mr s)) s in
    (TG_EAGAIN, modify_run bf (set_bf_move_state MP_STATE_RUNNING_2) s).

(** "second half of acceleration": the convex portion of the curve. *)
Definition accel_second_half (bf : nat) (s : planner) : tgStatus * planner :=
  if decide (mr_segment_count (mr s) > 1)%Z then
    let s := set_mr (set_mr_segment_velocity
                       (mr_midpoint_velocity (mr s)
                        + mr_elapsed_time (mr s) * mr_midpoint_acceleration (mr s)
                        - mm_linear_jerk_div2 (mm s) * square (mr_elapsed_time (mr s)))
                       (mr s)) s in
    _mp_aline_run_segment bf s
  else (TG_OK, _mp_aline_run_finalize bf s).

Definition _mp_run_accel (room : bool) (bf : nat) (s : planner) : tgStatus * planner :=
  if negb room then (TG_EAGAIN, s)
  else
    let '(returned, s) :=
      if decide (bf_move_state (deref (mb s) bf) = MP_STATE_NEW)
      then accel_initialize bf s
      else (None, s) in
    match returned with
    | Some status => (status, s)
    | None =>
        if decide (bf_move_state (deref (mb s) bf) = MP_STATE_RUNNING_1)
        then accel_first_half bf s
        else if decide (bf_move_state (deref (mb s) bf) = MP_STATE_RUNNING_2)
        then accel_second_half bf s
        else (TG_ERR, s)
    end.

(** "initialize for deceleration", after the toss of a region that is too
    short: [Some] when the block returns. *)
Definition decel_setup (bf : nat) (s : planner) : option tgStatus * planner :=
  let b := deref (mb s) bf in
  let s := set_mr (set_mr_midpoint_velocity
                     ((bf_start_velocity b + bf_end_velocity b) / 2) (mr s)) s in
  let s := if decide (mr_midpoint_velocity (mr s) = 0)
           then TRAP "Decel Midpoint Velocity" s else s in
  let s := set_mr (set_mr_time (bf_length b / mr_midpoint_velocity (mr s)) (mr s)) s in
  let s := set_mr (set_mr_midpoint_acceleration
                     (mr_time (mr s) * mm_linear_jerk_div2 (mm s)) (mr s)) s in
  let s := set_mr (set_mr_target (vec_init (fun i => vget (bf_target b) i)) (mr s)) s in
  (* number of segments in each half *)
  let s := set_mr (set_mr_segments
                     (round (round (ONE_MINUTE_OF_MICROSECONDS
                                    * (mr_time (mr s) / min_segment_time cfg)) / 2))
                     (mr s)) s in
  if decide (to_uint16 (mr_segments (mr s)) = 0%Z) then
    (Some TG_OK, TRAP "Deceleration Segments" s)
  else
    let s := set_mr (set_mr_segment_time (mr_time (mr s) / (2 * mr_segments (mr s)))
                       (mr s)) s in
    let s := set_mr (set_mr_elapsed_time (mr_segment_time (mr s) / 2) (mr s)) s in
    let s := set_mr (set_mr_microseconds (uSec (mr_segment_time (mr s))) (mr s)) s in
    let s := set_mr (set_mr_segment_count (to_uint32 (mr_segments (mr s))) (mr s)) s in
    (None, modify_run bf (set_bf_move_state MP_STATE_RUNNING_1) s).

(** "initialize for deceleration" *)
Definition decel_initialize (bf : nat) (s : planner) : option tgStatus * planner :=
  let s := modify_run bf (set_bf_replannable false) s in
  if decide (bf_length (deref (mb s) bf) < MIN_LINE_LENGTH K) then (Some TG_OK, s)
  else decel_setup bf s.

(** "first half of deceleration": the convex portion of the curve. *)
Definition decel_first_half (bf : nat) (s : planner) : tgStatus * planner :=
  let b := deref (mb s) bf in
  let s := set_mr (set_mr_segment_velocity
                     (bf_start_velocity b
                      - mm_linear_jerk_div2 (mm s) * square (mr_elapsed_time (mr s)))
                     (mr s)) s in
  let '(status, s) := _mp_aline_run_segment bf s in
  if decide (status <> TG_OK) then (status, s)
  else
    (* setup for second half *)
    let s := set_mr (set_mr_segment_count (to_uint32 (mr_segments (mr s))) (mr s)) s in
    let s := set_mr (set_mr_elapsed_time (mr_segment_time (mr s) / 2) (mr s)) s in
    (TG_EAGAIN, modify_run bf (set_bf_move_state MP_STATE_RUNNING_2) s).

(** "second half of deceleration": the concave portion of the curve. *)
Definition decel_second_half (bf : nat) (s : planner) : tgStatus * planner :=
  if decide (mr_segment_count (mr s) > 1)%Z then
    let s := set_mr (set_mr_segment_velocity
                       (mr_midpoint_velocity (mr s)
                        - mr_elapsed_time (mr s) * mr_midpoint_acceleration (mr s)
                        + mm_linear_jerk_div2 (mm s) * square (mr_elapsed_time (mr s)))
                       (mr s)) s in
    _mp_aline_run_segment bf s
  else (TG_OK, _mp_aline_run_finalize bf s).

Definition _mp_run_decel (room : bool) (bf : nat) (s : planner) : tgStatus * planner :=
  if negb room then (TG_EAGAIN, s)
  else
    let '(returned, s) :=
      if decide (bf_move_state (deref (mb s) bf) = MP_STATE_NEW)
      then decel_initialize bf s
      else (None, s) in
    match returned with
    | Some status => (status, s)
    | None =>
        if decide (bf_move_state (deref (mb s) bf) = MP_STATE_RUNNING_1)
        then decel_first_half bf s
        else if decide (bf_move_state (deref (mb s) bf) = MP_STATE_RUNNING_2)
        then decel_second_half bf s
        else (TG_ERR, s)
    end.

(** ** Dispatcher *)

(** [mr.run_move (bf)]: the function pointer is the move type it was set from. *)
Definition run_move (room : bool) (bf : nat) (s : planner) : tgStatus * planner :=
  match mr_run_move (mr s) with
  | MP_TYPE_NULL => _mp_run_null bf s
  | MP_TYPE_ACCEL => _mp_run_accel room bf s
  | MP_TYPE_CRUISE => _mp_run_cruise room bf s
  | MP_TYPE_DECEL => _mp_run_decel room bf s
  | MP_TYPE_LINE => _mp_run_line room bf s
  | MP_TYPE_ARC => _mp_run_arc room bf s
  | MP_TYPE_DWELL => _mp_run_dwell room bf s
  | MP_TYPE_START | MP_TYPE_STOP | MP_TYPE_END => _mp_run_stops room bf s
  end.

Definition mp_move_dispatcher (room : bool) (s : planner) : tgStatus * planner :=
  match _mp_get_run_buffer (mb s) with
  | (None, p) => (TG_NOOP, set_mb p s)
  | (Some bf, p) =>
      let s := set_mb p s in
      let s :=
        if decide (bf_move_state (deref (mb s) bf) = MP_STATE_NEW) then
          let s := set_mr (set_mr_run_flag true (mr s)) s in
          set_mr (set_mr_run_move (bf_move_type (deref (mb s) bf)) (mr s)) s
        else s in
      let '(status, s) := run_move room bf s in
      if decide (status = TG_EAGAIN) then (TG_EAGAIN, s)
      else
        let s := set_mr (set_mr_run_flag false (mr s)) s in
        (status, set_mb (_mp_finalize_run_buffer (mb s)) s)
  end.

End Model.

(** ** Vocabulary of the properties *)

(** The ring pointers of a buffer, and of every slot of the pool. *)
Definition links (b : mpBuffer) : nat * nat := (bf_nx b, bf_pv b).
Definition ring_of (p : mpBufferPool) : list (nat * nat) := links <$> mb_bf p.

(** The [buffer_state] of every slot of the pool. *)
Definition states_of (p : mpBufferPool) : list mpBufferState :=
  bf_buffer_state <$> mb_bf p.

(** The buffer-pool operations, as a caller may sequence them. *)
Inductive poolOp :=
  | OpGetWriteBuffer
  | OpUngetWriteBuffer
  | OpQueueWriteBuffer (move_type : mpMoveType)
  | OpGetRunBuffer
  | OpFinalizeRunBuffer
  | OpClearBuffer (bf : nat).

Definition run_pool_op (o : poolOp) (p : mpBufferPool) : mpBufferPool :=
  match o with
  | OpGetWriteBuffer => snd (_mp_get_write_buffer p)
  | OpUngetWriteBuffer => _mp_unget_write_buffer p
  | OpQueueWriteBuffer move_type => _mp_queue_write_buffer move_type p
  | OpGetRunBuffer => snd (_mp_get_run_buffer p)
  | OpFinalizeRunBuffer => _mp_finalize_run_buffer p
  | OpClearBuffer bf => _mp_clear_buffer bf p
  end.

Definition run_pool_ops (ops : list poolOp) (p : mpBufferPool) : mpBufferPool :=
  fold_left (fun p o => run_pool_op o p) ops p.

(** The producer interface.  A call hands its caller a status when the C
    function returns one ([uint8_t]) and nothing when it is [void]. *)
Inductive producerCall :=
  | CallQueuedStop
  | CallQueuedStart
  | CallQueuedEnd
  | CallDwell (seconds : R)
  | CallLine (target : list R) (minutes : R)
  | CallArc (target : list R) (i j k theta radius angular_travel linear_travel : R)
            (axis_1 axis_2 axis_linear : nat) (minutes : R)
  | CallAline (path_control_mode : cmPathControlMode) (target : list R) (minutes : R).

Definition produce (K : mpConstants) (cfg : cfgStructure) (c : producerCall) (s : planner)
    : option tgStatus * planner :=
  match c with
  | CallQueuedStop => (None, mp_queued_stop s)
  | CallQueuedStart => (None, mp_queued_start s)
  | CallQueuedEnd => (None, mp_queued_end s)
  | CallDwell seconds => let '(st, s) := mp_dwell seconds s in (Some st, s)
  | CallLine target minutes => let '(st, s) := mp_line K target minutes s in (Some st, s)
  | CallArc target i j k theta radius angular_travel linear_travel
            axis_1 axis_2 axis_linear minutes =>
      let '(st, s) := mp_arc cfg target i j k theta radius angular_travel linear_travel
                        axis_1 axis_2 axis_linear minutes s in (Some st, s)
  | CallAline mode target minutes =>
      let '(st, s) := mp_aline K cfg mode target minutes s in (Some st, s)
  end.

(** The pool as the module keeps it between calls: the ring pointers are the
    ones set at initialization, the write and queue pointers coincide and
    point into the ring. *)
Definition pool_ok (K : mpConstants) (p : mpBufferPool) : Prop :=
  ring_of p = ring_of (_mp_init_buffers K)
  /\ (mb_w p < MP_BUFFER_SIZE K)%nat
  /\ mb_q p = mb_w p.

(** The dot product over the six axes and unit direction vectors. *)
Definition dot (u v : list R) : R :=
  vget u Axis.X * vget v Axis.X + vget u Axis.Y * vget v Axis.Y
  + vget u Axis.Z * vget v Axis.Z + vget u Axis.A * vget v Axis.A
  + vget u Axis.B * vget v Axis.B + vget u Axis.C * vget v Axis.C.

Definition is_unit_vector (u : list R) : Prop := dot u u = 1.

(** The exact reversal of a direction. *)
Definition reversal (u : list R) : list R := vec_init (fun i => - vget u i).

(** The predecessor of slot [i] in the ring. *)
Definition ring_pv (K : mpConstants) (i : nat) : nat :=
  match i with O => (MP_BUFFER_SIZE K - 1)%nat | S j => j end.

(** What a successful [_mp_queue_buffer] leaves behind. *)
Definition queued_region (Vs Ve Vr len : R) (s s' : planner) : Prop :=
  let w := mb_w (mb s) in
  ring_of (mb s') = ring_of (mb s)
  /\ mb_w (mb s') = bf_nx (deref (mb s) w)
  /\ mb_q (mb s') = bf_nx (deref (mb s) w)
  /\ mb_r (mb s') = mb_r (mb s)
  /\ (forall j, j <> w -> deref (mb s') j = deref (mb s) j)
  /\ bf_buffer_state (deref (mb s') w) = MP_BUFFER_QUEUED
  /\ bf_move_state (deref (mb s') w) = MP_STATE_NEW
  /\ bf_replannable (deref (mb s') w) = true
  /\ bf_start_velocity (deref (mb s') w) = Vs
  /\ bf_end_velocity (deref (mb s') w) = Ve
  /\ bf_request_velocity (deref (mb s') w) = Vr
  /\ bf_length (deref (mb s') w) = len
  /\ mq s' = mq s /\ mr s' = mr s /\ traps s' = traps s
  /\ mp_0 s' = mp_0 s /\ mp_1 s' = mp_1 s
  /\ mm_unit_vec (mm s') = mm_unit_vec (mm s)
  /\ mm_target (mm s') = mm_target (mm s)
  /\ mm_linear_jerk_rad3 (mm s') = mm_linear_jerk_rad3 (mm s).

(** ** Sample builds and inputs *)

(** A build with a ring of seven buffers. *)
Definition sample_constants : mpConstants :=
  {| EPSILON := 0.0001; MIN_LINE_LENGTH := 0.03;
     MP_BUFFER_SIZE := 7; MP_MAX_LOOKBACK_DEPTH := 4 |}.

(** Jm = 50·10^6 mm/min^3, the jerk of the spec's scenarios. *)
Definition cfg_jerk_50e6 : cfgStructure :=
  {| linear_jerk_max := 50000000; min_segment_len := 0.03; min_segment_time := 10000 |}.

(** Jm = 2^21 = 128^3 mm/min^3, whose cube root is the double 128. *)
Definition cfg_jerk_128_cubed : cfgStructure :=
  {| linear_jerk_max := 128 * 128 * 128; min_segment_len := 0.03;
     min_segment_time := 10000 |}.

(** [mm] as [mp_aline] leaves its jerk terms. *)
Definition mm_with_jerk (cfg : cfgStructure) : mpMoveMasterSingleton :=
  set_mm_linear_jerk_rad3 (cubert (linear_jerk_max cfg))
    (set_mm_linear_jerk_div2 (linear_jerk_max cfg / 2) zero_mm).

(** The initialized planner whose next write slot is still queued: no write
    buffer is available. *)
Definition write_slot_taken : planner :=
  set_mb (modify 0 (set_bf_buffer_state MP_BUFFER_QUEUED) (mb (mp_init sample_constants)))
    (mp_init sample_constants).

(** A run buffer in slot 0: a new region of the given type and length that
    is still replannable. *)
Definition region_in_slot_0 (move_type : mpMoveType) (length : R) : planner :=
  set_mb (modify 0 (fun b => set_bf_replannable true
                               (set_bf_length length
                                  (set_bf_move_type move_type
                                     (set_bf_buffer_state MP_BUFFER_RUNNING b))))
            (mb (mp_init sample_constants)))
    (mp_init sample_constants).

(** A running arc in slot 0 with three segments left. *)
Definition arc_running_in_slot_0 : planner :=
  set_mr (set_mr_segment_count 3%Z zero_mr)
    (set_mb (modify 0 (set_bf_move_state MP_STATE_RUNNING)
               (mb (region_in_slot_0 MP_TYPE_ARC 3)))
       (region_in_slot_0 MP_TYPE_ARC 3)).

(** The initialized planner with one write buffer free: slot 0 is EMPTY and
    slot 1 is still queued. *)
Definition one_write_slot_free : planner :=
  set_mb (modify 1 (set_bf_buffer_state MP_BUFFER_QUEUED) (mb (mp_init sample_constants)))
    (mp_init sample_constants).

(** The planner after a queued arc that ends at the origin with a feed rate
    of 72 mm/min: the arc is in slot 0, the next write slot is 1. *)
Definition after_arc_at_72 : planner :=
  set_mb (set_mb_q 1 (set_mb_w 1
            (modify 0 (fun b => set_bf_end_velocity 72
                                  (set_bf_start_velocity 72
                                     (set_bf_move_type MP_TYPE_ARC
                                        (set_bf_buffer_state MP_BUFFER_QUEUED b))))
               (mb (mp_init sample_constants)))))
    (mp_init sample_constants).

(** The plan of a move of 41/16 mm that enters at 72 mm/min, asks for
    200 mm/min and stops, as the HT case leaves it for Jm = 128^3. *)
Definition head_tail_plan (m : mpMovePlanner) : mpMovePlanner :=
  {| m_path_mode := m_path_mode m; m_head := m_head m; m_body := m_body m;
     m_tail := m_tail m; m_length := m_length m;
     m_head_length := 1; m_body_length := 0; m_tail_length := 125 / 64;
     m_initial_velocity_req := 72; m_initial_velocity := 72;
     m_target_velocity := 200; m_cruise_velocity := 200; m_final_velocity := 0 |}.


(** A region of a queued line of the given length that may still be
    replanned. *)
Definition queued_region_of_length (length : R) (b : mpBuffer) : mpBuffer :=
  set_bf_replannable true (set_bf_length length (set_bf_buffer_state MP_BUFFER_QUEUED b)).

(** Two queued lines of 1/2 mm, each a body between an empty head and an
    empty tail: the older one in slots 0 to 2, the newest in slots 3 to 5.
    Slot 6 is EMPTY and the next write slot. *)
Definition two_queued_moves : mpBufferPool :=
  set_mb_q 6 (set_mb_w 6
    (modify 5 (queued_region_of_length 0)
       (modify 4 (queued_region_of_length (1 / 2))
          (modify 3 (queued_region_of_length 0)
             (modify 2 (queued_region_of_length 0)
                (modify 1 (queued_region_of_length (1 / 2))
                   (modify 0 (queued_region_of_length 0)
                      (_mp_init_buffers sample_constants)))))))).

(** The planning structure of the newest of them, which asks to be entered
    at 200 mm/min. *)
Definition newest_move : mpMovePlanner :=
  set_m_initial_velocity_req 200
    (set_m_length (1 / 2)
       (set_m_tail (Some 5%nat)
          (set_m_body (Some 4%nat)
             (set_m_head (Some 3%nat)
                (set_m_path_mode PATH_CONTINUOUS zero_planner))))).

(** The target of an arc segment as "compute an arc segment" of [_mp_run_arc]
    sets it in [mr.target]: on the two plane axes the point of the circle at
    [theta], on the linear axis one segment length further. *)
Definition arc_segment_target (a : mpBufferArc) (theta : R) (r : mpMoveRuntimeSingleton)
    : list R :=
  let t := <[a_axis_1 a := mr_center_1 r + sin theta * a_radius a]> (mr_target r) in
  let t := <[a_axis_2 a := mr_center_2 r + cos theta * a_radius a]> t in
  <[a_axis_linear a := vget t (a_axis_linear a) + mr_segment_length r]> t.

(** The velocity as the comment above [_mp_get_velocity] and the spec
    document it, Vc = Jm^(1/3) * length^(2/3) + V: the exponent is 2/3 where
    the code has the literal 0.6666667. *)
Definition velocity_as_documented (cfg : cfgStructure) (V L : R) : R :=
  cubert (linear_jerk_max cfg) * pow L (2 / 3) + V.

(** ** Callers' views of the planner *)

(** [mp_isbusy]; [st_isbusy ()] is the boolean handed in. *)
Definition mp_isbusy (st_isbusy : bool) (s : planner) : bool :=
  if decide (st_isbusy = true \/ mr_run_flag (mr s) = true) then true else false.

(** The slot reached from slot [w] by following [nx] [k] times. *)
Definition slot_after (K : mpConstants) (k w : nat) : nat := Nat.iter k (_mp_bump K) w.

(** [n] calls of a run routine or of the dispatcher, one after the other. *)
Fixpoint run_times (run : planner -> tgStatus * planner) (n : nat) (s : planner) : planner :=
  match n with
  | O => s
  | S n' => run_times run n' (snd (run s))
  end.

(** The write, queue and run pointers agree and every slot of the ring is
    EMPTY: nothing is queued or running. *)
Definition pool_idle (K : mpConstants) (p : mpBufferPool) : Prop :=
  pool_ok K p /\ mb_r p = mb_w p
  /\ forall j, (j < MP_BUFFER_SIZE K)%nat ->
       bf_buffer_state (deref p j) = MP_BUFFER_EMPTY.

(** The directives that need no planning: stop, start, end and dwell. *)
Inductive directive :=
  | DStop
  | DStart
  | DEnd
  | DDwell (seconds : R).

(** The producer of a directive, and what the motor queue is to receive
    for it. *)
Definition queue_directive (d : directive) (s : planner) : planner :=
  match d with
  | DStop => mp_queued_stop s
  | DStart => mp_queued_start s
  | DEnd => mp_queued_end s
  | DDwell seconds => snd (mp_dwell seconds s)
  end.

Definition directive_command (d : directive) : mqCommand :=
  match d with
  | DStop => MqStops MP_TYPE_STOP
  | DStart => MqStops MP_TYPE_START
  | DEnd => MqStops MP_TYPE_END
  | DDwell seconds => MqDwell (to_uint32 (seconds * 1000000))
  end.

(** A buffer that waits to be run for the directive [d]. *)
Definition slot_holds (d : directive) (b : mpBuffer) : Prop :=
  (bf_buffer_state b = MP_BUFFER_QUEUED \/ bf_buffer_state b = MP_BUFFER_PENDING)
  /\ bf_move_state b = MP_STATE_NEW
  /\ match d with
     | DStop => bf_move_type b = MP_TYPE_STOP
     | DStart => bf_move_type b = MP_TYPE_START
     | DEnd => bf_move_type b = MP_TYPE_END
     | DDwell seconds => bf_move_type b = MP_TYPE_DWELL /\ bf_time b = seconds
     end.

(** The directives [ds] wait in the slots from the run pointer on, in that
    order; every other slot is EMPTY. *)
Definition queue_holds (K : mpConstants) (ds : list directive) (p : mpBufferPool) : Prop :=
  ring_of p = ring_of (_mp_init_buffers K)
  /\ (mb_r p < MP_BUFFER_SIZE K)%nat
  /\ (length ds <= MP_BUFFER_SIZE K)%nat
  /\ mb_w p = slot_after K (length ds) (mb_r p)
  /\ mb_q p = mb_w p
  /\ (forall k d, ds !! k = Some d -> slot_holds d (deref p (slot_after K k (mb_r p))))
  /\ (forall k, (length ds <= k < MP_BUFFER_SIZE K)%nat ->
        bf_buffer_state (deref p (slot_after K k (mb_r p))) = MP_BUFFER_EMPTY).

(** The directives [ds] queued one after the other, and [n] calls of the
    dispatcher while the motor queue has room. *)
Definition queue_directives (ds : list directive) (s : planner) : planner :=
  fold_left (fun s d => queue_directive d s) ds s.

Definition dispatch_times (K : mpConstants) (cfg : cfgStructure) (n : nat) (s : planner)
    : planner :=
  run_times (mp_move_dispatcher K cfg true) n s.

(** What a run routine leaves alone: the pointers of the pool, its ring, the
    state of every buffer, the planning structures, and the dispatcher's flag
    and vector in [mr]. *)
Definition mr_frame (r0 r : mpMoveRuntimeSingleton) : Prop :=
  mr_run_flag r = mr_run_flag r0 /\ mr_run_move r = mr_run_move r0.

Definition runner_frame (s s' : planner) : Prop :=
  mb_w (mb s') = mb_w (mb s) /\ mb_q (mb s') = mb_q (mb s) /\ mb_r (mb s') = mb_r (mb s)
  /\ ring_of (mb s') = ring_of (mb s) /\ states_of (mb s') = states_of (mb s)
  /\ mm s' = mm s /\ mp_0 s' = mp_0 s /\ mp_1 s' = mp_1 s
  /\ mr_frame (mr s) (mr s').

(** What replanning leaves alone in the pool: its pointers, its ring and the
    state of every buffer. *)
Definition pool_frame (p p' : mpBufferPool) : Prop :=
  mb_w p' = mb_w p /\ mb_q p' = mb_q p /\ mb_r p' = mb_r p
  /\ ring_of p' = ring_of p /\ states_of p' = states_of p.

(** A line handed to the motor queue that lasts [us] microseconds. *)
Definition MqLine_lasting (us : R) (c : mqCommand) : Prop :=
  exists travel, c = MqLine travel us.

(** The fields of the planning structure that the region solver only reads:
    the path mode, the buffer pointers, the length and the two requests. *)
Definition same_request (m m' : mpMovePlanner) : Prop :=
  m_path_mode m' = m_path_mode m /\ m_head m' = m_head m /\ m_body m' = m_body m
  /\ m_tail m' = m_tail m /\ m_length m' = m_length m
  /\ m_initial_velocity_req m' = m_initial_velocity_req m
  /\ m_target_velocity m' = m_target_velocity m.

(** The pool of [s'] against the pool of [s] when the three slots at the write
    pointer of [s] have been queued and nothing else has changed state. *)
Definition three_queued (K : mpConstants) (s s' : planner) : Prop :=
  let w := mb_w (mb s) in
  let w1 := _mp_bump K w in
  let w2 := _mp_bump K w1 in
  ring_of (mb s') = ring_of (mb s)
  /\ mb_w (mb s') = _mp_bump K w2 /\ mb_q (mb s') = _mp_bump K w2
  /\ mb_r (mb s') = mb_r (mb s)
  /\ bf_buffer_state (deref (mb s') w) = MP_BUFFER_QUEUED
  /\ bf_buffer_state (deref (mb s') w1) = MP_BUFFER_QUEUED
  /\ bf_buffer_state (deref (mb s') w2) = MP_BUFFER_QUEUED
  /\ (forall x, x <> w -> x <> w1 -> x <> w2 ->
                bf_buffer_state (deref (mb s') x) = bf_buffer_state (deref (mb s) x)).

(** What a segment of a region leaves as it finds it: the segment plan in
    [mr], the end velocity of the region and the size of the pool. *)
Definition segment_frame (bf : nat) (s s' : planner) : Prop :=
  mr_segments (mr s') = mr_segments (mr s)
  /\ mr_microseconds (mr s') = mr_microseconds (mr s)
  /\ mr_target (mr s') = mr_target (mr s)
  /\ bf_end_velocity (deref (mb s') bf) = bf_end_velocity (deref (mb s) bf)
  /\ length (mb_bf (mb s')) = length (mb_bf (mb s)).

(** The region in slot [bf], run by [run] from its first call to its last
    with [n] segments in each half: [2 * n] calls, of which all but the last
    return TG_EAGAIN and queue one line each; the last call queues the line
    that closes the distance to the target of the region, or nothing. *)
Definition run_in_segments (K : mpConstants) (run : planner -> tgStatus * planner)
    (bf n : nat) (s : planner) : Prop :=
  let b := deref (mb s) bf in
  let time := bf_length b / ((bf_start_velocity b + bf_end_velocity b) / 2) in
  let target := mp_copy_vector (bf_target b) in
  let before_last := run_times run (2 * n - 1) s in
  let last := snd (run before_last) in
  let left := mp_get_axis_vector_length target (mr_position (mr before_last)) in
  (forall j, (j < 2 * n)%nat ->
     fst (run (run_times run j s))
     = if decide (j < 2 * n - 1)%nat then TG_EAGAIN else TG_OK)
  /\ (exists l, mq before_last = mq s ++ l /\ length l = (2 * n - 1)%nat
                /\ Forall (MqLine_lasting (uSec (time / (2 * INR n)))) l)
  /\ (if decide (left < MIN_LINE_LENGTH K \/ bf_end_velocity b < EPSILON K)
      then mq last = mq before_last
           /\ mr_position (mr last) = mr_position (mr before_last)
      else mq last
           = mq before_last
             ++ [MqLine (vec_init (fun i => vget target i
                                            - vget (mr_position (mr before_last)) i))
                   (uSec (left / bf_end_velocity b))]
           /\ mr_position (mr last) = target).

(** A new region in slot 0, 1 mm long, that starts at [Vs] and ends at [Ve]. *)
Definition ramp_in_slot_0 (move_type : mpMoveType) (Vs Ve : R) : planner :=
  modify_run 0 (fun b => set_bf_end_velocity Ve (set_bf_start_velocity Vs b))
    (region_in_slot_0 move_type 1).

(** ** The junction of two lines in binary64

    Over [R] a unit vector has norm 1 and [acos] is total.  In the code both
    are rounded [double] computations, and [acos] has a domain error outside
    [-1, 1]: there the result is of another kind, a NaN.  The functions that
    make a unit vector and take the factor of a junction are therefore given a
    second time over IEEE binary64, the [float] of [PrimFloat], statement by
    statement; C's [+], [-], [*], [/] and [sqrt] are its correctly rounded
    operations. *)
Module Double.
Import PrimFloat FloatOps SpecFloat.
Local Open Scope float_scope.

(** [v[i]] *)
Definition vget (v : list float) (i : nat) : float := nth i v 0.

(** [for (i=0; i<AXES; i++) dest[i] = f i] *)
Definition vec_init (f : nat -> float) : list float := map f (seq 0 AXES).

(** Modelled from the spec: the [square] macro of util.h is missing from the sources. *)
Definition square (a : float) : float := a * a.

Definition mp_get_axis_vector_length (target position : list float) : float :=
  sqrt (fold_left (fun length i => length + square (vget target i - vget position i))
                  (seq 0 AXES) 0).

Definition _mp_get_unit_vector (target position : list float) : list float :=
  let length := mp_get_axis_vector_length target position in
  vec_init (fun i => (vget target i - vget position i) / length).

(** [mm.position[i] += len * bf->unit_vec[i]] of [_mp_queue_buffer]: where the
    planner stands after a region of length [len]. *)
Definition advance (position unit_vec : list float) (len : float) : list float :=
  vec_init (fun i => vget position i + len * vget unit_vec i).

(** The local [cosine] of [_mp_get_angular_jerk_factor], for [mm.unit_vec] and
    [p->unit_vec]. *)
Definition cosine (mm_unit_vec p_unit_vec : list float) : float :=
  vget mm_unit_vec Axis.X * vget p_unit_vec Axis.X
  + vget mm_unit_vec Axis.Y * vget p_unit_vec Axis.Y
  + vget mm_unit_vec Axis.Z * vget p_unit_vec Axis.Z
  + vget mm_unit_vec Axis.A * vget p_unit_vec Axis.A
  + vget mm_unit_vec Axis.B * vget p_unit_vec Axis.B
  + vget mm_unit_vec Axis.C * vget p_unit_vec Axis.C.

(** The real number a finite double stands for. *)
Definition to_R (x : float) : R :=
  match Prim2SF x with
  | S754_finite s m e =>
      let v := if (0 <=? e)%Z then IZR (Z.pos m * 2 ^ e)
               else (IZR (Z.pos m) / IZR (2 ^ (- e)))%R in
      if s then (- v)%R else v
  | _ => 0%R
  end.

(** The domain of C's [acos]: false for a NaN as well. *)
Definition in_acos_domain (x : float) : bool := (-1 <=? x) && (x <=? 1).

(** [cos (acos (cosine) / 2)].  Outside [-1, 1], and at a NaN, [acos] returns
    a NaN, and so does [cos] of it: [None].  Inside the domain the two
    library calls are taken over the reals, at the value of the double. *)
Definition _mp_get_angular_jerk_factor (mm_unit_vec p_unit_vec : list float) : option R :=
  let cosine := cosine mm_unit_vec p_unit_vec in
  if in_acos_domain cosine then Some (cos (acos (to_R cosine) / 2))%R else None.

(** Two moves along one line, and a move along the X axis. *)
Definition origin : list float := [0; 0; 0; 0; 0; 0].
Definition target_5_12 : list float := [0; 5; 12; 0; 0; 0].
Definition target_10_24 : list float := [0; 10; 24; 0; 0; 0].
Definition target_x : list float := [1; 0; 0; 0; 0; 0].

(** The double after 1: [1 + 2^-52]. *)
Definition next_after_1 : float := 0x1.0000000000001p+0.

End Double.

(** * Properties *)

Lemma deref_modify_same (f : mpBuffer -> mpBuffer) i p :
  (i < length (mb_bf p))%nat -> deref (modify i f p) i = f (deref p i).
Proof.
  intros Hi. unfold deref, modify. simpl.
  rewrite list_lookup_alter_eq.
  destruct (lookup_lt_is_Some_2 (mb_bf p) i Hi) as [b ->]. reflexivity.
Qed.

Lemma deref_modify_ne (f : mpBuffer -> mpBuffer) i j p :
  i <> j -> deref (modify i f p) j = deref p j.
Proof.
  intros Hne. unfold deref, modify. simpl.
  rewrite list_lookup_alter_ne by assumption. reflexivity.
Qed.

(** A field that [f] keeps reads the same through [modify], at every slot. *)
Lemma deref_modify_field {T} (g : mpBuffer -> T) (f : mpBuffer -> mpBuffer) i j p :
  (forall b, g (f b) = g b) -> g (deref (modify i f p) j) = g (deref p j).
Proof.
  intros Hg. unfold deref, modify. simpl.
  destruct (decide (i = j)) as [->|Hne].
  - rewrite list_lookup_alter_eq. destruct (mb_bf p !! j); simpl; auto.
  - rewrite list_lookup_alter_ne by assumption. reflexivity.
Qed.

Lemma fmap_alter_keep {T} (g : mpBuffer -> T) (f : mpBuffer -> mpBuffer) i (l : list mpBuffer) :
  (forall b, g (f b) = g b) -> g <$> alter f i l = g <$> l.
Proof.
  intros Hg. apply list_eq. intros j. rewrite !list_lookup_fmap.
  destruct (decide (i = j)) as [->|Hne].
  - rewrite list_lookup_alter_eq. destruct (l !! j); simpl; [rewrite Hg|]; reflexivity.
  - rewrite list_lookup_alter_ne by assumption. reflexivity.
Qed.

Lemma ring_of_modify f i p :
  (forall b, links (f b) = links b) -> ring_of (modify i f p) = ring_of p.
Proof. intros Hf. unfold ring_of, modify. simpl. apply fmap_alter_keep, Hf. Qed.

Lemma links_clear_keep_links b : links (clear_keep_links b) = links b.
Proof. reflexivity. Qed.

Lemma length_modify f i p : length (mb_bf (modify i f p)) = length (mb_bf p).
Proof. unfold modify. simpl. apply length_alter. Qed.

Ltac ring_kept :=
  repeat first
    [ reflexivity
    | rewrite ring_of_modify by (intros []; reflexivity)
    | case_decide ].

Lemma ring_of_get_write_buffer p : ring_of (snd (_mp_get_write_buffer p)) = ring_of p.
Proof. unfold _mp_get_write_buffer. case_decide; simpl; [|reflexivity].
  change (ring_of (set_mb_w ?v ?q)) with (ring_of q). ring_kept. Qed.

Lemma ring_of_unget_write_buffer p : ring_of (_mp_unget_write_buffer p) = ring_of p.
Proof. unfold _mp_unget_write_buffer. ring_kept. Qed.

Lemma ring_of_queue_write_buffer t p : ring_of (_mp_queue_write_buffer t p) = ring_of p.
Proof. unfold _mp_queue_write_buffer. 
  change (ring_of (set_mb_q ?v ?q)) with (ring_of q). ring_kept. Qed.

Lemma ring_of_get_run_buffer p : ring_of (snd (_mp_get_run_buffer p)) = ring_of p.
Proof. unfold _mp_get_run_buffer. repeat case_decide; simpl; ring_kept. Qed.

Lemma ring_of_clear_buffer bf p : ring_of (_mp_clear_buffer bf p) = ring_of p.
Proof. unfold _mp_clear_buffer. ring_kept. Qed.

Lemma ring_of_finalize_run_buffer p : ring_of (_mp_finalize_run_buffer p) = ring_of p.
Proof. unfold _mp_finalize_run_buffer, _mp_clear_buffer. 
  case_decide; ring_kept; change (ring_of (set_mb_r ?v ?q)) with (ring_of q); ring_kept. Qed.

Lemma ring_of_run_pool_op o p : ring_of (run_pool_op o p) = ring_of p.
Proof.
  destruct o; simpl.
  - apply ring_of_get_write_buffer.
  - apply ring_of_unget_write_buffer.
  - apply ring_of_queue_write_buffer.
  - apply ring_of_get_run_buffer.
  - apply ring_of_finalize_run_buffer.
  - apply ring_of_clear_buffer.
Qed.

Lemma ring_of_run_pool_ops ops p : ring_of (run_pool_ops ops p) = ring_of p.
Proof.
  unfold run_pool_ops. revert p.
  induction ops as [|o ops IH]; intros p; simpl; [reflexivity|].
  rewrite IH. apply ring_of_run_pool_op.
Qed.

(** C9: each of the six buffer-pool operations leaves the nx and pv pointers
    of every buffer as they were, so after any sequence of them on the
    initialized pool the ring is the one [_mp_init_buffers] set up. *)
Theorem pool_operations_keep_ring_pointers (K : mpConstants) :
  (forall o p, ring_of (run_pool_op o p) = ring_of p)
  /\ (forall ops, ring_of (run_pool_ops ops (_mp_init_buffers K))
                  = ring_of (_mp_init_buffers K)).
Proof.
  split; [exact ring_of_run_pool_op|].
  intros ops. apply ring_of_run_pool_ops.
Qed.

(** *** The ring set up by [_mp_init_buffers] *)

Lemma init_ring_lookup K n : forall i pv k, (k < n)%nat ->
  init_ring K i n pv !! k
  = Some (set_bf_pv (match k with O => pv | S j => (i + j)%nat end)
            (set_bf_nx (_mp_bump K (i + k)) zero_buffer)).
Proof.
  induction n as [|n IH]; intros i pv k Hk; [lia|].
  destruct k as [|k]; simpl.
  - rewrite Nat.add_0_r. reflexivity.
  - rewrite IH by lia.
    replace (S i + k)%nat with (i + S k)%nat by lia.
    replace (match k with O => i | S j => (S i + j)%nat end) with (i + k)%nat
      by (destruct k; lia).
    reflexivity.
Qed.

Lemma init_ring_length K n : forall i pv, length (init_ring K i n pv) = n.
Proof. induction n as [|n IH]; intros i pv; simpl; [reflexivity|]. now rewrite IH. Qed.

Lemma ring_of_length p q : ring_of p = ring_of q -> length (mb_bf p) = length (mb_bf q).
Proof.
  unfold ring_of. intros H. apply (f_equal length) in H.
  now rewrite !length_fmap in H.
Qed.

Lemma ring_of_links p q i : ring_of p = ring_of q -> links (deref p i) = links (deref q i).
Proof.
  unfold ring_of, deref. intros H.
  apply (f_equal (fun l => l !! i)) in H. rewrite !list_lookup_fmap in H.
  destruct (mb_bf p !! i), (mb_bf q !! i); simpl in *; congruence.
Qed.

Lemma pool_ring_length K p :
  ring_of p = ring_of (_mp_init_buffers K) -> length (mb_bf p) = MP_BUFFER_SIZE K.
Proof. intros H. rewrite (ring_of_length _ _ H). simpl. apply init_ring_length. Qed.

Lemma pool_ring_links K p i :
  ring_of p = ring_of (_mp_init_buffers K) -> (i < MP_BUFFER_SIZE K)%nat ->
  bf_nx (deref p i) = _mp_bump K i /\ bf_pv (deref p i) = ring_pv K i.
Proof.
  intros H Hi. pose proof (ring_of_links _ _ i H) as Hl.
  unfold deref at 2 in Hl. simpl in Hl.
  rewrite (init_ring_lookup K _ _ _ _ Hi) in Hl. simpl in Hl.
  unfold links in Hl. simpl in Hl. injection Hl as Hnx Hpv.
  split; [exact Hnx|]. rewrite Hpv. destruct i; reflexivity.
Qed.

Lemma bump_lt K i : (i < MP_BUFFER_SIZE K)%nat -> (_mp_bump K i < MP_BUFFER_SIZE K)%nat.
Proof. unfold _mp_bump. intros Hi. destruct (Nat.ltb_spec i (MP_BUFFER_SIZE K - 1)); lia. Qed.

Lemma bump_ne K i : (2 <= MP_BUFFER_SIZE K)%nat -> (i < MP_BUFFER_SIZE K)%nat -> _mp_bump K i <> i.
Proof. unfold _mp_bump. intros HK Hi. destruct (Nat.ltb_spec i (MP_BUFFER_SIZE K - 1)); lia. Qed.

Lemma bump_bump_ne K i :
  (3 <= MP_BUFFER_SIZE K)%nat -> (i < MP_BUFFER_SIZE K)%nat -> _mp_bump K (_mp_bump K i) <> i.
Proof.
  intros HK Hi. unfold _mp_bump at 2.
  destruct (Nat.ltb_spec i (MP_BUFFER_SIZE K - 1)); unfold _mp_bump.
  - destruct (Nat.ltb_spec (S i) (MP_BUFFER_SIZE K - 1)); lia.
  - destruct (Nat.ltb_spec 0 (MP_BUFFER_SIZE K - 1)); lia.
Qed.

Lemma ring_pv_bump K i : (i < MP_BUFFER_SIZE K)%nat -> ring_pv K (_mp_bump K i) = i.
Proof.
  unfold _mp_bump, ring_pv. intros Hi.
  destruct (Nat.ltb_spec i (MP_BUFFER_SIZE K - 1)); lia.
Qed.

(** *** Acquiring and queueing a write buffer *)

Lemma deref_set_mb_w v p i : deref (set_mb_w v p) i = deref p i.
Proof. reflexivity. Qed.
Lemma deref_set_mb_q v p i : deref (set_mb_q v p) i = deref p i.
Proof. reflexivity. Qed.
Lemma deref_set_mb_r v p i : deref (set_mb_r v p) i = deref p i.
Proof. reflexivity. Qed.
Lemma modify_set_mb_w i f v p : modify i f (set_mb_w v p) = set_mb_w v (modify i f p).
Proof. reflexivity. Qed.
Lemma modify_set_mb_q i f v p : modify i f (set_mb_q v p) = set_mb_q v (modify i f p).
Proof. reflexivity. Qed.

Lemma ring_of_set_mb_w v p : ring_of (set_mb_w v p) = ring_of p.
Proof. reflexivity. Qed.
Lemma ring_of_set_mb_q v p : ring_of (set_mb_q v p) = ring_of p.
Proof. reflexivity. Qed.
Lemma ring_of_set_mb_r v p : ring_of (set_mb_r v p) = ring_of p.
Proof. reflexivity. Qed.

Ltac ring_simpl :=
  repeat first
    [ rewrite ring_of_set_mb_w
    | rewrite ring_of_set_mb_q
    | rewrite ring_of_set_mb_r
    | rewrite ring_of_modify by (intros []; reflexivity) ].

Ltac pool_simpl :=
  repeat first
    [ progress cbn [mb mm mr mq traps mp_0 mp_1 set_mb set_mm set_mr set_mq set_mp_0 set_mp_1
                    mb_w mb_q mb_r set_mb_w set_mb_q set_mb_r fst snd TRAP]
    | rewrite deref_set_mb_w
    | rewrite deref_set_mb_q
    | rewrite deref_set_mb_r
    | rewrite modify_set_mb_w
    | rewrite modify_set_mb_q
    | rewrite deref_modify_same by (rewrite ?length_modify; assumption)
    | rewrite deref_modify_ne by congruence ].

Lemma get_write_buffer_fail p :
  bf_buffer_state (deref p (mb_w p)) <> MP_BUFFER_EMPTY -> _mp_get_write_buffer p = (None, p).
Proof. intros H. unfold _mp_get_write_buffer. case_decide; [contradiction|reflexivity]. Qed.

Lemma get_write_buffer_ok p :
  (mb_w p < length (mb_bf p))%nat ->
  bf_buffer_state (deref p (mb_w p)) = MP_BUFFER_EMPTY ->
  _mp_get_write_buffer p
  = (Some (mb_w p),
     set_mb_w (bf_nx (deref p (mb_w p)))
       (modify (mb_w p) (set_bf_buffer_state MP_BUFFER_LOADING)
          (modify (mb_w p) clear_keep_links p))).
Proof.
  intros Hw He. unfold _mp_get_write_buffer. case_decide; [|contradiction].
  pool_simpl. reflexivity.
Qed.

Lemma queue_buffer_fail K Vs Ve Vr len s :
  bf_buffer_state (deref (mb s) (mb_w (mb s))) <> MP_BUFFER_EMPTY ->
  _mp_queue_buffer K Vs Ve Vr len s = (None, s).
Proof. intros H. unfold _mp_queue_buffer. now rewrite get_write_buffer_fail. Qed.

Lemma queue_buffer_ok K Vs Ve Vr len s :
  (mb_w (mb s) < length (mb_bf (mb s)))%nat ->
  mb_q (mb s) = mb_w (mb s) ->
  bf_buffer_state (deref (mb s) (mb_w (mb s))) = MP_BUFFER_EMPTY ->
  exists s', _mp_queue_buffer K Vs Ve Vr len s = (Some (mb_w (mb s)), s')
             /\ queued_region Vs Ve Vr len s s'.
Proof.
  intros Hw Hq He. unfold _mp_queue_buffer.
  rewrite get_write_buffer_ok by assumption.
  eexists. split; [reflexivity|].
  unfold queued_region, _mp_queue_write_buffer.
  destruct s as [mm0 m0 m1 mr0 [w q r bf] mq0 tr0]. simpl in Hw, Hq, He |- *. subst q.
  pool_simpl.
  repeat split; try reflexivity.
  - ring_simpl. reflexivity.
  - intros j Hj. pool_simpl. reflexivity.
Qed.

Lemma pool_ok_lt K p : pool_ok K p -> (mb_w p < length (mb_bf p))%nat.
Proof. intros (Hr & Hw & _). now rewrite (pool_ring_length K p Hr). Qed.

Lemma queued_region_pool_ok K Vs Ve Vr len s s' :
  pool_ok K (mb s) -> queued_region Vs Ve Vr len s s' ->
  pool_ok K (mb s') /\ mb_w (mb s') = _mp_bump K (mb_w (mb s)).
Proof.
  intros (Hr & Hw & Hq) (Hr' & Hw' & Hq' & _).
  destruct (pool_ring_links K (mb s) (mb_w (mb s)) Hr Hw) as [Hnx _].
  rewrite Hnx in Hw', Hq'. split; [|exact Hw'].
  split; [congruence|]. split; [|congruence].
  rewrite Hw'. now apply bump_lt.
Qed.

Lemma queue_move_fail_head K m s :
  bf_buffer_state (deref (mb s) (mb_w (mb s))) <> MP_BUFFER_EMPTY ->
  _mp_queue_move K m s = (TG_BUFFER_FULL_FATAL, set_m_head None m, s).
Proof.
  intros H. unfold _mp_queue_move. rewrite queue_buffer_fail by assumption.
  case_decide; [reflexivity|contradiction].
Qed.

Section QueueMove.

Variable K : mpConstants.
Variable m : mpMovePlanner.
Variable s : planner.
Hypothesis Hok : pool_ok K (mb s).
Hypothesis Hsize : (3 <= MP_BUFFER_SIZE K)%nat.

Let w := mb_w (mb s).
Let w1 := _mp_bump K w.
Let w2 := _mp_bump K w1.
Let st i := bf_buffer_state (deref (mb s) i).

Lemma queue_move_fail_body :
  st w = MP_BUFFER_EMPTY -> st w1 <> MP_BUFFER_EMPTY ->
  exists m' s',
    _mp_queue_move K m s = (TG_BUFFER_FULL_FATAL, m', s')
    /\ queued_region (m_initial_velocity m) (m_cruise_velocity m)
         (m_initial_velocity_req m) (m_head_length m) s s'.
Proof.
  intros H0 H1. unfold _mp_queue_move.
  destruct (queue_buffer_ok K (m_initial_velocity m) (m_cruise_velocity m)
              (m_initial_velocity_req m) (m_head_length m) s)
    as (s1 & E1 & Q1); [now apply (pool_ok_lt K)|apply Hok|exact H0|].
  rewrite E1. case_decide; [discriminate|].
  destruct (queued_region_pool_ok K _ _ _ _ _ _ Hok Q1) as [Hok1 Hw1].
  assert (Hne : w1 <> w) by (apply bump_ne; [lia|apply Hok]).
  assert (Hs1 : bf_buffer_state (deref (mb s1) (mb_w (mb s1))) <> MP_BUFFER_EMPTY).
  { rewrite Hw1. destruct Q1 as (_ & _ & _ & _ & Hj & _). fold w w1. now rewrite Hj. }
  rewrite queue_buffer_fail by exact Hs1.
  case_decide; [|contradiction]. eauto.
Qed.

Lemma queue_move_fail_tail :
  st w = MP_BUFFER_EMPTY -> st w1 = MP_BUFFER_EMPTY -> st w2 <> MP_BUFFER_EMPTY ->
  exists m' s1 s',
    _mp_queue_move K m s = (TG_BUFFER_FULL_FATAL, m', s')
    /\ queued_region (m_initial_velocity m) (m_cruise_velocity m)
         (m_initial_velocity_req m) (m_head_length m) s s1
    /\ queued_region (m_cruise_velocity m) (m_cruise_velocity m)
         (m_target_velocity m) (m_body_length m) s1 s'
    /\ mb_w (mb s1) = w1.
Proof.
  intros H0 H1 H2. unfold _mp_queue_move.
  destruct (queue_buffer_ok K (m_initial_velocity m) (m_cruise_velocity m)
              (m_initial_velocity_req m) (m_head_length m) s)
    as (s1 & E1 & Q1); [now apply (pool_ok_lt K)|apply Hok|exact H0|].
  rewrite E1. case_decide; [discriminate|].
  destruct (queued_region_pool_ok K _ _ _ _ _ _ Hok Q1) as [Hok1 Hw1].
  assert (Hne : w1 <> w) by (apply bump_ne; [lia|apply Hok]).
  assert (Hne2 : w2 <> w) by (apply bump_bump_ne; [lia|apply Hok]).
  assert (Hlt1 : (w1 < MP_BUFFER_SIZE K)%nat) by (apply bump_lt, Hok).
  assert (Hne12 : w2 <> w1) by (apply bump_ne; [lia|exact Hlt1]).
  assert (Hj1 : forall j, j <> w -> deref (mb s1) j = deref (mb s) j) by apply Q1.
  cbn [m_cruise_velocity m_target_velocity m_body_length set_m_head].
  destruct (queue_buffer_ok K (m_cruise_velocity m) (m_cruise_velocity m)
              (m_target_velocity m) (m_body_length m) s1)
    as (s2 & E2 & Q2); [now apply (pool_ok_lt K)|apply Hok1| |].
  { rewrite Hw1. fold w w1. now rewrite Hj1. }
  rewrite E2. case_decide; [discriminate|].
  destruct (queued_region_pool_ok K _ _ _ _ _ _ Hok1 Q2) as [Hok2 Hw2].
  assert (Hj2 : forall j, j <> mb_w (mb s1) -> deref (mb s2) j = deref (mb s1) j) by apply Q2.
  rewrite Hw1 in Hw2, Hj2. fold w w1 in Hw2, Hj2. fold w2 in Hw2.
  assert (Hs2 : bf_buffer_state (deref (mb s2) (mb_w (mb s2))) <> MP_BUFFER_EMPTY).
  { rewrite Hw2, Hj2, Hj1 by assumption. exact H2. }
  rewrite queue_buffer_fail by exact Hs2.
  case_decide; [|contradiction].
  do 3 eexists. split; [reflexivity|]. split; [exact Q1|]. split; [exact Q2|exact Hw1].
Qed.

Lemma queue_move_ok :
  st w = MP_BUFFER_EMPTY -> st w1 = MP_BUFFER_EMPTY -> st w2 = MP_BUFFER_EMPTY ->
  exists s1 s2 s',
    _mp_queue_move K m s
    = (TG_OK, set_m_tail (Some w2) (set_m_body (Some w1) (set_m_head (Some w) m)), s')
    /\ queued_region (m_initial_velocity m) (m_cruise_velocity m)
         (m_initial_velocity_req m) (m_head_length m) s s1
    /\ queued_region (m_cruise_velocity m) (m_cruise_velocity m)
         (m_target_velocity m) (m_body_length m) s1 s2
    /\ queued_region (m_cruise_velocity m) (m_final_velocity m)
         (m_target_velocity m) (m_tail_length m) s2 s'
    /\ mb_w (mb s1) = w1 /\ mb_w (mb s2) = w2.
Proof.
  intros H0 H1 H2. unfold _mp_queue_move.
  destruct (queue_buffer_ok K (m_initial_velocity m) (m_cruise_velocity m)
              (m_initial_velocity_req m) (m_head_length m) s)
    as (s1 & E1 & Q1); [now apply (pool_ok_lt K)|apply Hok|exact H0|].
  rewrite E1. case_decide; [discriminate|].
  destruct (queued_region_pool_ok K _ _ _ _ _ _ Hok Q1) as [Hok1 Hw1].
  assert (Hne : w1 <> w) by (apply bump_ne; [lia|apply Hok]).
  assert (Hne2 : w2 <> w) by (apply bump_bump_ne; [lia|apply Hok]).
  assert (Hlt1 : (w1 < MP_BUFFER_SIZE K)%nat) by (apply bump_lt, Hok).
  assert (Hne12 : w2 <> w1) by (apply bump_ne; [lia|exact Hlt1]).
  assert (Hj1 : forall j, j <> w -> deref (mb s1) j = deref (mb s) j) by apply Q1.
  cbn [m_cruise_velocity m_target_velocity m_body_length set_m_head].
  destruct (queue_buffer_ok K (m_cruise_velocity m) (m_cruise_velocity m)
              (m_target_velocity m) (m_body_length m) s1)
    as (s2 & E2 & Q2); [now apply (pool_ok_lt K)|apply Hok1| |].
  { rewrite Hw1. fold w w1. now rewrite Hj1. }
  rewrite E2. case_decide; [discriminate|].
  destruct (queued_region_pool_ok K _ _ _ _ _ _ Hok1 Q2) as [Hok2 Hw2].
  assert (Hj2 : forall j, j <> mb_w (mb s1) -> deref (mb s2) j = deref (mb s1) j) by apply Q2.
  rewrite Hw1 in Hw2, Hj2. fold w w1 in Hw2, Hj2. fold w2 in Hw2.
  cbn [m_cruise_velocity m_final_velocity m_target_velocity m_tail_length set_m_body set_m_head].
  destruct (queue_buffer_ok K (m_cruise_velocity m) (m_final_velocity m)
              (m_target_velocity m) (m_tail_length m) s2)
    as (s3 & E3 & Q3); [now apply (pool_ok_lt K)|apply Hok2| |].
  { rewrite Hw2, Hj2, Hj1 by assumption. exact H2. }
  rewrite E3. case_decide; [discriminate|].
  exists s1, s2, s3. split; [rewrite Hw1, Hw2; reflexivity|].
  split; [exact Q1|]. split; [exact Q2|]. split; [exact Q3|].
  split; [exact Hw1|exact Hw2].
Qed.

End QueueMove.

(** *** Powers and roots *)

Lemma pow_nonneg x y : 0 <= pow x y.
Proof.
  unfold pow. destruct (Rle_dec x 0); [lra|]. left. apply exp_pos.
Qed.

Lemma pow_0 y : pow 0 y = 0.
Proof. unfold pow. destruct (Rle_dec 0 0); [reflexivity|lra]. Qed.

Lemma pow_1 y : pow 1 y = 1.
Proof.
  unfold pow. destruct (Rle_dec 1 0); [lra|].
  unfold Rpower. rewrite ln_1, Rmult_0_r. apply exp_0.
Qed.

Lemma pow_pos x y : 0 < x -> pow x y = Rpower x y.
Proof. intros Hx. unfold pow. destruct (Rle_dec x 0); [lra|reflexivity]. Qed.

Lemma cubert_cube c : 0 < c -> cubert (c * c * c) = c.
Proof.
  intros Hc. unfold cubert. rewrite pow_pos by (repeat apply Rmult_lt_0_compat; exact Hc).
  replace (c * c * c) with (Rpower c (INR 3)).
  - rewrite Rpower_mult. replace (INR 3 * / 3) with 1 by (simpl; lra).
    now apply Rpower_1.
  - rewrite Rpower_pow by exact Hc. simpl. ring.
Qed.

Lemma cubert_nonneg a : 0 <= cubert a.
Proof. apply pow_nonneg. Qed.

Lemma ln_sqrt_pos x : 0 < x -> ln (sqrt x) = ln x / 2.
Proof.
  intros Hx. rewrite <- Rpower_sqrt by exact Hx. rewrite ln_Rpower. lra.
Qed.

(** *** [_mp_get_length] and [_mp_get_velocity] *)

Lemma get_length_sym cfg Vi Vf : _mp_get_length cfg Vi Vf = _mp_get_length cfg Vf Vi.
Proof. unfold _mp_get_length, fabs. now rewrite Rabs_minus_sym. Qed.

Lemma get_length_nonneg cfg Vi Vf : 0 <= _mp_get_length cfg Vi Vf.
Proof.
  unfold _mp_get_length, fabs. apply Rmult_le_pos; [apply Rabs_pos|apply sqrt_pos].
Qed.

(** The round trip in closed form. *)
Lemma get_velocity_get_length cfg mm Vi Vf :
  0 < linear_jerk_max cfg ->
  mm_linear_jerk_rad3 mm = cubert (linear_jerk_max cfg) ->
  Vi <= Vf ->
  _mp_get_velocity mm Vi (_mp_get_length cfg Vi Vf)
  = Vi + (Vf - Vi) * Rpower ((Vf - Vi) ^ 3 / linear_jerk_max cfg) (/ 60000000).
Proof.
  intros HJ Hrad Hle. unfold _mp_get_velocity, _mp_get_length, fabs. rewrite Hrad.
  set (J := linear_jerk_max cfg) in *.
  rewrite (Rabs_pos_eq (Vf - Vi)) by lra.
  destruct (Req_dec Vf Vi) as [->|Hne].
  - replace (Vi - Vi) with 0 by lra. rewrite Rmult_0_l, pow_0. lra.
  - set (d := Vf - Vi). assert (Hd : 0 < d) by (unfold d; lra).
    assert (HdJ : 0 < d / J) by (apply Rdiv_lt_0_compat; assumption).
    assert (HL : 0 < d * sqrt (d / J)).
    { apply Rmult_lt_0_compat; [exact Hd|]. now apply sqrt_lt_R0. }
    unfold cubert. rewrite !pow_pos by assumption.
    rewrite Rplus_comm. f_equal.
    assert (Hd3 : 0 < d ^ 3) by (apply pow_lt; exact Hd).
    rewrite <- (exp_ln d) at 3 by exact Hd.
    unfold Rpower. rewrite <- !exp_plus. f_equal.
    rewrite ln_mult by (try assumption; now apply sqrt_lt_R0).
    rewrite ln_sqrt_pos by exact HdJ.
    assert (E1 : ln (d / J) = ln d - ln J).
    { unfold Rdiv. rewrite ln_mult by (try assumption; now apply Rinv_0_lt_compat).
      rewrite ln_Rinv by exact HJ. lra. }
    assert (E2 : ln (d ^ 3 / J) = 3 * ln d - ln J).
    { unfold Rdiv. rewrite ln_mult by (try assumption; now apply Rinv_0_lt_compat).
      rewrite ln_Rinv by exact HJ. rewrite ln_pow by exact Hd. simpl INR. lra. }
    rewrite E1, E2. lra.
Qed.

(** The length is positive between two different velocities. *)
Lemma get_length_pos cfg Vi Vf :
  0 < linear_jerk_max cfg -> Vi <> Vf -> 0 < _mp_get_length cfg Vi Vf.
Proof.
  intros HJ Hne. unfold _mp_get_length, fabs.
  assert (Hd : 0 < Rabs (Vf - Vi)) by (apply Rabs_pos_lt; lra).
  apply Rmult_lt_0_compat; [exact Hd|]. apply sqrt_lt_R0. now apply Rdiv_lt_0_compat.
Qed.

(** With the documented exponent the velocity is the initial one plus the
    difference the length was computed from. *)
Lemma velocity_as_documented_of_length cfg Vi Vf :
  0 < linear_jerk_max cfg ->
  velocity_as_documented cfg Vi (_mp_get_length cfg Vi Vf) = Vi + Rabs (Vf - Vi).
Proof.
  intros HJ. unfold velocity_as_documented, _mp_get_length, fabs.
  set (J := linear_jerk_max cfg) in *. set (d := Rabs (Vf - Vi)).
  assert (Hd0 : 0 <= d) by apply Rabs_pos.
  destruct (Req_dec d 0) as [->|Hne].
  - rewrite Rmult_0_l, pow_0. lra.
  - assert (Hd : 0 < d) by lra.
    assert (HdJ : 0 < d / J) by (apply Rdiv_lt_0_compat; assumption).
    assert (HL : 0 < d * sqrt (d / J)).
    { apply Rmult_lt_0_compat; [exact Hd|]. now apply sqrt_lt_R0. }
    unfold cubert. rewrite !pow_pos by assumption.
    rewrite Rplus_comm. f_equal.
    rewrite <- (exp_ln d) at 3 by exact Hd.
    unfold Rpower. rewrite <- exp_plus. f_equal.
    rewrite ln_mult by (try assumption; now apply sqrt_lt_R0).
    rewrite ln_sqrt_pos by exact HdJ.
    assert (E1 : ln (d / J) = ln d - ln J).
    { unfold Rdiv. rewrite ln_mult by (try assumption; now apply Rinv_0_lt_compat).
      rewrite ln_Rinv by exact HJ. lra. }
    rewrite E1. lra.
Qed.

Lemma Rpower_eq_1 x y : 0 < x -> y <> 0 -> Rpower x y = 1 -> x = 1.
Proof.
  intros Hx Hy H. unfold Rpower in H.
  assert (E : y * ln x = 0).
  { apply exp_inv. now rewrite exp_0. }
  apply Rmult_integral in E. destruct E as [E|E]; [contradiction|].
  rewrite <- (exp_ln x Hx), E. apply exp_0.
Qed.

Lemma cube_pos d : 0 < d -> 0 < d ^ 3.
Proof. intros Hd. apply pow_lt. exact Hd. Qed.

(** C3: for Jm > 0 the round trip holds in one direction.  For Vi <= Vf the
    formula as documented, Jm^(1/3) * L^(2/3) + Vi, returns Vf at
    L = L(Vi, Vf); [_mp_get_velocity], whose exponent is 0.6666667, returns
    Vi + (Vf - Vi) * ((Vf - Vi)^3 / Jm)^(1/60000000), which is Vf exactly
    when Vf = Vi or (Vf - Vi)^3 = Jm, and is more than (Vf - Vi) / 60000000
    above Vf when (Vf - Vi)^3 > 3 Jm, hence more than 1e-6 above it once
    Vf - Vi >= 60.  For Vf < Vi nothing returns Vf: the documented formula
    gives 2 Vi - Vf and [_mp_get_velocity] more than Vi. *)
Theorem velocity_of_length_round_trip (cfg : cfgStructure) (mm : mpMoveMasterSingleton)
    (Vi Vf : R) :
  0 < linear_jerk_max cfg ->
  mm_linear_jerk_rad3 mm = cubert (linear_jerk_max cfg) ->
  (Vi <= Vf ->
   velocity_as_documented cfg Vi (_mp_get_length cfg Vi Vf) = Vf
   /\ _mp_get_velocity mm Vi (_mp_get_length cfg Vi Vf)
      = Vi + (Vf - Vi) * Rpower ((Vf - Vi) ^ 3 / linear_jerk_max cfg) (/ 60000000)
   /\ (_mp_get_velocity mm Vi (_mp_get_length cfg Vi Vf) = Vf
       <-> Vf = Vi \/ (Vf - Vi) ^ 3 = linear_jerk_max cfg)
   /\ (3 * linear_jerk_max cfg < (Vf - Vi) ^ 3 ->
       _mp_get_velocity mm Vi (_mp_get_length cfg Vi Vf) - Vf > (Vf - Vi) / 60000000
       /\ (60 <= Vf - Vi ->
           _mp_get_velocity mm Vi (_mp_get_length cfg Vi Vf) - Vf > 0.000001)))
  /\ (Vf < Vi ->
      velocity_as_documented cfg Vi (_mp_get_length cfg Vi Vf) = 2 * Vi - Vf
      /\ Vi < _mp_get_velocity mm Vi (_mp_get_length cfg Vi Vf)).
Proof.
  intros HJ Hrad. set (J := linear_jerk_max cfg) in *. split.
  - intros Hle.
    pose proof (get_velocity_get_length cfg mm Vi Vf HJ Hrad Hle) as Hc. fold J in Hc.
    split.
    { rewrite velocity_as_documented_of_length by exact HJ.
      rewrite Rabs_pos_eq by lra. lra. }
    split; [exact Hc|]. rewrite Hc. set (d := Vf - Vi). assert (Hd0 : 0 <= d) by (unfold d; lra).
    split.
    + split.
      * intros E. destruct (Req_dec d 0) as [Hz|Hnz]; [left; unfold d in Hz; lra|right].
        assert (Hd : 0 < d) by lra.
        assert (Hp : Rpower (d ^ 3 / J) (/ 60000000) = 1).
        { apply Rmult_eq_reg_l with d; [|exact Hnz]. unfold d. unfold d in E. lra. }
        apply Rpower_eq_1 in Hp.
        -- apply (f_equal (fun z => z * J)) in Hp. unfold Rdiv in Hp.
           rewrite Rmult_assoc, Rinv_l in Hp by lra. lra.
        -- apply Rdiv_lt_0_compat; [now apply cube_pos|exact HJ].
        -- lra.
      * intros [E|E].
        -- unfold d. rewrite E. lra.
        -- rewrite E. unfold Rdiv. rewrite Rinv_r by lra.
           unfold Rpower. rewrite ln_1, Rmult_0_r, exp_0. unfold d. lra.
    + intros H3.
      assert (Hd : 0 < d).
      { destruct (Req_dec d 0) as [Hz|Hnz]; [|lra].
        exfalso. rewrite Hz in H3. simpl in H3. lra. }
      set (x := d ^ 3 / J).
      assert (Hx : 3 < x).
      { unfold x. apply Rmult_lt_reg_r with J; [exact HJ|].
        unfold Rdiv. rewrite Rmult_assoc, Rinv_l by lra. lra. }
      assert (Hln : 1 < ln x).
      { rewrite <- (ln_exp 1) at 1. apply ln_increasing; [apply exp_pos|].
        pose proof exp_le_3. lra. }
      assert (Hr : 1 + / 60000000 * ln x < Rpower x (/ 60000000)).
      { unfold Rpower. apply exp_ineq1. nra. }
      assert (Hgain : Vi + d * Rpower x (/ 60000000) - Vf > d / 60000000).
      { unfold d in *. nra. }
      split; [exact Hgain|]. intros H60. lra.
  - intros Hlt. split.
    + rewrite velocity_as_documented_of_length by exact HJ.
      rewrite Rabs_left by lra. lra.
    + unfold _mp_get_velocity. rewrite Hrad. fold J.
      assert (HL : 0 < _mp_get_length cfg Vi Vf) by (apply get_length_pos; [exact HJ|lra]).
      assert (Hc : 0 < cubert J) by (unfold cubert; rewrite pow_pos by exact HJ; apply exp_pos).
      assert (Hp : 0 < pow (_mp_get_length cfg Vi Vf) 0.6666667)
        by (rewrite pow_pos by exact HL; apply exp_pos).
      nra.
Qed.

Lemma velocity_of_length_round_trip_witness :
  velocity_as_documented cfg_jerk_50e6 0 (_mp_get_length cfg_jerk_50e6 0 100) = 100
  /\ _mp_get_velocity (mm_with_jerk cfg_jerk_50e6) 0 (_mp_get_length cfg_jerk_50e6 0 100)
     = 0 + (100 - 0) * Rpower ((100 - 0) ^ 3 / linear_jerk_max cfg_jerk_50e6) (/ 60000000)
  /\ velocity_as_documented cfg_jerk_50e6 100 (_mp_get_length cfg_jerk_50e6 100 0)
     = 2 * 100 - 0.
Proof.
  destruct (velocity_of_length_round_trip cfg_jerk_50e6 (mm_with_jerk cfg_jerk_50e6) 0 100)
    as [Hup _]; [simpl; lra|reflexivity|].
  destruct (velocity_of_length_round_trip cfg_jerk_50e6 (mm_with_jerk cfg_jerk_50e6) 100 0)
    as [_ Hdown]; [simpl; lra|reflexivity|].
  destruct (Hup ltac:(lra)) as (H1 & H2 & _).
  destruct (Hdown ltac:(lra)) as (H3 & _).
  split; [exact H1|]. split; [exact H2|exact H3].
Defined.

Lemma velocity_of_length_round_trip_fails :
  Rabs (_mp_get_velocity (mm_with_jerk cfg_jerk_50e6) 100
          (_mp_get_length cfg_jerk_50e6 100 0) - 0) > 0.000001
  /\ Rabs (_mp_get_velocity (mm_with_jerk cfg_jerk_50e6) 0
             (_mp_get_length cfg_jerk_50e6 0 1000000) - 1000000) > 0.000001.
Proof.
  split.
  - unfold _mp_get_velocity.
    pose proof (pow_nonneg (_mp_get_length cfg_jerk_50e6 100 0) 0.6666667) as Hp.
    pose proof (cubert_nonneg (linear_jerk_max cfg_jerk_50e6)) as Hc.
    change (mm_linear_jerk_rad3 (mm_with_jerk cfg_jerk_50e6))
      with (cubert (linear_jerk_max cfg_jerk_50e6)).
    pose proof (Rmult_le_pos _ _ Hc Hp) as Hm.
    rewrite Rabs_pos_eq; lra.
  - rewrite get_velocity_get_length; [|simpl; lra|reflexivity|lra].
    change (linear_jerk_max cfg_jerk_50e6) with 50000000.
    set (x := (1000000 - 0) ^ 3 / 50000000).
    assert (Hx : 3 < x) by (unfold x; simpl; lra).
    assert (Hln : 1 < ln x).
    { rewrite <- (ln_exp 1) at 1. apply ln_increasing; [apply exp_pos|].
      pose proof exp_le_3. lra. }
    assert (Hr : 1 + / 60000000 * ln x < Rpower x (/ 60000000)).
    { unfold Rpower. apply exp_ineq1. nra. }
    rewrite Rabs_pos_eq; nra.
Qed.

(** Over the reals, where a unit vector has norm 1 exactly, the factor of a
    junction is as its comment says. *)
Lemma dot_bounds u v : is_unit_vector u -> is_unit_vector v -> -1 <= dot u v <= 1.
Proof.
  unfold is_unit_vector, dot. intros Hu Hv.
  set (u0 := vget u Axis.X) in *. set (u1 := vget u Axis.Y) in *.
  set (u2 := vget u Axis.Z) in *. set (u3 := vget u Axis.A) in *.
  set (u4 := vget u Axis.B) in *. set (u5 := vget u Axis.C) in *.
  set (v0 := vget v Axis.X) in *. set (v1 := vget v Axis.Y) in *.
  set (v2 := vget v Axis.Z) in *. set (v3 := vget v Axis.A) in *.
  set (v4 := vget v Axis.B) in *. set (v5 := vget v Axis.C) in *.
  pose proof (Rle_0_sqr (u0 - v0)). pose proof (Rle_0_sqr (u1 - v1)).
  pose proof (Rle_0_sqr (u2 - v2)). pose proof (Rle_0_sqr (u3 - v3)).
  pose proof (Rle_0_sqr (u4 - v4)). pose proof (Rle_0_sqr (u5 - v5)).
  pose proof (Rle_0_sqr (u0 + v0)). pose proof (Rle_0_sqr (u1 + v1)).
  pose proof (Rle_0_sqr (u2 + v2)). pose proof (Rle_0_sqr (u3 + v3)).
  pose proof (Rle_0_sqr (u4 + v4)). pose proof (Rle_0_sqr (u5 + v5)).
  unfold Rsqr in *. split; lra.
Qed.

Lemma dot_reversal u : dot u (reversal u) = - dot u u.
Proof.
  unfold dot, reversal.
  cbv [vec_init vget AXES Axis.X Axis.Y Axis.Z Axis.A Axis.B Axis.C seq map nth].
  ring.
Qed.

(** The factor over the reals: in [[0, 1]], 1 for a straight join and 0 for a
    reversal.  [Double._mp_get_angular_jerk_factor] is the same function on
    the doubles that the planner stores. *)
Lemma angular_jerk_factor_over_the_reals (mm : mpMoveMasterSingleton) (p : mpBuffer) :
  is_unit_vector (mm_unit_vec mm) ->
  is_unit_vector (bf_unit_vec p) ->
  -1 <= dot (mm_unit_vec mm) (bf_unit_vec p) <= 1
  /\ 0 <= _mp_get_angular_jerk_factor mm p <= 1
  /\ (bf_unit_vec p = mm_unit_vec mm -> _mp_get_angular_jerk_factor mm p = 1)
  /\ (bf_unit_vec p = reversal (mm_unit_vec mm) -> _mp_get_angular_jerk_factor mm p = 0).
Proof.
  intros Hu Hv. split; [now apply dot_bounds|].
  unfold _mp_get_angular_jerk_factor. fold (dot (mm_unit_vec mm) (bf_unit_vec p)).
  set (c := dot (mm_unit_vec mm) (bf_unit_vec p)).
  split; [|split].
  - pose proof (acos_bound c) as [H0 H1]. pose proof PI_RGT_0.
    split; [apply cos_ge_0; lra|apply COS_bound].
  - intros E. unfold c. rewrite E. unfold is_unit_vector in Hu. rewrite Hu.
    rewrite acos_1. replace (0 / 2) with 0 by lra. apply cos_0.
  - intros E. unfold c. rewrite E, dot_reversal. unfold is_unit_vector in Hu. rewrite Hu.
    rewrite acos_opp, acos_1. replace ((PI - 0) / 2) with (PI / 2) by lra. apply cos_PI2.
Qed.

(** C8: when the write slot is not EMPTY, mp_queued_stop, mp_queued_start and
    mp_queued_end hand their caller no status (they are void): each logs its
    trap and leaves the pool as it was. *)
Theorem queued_directives_without_write_buffer (K : mpConstants) (cfg : cfgStructure)
    (s : planner) :
  bf_buffer_state (deref (mb s) (mb_w (mb s))) <> MP_BUFFER_EMPTY ->
  produce K cfg CallQueuedStop s
    = (None, TRAP "Failed to get buffer in mp_queued_stop()" s)
  /\ produce K cfg CallQueuedStart s
    = (None, TRAP "Failed to get buffer in mp_queued_start()" s)
  /\ produce K cfg CallQueuedEnd s
    = (None, TRAP "Failed to get buffer in mp_queued_end()" s)
  /\ mb (mp_queued_stop s) = mb s
  /\ mb (mp_queued_start s) = mb s
  /\ mb (mp_queued_end s) = mb s.
Proof.
  intros H. unfold produce, mp_queued_stop, mp_queued_start, mp_queued_end.
  rewrite get_write_buffer_fail by exact H. repeat split.
Qed.

Lemma write_slot_taken_not_empty :
  bf_buffer_state (deref (mb write_slot_taken) (mb_w (mb write_slot_taken)))
  <> MP_BUFFER_EMPTY.
Proof. vm_compute. discriminate. Qed.

Lemma queued_directives_without_write_buffer_witness :
  produce sample_constants cfg_jerk_50e6 CallQueuedStop write_slot_taken
    = (None, TRAP "Failed to get buffer in mp_queued_stop()" write_slot_taken)
  /\ produce sample_constants cfg_jerk_50e6 CallQueuedStart write_slot_taken
    = (None, TRAP "Failed to get buffer in mp_queued_start()" write_slot_taken)
  /\ produce sample_constants cfg_jerk_50e6 CallQueuedEnd write_slot_taken
    = (None, TRAP "Failed to get buffer in mp_queued_end()" write_slot_taken)
  /\ mb (mp_queued_stop write_slot_taken) = mb write_slot_taken
  /\ mb (mp_queued_start write_slot_taken) = mb write_slot_taken
  /\ mb (mp_queued_end write_slot_taken) = mb write_slot_taken.
Proof.
  apply (queued_directives_without_write_buffer sample_constants cfg_jerk_50e6
           write_slot_taken).
  vm_compute. discriminate.
Defined.

Lemma queued_stop_surfaces_no_status :
  bf_buffer_state (deref (mb write_slot_taken) (mb_w (mb write_slot_taken)))
    <> MP_BUFFER_EMPTY
  /\ fst (produce sample_constants cfg_jerk_50e6 CallQueuedStop write_slot_taken)
     <> Some TG_BUFFER_FULL_FATAL.
Proof. split; [vm_compute; discriminate|]. simpl. discriminate. Qed.

(** Projections of assignments, and nothing else. *)
Ltac proj_simpl :=
  cbn [mm mp_0 mp_1 mr mb mq traps set_mm set_mp_0 set_mp_1 set_mr set_mb set_mq TRAP
       mb_w mb_q mb_r mb_bf set_mb_w set_mb_q set_mb_r set_mb_bf
       mr_run_flag mr_run_move mr_position mr_target mr_length mr_time mr_microseconds
       mr_elapsed_time mr_midpoint_velocity mr_midpoint_acceleration mr_segments
       mr_segment_count mr_segment_time mr_segment_length mr_segment_velocity
       mr_segment_theta mr_center_1 mr_center_2
       set_mr_run_flag set_mr_run_move set_mr_position set_mr_target set_mr_length
       set_mr_time set_mr_microseconds set_mr_elapsed_time set_mr_midpoint_velocity
       set_mr_midpoint_acceleration set_mr_segments set_mr_segment_count
       set_mr_segment_time set_mr_segment_length set_mr_segment_velocity
       set_mr_segment_theta set_mr_center_1 set_mr_center_2
       mm_position mm_target mm_unit_vec mm_ang_jerk_vec mm_linear_jerk_div2
       mm_linear_jerk_rad3 set_mm_position set_mm_target set_mm_unit_vec
       set_mm_ang_jerk_vec set_mm_linear_jerk_div2 set_mm_linear_jerk_rad3
       bf_nx bf_pv bf_target bf_unit_vec bf_a bf_buffer_state bf_move_type bf_move_state
       bf_replannable bf_time bf_length bf_start_velocity bf_end_velocity
       bf_request_velocity set_bf_nx set_bf_pv set_bf_target set_bf_unit_vec set_bf_a
       set_bf_buffer_state set_bf_move_type set_bf_move_state set_bf_replannable
       set_bf_time set_bf_length set_bf_start_velocity set_bf_end_velocity
       set_bf_request_velocity
       a_theta a_radius a_angular_travel a_linear_travel a_axis_1 a_axis_2 a_axis_linear
       set_a_theta
       m_path_mode m_head m_body m_tail m_length m_head_length m_body_length m_tail_length
       m_initial_velocity_req m_initial_velocity m_target_velocity m_cruise_velocity
       m_final_velocity set_m_path_mode set_m_head set_m_body set_m_tail set_m_length
       set_m_head_length set_m_body_length set_m_tail_length set_m_initial_velocity_req
       set_m_initial_velocity set_m_target_velocity set_m_cruise_velocity
       set_m_final_velocity fst snd].


Lemma modify_run_same f bf s :
  (bf < length (mb_bf (mb s)))%nat ->
  deref (mb (modify_run bf f s)) bf = f (deref (mb s) bf).
Proof. intros H. unfold modify_run. cbn [mb set_mb]. now apply deref_modify_same. Qed.


Lemma region_in_slot_0_deref t len :
  deref (mb (region_in_slot_0 t len)) 0
  = set_bf_replannable true (set_bf_length len (set_bf_move_type t
      (set_bf_buffer_state MP_BUFFER_RUNNING
         (set_bf_pv 6 (set_bf_nx 1 zero_buffer))))).
Proof. reflexivity. Qed.

(** What "initialize arc variables" computes. *)
Lemma arc_initialize_spec cfg bf s :
  (bf < length (mb_bf (mb s)))%nat ->
  let b := deref (mb s) bf in
  let s' := arc_initialize cfg bf s in
  mr_segments (mr s') = ceil (bf_length b / min_segment_len cfg)
  /\ mr_segment_count (mr s') = to_uint32 (mr_segments (mr s'))
  /\ mr_segment_theta (mr s') = a_angular_travel (bf_a b) / mr_segments (mr s')
  /\ mr_segment_length (mr s') = a_linear_travel (bf_a b) / mr_segments (mr s')
  /\ mr_microseconds (mr s') = uSec (bf_time b / mr_segments (mr s'))
  /\ mr_center_1 (mr s')
     = vget (mr_position (mr s)) (a_axis_1 (bf_a b))
       - sin (a_theta (bf_a b)) * a_radius (bf_a b)
  /\ mr_center_2 (mr s')
     = vget (mr_position (mr s)) (a_axis_2 (bf_a b))
       - cos (a_theta (bf_a b)) * a_radius (bf_a b)
  /\ deref (mb s') bf = set_bf_move_state MP_STATE_RUNNING b
  /\ mq s' = mq s
  /\ length (mb_bf (mb s')) = length (mb_bf (mb s)).
Proof.
  intros Hbf b s'. subst s'. unfold arc_initialize. fold b.
  rewrite modify_run_same by (proj_simpl; exact Hbf).
  unfold modify_run. proj_simpl. rewrite length_modify. fold b.
  repeat split.
Qed.

(** What "compute an arc segment and exit" does. *)
Lemma arc_segment_spec bf s :
  (bf < length (mb_bf (mb s)))%nat ->
  let s' := snd (arc_segment bf s) in
  fst (arc_segment bf s)
  = (if decide (mr_segment_count (mr s') > 0)%Z then TG_EAGAIN else TG_OK)
  /\ a_theta (bf_a (deref (mb s') bf))
     = a_theta (bf_a (deref (mb s) bf)) + mr_segment_theta (mr s)
  /\ mr_segment_count (mr s') = dec_uint32 (mr_segment_count (mr s))
  /\ (exists travel, mq s' = mq s ++ [MqLine travel (mr_microseconds (mr s))])
  /\ mr_position (mr s') = vec_init (fun i => vget (mr_target (mr s')) i)
  /\ mr_segments (mr s') = mr_segments (mr s)
  /\ mr_segment_theta (mr s') = mr_segment_theta (mr s)
  /\ mr_segment_length (mr s') = mr_segment_length (mr s)
  /\ mr_microseconds (mr s') = mr_microseconds (mr s)
  /\ mr_center_1 (mr s') = mr_center_1 (mr s)
  /\ mr_center_2 (mr s') = mr_center_2 (mr s).
Proof.
  intros Hbf s'. subst s'. unfold arc_segment, mq_queue_line, _mp_set_mr_position.
  proj_simpl.
  rewrite !modify_run_same by exact Hbf. unfold modify_run. proj_simpl.
  case_decide; proj_simpl; rewrite ?deref_modify_same by exact Hbf; proj_simpl;
    (split; [first [rewrite decide_True by assumption | rewrite decide_False by assumption];
             reflexivity|]);
    repeat split; eauto.
Qed.

(** The line that "compute an arc segment and exit" queues. *)
Lemma arc_segment_line bf s :
  (bf < length (mb_bf (mb s)))%nat ->
  let b := deref (mb s) bf in
  let s' := snd (arc_segment bf s) in
  mr_target (mr s')
  = arc_segment_target (bf_a b) (a_theta (bf_a b) + mr_segment_theta (mr s)) (mr s)
  /\ mq s' = mq s ++ [MqLine (vec_init (fun i => vget (mr_target (mr s')) i
                                                  - vget (mr_position (mr s)) i))
                        (mr_microseconds (mr s))].
Proof.
  intros Hbf b s'. subst s'. unfold arc_segment, mq_queue_line, _mp_set_mr_position.
  proj_simpl.
  rewrite !modify_run_same by exact Hbf. unfold modify_run. proj_simpl. fold b.
  unfold arc_segment_target. proj_simpl.
  case_decide; proj_simpl; rewrite ?deref_modify_same by exact Hbf; proj_simpl;
    repeat split.
Qed.

Lemma vget_insert_eq (l : list R) i v : (i < length l)%nat -> vget (<[i:=v]> l) i = v.
Proof.
  intros Hi. unfold vget. rewrite nth_lookup, list_lookup_insert_eq by exact Hi. reflexivity.
Qed.

Lemma vget_insert_ne (l : list R) i j v : i <> j -> vget (<[i:=v]> l) j = vget l j.
Proof.
  intros Hne. unfold vget. rewrite !nth_lookup, list_lookup_insert_ne by exact Hne.
  reflexivity.
Qed.

(** The target of a segment lies on the circle. *)
Lemma arc_segment_target_on_circle a theta r :
  a_axis_1 a <> a_axis_2 a -> a_axis_linear a <> a_axis_1 a ->
  a_axis_linear a <> a_axis_2 a ->
  (a_axis_1 a < length (mr_target r))%nat -> (a_axis_2 a < length (mr_target r))%nat ->
  let t := arc_segment_target a theta r in
  vget t (a_axis_1 a) = mr_center_1 r + sin theta * a_radius a
  /\ vget t (a_axis_2 a) = mr_center_2 r + cos theta * a_radius a
  /\ square (vget t (a_axis_1 a) - mr_center_1 r)
     + square (vget t (a_axis_2 a) - mr_center_2 r) = square (a_radius a)
  /\ ((a_axis_linear a < length (mr_target r))%nat ->
      vget t (a_axis_linear a)
      = vget (mr_target r) (a_axis_linear a) + mr_segment_length r)
  /\ (forall i, i <> a_axis_1 a -> i <> a_axis_2 a -> i <> a_axis_linear a ->
                vget t i = vget (mr_target r) i).
Proof.
  intros H12 Hl1 Hl2 L1 L2 t. subst t. unfold arc_segment_target. cbv zeta.
  assert (E1 : vget (<[a_axis_linear a :=
                        vget (<[a_axis_2 a := mr_center_2 r + cos theta * a_radius a]>
                                (<[a_axis_1 a := mr_center_1 r + sin theta * a_radius a]>
                                   (mr_target r))) (a_axis_linear a)
                        + mr_segment_length r]>
                     (<[a_axis_2 a := mr_center_2 r + cos theta * a_radius a]>
                        (<[a_axis_1 a := mr_center_1 r + sin theta * a_radius a]>
                           (mr_target r)))) (a_axis_1 a)
               = mr_center_1 r + sin theta * a_radius a).
  { rewrite vget_insert_ne by exact Hl1. rewrite vget_insert_ne by (intros X; now apply H12).
    now apply vget_insert_eq. }
  assert (E2 : vget (<[a_axis_linear a :=
                        vget (<[a_axis_2 a := mr_center_2 r + cos theta * a_radius a]>
                                (<[a_axis_1 a := mr_center_1 r + sin theta * a_radius a]>
                                   (mr_target r))) (a_axis_linear a)
                        + mr_segment_length r]>
                     (<[a_axis_2 a := mr_center_2 r + cos theta * a_radius a]>
                        (<[a_axis_1 a := mr_center_1 r + sin theta * a_radius a]>
                           (mr_target r)))) (a_axis_2 a)
               = mr_center_2 r + cos theta * a_radius a).
  { rewrite vget_insert_ne by exact Hl2. apply vget_insert_eq. now rewrite length_insert. }
  split; [exact E1|]. split; [exact E2|]. split.
  { rewrite E1, E2. unfold square.
    replace (mr_center_1 r + sin theta * a_radius a - mr_center_1 r)
      with (sin theta * a_radius a) by ring.
    replace (mr_center_2 r + cos theta * a_radius a - mr_center_2 r)
      with (cos theta * a_radius a) by ring.
    pose proof (sin2_cos2 theta) as H. unfold Rsqr in H.
    replace (sin theta * a_radius a * (sin theta * a_radius a)
             + cos theta * a_radius a * (cos theta * a_radius a))
      with ((sin theta * sin theta + cos theta * cos theta) * (a_radius a * a_radius a))
      by ring.
    rewrite H. ring. }
  split.
  { intros Ll. rewrite vget_insert_eq by (now rewrite !length_insert).
    rewrite vget_insert_ne by (intros X; apply Hl2; now symmetry).
    rewrite vget_insert_ne by (intros X; apply Hl1; now symmetry). reflexivity. }
  intros i N1 N2 Nl.
  rewrite vget_insert_ne by (intros X; apply Nl; now symmetry).
  rewrite vget_insert_ne by (intros X; apply N2; now symmetry).
  rewrite vget_insert_ne by (intros X; apply N1; now symmetry). reflexivity.
Qed.

Lemma arc_initialize_target cfg bf s :
  mr_target (mr (arc_initialize cfg bf s))
  = <[a_axis_linear (bf_a (deref (mb s) bf)) :=
        vget (mr_position (mr s)) (a_axis_linear (bf_a (deref (mb s) bf)))]>
      (mr_target (mr s))
  /\ mr_position (mr (arc_initialize cfg bf s)) = mr_position (mr s).
Proof. unfold arc_initialize, modify_run. proj_simpl. split; reflexivity. Qed.

(** C7: without room in the motor queue the arc runner returns TG_EAGAIN and
    changes nothing.  With room, on a NEW buffer it computes
    segments = ceil(length / min_segment_len), segment_theta, segment_length,
    the microseconds per segment, the two centers and the segment count as
    stated, and in that same call runs the first segment; on a RUNNING
    buffer it runs one segment.  A segment advances theta by segment_theta,
    sets mr.target to center + (sin theta, cos theta) * radius on the two
    plane axes and segment_length further on the linear axis, queues the one
    line from mr.position to that target, moves mr.position onto it and
    decrements the count; the call returns TG_EAGAIN while the count is
    above zero and TG_OK otherwise.  Such a target lies on the circle: its
    distance from the center in the plane is the radius. *)
Theorem arc_runner_with_room (cfg : cfgStructure) (bf : nat) (s : planner) :
  (bf < length (mb_bf (mb s)))%nat ->
  let b := deref (mb s) bf in
  let s' := snd (_mp_run_arc cfg true bf s) in
  _mp_run_arc cfg false bf s = (TG_EAGAIN, s)
  /\ (bf_move_state b = MP_STATE_NEW ->
      mr_segments (mr s') = ceil (bf_length b / min_segment_len cfg)
      /\ mr_segment_theta (mr s') = a_angular_travel (bf_a b) / mr_segments (mr s')
      /\ mr_segment_length (mr s') = a_linear_travel (bf_a b) / mr_segments (mr s')
      /\ mr_microseconds (mr s') = uSec (bf_time b / mr_segments (mr s'))
      /\ mr_center_1 (mr s')
         = vget (mr_position (mr s)) (a_axis_1 (bf_a b))
           - sin (a_theta (bf_a b)) * a_radius (bf_a b)
      /\ mr_center_2 (mr s')
         = vget (mr_position (mr s)) (a_axis_2 (bf_a b))
           - cos (a_theta (bf_a b)) * a_radius (bf_a b)
      /\ mr_segment_count (mr s') = dec_uint32 (to_uint32 (mr_segments (mr s')))
      /\ a_theta (bf_a (deref (mb s') bf)) = a_theta (bf_a b) + mr_segment_theta (mr s')
      /\ mr_target (mr s')
         = arc_segment_target (bf_a b) (a_theta (bf_a b) + mr_segment_theta (mr s'))
             (set_mr_target
                (<[a_axis_linear (bf_a b) :=
                     vget (mr_position (mr s)) (a_axis_linear (bf_a b))]>
                   (mr_target (mr s)))
                (mr s'))
      /\ mq s' = mq s ++ [MqLine (vec_init (fun i => vget (mr_target (mr s')) i
                                                      - vget (mr_position (mr s)) i))
                            (mr_microseconds (mr s'))]
      /\ mr_position (mr s') = vec_init (fun i => vget (mr_target (mr s')) i)
      /\ fst (_mp_run_arc cfg true bf s)
         = if decide (mr_segment_count (mr s') > 0)%Z then TG_EAGAIN else TG_OK)
  /\ (bf_move_state b = MP_STATE_RUNNING ->
      a_theta (bf_a (deref (mb s') bf)) = a_theta (bf_a b) + mr_segment_theta (mr s)
      /\ mr_segment_count (mr s') = dec_uint32 (mr_segment_count (mr s))
      /\ mr_target (mr s')
         = arc_segment_target (bf_a b) (a_theta (bf_a b) + mr_segment_theta (mr s)) (mr s)
      /\ mq s' = mq s ++ [MqLine (vec_init (fun i => vget (mr_target (mr s')) i
                                                      - vget (mr_position (mr s)) i))
                            (mr_microseconds (mr s))]
      /\ mr_position (mr s') = vec_init (fun i => vget (mr_target (mr s')) i)
      /\ fst (_mp_run_arc cfg true bf s)
         = if decide (mr_segment_count (mr s') > 0)%Z then TG_EAGAIN else TG_OK)
  /\ (forall a theta r,
        a_axis_1 a <> a_axis_2 a -> a_axis_linear a <> a_axis_1 a ->
        a_axis_linear a <> a_axis_2 a ->
        (a_axis_1 a < length (mr_target r))%nat ->
        (a_axis_2 a < length (mr_target r))%nat ->
        (a_axis_linear a < length (mr_target r))%nat ->
        vget (arc_segment_target a theta r) (a_axis_1 a)
        = mr_center_1 r + sin theta * a_radius a
        /\ vget (arc_segment_target a theta r) (a_axis_2 a)
           = mr_center_2 r + cos theta * a_radius a
        /\ square (vget (arc_segment_target a theta r) (a_axis_1 a) - mr_center_1 r)
           + square (vget (arc_segment_target a theta r) (a_axis_2 a) - mr_center_2 r)
           = square (a_radius a)
        /\ vget (arc_segment_target a theta r) (a_axis_linear a)
           = vget (mr_target r) (a_axis_linear a) + mr_segment_length r
        /\ (forall i, i <> a_axis_1 a -> i <> a_axis_2 a -> i <> a_axis_linear a ->
                      vget (arc_segment_target a theta r) i = vget (mr_target r) i)).
Proof.
  intros Hbf b s'. split; [reflexivity|]. split; [|split].
  - intros Hnew. subst s'. unfold _mp_run_arc. cbn [negb].
    rewrite (decide_True _ _ Hnew).
    destruct (arc_initialize_spec cfg bf s Hbf)
      as (Hseg & Hcnt & Hth & Hlen & Hus & Hc1 & Hc2 & Hb & Hmq & Hl).
    destruct (arc_initialize_target cfg bf s) as (Htg & Hpos0).
    fold b in Hseg, Hth, Hlen, Hus, Hc1, Hc2, Hb, Htg.
    set (s1 := arc_initialize cfg bf s) in *.
    assert (Hrun : bf_move_state (deref (mb s1) bf) = MP_STATE_RUNNING)
      by (rewrite Hb; reflexivity).
    rewrite (decide_True _ _ Hrun).
    assert (Hbf1 : (bf < length (mb_bf (mb s1)))%nat) by (rewrite Hl; exact Hbf).
    destruct (arc_segment_spec bf s1 Hbf1)
      as (Hst & Hth1 & Hcnt' & _ & Hpos & Hseg' & Hth' & Hlen' & Hus' & Hc1' & Hc2').
    destruct (arc_segment_line bf s1 Hbf1) as (Htg1 & Hline).
    rewrite Hb in Htg1, Hth1. cbn [bf_a set_bf_move_state] in Htg1, Hth1.
    rewrite Hpos0, Hmq in Hline. clearbody s1.
    destruct (arc_segment bf s1) as [st s2]. cbn [fst snd] in *.
    rewrite Hseg', Hth', Hlen', Hus', Hc1', Hc2', Hcnt', Hcnt.
    rewrite Hcnt', Hcnt in Hst.
    assert (Htg2 : mr_target (mr s2)
                   = arc_segment_target (bf_a b)
                       (a_theta (bf_a b) + mr_segment_theta (mr s1))
                       (set_mr_target
                          (<[a_axis_linear (bf_a b) :=
                               vget (mr_position (mr s)) (a_axis_linear (bf_a b))]>
                             (mr_target (mr s)))
                          (mr s2))).
    { rewrite Htg1. unfold arc_segment_target.
      cbn [mr_center_1 mr_center_2 mr_segment_length mr_target set_mr_target].
      now rewrite Hc1', Hc2', Hlen', Htg. }
    split; [exact Hseg|]. split; [exact Hth|]. split; [exact Hlen|]. split; [exact Hus|].
    split; [exact Hc1|]. split; [exact Hc2|]. split; [reflexivity|].
    split; [exact Hth1|]. split; [exact Htg2|]. split; [exact Hline|].
    split; [exact Hpos|exact Hst].
  - intros Hrun. subst s'. unfold _mp_run_arc. cbn [negb].
    assert (Hnn : bf_move_state (deref (mb s) bf) <> MP_STATE_NEW).
    { fold b. rewrite Hrun. discriminate. }
    rewrite (decide_False _ _ Hnn), (decide_True _ _ Hrun).
    destruct (arc_segment_spec bf s Hbf)
      as (Hst & Hth & Hcnt & _ & Hpos & _).
    destruct (arc_segment_line bf s Hbf) as (Htg & Hline).
    fold b in Hth, Htg.
    split; [exact Hth|]. split; [exact Hcnt|]. split; [exact Htg|].
    split; [exact Hline|]. split; [exact Hpos|exact Hst].
  - intros a theta r H12 Hl1 Hl2 L1 L2 Ll.
    destruct (arc_segment_target_on_circle a theta r H12 Hl1 Hl2 L1 L2)
      as (E1 & E2 & E3 & E4 & E5).
    split; [exact E1|]. split; [exact E2|]. split; [exact E3|].
    split; [exact (E4 Ll)|exact E5].
Qed.

Lemma arc_runner_with_room_witness :
  (0 < length (mb_bf (mb (region_in_slot_0 MP_TYPE_ARC 3))))%nat
  /\ mr_segments (mr (snd (_mp_run_arc cfg_jerk_50e6 true 0 (region_in_slot_0 MP_TYPE_ARC 3))))
     = ceil (3 / 0.03)
  /\ mq (snd (_mp_run_arc cfg_jerk_50e6 true 0 (region_in_slot_0 MP_TYPE_ARC 3)))
     = mq (region_in_slot_0 MP_TYPE_ARC 3)
       ++ [MqLine
             (vec_init (fun i =>
                vget (mr_target (mr (snd (_mp_run_arc cfg_jerk_50e6 true 0
                                            (region_in_slot_0 MP_TYPE_ARC 3))))) i
                - vget (mr_position (mr (region_in_slot_0 MP_TYPE_ARC 3))) i))
             (mr_microseconds
                (mr (snd (_mp_run_arc cfg_jerk_50e6 true 0
                            (region_in_slot_0 MP_TYPE_ARC 3)))))].
Proof.
  assert (H : (0 < length (mb_bf (mb (region_in_slot_0 MP_TYPE_ARC 3))))%nat)
    by (vm_compute; lia).
  split; [exact H|].
  destruct (arc_runner_with_room cfg_jerk_50e6 0 (region_in_slot_0 MP_TYPE_ARC 3) H)
    as (_ & Hnew & _).
  destruct (Hnew eq_refl) as (Hseg & _ & _ & _ & _ & _ & _ & _ & _ & Hline & _).
  split; [exact Hseg|exact Hline].
Defined.

Lemma arc_runner_waits_for_the_motor_queue :
  bf_move_state (deref (mb arc_running_in_slot_0) 0) = MP_STATE_RUNNING
  /\ mr_segment_count (mr arc_running_in_slot_0) = 3%Z
  /\ fst (_mp_run_arc cfg_jerk_50e6 false 0 arc_running_in_slot_0) = TG_EAGAIN
  /\ mq (snd (_mp_run_arc cfg_jerk_50e6 false 0 arc_running_in_slot_0))
     = mq arc_running_in_slot_0
  /\ mr_segment_count (mr (snd (_mp_run_arc cfg_jerk_50e6 false 0 arc_running_in_slot_0)))
     = 3%Z.
Proof. repeat split. Qed.

Lemma fold_trap_mb tr s : mb (fold_left (fun s msg => TRAP msg s) tr s) = mb s.
Proof. revert s. induction tr as [|t tr IH]; intros s; simpl; [reflexivity|]. now rewrite IH. Qed.

Lemma fold_trap_mm tr s : mm (fold_left (fun s msg => TRAP msg s) tr s) = mm s.
Proof. revert s. induction tr as [|t tr IH]; intros s; simpl; [reflexivity|]. now rewrite IH. Qed.

Lemma fold_trap_mp_0 tr s : mp_0 (fold_left (fun s msg => TRAP msg s) tr s) = mp_0 s.
Proof. revert s. induction tr as [|t tr IH]; intros s; simpl; [reflexivity|]. now rewrite IH. Qed.

Lemma states_of_eq p p' :
  length (mb_bf p') = length (mb_bf p) ->
  (forall j, bf_buffer_state (deref p' j) = bf_buffer_state (deref p j)) ->
  states_of p' = states_of p.
Proof.
  intros Hlen H. unfold states_of. apply list_eq. intros j.
  rewrite !list_lookup_fmap. specialize (H j). unfold deref in H.
  destruct (mb_bf p' !! j) eqn:E1, (mb_bf p !! j) eqn:E2; simpl in *; try congruence.
  - apply lookup_lt_Some in E1. apply lookup_ge_None in E2. lia.
  - apply lookup_lt_Some in E2. apply lookup_ge_None in E1. lia.
Qed.

Lemma states_of_set_mb_w v p : states_of (set_mb_w v p) = states_of p.
Proof. reflexivity. Qed.

Lemma line_zero_length K target minutes s :
  pool_ok K (mb s) ->
  fst (mp_line K target minutes s) = TG_ZERO_LENGTH_MOVE ->
  let s' := snd (mp_line K target minutes s) in
  mm s' = mm s /\ mr s' = mr s /\ mq s' = mq s /\ traps s' = traps s
  /\ mp_0 s' = mp_0 s /\ mp_1 s' = mp_1 s
  /\ mb_w (mb s') = mb_w (mb s) /\ mb_q (mb s') = mb_q (mb s) /\ mb_r (mb s') = mb_r (mb s)
  /\ states_of (mb s') = states_of (mb s)
  /\ ring_of (mb s') = ring_of (mb s).
Proof.
  intros Hok. unfold mp_line.
  destruct (Rlt_dec minutes (EPSILON K)); [intros _; cbn; repeat split|].
  destruct (decide (bf_buffer_state (deref (mb s) (mb_w (mb s))) = MP_BUFFER_EMPTY))
    as [He|Hne].
  2:{ rewrite get_write_buffer_fail by exact Hne. cbn. discriminate. }
  pose proof (pool_ok_lt K _ Hok) as Hw.
  rewrite get_write_buffer_ok by assumption.
  match goal with |- context [Rlt_dec ?a ?b] => destruct (Rlt_dec a b) end;
    [|cbn; discriminate].
  intros _. cbn [snd].
  destruct Hok as (Hr & Hwlt & Hq).
  destruct (pool_ring_links K (mb s) (mb_w (mb s)) Hr Hwlt) as [Hnx _].
  assert (Hw1 : (_mp_bump K (mb_w (mb s)) < MP_BUFFER_SIZE K)%nat) by now apply bump_lt.
  destruct (pool_ring_links K (mb s) _ Hr Hw1) as [_ Hpv].
  rewrite ring_pv_bump in Hpv by exact Hwlt.
  unfold _mp_unget_write_buffer. pool_simpl.
  set (w := mb_w (mb s)) in *.
  repeat rewrite (deref_modify_field bf_pv) by (intros []; reflexivity).
  rewrite Hnx, Hpv.
  repeat split.
  - rewrite !states_of_set_mb_w.
    apply states_of_eq; [rewrite !length_modify; reflexivity|].
    intros j. destruct (decide (j = w)) as [->|Hj].
    + pool_simpl. cbn. now rewrite He.
    + pool_simpl. reflexivity.
  - ring_simpl. reflexivity.
Qed.

Lemma queue_move_status K m s :
  fst (fst (_mp_queue_move K m s)) = TG_OK
  \/ fst (fst (_mp_queue_move K m s)) = TG_BUFFER_FULL_FATAL.
Proof.
  unfold _mp_queue_move.
  repeat (destruct (_mp_queue_buffer _ _ _ _ _ _) as [? ?]; case_decide; [now right|]).
  now left.
Qed.

Lemma aline_queue_move_status K s :
  fst (aline_queue_move K s) = TG_OK \/ fst (aline_queue_move K s) = TG_BUFFER_FULL_FATAL.
Proof.
  unfold aline_queue_move. pose proof (queue_move_status K (mp_0 s) s) as H.
  destruct (_mp_queue_move K (mp_0 s) s) as [[status m] s1]. exact H.
Qed.

Lemma aline_after_arc_status K cfg t s :
  fst (aline_after_arc K cfg t s) = TG_OK
  \/ fst (aline_after_arc K cfg t s) = TG_BUFFER_FULL_FATAL.
Proof.
  unfold aline_after_arc.
  destruct (aline_compute_regions _ _ _) as [regions s1].
  pose proof (aline_queue_move_status K s1) as Hs.
  destruct (aline_queue_move K s1) as [status s2]. cbn [fst] in Hs.
  case_decide; cbn [fst]; tauto.
Qed.

Lemma aline_after_line_status K cfg mode t s :
  fst (aline_after_line K cfg mode t s) = TG_OK
  \/ fst (aline_after_line K cfg mode t s) = TG_BUFFER_FULL_FATAL.
Proof.
  unfold aline_after_line.
  destruct (aline_compute_regions _ _ _) as [regions s1].
  case_decide; [now left|].
  pose proof (aline_queue_move_status K s1) as Hs.
  destruct (aline_queue_move K s1) as [status s2]. cbn [fst] in Hs.
  case_decide; cbn [fst]; tauto.
Qed.

Lemma aline_zero_length K cfg mode target minutes s :
  fst (mp_aline K cfg mode target minutes s) = TG_ZERO_LENGTH_MOVE ->
  let s' := snd (mp_aline K cfg mode target minutes s) in
  mb s' = mb s /\ mr s' = mr s /\ mq s' = mq s /\ traps s' = traps s
  /\ mm_position (mm s') = mm_position (mm s)
  /\ mm_unit_vec (mm s') = mm_unit_vec (mm s)
  /\ (minutes < EPSILON K -> s' = s)
  /\ (~ minutes < EPSILON K -> mm_target (mm s') = mp_copy_vector target).
Proof.
  unfold mp_aline.
  destruct (Rlt_dec minutes (EPSILON K)) as [Hm|Hm]; [intros _; cbn; tauto|].
  match goal with |- context [Rlt_dec ?a ?b] => destruct (Rlt_dec a b) end.
  { intros _. cbn. tauto. }
  case_decide.
  - match goal with |- context [aline_after_arc ?K ?c ?t ?x] =>
      destruct (aline_after_arc_status K c t x) as [E|E]; rewrite E; discriminate end.
  - match goal with |- context [aline_after_line ?K ?c ?m ?t ?x] =>
      destruct (aline_after_line_status K c m t x) as [E|E]; rewrite E; discriminate end.
Qed.

(** C4: on TG_ZERO_LENGTH_MOVE, [mp_line] keeps the pool pointers, the state
    of every buffer and all of mm; [mp_aline] keeps the whole pool,
    mm.position and mm.unit_vec, and keeps the whole planner when the minutes
    are below EPSILON, but when the length is what is too short it leaves
    mm.target set to the rejected target. *)
Theorem zero_length_move_leaves_the_queue (K : mpConstants) (cfg : cfgStructure)
    (mode : cmPathControlMode) (target : list R) (minutes : R) (s : planner) :
  pool_ok K (mb s) ->
  (fst (mp_line K target minutes s) = TG_ZERO_LENGTH_MOVE ->
   let s' := snd (mp_line K target minutes s) in
   mb_w (mb s') = mb_w (mb s) /\ mb_q (mb s') = mb_q (mb s) /\ mb_r (mb s') = mb_r (mb s)
   /\ states_of (mb s') = states_of (mb s)
   /\ mm s' = mm s)
  /\ (fst (mp_aline K cfg mode target minutes s) = TG_ZERO_LENGTH_MOVE ->
      let s' := snd (mp_aline K cfg mode target minutes s) in
      mb s' = mb s
      /\ mm_position (mm s') = mm_position (mm s)
      /\ mm_unit_vec (mm s') = mm_unit_vec (mm s)
      /\ (minutes < EPSILON K -> s' = s)
      /\ (~ minutes < EPSILON K -> mm_target (mm s') = mp_copy_vector target)).
Proof.
  intros Hok. split.
  - intros H. destruct (line_zero_length K target minutes s Hok H)
      as (Hmm & _ & _ & _ & _ & _ & Hw & Hq & Hr & Hst & _).
    cbv zeta. tauto.
  - intros H. destruct (aline_zero_length K cfg mode target minutes s H)
      as (Hmb & _ & _ & _ & Hpos & Hu & H1 & H2).
    cbv zeta. tauto.
Qed.

(** *** Moves along the X axis *)

Lemma copy_vector_x a : mp_copy_vector [a; 0; 0; 0; 0; 0] = [a; 0; 0; 0; 0; 0].
Proof. reflexivity. Qed.

Lemma x_move_length a p :
  p <= a -> mp_get_axis_vector_length [a; 0; 0; 0; 0; 0] [p; 0; 0; 0; 0; 0] = a - p.
Proof.
  intros H. unfold mp_get_axis_vector_length.
  cbv [fold_left seq AXES vget nth square].
  replace (0 + (a - p) * (a - p) + (0 - 0) * (0 - 0) + (0 - 0) * (0 - 0)
           + (0 - 0) * (0 - 0) + (0 - 0) * (0 - 0) + (0 - 0) * (0 - 0))
    with ((a - p) * (a - p)) by ring.
  apply sqrt_square. lra.
Qed.

Lemma zero_vector_eq : zero_vector = [0; 0; 0; 0; 0; 0].
Proof. reflexivity. Qed.

Lemma init_pool_ok K : (0 < MP_BUFFER_SIZE K)%nat -> pool_ok K (mb (mp_init K)).
Proof. intros H. repeat split. exact H. Qed.

Lemma aline_too_short_from_origin a minutes :
  0 <= a < MIN_LINE_LENGTH sample_constants ->
  EPSILON sample_constants <= minutes ->
  mp_aline sample_constants cfg_jerk_50e6 PATH_CONTINUOUS [a; 0; 0; 0; 0; 0] minutes
    (mp_init sample_constants)
  = (TG_ZERO_LENGTH_MOVE, aline_set_length [a; 0; 0; 0; 0; 0] (mp_init sample_constants)).
Proof.
  intros Ha Hm. unfold mp_aline.
  destruct (Rlt_dec minutes (EPSILON sample_constants)); [lra|].
  assert (E : m_length (mp_0 (aline_set_length [a; 0; 0; 0; 0; 0]
                               (mp_init sample_constants))) = a).
  { unfold aline_set_length. proj_simpl. rewrite copy_vector_x.
    change (mm_position (mm (mp_init sample_constants))) with [0; 0; 0; 0; 0; 0].
    rewrite x_move_length by lra. lra. }
  rewrite E. destruct (Rlt_dec a (MIN_LINE_LENGTH sample_constants)); [reflexivity|lra].
Qed.

Lemma zero_length_aline_overwrites_target :
  fst (mp_aline sample_constants cfg_jerk_50e6 PATH_CONTINUOUS [0.01; 0; 0; 0; 0; 0] 1
         (mp_init sample_constants)) = TG_ZERO_LENGTH_MOVE
  /\ mm_target (mm (snd (mp_aline sample_constants cfg_jerk_50e6 PATH_CONTINUOUS
                           [0.01; 0; 0; 0; 0; 0] 1 (mp_init sample_constants))))
     <> mm_target (mm (mp_init sample_constants)).
Proof.
  rewrite aline_too_short_from_origin by (simpl; lra).
  split; [reflexivity|].
  unfold aline_set_length. proj_simpl. rewrite copy_vector_x.
  change (mm_target (mm (mp_init sample_constants))) with [0; 0; 0; 0; 0; 0].
  intros E. injection E as E. lra.
Qed.

Lemma zero_length_move_leaves_the_queue_witness :
  pool_ok sample_constants (mb (mp_init sample_constants))
  /\ fst (mp_aline sample_constants cfg_jerk_50e6 PATH_CONTINUOUS [0.01; 0; 0; 0; 0; 0] 1
            (mp_init sample_constants)) = TG_ZERO_LENGTH_MOVE
  /\ mb (snd (mp_aline sample_constants cfg_jerk_50e6 PATH_CONTINUOUS
                [0.01; 0; 0; 0; 0; 0] 1 (mp_init sample_constants)))
     = mb (mp_init sample_constants)
  /\ mm_position (mm (snd (mp_aline sample_constants cfg_jerk_50e6 PATH_CONTINUOUS
                             [0.01; 0; 0; 0; 0; 0] 1 (mp_init sample_constants))))
     = mm_position (mm (mp_init sample_constants)).
Proof.
  assert (Hok : pool_ok sample_constants (mb (mp_init sample_constants)))
    by (apply init_pool_ok; simpl; lia).
  assert (Hz : fst (mp_aline sample_constants cfg_jerk_50e6 PATH_CONTINUOUS
                      [0.01; 0; 0; 0; 0; 0] 1 (mp_init sample_constants))
               = TG_ZERO_LENGTH_MOVE)
    by (rewrite aline_too_short_from_origin by (simpl; lra); reflexivity).
  destruct (zero_length_move_leaves_the_queue sample_constants cfg_jerk_50e6
              PATH_CONTINUOUS [0.01; 0; 0; 0; 0; 0] 1 (mp_init sample_constants) Hok)
    as [_ Ha].
  destruct (Ha Hz) as (Hmb & Hpos & _).
  split; [exact Hok|]. split; [exact Hz|]. split; [exact Hmb|exact Hpos].
Defined.

Lemma dwell_fatal seconds s s' :
  mp_dwell seconds s = (TG_BUFFER_FULL_FATAL, s') ->
  s' = TRAP "Failed to get buffer in mp_dwell()" s.
Proof.
  unfold mp_dwell. destruct (_mp_get_write_buffer (mb s)) as [[bf|] p]; intros E.
  - discriminate.
  - now injection E.
Qed.

Lemma line_fatal K target minutes s s' :
  mp_line K target minutes s = (TG_BUFFER_FULL_FATAL, s') ->
  s' = TRAP "Failed to get buffer in mp_line()" s.
Proof.
  unfold mp_line. destruct (Rlt_dec minutes (EPSILON K)); [discriminate|].
  destruct (_mp_get_write_buffer (mb s)) as [[bf|] p]; intros E.
  - match type of E with context [Rlt_dec ?a ?b] => destruct (Rlt_dec a b) end;
      discriminate.
  - now injection E.
Qed.

Lemma arc_fatal cfg target i j k theta radius angular_travel linear_travel
    axis_1 axis_2 axis_linear minutes s s' :
  mp_arc cfg target i j k theta radius angular_travel linear_travel
    axis_1 axis_2 axis_linear minutes s = (TG_BUFFER_FULL_FATAL, s') ->
  s' = TRAP "Failed to get buffer in mp_arc()" s.
Proof.
  unfold mp_arc. destruct (_mp_get_write_buffer (mb s)) as [[bf|] p]; intros E.
  - match type of E with context [Rlt_dec ?a ?b] => destruct (Rlt_dec a b) end;
      discriminate.
  - now injection E.
Qed.

Lemma aline_set_length_mb target s : mb (aline_set_length target s) = mb s.
Proof. reflexivity. Qed.

Lemma aline_set_velocity_and_jerk_mb cfg minutes s :
  mb (aline_set_velocity_and_jerk cfg minutes s) = mb s.
Proof. reflexivity. Qed.

Lemma aline_set_initial_velocity_mb mode t s :
  mb (aline_set_initial_velocity mode t s) = mb s.
Proof. unfold aline_set_initial_velocity. case_decide; reflexivity. Qed.

Lemma aline_compute_regions_mb K cfg s : mb (snd (aline_compute_regions K cfg s)) = mb s.
Proof.
  unfold aline_compute_regions.
  destruct (_mp_compute_regions _ _ _ _ _ _ _) as [[regions m] tr].
  cbn [snd]. now rewrite fold_trap_mb.
Qed.

Lemma regions_head_tail_count K cfg mm m :
  fst (fst (regions_head_tail K cfg mm m)) = 2%nat.
Proof.
  unfold regions_head_tail. destruct (ht_iterate K cfg 100 mm m). reflexivity.
Qed.

Lemma compute_regions_none K cfg mm Vir Vt Vf m :
  fst (fst (_mp_compute_regions K cfg mm Vir Vt Vf m)) = 0%nat ->
  m_length m < MIN_LINE_LENGTH K.
Proof.
  unfold _mp_compute_regions.
  destruct (Rlt_dec (m_length (regions_setup Vir Vt Vf m)) (MIN_LINE_LENGTH K)) as [H|H];
    [intros _; exact H|].
  destruct (Rgt_dec _ _); [discriminate|].
  repeat (case_decide; [discriminate|]).
  rewrite regions_head_tail_count. discriminate.
Qed.

Lemma aline_compute_regions_some K cfg s :
  ~ m_length (mp_0 s) < MIN_LINE_LENGTH K ->
  fst (aline_compute_regions K cfg s) <> 0%nat.
Proof.
  intros Hlen E. apply Hlen. unfold aline_compute_regions in E.
  pose proof (compute_regions_none K cfg (mm s) (m_initial_velocity_req (mp_0 s))
                (m_target_velocity (mp_0 s)) 0 (mp_0 s)) as H.
  destruct (_mp_compute_regions _ _ _ _ _ _ _) as [[regions m] tr].
  cbn [fst] in *. auto.
Qed.

(** The pool that [_mp_queue_move] works on inside [mp_aline] is the caller's,
    and the planning structure it is given has the length of the move. *)
Lemma aline_prepared_mb cfg target minutes s :
  mb (aline_set_velocity_and_jerk cfg minutes (aline_set_length target s)) = mb s.
Proof. reflexivity. Qed.

Section AlineStatus.

Variable K : mpConstants.
Variable cfg : cfgStructure.
Variable s : planner.
Hypothesis Hok : pool_ok K (mb s).
Hypothesis Hsize : (3 <= MP_BUFFER_SIZE K)%nat.

Let w := mb_w (mb s).
Let w1 := _mp_bump K w.
Let w2 := _mp_bump K w1.
Let st i := bf_buffer_state (deref (mb s) i).

(** [_mp_queue_move] on any state that shares the caller's pool. *)
Lemma aline_queue_move_cases s0 :
  mb s0 = mb s ->
  let r := aline_queue_move K s0 in
  (st w <> MP_BUFFER_EMPTY -> fst r = TG_BUFFER_FULL_FATAL /\ mb (snd r) = mb s)
  /\ (st w = MP_BUFFER_EMPTY -> st w1 <> MP_BUFFER_EMPTY ->
      fst r = TG_BUFFER_FULL_FATAL
      /\ bf_buffer_state (deref (mb (snd r)) w) = MP_BUFFER_QUEUED)
  /\ (st w = MP_BUFFER_EMPTY -> st w1 = MP_BUFFER_EMPTY -> st w2 <> MP_BUFFER_EMPTY ->
      fst r = TG_BUFFER_FULL_FATAL
      /\ bf_buffer_state (deref (mb (snd r)) w) = MP_BUFFER_QUEUED
      /\ bf_buffer_state (deref (mb (snd r)) w1) = MP_BUFFER_QUEUED)
  /\ (st w = MP_BUFFER_EMPTY -> st w1 = MP_BUFFER_EMPTY -> st w2 = MP_BUFFER_EMPTY ->
      fst r = TG_OK).
Proof.
  intros Hmb r. subst r. unfold aline_queue_move.
  assert (Hok0 : pool_ok K (mb s0)) by (rewrite Hmb; exact Hok).
  assert (Hne : w1 <> w) by (apply bump_ne; [lia|apply Hok]).
  split; [|split; [|split]].
  - intros H0.
    rewrite queue_move_fail_head by (rewrite Hmb; exact H0). split; [reflexivity|exact Hmb].
  - intros H0 H1.
    destruct (queue_move_fail_body K (mp_0 s0) s0 Hok0 Hsize) as (m' & s' & E & Q);
      [rewrite Hmb; assumption..|]. rewrite E. split; [reflexivity|].
    cbn [snd mb set_mp_0].
    destruct Q as (_ & _ & _ & _ & _ & Hq & _). rewrite Hmb in Hq. exact Hq.
  - intros H0 H1 H2.
    destruct (queue_move_fail_tail K (mp_0 s0) s0 Hok0 Hsize)
      as (m' & s1 & s' & E & Q1 & Q2 & Hw);
      [rewrite Hmb; assumption..|]. rewrite E. split; [reflexivity|].
    cbn [snd mb set_mp_0].
    destruct Q1 as (_ & _ & _ & _ & _ & Hq1 & _).
    destruct Q2 as (_ & _ & _ & _ & Hj2 & Hq2 & _).
    rewrite Hw, Hmb in Hj2, Hq2. rewrite Hmb in Hq1. fold w w1 in Hj2, Hq2, Hq1.
    split; [|exact Hq2].
    rewrite Hj2 by (intros E'; apply Hne; symmetry; exact E'). exact Hq1.
  - intros H0 H1 H2.
    destruct (queue_move_ok K (mp_0 s0) s0 Hok0 Hsize) as (s1 & s2 & s' & E & _);
      [rewrite Hmb; assumption..|]. rewrite E. reflexivity.
Qed.

End AlineStatus.

Lemma aline_set_initial_velocity_length mode t s :
  m_length (mp_0 (aline_set_initial_velocity mode t s)) = m_length (mp_0 s).
Proof. unfold aline_set_initial_velocity. case_decide; reflexivity. Qed.

Lemma aline_set_velocity_and_jerk_length cfg minutes s :
  m_length (mp_0 (aline_set_velocity_and_jerk cfg minutes s)) = m_length (mp_0 s).
Proof. reflexivity. Qed.

(** Past its two zero-length tests, [mp_aline] returns what [_mp_queue_move]
    returns, on the caller's pool; when that is not TG_OK it returns its state too. *)
Lemma aline_reaches_queue_move K cfg mode target minutes s :
  ~ minutes < EPSILON K ->
  ~ m_length (mp_0 (aline_set_length target s)) < MIN_LINE_LENGTH K ->
  exists s0,
    mb s0 = mb s
    /\ fst (mp_aline K cfg mode target minutes s) = fst (aline_queue_move K s0)
    /\ (fst (aline_queue_move K s0) <> TG_OK ->
        snd (mp_aline K cfg mode target minutes s) = snd (aline_queue_move K s0)).
Proof.
  intros Hm Hl. unfold mp_aline.
  destruct (Rlt_dec minutes (EPSILON K)); [contradiction|].
  destruct (Rlt_dec (m_length (mp_0 (aline_set_length target s))) (MIN_LINE_LENGTH K));
    [contradiction|].
  set (s2 := aline_set_velocity_and_jerk cfg minutes (aline_set_length target s)).
  assert (Hmb2 : mb s2 = mb s) by reflexivity.
  assert (Hl2 : ~ m_length (mp_0 s2) < MIN_LINE_LENGTH K) by exact Hl.
  clearbody s2.
  set (t := deref (mb s2) (_mp_get_prev_buffer_implicit (mb s2))). clearbody t.
  case_decide.
  - unfold aline_after_arc.
    set (s3 := set_mp_0 _ s2).
    assert (Hmb3 : mb s3 = mb s) by exact Hmb2. clearbody s3.
    pose proof (aline_compute_regions_mb K cfg s3) as Hc.
    destruct (aline_compute_regions K cfg s3) as [regions s4]. cbn [snd] in Hc.
    exists s4. split; [congruence|].
    destruct (aline_queue_move K s4) as [status s5].
    case_decide; cbn [fst snd]; [subst status|]; split; try reflexivity; intros; congruence.
  - unfold aline_after_line.
    pose proof (aline_set_initial_velocity_mb mode t s2) as Hmb3.
    pose proof (aline_set_initial_velocity_length mode t s2) as Hl3.
    set (s3 := aline_set_initial_velocity mode t s2) in *. clearbody s3.
    pose proof (aline_compute_regions_mb K cfg s3) as Hc.
    pose proof (aline_compute_regions_some K cfg s3) as Hn.
    destruct (aline_compute_regions K cfg s3) as [regions s4]. cbn [fst snd] in Hc, Hn.
    rewrite decide_False by (apply Hn; rewrite Hl3; exact Hl2).
    exists s4. split; [congruence|].
    destruct (aline_queue_move K s4) as [status s5].
    case_decide; cbn [fst snd]; [subst status|]; split; try reflexivity; intros; congruence.
Qed.

Lemma check_three_buffers K p :
  ring_of p = ring_of (_mp_init_buffers K) ->
  (mb_w p < MP_BUFFER_SIZE K)%nat ->
  mp_check_for_write_buffers p 3 = true ->
  bf_buffer_state (deref p (mb_w p)) = MP_BUFFER_EMPTY
  /\ bf_buffer_state (deref p (_mp_bump K (mb_w p))) = MP_BUFFER_EMPTY
  /\ bf_buffer_state (deref p (_mp_bump K (_mp_bump K (mb_w p)))) = MP_BUFFER_EMPTY.
Proof.
  intros Hr Hw. unfold mp_check_for_write_buffers. cbn [check_from].
  destruct (pool_ring_links K p (mb_w p) Hr Hw) as [Hnx _].
  assert (Hw1 : (_mp_bump K (mb_w p) < MP_BUFFER_SIZE K)%nat) by now apply bump_lt.
  destruct (pool_ring_links K p _ Hr Hw1) as [Hnx1 _].
  rewrite Hnx, Hnx1.
  repeat (case_decide; [|discriminate]). auto.
Qed.

Lemma aline_with_three_buffers K cfg mode target minutes s :
  pool_ok K (mb s) -> (3 <= MP_BUFFER_SIZE K)%nat ->
  mp_check_for_write_buffers (mb s) 3 = true ->
  fst (mp_aline K cfg mode target minutes s) <> TG_BUFFER_FULL_FATAL.
Proof.
  intros Hok Hsize Hchk.
  destruct (check_three_buffers K (mb s)) as (H0 & H1 & H2);
    [apply Hok|apply Hok|exact Hchk|].
  destruct (decide (minutes < EPSILON K)) as [Hm|Hm].
  { unfold mp_aline. destruct (Rlt_dec minutes (EPSILON K)); [discriminate|contradiction]. }
  destruct (decide (m_length (mp_0 (aline_set_length target s)) < MIN_LINE_LENGTH K))
    as [Hl|Hl].
  { unfold mp_aline. destruct (Rlt_dec minutes (EPSILON K)); [contradiction|].
    destruct (Rlt_dec (m_length (mp_0 (aline_set_length target s))) (MIN_LINE_LENGTH K));
      [discriminate|contradiction]. }
  destruct (aline_reaches_queue_move K cfg mode target minutes s Hm Hl)
    as (s0 & Hmb & Hst & _).
  rewrite Hst.
  destruct (aline_queue_move_cases K s Hok Hsize s0 Hmb) as (_ & _ & _ & Hall).
  rewrite (Hall H0 H1 H2). discriminate.
Qed.

Lemma aline_fatal_keeps_regions K cfg mode target minutes s :
  pool_ok K (mb s) -> (3 <= MP_BUFFER_SIZE K)%nat ->
  fst (mp_aline K cfg mode target minutes s) = TG_BUFFER_FULL_FATAL ->
  let s' := snd (mp_aline K cfg mode target minutes s) in
  let w := mb_w (mb s) in
  let st i := bf_buffer_state (deref (mb s) i) in
  (st w <> MP_BUFFER_EMPTY -> mb s' = mb s)
  /\ (st w = MP_BUFFER_EMPTY ->
      bf_buffer_state (deref (mb s') w) = MP_BUFFER_QUEUED)
  /\ (st w = MP_BUFFER_EMPTY -> st (_mp_bump K w) = MP_BUFFER_EMPTY ->
      bf_buffer_state (deref (mb s') (_mp_bump K w)) = MP_BUFFER_QUEUED
      /\ st (_mp_bump K (_mp_bump K w)) <> MP_BUFFER_EMPTY).
Proof.
  intros Hok Hsize Hf s' w st. subst s'.
  destruct (decide (minutes < EPSILON K)) as [Hm|Hm].
  { exfalso. revert Hf. unfold mp_aline.
    destruct (Rlt_dec minutes (EPSILON K)); [discriminate|contradiction]. }
  destruct (decide (m_length (mp_0 (aline_set_length target s)) < MIN_LINE_LENGTH K))
    as [Hl|Hl].
  { exfalso. revert Hf. unfold mp_aline.
    destruct (Rlt_dec minutes (EPSILON K)); [contradiction|].
    destruct (Rlt_dec (m_length (mp_0 (aline_set_length target s))) (MIN_LINE_LENGTH K));
      [discriminate|contradiction]. }
  destruct (aline_reaches_queue_move K cfg mode target minutes s Hm Hl)
    as (s0 & Hmb & Hst & Hsnd).
  rewrite Hst in Hf. rewrite Hsnd by (rewrite Hf; discriminate).
  destruct (aline_queue_move_cases K s Hok Hsize s0 Hmb) as (C0 & C1 & C2 & C3).
  fold w in C0, C1, C2, C3. fold st in C0, C1, C2, C3.
  split; [|split].
  - intros H0. apply C0. exact H0.
  - intros H0.
    destruct (decide (st (_mp_bump K w) = MP_BUFFER_EMPTY)) as [H1|H1].
    + destruct (decide (st (_mp_bump K (_mp_bump K w)) = MP_BUFFER_EMPTY)) as [H2|H2].
      * rewrite (C3 H0 H1 H2) in Hf. discriminate.
      * apply (C2 H0 H1 H2).
    + apply (C1 H0 H1).
  - intros H0 H1.
    destruct (decide (st (_mp_bump K (_mp_bump K w)) = MP_BUFFER_EMPTY)) as [H2|H2].
    + rewrite (C3 H0 H1 H2) in Hf. discriminate.
    + split; [apply (C2 H0 H1 H2)|exact H2].
Qed.

Lemma aline_fatal_when_a_slot_is_taken K cfg mode target minutes s :
  pool_ok K (mb s) -> (3 <= MP_BUFFER_SIZE K)%nat ->
  ~ minutes < EPSILON K ->
  ~ m_length (mp_0 (aline_set_length target s)) < MIN_LINE_LENGTH K ->
  bf_buffer_state (deref (mb s) (mb_w (mb s))) = MP_BUFFER_EMPTY ->
  bf_buffer_state (deref (mb s) (_mp_bump K (mb_w (mb s)))) <> MP_BUFFER_EMPTY ->
  fst (mp_aline K cfg mode target minutes s) = TG_BUFFER_FULL_FATAL
  /\ bf_buffer_state (deref (mb (snd (mp_aline K cfg mode target minutes s)))
                        (mb_w (mb s))) = MP_BUFFER_QUEUED.
Proof.
  intros Hok Hsize Hm Hl H0 H1.
  destruct (aline_reaches_queue_move K cfg mode target minutes s Hm Hl)
    as (s0 & Hmb & Hst & Hsnd).
  destruct (aline_queue_move_cases K s Hok Hsize s0 Hmb) as (_ & C1 & _).
  destruct (C1 H0 H1) as [Hf Hq].
  rewrite Hst, Hsnd by (rewrite Hf; discriminate). split; assumption.
Qed.

(** C5: a producer other than [mp_aline] that returns TG_BUFFER_FULL_FATAL
    has changed nothing but the trap log; [mp_aline] does not return it when
    three write buffers are free; and when [mp_aline] does return it, nothing
    is released: the pool is untouched if the write slot was taken, and
    otherwise the regions queued before the failing slot stay QUEUED. *)
Theorem buffer_full_fatal_without_unget (K : mpConstants) (cfg : cfgStructure) :
  (forall c s s',
     (forall mode target minutes, c <> CallAline mode target minutes) ->
     produce K cfg c s = (Some TG_BUFFER_FULL_FATAL, s') ->
     exists msg, s' = TRAP msg s)
  /\ (forall mode target minutes s,
        pool_ok K (mb s) -> (3 <= MP_BUFFER_SIZE K)%nat ->
        mp_check_for_write_buffers (mb s) 3 = true ->
        fst (produce K cfg (CallAline mode target minutes) s)
        <> Some TG_BUFFER_FULL_FATAL)
  /\ (forall mode target minutes s,
        pool_ok K (mb s) -> (3 <= MP_BUFFER_SIZE K)%nat ->
        fst (produce K cfg (CallAline mode target minutes) s)
        = Some TG_BUFFER_FULL_FATAL ->
        let s' := snd (produce K cfg (CallAline mode target minutes) s) in
        let w := mb_w (mb s) in
        let st i := bf_buffer_state (deref (mb s) i) in
        (st w <> MP_BUFFER_EMPTY -> mb s' = mb s)
        /\ (st w = MP_BUFFER_EMPTY ->
            bf_buffer_state (deref (mb s') w) = MP_BUFFER_QUEUED)
        /\ (st w = MP_BUFFER_EMPTY -> st (_mp_bump K w) = MP_BUFFER_EMPTY ->
            bf_buffer_state (deref (mb s') (_mp_bump K w)) = MP_BUFFER_QUEUED
            /\ st (_mp_bump K (_mp_bump K w)) <> MP_BUFFER_EMPTY)).
Proof.
  split; [|split].
  - intros c s s' Hc E. destruct c; cbn [produce] in E.
    + discriminate.
    + discriminate.
    + discriminate.
    + destruct (mp_dwell seconds s) as [st s1] eqn:Ed. injection E as -> ->.
      eexists. apply (dwell_fatal _ _ _ Ed).
    + destruct (mp_line K target minutes s) as [st s1] eqn:Ed. injection E as -> ->.
      eexists. apply (line_fatal _ _ _ _ _ Ed).
    + destruct (mp_arc cfg target i j k theta radius angular_travel linear_travel
                  axis_1 axis_2 axis_linear minutes s) as [st s1] eqn:Ed.
      injection E as -> ->. eexists. apply (arc_fatal _ _ _ _ _ _ _ _ _ _ _ _ _ _ _ Ed).
    + exfalso. eapply Hc. reflexivity.
  - intros mode target minutes s Hok Hsize Hchk. cbn [produce].
    pose proof (aline_with_three_buffers K cfg mode target minutes s Hok Hsize Hchk) as H.
    destruct (mp_aline K cfg mode target minutes s) as [st s1]. cbn [fst] in *. congruence.
  - intros mode target minutes s Hok Hsize. cbn [produce].
    pose proof (aline_fatal_keeps_regions K cfg mode target minutes s Hok Hsize) as H.
    destruct (mp_aline K cfg mode target minutes s) as [st s1]. cbn [fst snd] in *.
    intros E. apply H. congruence.
Qed.

Lemma one_write_slot_free_ok : pool_ok sample_constants (mb one_write_slot_free).
Proof. repeat split. vm_compute. lia. Qed.

Lemma one_write_slot_free_length :
  ~ m_length (mp_0 (aline_set_length [3; 0; 0; 0; 0; 0] one_write_slot_free))
    < MIN_LINE_LENGTH sample_constants.
Proof.
  unfold aline_set_length. proj_simpl. rewrite copy_vector_x.
  change (mm_position (mm one_write_slot_free)) with [0; 0; 0; 0; 0; 0].
  rewrite x_move_length by lra. simpl. lra.
Qed.

Lemma aline_commits_a_proper_subset :
  bf_buffer_state (deref (mb one_write_slot_free) (mb_w (mb one_write_slot_free)))
    = MP_BUFFER_EMPTY
  /\ fst (produce sample_constants cfg_jerk_50e6
            (CallAline PATH_CONTINUOUS [3; 0; 0; 0; 0; 0] 1) one_write_slot_free)
     = Some TG_BUFFER_FULL_FATAL
  /\ bf_buffer_state
       (deref (mb (snd (produce sample_constants cfg_jerk_50e6
                          (CallAline PATH_CONTINUOUS [3; 0; 0; 0; 0; 0] 1)
                          one_write_slot_free)))
          (mb_w (mb one_write_slot_free)))
     = MP_BUFFER_QUEUED.
Proof.
  split; [reflexivity|]. cbn [produce].
  destruct (aline_fatal_when_a_slot_is_taken sample_constants cfg_jerk_50e6
              PATH_CONTINUOUS [3; 0; 0; 0; 0; 0] 1 one_write_slot_free)
    as [Hf Hq].
  - exact one_write_slot_free_ok.
  - simpl. lia.
  - simpl. lra.
  - exact one_write_slot_free_length.
  - reflexivity.
  - vm_compute. discriminate.
  - destruct (mp_aline sample_constants cfg_jerk_50e6 PATH_CONTINUOUS
                [3; 0; 0; 0; 0; 0] 1 one_write_slot_free) as [st s1].
    cbn [fst snd] in *. split; [congruence|exact Hq].
Qed.

Lemma buffer_full_fatal_without_unget_witness :
  pool_ok sample_constants (mb (mp_init sample_constants))
  /\ mp_check_for_write_buffers (mb (mp_init sample_constants)) 3 = true
  /\ fst (produce sample_constants cfg_jerk_50e6
            (CallAline PATH_CONTINUOUS [3; 0; 0; 0; 0; 0] 1) (mp_init sample_constants))
     <> Some TG_BUFFER_FULL_FATAL.
Proof.
  assert (Hok : pool_ok sample_constants (mb (mp_init sample_constants)))
    by (apply init_pool_ok; simpl; lia).
  assert (Hchk : mp_check_for_write_buffers (mb (mp_init sample_constants)) 3 = true)
    by (vm_compute; reflexivity).
  split; [exact Hok|]. split; [exact Hchk|].
  destruct (buffer_full_fatal_without_unget sample_constants cfg_jerk_50e6)
    as (_ & H & _).
  apply H; [exact Hok|simpl; lia|exact Hchk].
Defined.

(** *** The HT case at Jm = 128^3 *)

Lemma sqrt_of_square_quotient x y : 0 <= y -> x = y * y -> sqrt x = y.
Proof. intros Hy ->. now apply sqrt_square. Qed.

Lemma get_length_72_200 : _mp_get_length cfg_jerk_128_cubed 72 200 = 1.
Proof.
  unfold _mp_get_length, fabs. cbn [linear_jerk_max cfg_jerk_128_cubed].
  rewrite Rabs_pos_eq by lra.
  rewrite (sqrt_of_square_quotient _ (/ 128)); lra.
Qed.

Lemma get_length_200_72 : _mp_get_length cfg_jerk_128_cubed 200 72 = 1.
Proof. rewrite get_length_sym. apply get_length_72_200. Qed.

Lemma get_length_200_0 : _mp_get_length cfg_jerk_128_cubed 200 0 = 125 / 64.
Proof.
  unfold _mp_get_length, fabs. cbn [linear_jerk_max cfg_jerk_128_cubed].
  rewrite Rabs_left by lra.
  rewrite (sqrt_of_square_quotient _ (5 / 512)); lra.
Qed.

Lemma get_velocity_at_1 mm V :
  mm_linear_jerk_rad3 mm = 128 -> _mp_get_velocity mm V 1 = 128 + V.
Proof. intros H. unfold _mp_get_velocity. rewrite H, pow_1. lra. Qed.

Lemma jerk_rad3_128 : mm_linear_jerk_rad3 (mm_with_jerk cfg_jerk_128_cubed) = 128.
Proof.
  unfold mm_with_jerk. cbn [mm_linear_jerk_rad3 set_mm_linear_jerk_rad3].
  cbn [linear_jerk_max cfg_jerk_128_cubed]. apply cubert_cube. lra.
Qed.

Lemma ht_iterate_S K cfg n mm m :
  ht_iterate K cfg (S n) mm m
  = let '(m, _tmp_length) := ht_adjust cfg mm m in
    if Rgt_dec (fabs (_tmp_length - m_body_length m)) (EPSILON K)
    then ht_iterate K cfg n mm m
    else (m, []).
Proof. reflexivity. Qed.

(** One pass of the loop body at Vi = 72, Vc = 200, Vf = 0, length 41/16. *)
Lemma ht_adjust_example mm m :
  mm_linear_jerk_rad3 mm = 128 ->
  m_length m = 41 / 16 ->
  m_initial_velocity m = 72 -> m_cruise_velocity m = 200 -> m_final_velocity m = 0 ->
  m_initial_velocity_req m = 72 -> m_target_velocity m = 200 ->
  ht_adjust cfg_jerk_128_cubed mm m
  = (set_m_body_length (- (25 / 64)) (head_tail_plan m), m_body_length m).
Proof.
  intros Hrad Hlen Hvi Hvc Hvf Hvir Hvt. unfold ht_adjust.
  destruct m as [pm hd bd tl len hl bl tll vir vi vt vc vf].
  cbn [m_length m_initial_velocity m_cruise_velocity m_final_velocity
       m_initial_velocity_req m_target_velocity] in *. subst. proj_simpl.
  assert (E1 : fabs (72 - 200) = 128) by (unfold fabs; rewrite Rabs_left; lra).
  assert (E2 : fabs (200 - 0) = 200) by (unfold fabs; rewrite Rabs_pos_eq; lra).
  rewrite E1, E2.
  replace (41 / 16 * (128 / (128 + 200))) with 1 by lra.
  rewrite (get_velocity_at_1 mm 72 Hrad).
  replace (128 + 72) with 200 by lra.
  rewrite get_length_200_72, get_length_200_0.
  unfold head_tail_plan, set_m_body_length. proj_simpl.
  f_equal. f_equal. lra.
Qed.

Lemma regions_head_tail_example mm m :
  mm_linear_jerk_rad3 mm = 128 ->
  m_length m = 41 / 16 ->
  m_initial_velocity m = 72 -> m_cruise_velocity m = 200 -> m_final_velocity m = 0 ->
  m_initial_velocity_req m = 72 -> m_target_velocity m = 200 ->
  m_body_length m = 0 ->
  regions_head_tail sample_constants cfg_jerk_128_cubed mm m
  = (2%nat, head_tail_plan m, []).
Proof.
  intros Hrad Hlen Hvi Hvc Hvf Hvir Hvt Hb. unfold regions_head_tail.
  rewrite (ht_iterate_S _ _ 99).
  rewrite (ht_adjust_example mm m) by assumption.
  cbv beta iota. rewrite Hb.
  change (m_body_length (set_m_body_length (- (25 / 64)) (head_tail_plan m)))
    with (- (25 / 64)).
  destruct (Rgt_dec (fabs (0 - - (25 / 64))) (EPSILON sample_constants)) as [_|Hn].
  2:{ exfalso. apply Hn. unfold fabs. rewrite Rabs_pos_eq; simpl; lra. }
  rewrite (ht_iterate_S _ _ 98).
  rewrite (ht_adjust_example mm (set_m_body_length (- (25 / 64)) (head_tail_plan m)))
    by (try assumption; try reflexivity).
  cbv beta iota. unfold head_tail_plan. proj_simpl.
  destruct (Rgt_dec (fabs (- (25 / 64) - - (25 / 64))) (EPSILON sample_constants)) as [Hy|_].
  { exfalso. revert Hy. unfold fabs. replace (- (25 / 64) - - (25 / 64)) with 0 by lra.
    rewrite Rabs_R0. simpl. lra. }
  cbv beta iota zeta. proj_simpl.
  destruct (Rgt_dec (- (25 / 64)) 0.01) as [Hy|_]; [lra|].
  destruct (Rlt_dec 1 (EPSILON sample_constants)) as [Hy|_]; [simpl in Hy; lra|].
  proj_simpl.
  destruct (Rlt_dec (125 / 64) (EPSILON sample_constants)) as [Hy|_]; [simpl in Hy; lra|].
  reflexivity.
Qed.

Lemma compute_regions_example mm m :
  mm_linear_jerk_rad3 mm = 128 ->
  m_length m = 41 / 16 ->
  _mp_compute_regions sample_constants cfg_jerk_128_cubed mm 72 200 0 m
  = (2%nat, head_tail_plan m, []).
Proof.
  intros Hrad Hlen. unfold _mp_compute_regions.
  set (m0 := regions_setup 72 200 0 m).
  assert (Hl0 : m_length m0 = 41 / 16) by exact Hlen.
  destruct (Rlt_dec (m_length m0) (MIN_LINE_LENGTH sample_constants)) as [Hy|_].
  { rewrite Hl0 in Hy. simpl in Hy. lra. }
  set (m1 := regions_hbt_lengths cfg_jerk_128_cubed 72 200 0 m0).
  assert (Hh1 : m_head_length m1 = 1) by exact get_length_72_200.
  assert (Ht1 : m_tail_length m1 = 125 / 64) by exact get_length_200_0.
  assert (Hb1 : m_body_length m1 = m_length m0 - 1 - 125 / 64).
  { unfold m1, regions_hbt_lengths. proj_simpl.
    rewrite get_length_72_200, get_length_200_0. reflexivity. }
  destruct (Rgt_dec (m_body_length m1) 0) as [Hy|_].
  { rewrite Hb1, Hl0 in Hy. lra. }
  set (m2 := set_m_body_length 0 m1).
  assert (Hl2 : m_length m2 = 41 / 16) by exact Hlen.
  assert (Ht2 : m_tail_length m2 = 125 / 64) by exact Ht1.
  assert (Hh2 : m_head_length m2 = 1) by exact Hh1.
  destruct (decide (0 < 72 /\ m_length m2 < m_tail_length m2)) as [[_ Hy]|_].
  { rewrite Hl2, Ht2 in Hy. lra. }
  destruct (decide (0 > 72 /\ m_length m2 < m_head_length m2)) as [[Hy _]|_]; [lra|].
  destruct (decide (fabs (0 - 72) < EPSILON sample_constants
                    /\ fabs (0 - 200) < EPSILON sample_constants)) as [[Hy _]|_].
  { revert Hy. unfold fabs. rewrite Rabs_left by lra. simpl. lra. }
  rewrite (regions_head_tail_example mm m2) by (try assumption; reflexivity).
  reflexivity.
Qed.

(** *** What [_mp_queue_move] writes *)

Lemma queue_move_writes_regions K m s :
  pool_ok K (mb s) -> (3 <= MP_BUFFER_SIZE K)%nat ->
  let w := mb_w (mb s) in
  let w1 := _mp_bump K w in
  let w2 := _mp_bump K w1 in
  bf_buffer_state (deref (mb s) w) = MP_BUFFER_EMPTY ->
  bf_buffer_state (deref (mb s) w1) = MP_BUFFER_EMPTY ->
  bf_buffer_state (deref (mb s) w2) = MP_BUFFER_EMPTY ->
  exists m' s',
    _mp_queue_move K m s = (TG_OK, m', s')
    /\ m_head m' = Some w /\ m_body m' = Some w1 /\ m_tail m' = Some w2
    /\ m_length m' = m_length m
    /\ bf_length (deref (mb s') w) = m_head_length m
    /\ bf_length (deref (mb s') w1) = m_body_length m
    /\ bf_length (deref (mb s') w2) = m_tail_length m
    /\ bf_start_velocity (deref (mb s') w) = m_initial_velocity m
    /\ bf_end_velocity (deref (mb s') w) = m_cruise_velocity m
    /\ bf_start_velocity (deref (mb s') w1) = m_cruise_velocity m
    /\ bf_end_velocity (deref (mb s') w1) = m_cruise_velocity m
    /\ bf_start_velocity (deref (mb s') w2) = m_cruise_velocity m
    /\ bf_end_velocity (deref (mb s') w2) = m_final_velocity m
    /\ bf_buffer_state (deref (mb s') w) = MP_BUFFER_QUEUED
    /\ bf_buffer_state (deref (mb s') w1) = MP_BUFFER_QUEUED
    /\ bf_buffer_state (deref (mb s') w2) = MP_BUFFER_QUEUED.
Proof.
  intros Hok Hsize w w1 w2 H0 H1 H2.
  destruct (queue_move_ok K m s Hok Hsize H0 H1 H2)
    as (s1 & s2 & s' & E & Q1 & Q2 & Q3 & Hw1 & Hw2).
  fold w in E, Hw1, Hw2. fold w1 in E, Hw1, Hw2. fold w2 in E, Hw2.
  assert (Hne : w1 <> w) by (apply bump_ne; [lia|apply Hok]).
  assert (Hne2 : w2 <> w) by (apply bump_bump_ne; [lia|apply Hok]).
  assert (Hlt1 : (w1 < MP_BUFFER_SIZE K)%nat) by (apply bump_lt, Hok).
  assert (Hne12 : w2 <> w1) by (apply bump_ne; [lia|exact Hlt1]).
  destruct Q1 as (_ & _ & _ & _ & _ & Qs1 & _ & _ & Qvs1 & Qve1 & _ & Ql1 & _).
  destruct Q2 as (_ & _ & _ & _ & Qj2 & Qs2 & _ & _ & Qvs2 & Qve2 & _ & Ql2 & _).
  destruct Q3 as (_ & _ & _ & _ & Qj3 & Qs3 & _ & _ & Qvs3 & Qve3 & _ & Ql3 & _).
  rewrite Hw1 in Qj2, Qs2, Qvs2, Qve2, Ql2.
  rewrite Hw2 in Qj3, Qs3, Qvs3, Qve3, Ql3.
  fold w in Qs1, Qvs1, Qve1, Ql1.
  assert (Ew : deref (mb s') w = deref (mb s1) w).
  { rewrite Qj3 by (intros X; apply Hne2; symmetry; exact X).
    apply Qj2. intros X; apply Hne; symmetry; exact X. }
  assert (Ew1 : deref (mb s') w1 = deref (mb s2) w1).
  { apply Qj3. intros X; apply Hne12; symmetry; exact X. }
  do 2 eexists. split; [exact E|].
  rewrite Ew, Ew1. repeat split; assumption.
Qed.

(** *** C1 at a concrete input: a line after an arc *)

Lemma after_arc_at_72_ok : pool_ok sample_constants (mb after_arc_at_72).
Proof. repeat split. vm_compute. lia. Qed.

(** After an arc that ends at 72 mm/min, a move of 41/16 mm that asks for
    200 mm/min is planned as head 1, body 0, tail 125/64 and written so. *)
Lemma aline_after_arc_example t s :
  pool_ok sample_constants (mb s) ->
  bf_buffer_state (deref (mb s) (mb_w (mb s))) = MP_BUFFER_EMPTY ->
  bf_buffer_state (deref (mb s) (_mp_bump sample_constants (mb_w (mb s))))
  = MP_BUFFER_EMPTY ->
  bf_buffer_state
    (deref (mb s) (_mp_bump sample_constants (_mp_bump sample_constants (mb_w (mb s)))))
  = MP_BUFFER_EMPTY ->
  bf_end_velocity t = 72 ->
  m_target_velocity (mp_0 s) = 200 ->
  m_length (mp_0 s) = 41 / 16 ->
  mm_linear_jerk_rad3 (mm s) = 128 ->
  exists s',
    aline_after_arc sample_constants cfg_jerk_128_cubed t s = (TG_OK, s')
    /\ m_length (mp_0 s') = 41 / 16
    /\ bf_length (deref (mb s') (mb_w (mb s))) = 1
    /\ bf_length (deref (mb s') (_mp_bump sample_constants (mb_w (mb s)))) = 0
    /\ bf_length (deref (mb s')
                    (_mp_bump sample_constants (_mp_bump sample_constants (mb_w (mb s)))))
       = 125 / 64.
Proof.
  intros Hok H0 H1 H2 Ht Hvt Hlen Hrad.
  unfold aline_after_arc. rewrite Ht.
  set (s3 := set_mp_0 (set_m_initial_velocity_req 72 (mp_0 s)) s).
  assert (Hmb3 : mb s3 = mb s) by reflexivity.
  assert (Hmm3 : mm s3 = mm s) by reflexivity.
  assert (Hvir3 : m_initial_velocity_req (mp_0 s3) = 72) by reflexivity.
  assert (Hvt3 : m_target_velocity (mp_0 s3) = 200) by exact Hvt.
  assert (Hlen3 : m_length (mp_0 s3) = 41 / 16) by exact Hlen.
  clearbody s3.
  unfold aline_compute_regions. rewrite Hvir3, Hvt3.
  rewrite (compute_regions_example (mm s3) (mp_0 s3))
    by (rewrite ?Hmm3; assumption).
  cbn [fold_left].
  set (s4 := set_mp_0 (head_tail_plan (mp_0 s3)) s3).
  assert (Hmb4 : mb s4 = mb s) by exact Hmb3.
  assert (Hm4 : mp_0 s4 = head_tail_plan (mp_0 s3)) by reflexivity.
  clearbody s4.
  unfold aline_queue_move.
  destruct (queue_move_writes_regions sample_constants (mp_0 s4) s4)
    as (m' & s5 & E & _ & _ & _ & Hml & Hh & Hb & Htl & _);
    rewrite ?Hmb4; try assumption.
  { simpl. lia. }
  rewrite Hmb4 in Hh, Hb, Htl. rewrite Hm4 in Hml, Hh, Hb, Htl.
  cbn [head_tail_plan m_length m_head_length m_body_length m_tail_length]
    in Hml, Hh, Hb, Htl.
  rewrite E. rewrite decide_True by reflexivity.
  eexists. split; [reflexivity|].
  repeat split; try assumption.
  change (m_length m' = 41 / 16). now rewrite Hml.
Qed.

Lemma aline_after_arc_at_72 :
  exists s',
    mp_aline sample_constants cfg_jerk_128_cubed PATH_CONTINUOUS
      [41 / 16; 0; 0; 0; 0; 0] (41 / 3200) after_arc_at_72 = (TG_OK, s')
    /\ m_length (mp_0 s') = 41 / 16
    /\ bf_length (deref (mb s') 1) = 1
    /\ bf_length (deref (mb s') 2) = 0
    /\ bf_length (deref (mb s') 3) = 125 / 64.
Proof.
  set (s := after_arc_at_72).
  assert (Hlen : m_length (mp_0 (aline_set_length [41 / 16; 0; 0; 0; 0; 0] s)) = 41 / 16).
  { unfold aline_set_length. proj_simpl. rewrite copy_vector_x.
    replace (mm_position (mm s)) with [0; 0; 0; 0; 0; 0] by (vm_compute; reflexivity).
    rewrite x_move_length by lra. lra. }
  unfold mp_aline.
  destruct (Rlt_dec (41 / 3200) (EPSILON sample_constants)) as [Hy|_];
    [simpl in Hy; lra|].
  rewrite Hlen.
  destruct (Rlt_dec (41 / 16) (MIN_LINE_LENGTH sample_constants)) as [Hy|_];
    [simpl in Hy; lra|].
  set (s2 := aline_set_velocity_and_jerk cfg_jerk_128_cubed (41 / 3200)
               (aline_set_length [41 / 16; 0; 0; 0; 0; 0] s)).
  assert (Hmb2 : mb s2 = mb s).
  { unfold s2. now rewrite aline_set_velocity_and_jerk_mb, aline_set_length_mb. }
  assert (Hl2 : m_length (mp_0 s2) = 41 / 16).
  { unfold s2. now rewrite aline_set_velocity_and_jerk_length. }
  assert (Hvt2 : m_target_velocity (mp_0 s2) = 200).
  { unfold s2, aline_set_velocity_and_jerk. proj_simpl. rewrite Hlen. lra. }
  assert (Hrad2 : mm_linear_jerk_rad3 (mm s2) = 128).
  { unfold s2, aline_set_velocity_and_jerk. proj_simpl.
    cbn [linear_jerk_max cfg_jerk_128_cubed]. apply cubert_cube. lra. }
  clearbody s2. rewrite Hmb2.
  set (t := deref (mb s) (_mp_get_prev_buffer_implicit (mb s))).
  assert (Ht72 : bf_end_velocity t = 72) by (vm_compute; reflexivity).
  assert (Harc : bf_move_type t = MP_TYPE_ARC) by (vm_compute; reflexivity).
  assert (Hq : bf_buffer_state t = MP_BUFFER_QUEUED) by (vm_compute; reflexivity).
  clearbody t.
  rewrite decide_True by (split; [exact Harc|rewrite Hq; discriminate]).
  assert (Hw : mb_w (mb s) = 1%nat) by (vm_compute; reflexivity).
  destruct (aline_after_arc_example t s2) as (s' & E & Hm & Hh & Hb & Htl);
    rewrite ?Hmb2, ?Hw; try assumption.
  - exact after_arc_at_72_ok.
  - vm_compute; reflexivity.
  - vm_compute; reflexivity.
  - vm_compute; reflexivity.
  - rewrite Hmb2, Hw in Hh, Hb, Htl.
    change (_mp_bump sample_constants 1) with 2%nat in Hb, Htl.
    change (_mp_bump sample_constants 2) with 3%nat in Htl.
    exists s'. repeat split; assumption.
Qed.

(** C1: the region lengths of a committed aline need not add up to the length
    of the move.  With Jm = 128^3, after a queued arc that ends at 72 mm/min,
    [mp_aline] of 41/16 mm along X in 41/3200 min (200 mm/min) returns TG_OK
    and writes a head of 1 mm, a body of 0 and a tail of 125/64 mm: the HT
    case settles on a body of -25/64 and zeroes it, so the three regions are
    25/64 mm longer than the move, far more than EPSILON. *)
Theorem aline_after_arc_overruns_its_length :
  fst (mp_aline sample_constants cfg_jerk_128_cubed PATH_CONTINUOUS
         [41 / 16; 0; 0; 0; 0; 0] (41 / 3200) after_arc_at_72) = TG_OK
  /\ m_length (mp_0 (snd (mp_aline sample_constants cfg_jerk_128_cubed PATH_CONTINUOUS
                            [41 / 16; 0; 0; 0; 0; 0] (41 / 3200) after_arc_at_72)))
     = 41 / 16
  /\ bf_length (deref (mb (snd (mp_aline sample_constants cfg_jerk_128_cubed
                                  PATH_CONTINUOUS [41 / 16; 0; 0; 0; 0; 0] (41 / 3200)
                                  after_arc_at_72))) 1) = 1
  /\ bf_length (deref (mb (snd (mp_aline sample_constants cfg_jerk_128_cubed
                                  PATH_CONTINUOUS [41 / 16; 0; 0; 0; 0; 0] (41 / 3200)
                                  after_arc_at_72))) 2) = 0
  /\ bf_length (deref (mb (snd (mp_aline sample_constants cfg_jerk_128_cubed
                                  PATH_CONTINUOUS [41 / 16; 0; 0; 0; 0; 0] (41 / 3200)
                                  after_arc_at_72))) 3) = 125 / 64
  /\ 1 + 0 + 125 / 64 - 41 / 16 > EPSILON sample_constants.
Proof.
  destruct aline_after_arc_at_72 as (s' & E & Hm & Hh & Hb & Htl).
  rewrite E. cbn [fst snd]. repeat split; try assumption. simpl. lra.
Qed.

(** *** The braking pass *)

(** The walk back through the chain accumulates into [p->length] and leaves
    [p->initial_velocity_req] alone. *)
Lemma braking_walk_initial_velocity_req n pool p :
  m_initial_velocity_req (fst (braking_walk n pool p)) = m_initial_velocity_req p.
Proof.
  revert p. induction n as [|n IH]; intros p.
  - reflexivity.
  - cbn [braking_walk]. case_decide; [|reflexivity].
    rewrite IH. reflexivity.
Qed.

(** What [_mp_set_braking_velocity] computes: the bound of the length of
    [m] alone, whatever the walk has accumulated. *)
Lemma set_braking_velocity_initial_velocity_req K mm pool m :
  m_initial_velocity_req (fst (_mp_set_braking_velocity K mm pool m))
  = min (_mp_get_velocity mm 0 (m_length m)) (m_initial_velocity_req m).
Proof.
  unfold _mp_set_braking_velocity.
  destruct (braking_walk _ _ _) as [p t] eqn:E.
  cbn [fst]. proj_simpl.
  change p with (fst (p, t)). rewrite <- E.
  now rewrite braking_walk_initial_velocity_req.
Qed.

(** The walk of [_mp_backplan] never reads the scratch structure it is
    handed: [_mp_make_previous_move] clears it first. *)
Lemma backplan_walk_scratch K cfg n mm b p :
  backplan_walk K cfg n mm b
  = backplan_walk K cfg n mm
      {| bk_m := bk_m b; bk_p := p; bk_swapped := bk_swapped b;
         bk_pool := bk_pool b; bk_traps := bk_traps b |}.
Proof. destruct b as [m0 p0 sw pool0 tr]. destruct n; reflexivity. Qed.

(** C2: the braking pass does not bound Vir by the accumulated chain.  The
    value [_mp_set_braking_velocity] computes is
    min (V(0, m->length), m->initial_velocity_req): the bound of the newest
    move's own length, whatever length the walk has accumulated.  It is
    stored in the scratch structure only, and the replanning walk that
    follows gives the same result for every content of that structure. *)
Theorem braking_velocity_ignores_the_chain (K : mpConstants) (cfg : cfgStructure)
    (mm : mpMoveMasterSingleton) (pool : mpBufferPool) (m : mpMovePlanner) :
  m_initial_velocity_req (fst (_mp_set_braking_velocity K mm pool m))
  = min (_mp_get_velocity mm 0 (m_length m)) (m_initial_velocity_req m)
  /\ forall n b p,
       backplan_walk K cfg n mm b
       = backplan_walk K cfg n mm
           {| bk_m := bk_m b; bk_p := p; bk_swapped := bk_swapped b;
              bk_pool := bk_pool b; bk_traps := bk_traps b |}.
Proof.
  split.
  - apply set_braking_velocity_initial_velocity_req.
  - intros n b p. apply backplan_walk_scratch.
Qed.

Lemma braking_walk_two_queued_moves p :
  m_head p = Some 3%nat ->
  braking_walk (MP_MAX_LOOKBACK_DEPTH sample_constants) two_queued_moves p
  = (set_m_length (m_length p + (0 + 1 / 2 + 0))
       (set_m_head (Some 0%nat) (set_m_body (Some 1%nat) (set_m_tail (Some 2%nat) p))),
     []).
Proof.
  intros Hh. destruct p as [pm hd bd tl len hl bl tll vir vi vt vc vf].
  cbn in Hh. subst hd. reflexivity.
Qed.

(** Two queued lines of 1/2 mm at Jm = 128^3: the chain is 1 mm long and
    could brake from 128 mm/min, the newest line asks for 200 mm/min, and the
    value computed is the bound of the newest line alone. *)
Lemma braking_velocity_of_two_queued_moves :
  m_length (fst (braking_walk (MP_MAX_LOOKBACK_DEPTH sample_constants) two_queued_moves
                   newest_move)) = 1
  /\ _mp_get_velocity (mm_with_jerk cfg_jerk_128_cubed) 0 1 = 128
  /\ m_initial_velocity_req newest_move = 200
  /\ m_initial_velocity_req
       (fst (_mp_set_braking_velocity sample_constants (mm_with_jerk cfg_jerk_128_cubed)
               two_queued_moves newest_move))
     = _mp_get_velocity (mm_with_jerk cfg_jerk_128_cubed) 0 (1 / 2)
  /\ _mp_get_velocity (mm_with_jerk cfg_jerk_128_cubed) 0 (1 / 2) < 128.
Proof.
  assert (Hv1 : _mp_get_velocity (mm_with_jerk cfg_jerk_128_cubed) 0 1 = 128).
  { rewrite get_velocity_at_1 by exact jerk_rad3_128. lra. }
  assert (Hhalf : _mp_get_velocity (mm_with_jerk cfg_jerk_128_cubed) 0 (1 / 2) < 128).
  { unfold _mp_get_velocity. rewrite jerk_rad3_128.
    assert (pow (1 / 2) 0.6666667 < 1); [|lra].
    unfold pow. destruct (Rle_dec (1 / 2) 0) as [|_]; [lra|].
    assert (Hln : ln (1 / 2) < 0) by (rewrite <- ln_1; apply ln_increasing; lra).
    unfold Rpower. apply Rlt_le_trans with (exp 0); [|rewrite exp_0; lra].
    apply exp_increasing.
    replace 0 with (0.6666667 * 0) by lra.
    apply Rmult_lt_compat_l; [lra|exact Hln]. }
  split; [|split; [exact Hv1|split; [reflexivity|split; [|exact Hhalf]]]].
  - rewrite braking_walk_two_queued_moves by reflexivity.
    cbn. lra.
  - rewrite set_braking_velocity_initial_velocity_req.
    change (m_length newest_move) with (1 / 2).
    change (m_initial_velocity_req newest_move) with 200.
    unfold min. destruct (Rlt_dec _ 200) as [_|Hn]; [reflexivity|lra].
Qed.

(** *** What holds of every committed move *)

(** X1: when three write buffers are free, [_mp_queue_move] returns TG_OK and
    the three regions it writes chain their velocities: head.start = Vi,
    head.end = body.start = body.end = tail.start = Vc, tail.end = Vf; their
    lengths are the head, body and tail lengths of the plan. *)
Theorem queued_move_chains_velocities (K : mpConstants) (m : mpMovePlanner) (s : planner) :
  pool_ok K (mb s) -> (3 <= MP_BUFFER_SIZE K)%nat ->
  bf_buffer_state (deref (mb s) (mb_w (mb s))) = MP_BUFFER_EMPTY ->
  bf_buffer_state (deref (mb s) (_mp_bump K (mb_w (mb s)))) = MP_BUFFER_EMPTY ->
  bf_buffer_state (deref (mb s) (_mp_bump K (_mp_bump K (mb_w (mb s))))) = MP_BUFFER_EMPTY ->
  exists m' s' head body tail,
    _mp_queue_move K m s = (TG_OK, m', s')
    /\ m_head m' = Some (mb_w (mb s)) /\ head = deref (mb s') (mb_w (mb s))
    /\ m_body m' = Some (_mp_bump K (mb_w (mb s)))
    /\ body = deref (mb s') (_mp_bump K (mb_w (mb s)))
    /\ m_tail m' = Some (_mp_bump K (_mp_bump K (mb_w (mb s))))
    /\ tail = deref (mb s') (_mp_bump K (_mp_bump K (mb_w (mb s))))
    /\ bf_start_velocity head = m_initial_velocity m
    /\ bf_end_velocity head = m_cruise_velocity m
    /\ bf_start_velocity body = m_cruise_velocity m
    /\ bf_end_velocity body = m_cruise_velocity m
    /\ bf_start_velocity tail = m_cruise_velocity m
    /\ bf_end_velocity tail = m_final_velocity m
    /\ bf_length head = m_head_length m
    /\ bf_length body = m_body_length m
    /\ bf_length tail = m_tail_length m.
Proof.
  intros Hok Hsize H0 H1 H2.
  destruct (queue_move_writes_regions K m s Hok Hsize H0 H1 H2)
    as (m' & s' & E & Hh & Hb & Ht & _ & Lh & Lb & Lt & V1 & V2 & V3 & V4 & V5 & V6 & _).
  exists m', s'. do 3 eexists.
  split; [exact E|]. split; [exact Hh|]. split; [reflexivity|].
  split; [exact Hb|]. split; [reflexivity|].
  split; [exact Ht|]. split; [reflexivity|].
  repeat split; assumption.
Qed.

Lemma queued_move_chains_velocities_witness :
  exists m' s' head body tail,
    _mp_queue_move sample_constants (head_tail_plan zero_planner)
      (mp_init sample_constants) = (TG_OK, m', s')
    /\ m_head m' = Some (mb_w (mb (mp_init sample_constants)))
    /\ head = deref (mb s') (mb_w (mb (mp_init sample_constants)))
    /\ m_body m' = Some (_mp_bump sample_constants (mb_w (mb (mp_init sample_constants))))
    /\ body = deref (mb s')
                (_mp_bump sample_constants (mb_w (mb (mp_init sample_constants))))
    /\ m_tail m' = Some (_mp_bump sample_constants
                           (_mp_bump sample_constants
                              (mb_w (mb (mp_init sample_constants)))))
    /\ tail = deref (mb s')
                (_mp_bump sample_constants
                   (_mp_bump sample_constants (mb_w (mb (mp_init sample_constants)))))
    /\ bf_start_velocity head = m_initial_velocity (head_tail_plan zero_planner)
    /\ bf_end_velocity head = m_cruise_velocity (head_tail_plan zero_planner)
    /\ bf_start_velocity body = m_cruise_velocity (head_tail_plan zero_planner)
    /\ bf_end_velocity body = m_cruise_velocity (head_tail_plan zero_planner)
    /\ bf_start_velocity tail = m_cruise_velocity (head_tail_plan zero_planner)
    /\ bf_end_velocity tail = m_final_velocity (head_tail_plan zero_planner)
    /\ bf_length head = m_head_length (head_tail_plan zero_planner)
    /\ bf_length body = m_body_length (head_tail_plan zero_planner)
    /\ bf_length tail = m_tail_length (head_tail_plan zero_planner).
Proof.
  apply (queued_move_chains_velocities sample_constants (head_tail_plan zero_planner)
           (mp_init sample_constants)).
  - repeat split. vm_compute. lia.
  - vm_compute. lia.
  - vm_compute. reflexivity.
  - vm_compute. reflexivity.
  - vm_compute. reflexivity.
Defined.

(** Folding a short head or tail into the body keeps the sum. *)
Lemma regions_hbt_fold_sum K m :
  m_head_length (regions_hbt_fold K m) + m_body_length (regions_hbt_fold K m)
  + m_tail_length (regions_hbt_fold K m)
  = m_head_length m + m_body_length m + m_tail_length m.
Proof.
  unfold regions_hbt_fold.
  destruct (Rlt_dec (m_head_length m) (MIN_LINE_LENGTH K));
    match goal with |- context [Rlt_dec ?a ?b] => destruct (Rlt_dec a b) end;
    proj_simpl; lra.
Qed.

Lemma regions_head_tail_body K cfg mm m :
  m_body_length (snd (fst (regions_head_tail K cfg mm m))) = 0.
Proof.
  unfold regions_head_tail. destruct (ht_iterate K cfg 100 mm m) as [m1 t1].
  cbn [fst snd].
  destruct (Rlt_dec (m_head_length (set_m_body_length 0 m1)) (EPSILON K));
    match goal with |- context [Rlt_dec ?a ?b] => destruct (Rlt_dec a b) end;
    reflexivity.
Qed.

(** X2: when [_mp_compute_regions] returns 3 (HBT) or 1 (T, H or B), the
    three lengths it has planned add up to the length of the move exactly;
    when it returns 2 (HT) the body is 0. *)
Theorem regions_add_up_outside_the_head_tail_case (K : mpConstants) (cfg : cfgStructure)
    (mm : mpMoveMasterSingleton) (Vir Vt Vf : R) (m : mpMovePlanner) :
  (fst (fst (_mp_compute_regions K cfg mm Vir Vt Vf m)) = 3%nat
   \/ fst (fst (_mp_compute_regions K cfg mm Vir Vt Vf m)) = 1%nat ->
   m_head_length (snd (fst (_mp_compute_regions K cfg mm Vir Vt Vf m)))
   + m_body_length (snd (fst (_mp_compute_regions K cfg mm Vir Vt Vf m)))
   + m_tail_length (snd (fst (_mp_compute_regions K cfg mm Vir Vt Vf m)))
   = m_length m)
  /\ (fst (fst (_mp_compute_regions K cfg mm Vir Vt Vf m)) = 2%nat ->
      m_body_length (snd (fst (_mp_compute_regions K cfg mm Vir Vt Vf m))) = 0).
Proof.
  unfold _mp_compute_regions.
  destruct (Rlt_dec (m_length (regions_setup Vir Vt Vf m)) (MIN_LINE_LENGTH K)) as [H|H].
  { cbn [fst snd]. split; [intros [E|E]; discriminate|discriminate]. }
  destruct (Rgt_dec _ _).
  { cbn [fst snd]. split; [intros _|discriminate].
    rewrite regions_hbt_fold_sum. unfold regions_hbt_lengths, regions_setup.
    proj_simpl. lra. }
  case_decide.
  { cbn [fst snd]. split; [intros _|discriminate].
    unfold regions_tail_only, regions_hbt_lengths, regions_setup. proj_simpl. lra. }
  case_decide.
  { cbn [fst snd]. split; [intros _|discriminate].
    unfold regions_head_only, regions_hbt_lengths, regions_setup. proj_simpl. lra. }
  case_decide.
  { cbn [fst snd]. split; [intros _|discriminate].
    unfold regions_body_only, regions_hbt_lengths, regions_setup. proj_simpl. lra. }
  split.
  - rewrite regions_head_tail_count. intros [E|E]; discriminate.
  - intros _. apply regions_head_tail_body.
Qed.

(** *** The ring and the write side of the pool *)

Lemma bump_ring_pv K i : (i < MP_BUFFER_SIZE K)%nat -> _mp_bump K (ring_pv K i) = i.
Proof.
  unfold _mp_bump, ring_pv. intros Hi. destruct i as [|j].
  - destruct (Nat.ltb_spec (MP_BUFFER_SIZE K - 1) (MP_BUFFER_SIZE K - 1)); lia.
  - destruct (Nat.ltb_spec j (MP_BUFFER_SIZE K - 1)); lia.
Qed.

Lemma ring_pv_lt K i : (i < MP_BUFFER_SIZE K)%nat -> (ring_pv K i < MP_BUFFER_SIZE K)%nat.
Proof. unfold ring_pv. destruct i; lia. Qed.

(** X3: after any sequence of pool operations on the initialized pool, nx and
    pv of every buffer point into the pool and are inverse to each other. *)
Theorem ring_neighbours_are_inverse (K : mpConstants) (ops : list poolOp) (i : nat) :
  (i < MP_BUFFER_SIZE K)%nat ->
  let p := run_pool_ops ops (_mp_init_buffers K) in
  (bf_nx (deref p i) < MP_BUFFER_SIZE K)%nat
  /\ (bf_pv (deref p i) < MP_BUFFER_SIZE K)%nat
  /\ bf_pv (deref p (bf_nx (deref p i))) = i
  /\ bf_nx (deref p (bf_pv (deref p i))) = i.
Proof.
  intros Hi p.
  assert (Hr : ring_of p = ring_of (_mp_init_buffers K)) by apply ring_of_run_pool_ops.
  destruct (pool_ring_links K p i Hr Hi) as [Hnx Hpv].
  rewrite Hnx, Hpv.
  pose proof (bump_lt K i Hi) as Hb. pose proof (ring_pv_lt K i Hi) as Hp.
  destruct (pool_ring_links K p _ Hr Hb) as [_ Hpv'].
  destruct (pool_ring_links K p _ Hr Hp) as [Hnx' _].
  rewrite Hpv', Hnx'. repeat split; try assumption.
  - now apply ring_pv_bump.
  - now apply bump_ring_pv.
Qed.

Lemma ring_neighbours_are_inverse_witness :
  (bf_nx (deref (run_pool_ops [OpGetWriteBuffer; OpQueueWriteBuffer MP_TYPE_LINE]
                   (_mp_init_buffers sample_constants)) 6) < 7)%nat
  /\ (bf_pv (deref (run_pool_ops [OpGetWriteBuffer; OpQueueWriteBuffer MP_TYPE_LINE]
                      (_mp_init_buffers sample_constants)) 6) < 7)%nat
  /\ bf_pv (deref (run_pool_ops [OpGetWriteBuffer; OpQueueWriteBuffer MP_TYPE_LINE]
                     (_mp_init_buffers sample_constants))
              (bf_nx (deref (run_pool_ops [OpGetWriteBuffer;
                                           OpQueueWriteBuffer MP_TYPE_LINE]
                               (_mp_init_buffers sample_constants)) 6))) = 6%nat
  /\ bf_nx (deref (run_pool_ops [OpGetWriteBuffer; OpQueueWriteBuffer MP_TYPE_LINE]
                     (_mp_init_buffers sample_constants))
              (bf_pv (deref (run_pool_ops [OpGetWriteBuffer;
                                           OpQueueWriteBuffer MP_TYPE_LINE]
                               (_mp_init_buffers sample_constants)) 6))) = 6%nat.
Proof.
  apply (ring_neighbours_are_inverse sample_constants
           [OpGetWriteBuffer; OpQueueWriteBuffer MP_TYPE_LINE] 6).
  simpl. lia.
Defined.

(** X4: [_mp_get_write_buffer] on an EMPTY write slot returns that slot, and
    [_mp_unget_write_buffer] after it restores the three pointers and every
    buffer state; the slot has been cleared, the other buffers are untouched. *)
Theorem unget_releases_the_write_buffer (K : mpConstants) (p : mpBufferPool) :
  ring_of p = ring_of (_mp_init_buffers K) ->
  (mb_w p < MP_BUFFER_SIZE K)%nat ->
  bf_buffer_state (deref p (mb_w p)) = MP_BUFFER_EMPTY ->
  fst (_mp_get_write_buffer p) = Some (mb_w p)
  /\ mb_w (_mp_unget_write_buffer (snd (_mp_get_write_buffer p))) = mb_w p
  /\ mb_q (_mp_unget_write_buffer (snd (_mp_get_write_buffer p))) = mb_q p
  /\ mb_r (_mp_unget_write_buffer (snd (_mp_get_write_buffer p))) = mb_r p
  /\ states_of (_mp_unget_write_buffer (snd (_mp_get_write_buffer p))) = states_of p
  /\ deref (_mp_unget_write_buffer (snd (_mp_get_write_buffer p))) (mb_w p)
     = clear_keep_links (deref p (mb_w p))
  /\ forall j, j <> mb_w p ->
       deref (_mp_unget_write_buffer (snd (_mp_get_write_buffer p))) j = deref p j.
Proof.
  intros Hr Hw He.
  assert (Hlen : (mb_w p < length (mb_bf p))%nat) by now rewrite (pool_ring_length K p Hr).
  rewrite get_write_buffer_ok by assumption. cbn [fst snd].
  destruct (pool_ring_links K p (mb_w p) Hr Hw) as [Hnx _].
  pose proof (bump_lt K _ Hw) as Hb.
  set (p1 := modify (mb_w p) (set_bf_buffer_state MP_BUFFER_LOADING)
               (modify (mb_w p) clear_keep_links p)).
  assert (Hr1 : ring_of p1 = ring_of (_mp_init_buffers K)).
  { unfold p1. ring_simpl. exact Hr. }
  assert (Hback : bf_pv (deref p1 (bf_nx (deref p (mb_w p)))) = mb_w p).
  { rewrite Hnx. destruct (pool_ring_links K p1 _ Hr1 Hb) as [_ Hpv].
    rewrite Hpv. now apply ring_pv_bump. }
  unfold _mp_unget_write_buffer. pool_simpl. rewrite Hback.
  assert (Hsame : deref (modify (mb_w p) (set_bf_buffer_state MP_BUFFER_EMPTY) p1) (mb_w p)
                  = clear_keep_links (deref p (mb_w p))).
  { unfold p1. pool_simpl. reflexivity. }
  assert (Hother : forall j, j <> mb_w p ->
            deref (modify (mb_w p) (set_bf_buffer_state MP_BUFFER_EMPTY) p1) j = deref p j).
  { intros j Hj. unfold p1. pool_simpl. reflexivity. }
  split; [reflexivity|]. split; [reflexivity|]. split; [reflexivity|].
  split; [reflexivity|]. split; [|split; [exact Hsame|exact Hother]].
  apply states_of_eq.
  - unfold p1. rewrite ?modify_set_mb_w. cbn [set_mb_w mb_bf].
    now rewrite !length_modify.
  - intros j. destruct (decide (j = mb_w p)) as [->|Hj].
    + rewrite ?deref_set_mb_w, Hsame. now rewrite He.
    + rewrite ?deref_set_mb_w. now rewrite Hother.
Qed.

Lemma unget_releases_the_write_buffer_witness :
  fst (_mp_get_write_buffer (mb one_write_slot_free)) = Some (mb_w (mb one_write_slot_free))
  /\ mb_w (_mp_unget_write_buffer (snd (_mp_get_write_buffer (mb one_write_slot_free))))
     = mb_w (mb one_write_slot_free)
  /\ mb_q (_mp_unget_write_buffer (snd (_mp_get_write_buffer (mb one_write_slot_free))))
     = mb_q (mb one_write_slot_free)
  /\ mb_r (_mp_unget_write_buffer (snd (_mp_get_write_buffer (mb one_write_slot_free))))
     = mb_r (mb one_write_slot_free)
  /\ states_of (_mp_unget_write_buffer (snd (_mp_get_write_buffer (mb one_write_slot_free))))
     = states_of (mb one_write_slot_free)
  /\ deref (_mp_unget_write_buffer (snd (_mp_get_write_buffer (mb one_write_slot_free))))
       (mb_w (mb one_write_slot_free))
     = clear_keep_links (deref (mb one_write_slot_free) (mb_w (mb one_write_slot_free)))
  /\ forall j, j <> mb_w (mb one_write_slot_free) ->
       deref (_mp_unget_write_buffer (snd (_mp_get_write_buffer (mb one_write_slot_free)))) j
       = deref (mb one_write_slot_free) j.
Proof.
  apply (unget_releases_the_write_buffer sample_constants (mb one_write_slot_free)).
  - reflexivity.
  - vm_compute. lia.
  - vm_compute. reflexivity.
Defined.

(** *** mp_check_for_write_buffers *)

Lemma check_from_spec K p count : forall w,
  ring_of p = ring_of (_mp_init_buffers K) ->
  (w < MP_BUFFER_SIZE K)%nat ->
  check_from p w count = true
  <-> forall k, (k < count)%nat ->
        bf_buffer_state (deref p (slot_after K k w)) = MP_BUFFER_EMPTY.
Proof.
  induction count as [|c IH]; intros w Hr Hw.
  - simpl. split; [intros _ k Hk; lia|reflexivity].
  - cbn [check_from]. destruct (pool_ring_links K p w Hr Hw) as [Hnx _]. rewrite Hnx.
    case_decide as He.
    + rewrite (IH (_mp_bump K w) Hr (bump_lt K w Hw)). split.
      * intros H [|k] Hk; [exact He|].
        unfold slot_after. rewrite Nat.iter_succ_r. apply H. lia.
      * intros H k Hk. specialize (H (S k) ltac:(lia)).
        unfold slot_after in H. rewrite Nat.iter_succ_r in H. exact H.
    + split; [discriminate|]. intros H. exfalso. apply He. apply (H 0%nat). lia.
Qed.

(** X5: [mp_check_for_write_buffers (count)] is TRUE exactly when the
    [count] slots from the write pointer on are all EMPTY, and then it is
    TRUE for every smaller count. *)
Theorem check_for_write_buffers_spec (K : mpConstants) (p : mpBufferPool) (count : nat) :
  ring_of p = ring_of (_mp_init_buffers K) ->
  (mb_w p < MP_BUFFER_SIZE K)%nat ->
  (mp_check_for_write_buffers p count = true
   <-> forall k, (k < count)%nat ->
         bf_buffer_state (deref p (slot_after K k (mb_w p))) = MP_BUFFER_EMPTY)
  /\ (forall less, (less <= count)%nat ->
        mp_check_for_write_buffers p count = true ->
        mp_check_for_write_buffers p less = true).
Proof.
  intros Hr Hw. unfold mp_check_for_write_buffers. split.
  - now apply check_from_spec.
  - intros less Hle H.
    rewrite (check_from_spec K p count _ Hr Hw) in H.
    rewrite (check_from_spec K p less _ Hr Hw). intros k Hk. apply H. lia.
Qed.

Lemma check_for_write_buffers_spec_witness :
  (mp_check_for_write_buffers (mb one_write_slot_free) 2 = true
   <-> forall k, (k < 2)%nat ->
         bf_buffer_state
           (deref (mb one_write_slot_free)
              (slot_after sample_constants k (mb_w (mb one_write_slot_free))))
         = MP_BUFFER_EMPTY)
  /\ (forall less, (less <= 2)%nat ->
        mp_check_for_write_buffers (mb one_write_slot_free) 2 = true ->
        mp_check_for_write_buffers (mb one_write_slot_free) less = true).
Proof.
  apply (check_for_write_buffers_spec sample_constants (mb one_write_slot_free) 2).
  - reflexivity.
  - vm_compute. lia.
Defined.

(** *** Slots of the ring, counted from a slot *)

Lemma bump_mod K i :
  (i < MP_BUFFER_SIZE K)%nat -> _mp_bump K i = ((i + 1) mod MP_BUFFER_SIZE K)%nat.
Proof.
  intros Hi. unfold _mp_bump.
  destruct (Nat.ltb_spec i (MP_BUFFER_SIZE K - 1)) as [H|H].
  - rewrite Nat.mod_small by lia. lia.
  - replace (i + 1)%nat with (MP_BUFFER_SIZE K) by lia.
    rewrite Nat.Div0.mod_same. reflexivity.
Qed.

Lemma slot_after_mod K k w :
  (w < MP_BUFFER_SIZE K)%nat -> slot_after K k w = ((w + k) mod MP_BUFFER_SIZE K)%nat.
Proof.
  intros Hw. induction k as [|k IH].
  - simpl. rewrite Nat.add_0_r, Nat.mod_small by lia. reflexivity.
  - change (slot_after K (S k) w) with (_mp_bump K (slot_after K k w)). rewrite IH.
    rewrite bump_mod by (apply Nat.mod_upper_bound; lia).
    rewrite Nat.Div0.add_mod_idemp_l. f_equal. lia.
Qed.

Lemma slot_after_lt K k w :
  (w < MP_BUFFER_SIZE K)%nat -> (slot_after K k w < MP_BUFFER_SIZE K)%nat.
Proof. intros Hw. rewrite slot_after_mod by exact Hw. apply Nat.mod_upper_bound. lia. Qed.

Lemma slot_after_S K k w : slot_after K (S k) w = slot_after K k (_mp_bump K w).
Proof. unfold slot_after. apply Nat.iter_succ_r. Qed.

Lemma slot_after_inj K j k w :
  (w < MP_BUFFER_SIZE K)%nat -> (j < MP_BUFFER_SIZE K)%nat -> (k < MP_BUFFER_SIZE K)%nat ->
  slot_after K j w = slot_after K k w -> j = k.
Proof.
  intros Hw Hj Hk. rewrite !slot_after_mod by exact Hw. intros E.
  set (N := MP_BUFFER_SIZE K) in *.
  assert (Hmod : forall a, (a < N)%nat ->
            ((w + a) mod N = if (w + a <? N)%nat then w + a else w + a - N)%nat).
  { intros a Ha. destruct (Nat.ltb_spec (w + a) N) as [H|H].
    - apply Nat.mod_small. exact H.
    - replace (w + a)%nat with ((w + a - N) + 1 * N)%nat at 1 by lia.
      rewrite Nat.Div0.mod_add. apply Nat.mod_small. lia. }
  rewrite (Hmod j Hj), (Hmod k Hk) in E.
  destruct (Nat.ltb_spec (w + j) N), (Nat.ltb_spec (w + k) N); lia.
Qed.

Lemma slot_after_full K w :
  (w < MP_BUFFER_SIZE K)%nat -> slot_after K (MP_BUFFER_SIZE K) w = w.
Proof.
  intros Hw. rewrite slot_after_mod by exact Hw.
  replace (w + MP_BUFFER_SIZE K)%nat with (w + 1 * MP_BUFFER_SIZE K)%nat by lia.
  rewrite Nat.Div0.mod_add. apply Nat.mod_small. exact Hw.
Qed.

(** Every slot of the ring is some slot counted from [w]. *)
Lemma slot_after_surj K w j :
  (w < MP_BUFFER_SIZE K)%nat -> (j < MP_BUFFER_SIZE K)%nat ->
  exists k, (k < MP_BUFFER_SIZE K)%nat /\ slot_after K k w = j.
Proof.
  intros Hw Hj. set (N := MP_BUFFER_SIZE K) in *.
  destruct (le_lt_dec w j) as [H|H].
  - exists (j - w)%nat. split; [lia|]. rewrite slot_after_mod by exact Hw.
    fold N. replace (w + (j - w))%nat with j by lia. apply Nat.mod_small. exact Hj.
  - exists (N + j - w)%nat. split; [lia|]. rewrite slot_after_mod by exact Hw.
    fold N. replace (w + (N + j - w))%nat with (j + 1 * N)%nat by lia.
    rewrite Nat.Div0.mod_add. apply Nat.mod_small. exact Hj.
Qed.

(** *** Queueing a directive *)

Lemma mb_w_modify i f p : mb_w (modify i f p) = mb_w p.
Proof. reflexivity. Qed.
Lemma mb_q_modify i f p : mb_q (modify i f p) = mb_q p.
Proof. reflexivity. Qed.
Lemma mb_r_modify i f p : mb_r (modify i f p) = mb_r p.
Proof. reflexivity. Qed.
Lemma modify_set_mb_r i f v p : modify i f (set_mb_r v p) = set_mb_r v (modify i f p).
Proof. reflexivity. Qed.

Ltac pool_simpl' :=
  repeat first
    [ progress pool_simpl
    | rewrite mb_w_modify
    | rewrite mb_q_modify
    | rewrite mb_r_modify
    | rewrite modify_set_mb_r ].

Lemma queue_directive_step K d s :
  ring_of (mb s) = ring_of (_mp_init_buffers K) ->
  (mb_w (mb s) < MP_BUFFER_SIZE K)%nat ->
  mb_q (mb s) = mb_w (mb s) ->
  bf_buffer_state (deref (mb s) (mb_w (mb s))) = MP_BUFFER_EMPTY ->
  ring_of (mb (queue_directive d s)) = ring_of (mb s)
  /\ mb_w (mb (queue_directive d s)) = _mp_bump K (mb_w (mb s))
  /\ mb_q (mb (queue_directive d s)) = _mp_bump K (mb_w (mb s))
  /\ mb_r (mb (queue_directive d s)) = mb_r (mb s)
  /\ slot_holds d (deref (mb (queue_directive d s)) (mb_w (mb s)))
  /\ (forall j, j <> mb_w (mb s) -> deref (mb (queue_directive d s)) j = deref (mb s) j)
  /\ mq (queue_directive d s) = mq s
  /\ traps (queue_directive d s) = traps s
  /\ mr (queue_directive d s) = mr s
  /\ mm (queue_directive d s) = mm s.
Proof.
  intros Hr Hw Hq He.
  assert (Hlen : (mb_w (mb s) < length (mb_bf (mb s)))%nat)
    by now rewrite (pool_ring_length K _ Hr).
  destruct (pool_ring_links K (mb s) _ Hr Hw) as [Hnx _].
  destruct s as [mm0 m0 m1 mr0 [w q r bf] mq0 tr0].
  cbn [mb mb_w mb_q mb_bf] in *. subst q.
  destruct d; cbn [queue_directive];
    unfold mp_queued_stop, mp_queued_start, mp_queued_end, mp_dwell;
    rewrite get_write_buffer_ok by assumption;
    unfold _mp_queue_write_buffer; pool_simpl'; unfold clear_keep_links; proj_simpl;
    rewrite ?Hnx;
    (split; [ring_simpl; reflexivity|];
     split; [reflexivity|]; split; [reflexivity|]; split; [reflexivity|];
     split; [unfold slot_holds; repeat split; first [reflexivity | left; reflexivity]|];
     split; [intros j Hj; pool_simpl'; reflexivity|];
     repeat split).
Qed.

(** *** Freeing the run buffer *)

Lemma nx_of_cleared st b : bf_nx (set_bf_buffer_state st (clear_keep_links b)) = bf_nx b.
Proof. reflexivity. Qed.

Lemma finalize_run_buffer_spec K p :
  ring_of p = ring_of (_mp_init_buffers K) ->
  (mb_r p < MP_BUFFER_SIZE K)%nat ->
  ring_of (_mp_finalize_run_buffer p) = ring_of p
  /\ mb_w (_mp_finalize_run_buffer p) = mb_w p
  /\ mb_q (_mp_finalize_run_buffer p) = mb_q p
  /\ mb_r (_mp_finalize_run_buffer p) = _mp_bump K (mb_r p)
  /\ bf_buffer_state (deref (_mp_finalize_run_buffer p) (mb_r p)) = MP_BUFFER_EMPTY
  /\ bf_move_type (deref (_mp_finalize_run_buffer p) (mb_r p)) = MP_TYPE_NULL
  /\ bf_replannable (deref (_mp_finalize_run_buffer p) (mb_r p)) = false
  /\ forall j, j <> mb_r p ->
       deref (_mp_finalize_run_buffer p) j = deref p j
       \/ (bf_buffer_state (deref p j) = MP_BUFFER_QUEUED
           /\ deref (_mp_finalize_run_buffer p) j
              = set_bf_buffer_state MP_BUFFER_PENDING (deref p j)).
Proof.
  intros Hr Hlt.
  assert (Hlen : (mb_r p < length (mb_bf p))%nat) by now rewrite (pool_ring_length K _ Hr).
  destruct (pool_ring_links K p _ Hr Hlt) as [Hnx _].
  destruct p as [w q r bf]. cbn [mb_r mb_w mb_q mb_bf] in *.
  unfold _mp_finalize_run_buffer, _mp_clear_buffer.
  pool_simpl'. rewrite !nx_of_cleared, !Hnx.
  set (p0 := {| mb_w := w; mb_q := q; mb_r := r; mb_bf := bf |}) in *.
  set (p1 := modify r (set_bf_buffer_state MP_BUFFER_EMPTY) (modify r clear_keep_links p0)).
  assert (Hl1 : (r < length (mb_bf p1))%nat) by (unfold p1; now rewrite !length_modify).
  assert (Hr1 : deref p1 r = set_bf_buffer_state MP_BUFFER_EMPTY (clear_keep_links (deref p0 r))).
  { unfold p1. pool_simpl. reflexivity. }
  assert (Ho1 : forall j, j <> r -> deref p1 j = deref p0 j).
  { intros j Hj. unfold p1. pool_simpl. reflexivity. }
  case_decide as Hq.
  - assert (Hne : _mp_bump K r <> r).
    { intros E. rewrite E, Hr1 in Hq. discriminate. }
    pool_simpl'. rewrite Hr1.
    split; [unfold p1; ring_simpl; reflexivity|].
    do 6 (split; [reflexivity|]).
    intros j Hj. destruct (decide (j = _mp_bump K r)) as [->|Hj'].
    + right. rewrite Ho1 in Hq by exact Hne. split; [exact Hq|].
      assert (Hlb : (_mp_bump K r < length (mb_bf p1))%nat).
      { rewrite (pool_ring_length K p1); [apply bump_lt; exact Hlt|].
        unfold p1. ring_simpl. exact Hr. }
      rewrite deref_set_mb_r, deref_modify_same by exact Hlb.
      now rewrite Ho1.
    + left. pool_simpl. now apply Ho1.
  - pool_simpl'. rewrite Hr1.
    split; [unfold p1; ring_simpl; reflexivity|].
    do 6 (split; [reflexivity|]).
    intros j Hj. left. now apply Ho1.
Qed.

(** *** Running a directive *)

Lemma get_run_buffer_ok p :
  (mb_r p < length (mb_bf p))%nat ->
  bf_buffer_state (deref p (mb_r p)) = MP_BUFFER_QUEUED
  \/ bf_buffer_state (deref p (mb_r p)) = MP_BUFFER_PENDING ->
  _mp_get_run_buffer p
  = (Some (mb_r p), modify (mb_r p) (set_bf_buffer_state MP_BUFFER_RUNNING) p).
Proof.
  intros Hlen H. unfold _mp_get_run_buffer. rewrite (decide_True _ _ H).
  rewrite mb_r_modify, deref_modify_same by exact Hlen.
  case_decide as E; [reflexivity|]. exfalso. apply E. reflexivity.
Qed.

Lemma dispatch_directive_step K cfg d s :
  (mb_r (mb s) < length (mb_bf (mb s)))%nat ->
  slot_holds d (deref (mb s) (mb_r (mb s))) ->
  exists s',
    mp_move_dispatcher K cfg true s = (TG_OK, s')
    /\ mq s' = mq s ++ [directive_command d]
    /\ traps s' = traps s
    /\ mm s' = mm s
    /\ mr_run_flag (mr s') = false
    /\ mr_position (mr s') = mr_position (mr s)
    /\ mb s' = _mp_finalize_run_buffer
                 (modify (mb_r (mb s)) (set_bf_buffer_state MP_BUFFER_RUNNING) (mb s)).
Proof.
  intros Hlen (Hst & Hnew & Hd).
  unfold mp_move_dispatcher. rewrite get_run_buffer_ok by assumption.
  destruct s as [mm0 m0 m1 mr0 p mq0 tr0]. cbn [mb] in *.
  pool_simpl. proj_simpl. rewrite Hnew. rewrite decide_True by reflexivity.
  unfold run_move. pool_simpl. proj_simpl.
  destruct d; cbn [directive_command] in *.
  - rewrite Hd. unfold _mp_run_stops. cbn [negb]. pool_simpl. proj_simpl. rewrite Hd.
    rewrite decide_False by discriminate. eexists. split; [reflexivity|].
    repeat split.
  - rewrite Hd. unfold _mp_run_stops. cbn [negb]. pool_simpl. proj_simpl. rewrite Hd.
    rewrite decide_False by discriminate. eexists. split; [reflexivity|].
    repeat split.
  - rewrite Hd. unfold _mp_run_stops. cbn [negb]. pool_simpl. proj_simpl. rewrite Hd.
    rewrite decide_False by discriminate. eexists. split; [reflexivity|].
    repeat split.
  - destruct Hd as [Hd Ht]. rewrite Hd. unfold _mp_run_dwell. cbn [negb].
    pool_simpl. proj_simpl. rewrite Ht.
    rewrite decide_False by discriminate. eexists. split; [reflexivity|].
    repeat split.
Qed.

(** *** The queue of directives *)

Lemma pool_idle_queue_holds K p : pool_idle K p <-> queue_holds K [] p.
Proof.
  unfold pool_idle, queue_holds, pool_ok. cbn [length]. split.
  - intros ((Hr & Hw & Hq) & Hrw & He). rewrite Hrw.
    split; [exact Hr|]. split; [exact Hw|]. split; [lia|]. split; [reflexivity|].
    split; [exact Hq|]. split; [intros k d Hk; discriminate|].
    intros k Hk. apply He. now apply slot_after_lt.
  - intros (Hr & Hlt & _ & Hw & Hq & _ & He). cbn in Hw.
    split; [split; [exact Hr|split; [congruence|exact Hq]]|]. split; [congruence|].
    intros j Hj. destruct (slot_after_surj K (mb_r p) j Hlt Hj) as (k & Hk & <-).
    apply He. lia.
Qed.

Lemma slot_holds_pending d b :
  slot_holds d b -> slot_holds d (set_bf_buffer_state MP_BUFFER_PENDING b).
Proof.
  intros (_ & Hn & Hd). split; [right; reflexivity|]. split; [exact Hn|].
  destruct d; exact Hd.
Qed.

Lemma queue_holds_produce K ds d s :
  queue_holds K ds (mb s) -> (length ds < MP_BUFFER_SIZE K)%nat ->
  queue_holds K (ds ++ [d]) (mb (queue_directive d s))
  /\ mb_r (mb (queue_directive d s)) = mb_r (mb s)
  /\ mq (queue_directive d s) = mq s
  /\ traps (queue_directive d s) = traps s
  /\ mr (queue_directive d s) = mr s
  /\ mm (queue_directive d s) = mm s.
Proof.
  intros (Hr & Hlt & Hn & Hw & Hq & Hs & He) Hless.
  assert (Hwlt : (mb_w (mb s) < MP_BUFFER_SIZE K)%nat)
    by (rewrite Hw; now apply slot_after_lt).
  assert (Hwe : bf_buffer_state (deref (mb s) (mb_w (mb s))) = MP_BUFFER_EMPTY)
    by (rewrite Hw; apply He; lia).
  destruct (queue_directive_step K d s Hr Hwlt Hq Hwe)
    as (Hr' & Hw' & Hq' & Hrr & Hd & Ho & Hmq & Htr & Hmr & Hmm).
  split; [|tauto].
  unfold queue_holds. rewrite Hrr, length_app. cbn [length].
  split; [congruence|]. split; [exact Hlt|]. split; [lia|].
  split; [rewrite Hw', Hw; replace (length ds + 1)%nat with (S (length ds)) by lia;
          reflexivity|].
  split; [congruence|]. split.
  - intros k d' Hk. destruct (decide (k < length ds)%nat) as [Hlt'|Hge].
    + rewrite lookup_app_l in Hk by exact Hlt'.
      rewrite Ho; [now apply Hs|].
      rewrite Hw. intros E. apply slot_after_inj in E; first [lia | exact Hlt].
    + assert (k = length ds).
      { apply lookup_lt_Some in Hk. rewrite length_app in Hk. cbn in Hk. lia. }
      subst k. rewrite lookup_app_r, Nat.sub_diag in Hk by lia.
      injection Hk as <-. rewrite <- Hw. exact Hd.
  - intros k Hk. rewrite Ho; [apply He; lia|].
    rewrite Hw. intros E. apply slot_after_inj in E; first [lia | exact Hlt].
Qed.

Lemma queue_holds_dispatch K cfg d ds s :
  queue_holds K (d :: ds) (mb s) ->
  exists s',
    mp_move_dispatcher K cfg true s = (TG_OK, s')
    /\ mq s' = mq s ++ [directive_command d]
    /\ traps s' = traps s
    /\ mm s' = mm s
    /\ mr_run_flag (mr s') = false
    /\ mr_position (mr s') = mr_position (mr s)
    /\ mb_r (mb s') = _mp_bump K (mb_r (mb s))
    /\ queue_holds K ds (mb s').
Proof.
  intros (Hr & Hlt & Hn & Hw & Hq & Hs & He). cbn [length] in *.
  assert (Hlen : (mb_r (mb s) < length (mb_bf (mb s)))%nat)
    by now rewrite (pool_ring_length K _ Hr).
  pose proof (Hs 0%nat d eq_refl) as H0. cbn in H0.
  destruct (dispatch_directive_step K cfg d s Hlen H0)
    as (s' & E & Hmq & Htr & Hmm & Hfl & Hpos & Hmb).
  exists s'. do 6 (split; [assumption|]).
  set (r := mb_r (mb s)) in *.
  set (p1 := modify r (set_bf_buffer_state MP_BUFFER_RUNNING) (mb s)) in *.
  assert (Hr1 : ring_of p1 = ring_of (_mp_init_buffers K)).
  { unfold p1. ring_simpl. exact Hr. }
  assert (Hrr1 : mb_r p1 = r) by reflexivity.
  assert (Ho1 : forall j, j <> r -> deref p1 j = deref (mb s) j).
  { intros j Hj. unfold p1. now rewrite deref_modify_ne by congruence. }
  destruct (finalize_run_buffer_spec K p1 Hr1 Hlt)
    as (Hr2 & Hw2 & Hq2 & Hrr2 & He2 & _ & _ & Ho2).
  rewrite <- Hmb in *. rewrite Hrr1 in *.
  split; [exact Hrr2|].
  unfold queue_holds. rewrite Hrr2.
  split; [congruence|]. split; [now apply bump_lt|]. split; [lia|].
  split; [rewrite Hw2; unfold p1; rewrite mb_w_modify, Hw; apply slot_after_S|].
  split; [rewrite Hq2, Hw2; unfold p1; now rewrite mb_w_modify, mb_q_modify|].
  assert (Hne : forall k, (S k < MP_BUFFER_SIZE K)%nat -> slot_after K (S k) r <> r).
  { intros k Hk E'. change r with (slot_after K 0 r) in E' at 2.
    apply slot_after_inj in E'; first [lia | exact Hlt]. }
  split.
  - intros k d' Hk. rewrite <- slot_after_S.
    assert (Hk' : (S k < MP_BUFFER_SIZE K)%nat) by (apply lookup_lt_Some in Hk; lia).
    pose proof (Hs (S k) d' Hk) as Hold. fold r in Hold.
    destruct (Ho2 _ (Hne k Hk')) as [Esame|[_ Epend]].
    + rewrite Esame, Ho1 by (apply Hne; exact Hk'). exact Hold.
    + rewrite Epend, Ho1 by (apply Hne; exact Hk'). now apply slot_holds_pending.
  - intros k Hk. rewrite <- slot_after_S.
    destruct (decide (S k < MP_BUFFER_SIZE K)%nat) as [Hk'|Hk'].
    + pose proof (He (S k) ltac:(lia)) as Hold. fold r in Hold.
      destruct (Ho2 _ (Hne k Hk')) as [Esame|[Eq _]].
      * rewrite Esame, Ho1 by (apply Hne; exact Hk'). exact Hold.
      * rewrite Ho1 in Eq by (apply Hne; exact Hk'). congruence.
    + replace (S k) with (MP_BUFFER_SIZE K) by lia.
      rewrite slot_after_full by exact Hlt. exact He2.
Qed.

(** *** Directives leave the planner in the order they entered it *)

Lemma dispatcher_noop K cfg room s :
  bf_buffer_state (deref (mb s) (mb_r (mb s))) = MP_BUFFER_EMPTY
  \/ bf_buffer_state (deref (mb s) (mb_r (mb s))) = MP_BUFFER_LOADING ->
  mp_move_dispatcher K cfg room s = (TG_NOOP, s).
Proof.
  intros H. unfold mp_move_dispatcher, _mp_get_run_buffer.
  destruct (decide (_ \/ _)) as [[E|E]|_]; [destruct H; congruence..|].
  destruct (decide (_ = MP_BUFFER_RUNNING)) as [E|_]; [destruct H; congruence|].
  destruct s. reflexivity.
Qed.

Lemma queue_directives_holds K ds : forall ds0 s,
  queue_holds K ds0 (mb s) -> (length ds0 + length ds <= MP_BUFFER_SIZE K)%nat ->
  queue_holds K (ds0 ++ ds) (mb (queue_directives ds s))
  /\ mb_r (mb (queue_directives ds s)) = mb_r (mb s)
  /\ mq (queue_directives ds s) = mq s
  /\ traps (queue_directives ds s) = traps s
  /\ mr (queue_directives ds s) = mr s
  /\ mm (queue_directives ds s) = mm s.
Proof.
  induction ds as [|d ds IH]; intros ds0 s H Hn.
  - rewrite app_nil_r. cbn. tauto.
  - cbn [length] in Hn.
    destruct (queue_holds_produce K ds0 d s H ltac:(lia))
      as (H1 & Hr & Hmq & Htr & Hmr & Hmm).
    destruct (IH (ds0 ++ [d]) (queue_directive d s) H1)
      as (H2 & Hr2 & Hmq2 & Htr2 & Hmr2 & Hmm2).
    { rewrite length_app. cbn. lia. }
    change (queue_directives (d :: ds) s) with (queue_directives ds (queue_directive d s)).
    rewrite <- app_assoc in H2. cbn in H2.
    split; [exact H2|]. repeat split; congruence.
Qed.

Lemma dispatch_times_holds K cfg ds : forall s,
  queue_holds K ds (mb s) ->
  queue_holds K [] (mb (dispatch_times K cfg (length ds) s))
  /\ mb_r (mb (dispatch_times K cfg (length ds) s)) = slot_after K (length ds) (mb_r (mb s))
  /\ mq (dispatch_times K cfg (length ds) s) = mq s ++ map directive_command ds
  /\ traps (dispatch_times K cfg (length ds) s) = traps s
  /\ mm (dispatch_times K cfg (length ds) s) = mm s
  /\ mr_position (mr (dispatch_times K cfg (length ds) s)) = mr_position (mr s).
Proof.
  induction ds as [|d ds IH]; intros s H.
  - cbn. rewrite app_nil_r. tauto.
  - destruct (queue_holds_dispatch K cfg d ds s H)
      as (s' & E & Hmq & Htr & Hmm & _ & Hpos & Hr & H').
    cbn [length]. unfold dispatch_times. cbn [run_times]. rewrite E. cbn [snd].
    fold (dispatch_times K cfg (length ds) s').
    destruct (IH s' H') as (H2 & Hr2 & Hmq2 & Htr2 & Hmm2 & Hpos2).
    split; [exact H2|]. rewrite Hmq2, Hmq, <- app_assoc. cbn [map app].
    split; [rewrite Hr2, Hr; symmetry; apply slot_after_S|].
    repeat split; congruence.
Qed.

(** X6: first in, first out.  From an idle pool, at most MP_BUFFER_SIZE
    queued stops, starts, ends and dwells followed by as many dispatcher
    calls reach the motor queue as the same commands in the same order, with
    no trap; the pool is idle again, its write pointer that many slots
    further, and one more dispatcher call is a TG_NOOP. *)
Theorem directives_run_in_queue_order (K : mpConstants) (cfg : cfgStructure)
    (ds : list directive) (s : planner) :
  pool_idle K (mb s) ->
  (length ds <= MP_BUFFER_SIZE K)%nat ->
  mq (dispatch_times K cfg (length ds) (queue_directives ds s))
  = mq s ++ map directive_command ds
  /\ traps (dispatch_times K cfg (length ds) (queue_directives ds s)) = traps s
  /\ pool_idle K (mb (dispatch_times K cfg (length ds) (queue_directives ds s)))
  /\ mb_w (mb (dispatch_times K cfg (length ds) (queue_directives ds s)))
     = slot_after K (length ds) (mb_w (mb s))
  /\ mm (dispatch_times K cfg (length ds) (queue_directives ds s)) = mm s
  /\ mr_position (mr (dispatch_times K cfg (length ds) (queue_directives ds s)))
     = mr_position (mr s)
  /\ mp_move_dispatcher K cfg true
       (dispatch_times K cfg (length ds) (queue_directives ds s))
     = (TG_NOOP, dispatch_times K cfg (length ds) (queue_directives ds s)).
Proof.
  intros Hidle Hn. pose proof Hidle as (_ & Hrw & _).
  apply pool_idle_queue_holds in Hidle.
  destruct (queue_directives_holds K ds [] s Hidle ltac:(cbn; lia))
    as (H1 & Hr1 & Hmq1 & Htr1 & Hmr1 & Hmm1).
  cbn [app] in H1.
  destruct (dispatch_times_holds K cfg ds _ H1)
    as (H2 & Hr2 & Hmq2 & Htr2 & Hmm2 & Hpos2).
  set (s2 := dispatch_times K cfg (length ds) (queue_directives ds s)) in *.
  pose proof H2 as (_ & Hlt2 & _ & Hw2 & _ & _ & He2). cbn in Hw2.
  split; [congruence|]. split; [congruence|].
  split; [now apply pool_idle_queue_holds|].
  split; [rewrite Hw2, Hr2, Hr1, Hrw; reflexivity|].
  split; [congruence|]. split; [rewrite Hpos2, Hmr1; reflexivity|].
  apply dispatcher_noop. left.
  change (mb_r (mb s2)) with (slot_after K 0 (mb_r (mb s2))).
  apply He2. cbn. lia.
Qed.

Lemma init_pool_idle K : (0 < MP_BUFFER_SIZE K)%nat -> pool_idle K (mb (mp_init K)).
Proof.
  intros H. split; [now apply init_pool_ok|]. split; [reflexivity|].
  intros j Hj. unfold deref. cbn [mb mp_init mb_bf _mp_init_buffers].
  rewrite (init_ring_lookup K _ _ _ _ Hj). reflexivity.
Qed.

Lemma directives_run_in_queue_order_witness :
  mq (dispatch_times sample_constants cfg_jerk_50e6 3
        (queue_directives [DDwell 2; DStop; DStart] (mp_init sample_constants)))
  = [MqDwell (to_uint32 (2 * 1000000)); MqStops MP_TYPE_STOP; MqStops MP_TYPE_START]
  /\ traps (dispatch_times sample_constants cfg_jerk_50e6 3
              (queue_directives [DDwell 2; DStop; DStart] (mp_init sample_constants)))
     = []
  /\ mb_w (mb (dispatch_times sample_constants cfg_jerk_50e6 3
                 (queue_directives [DDwell 2; DStop; DStart] (mp_init sample_constants))))
     = 3%nat.
Proof.
  destruct (directives_run_in_queue_order sample_constants cfg_jerk_50e6
              [DDwell 2; DStop; DStart] (mp_init sample_constants))
    as (Hmq & Htr & _ & Hw & _).
  - apply init_pool_idle. cbn. lia.
  - cbn. lia.
  - split; [exact Hmq|]. split; [exact Htr|exact Hw].
Defined.

(** *** A line from [mp_line] to the motor queue *)

Lemma line_step K target minutes s :
  ring_of (mb s) = ring_of (_mp_init_buffers K) ->
  (mb_w (mb s) < MP_BUFFER_SIZE K)%nat ->
  mb_q (mb s) = mb_w (mb s) ->
  bf_buffer_state (deref (mb s) (mb_w (mb s))) = MP_BUFFER_EMPTY ->
  ~ minutes < EPSILON K ->
  ~ mp_get_axis_vector_length target (mr_position (mr s)) < MIN_LINE_LENGTH K ->
  exists s',
    mp_line K target minutes s = (TG_OK, s')
    /\ ring_of (mb s') = ring_of (mb s)
    /\ mb_w (mb s') = _mp_bump K (mb_w (mb s))
    /\ mb_q (mb s') = _mp_bump K (mb_w (mb s))
    /\ mb_r (mb s') = mb_r (mb s)
    /\ bf_buffer_state (deref (mb s') (mb_w (mb s))) = MP_BUFFER_QUEUED
    /\ bf_move_state (deref (mb s') (mb_w (mb s))) = MP_STATE_NEW
    /\ bf_move_type (deref (mb s') (mb_w (mb s))) = MP_TYPE_LINE
    /\ bf_target (deref (mb s') (mb_w (mb s))) = mp_copy_vector target
    /\ bf_time (deref (mb s') (mb_w (mb s))) = minutes
    /\ bf_length (deref (mb s') (mb_w (mb s)))
       = mp_get_axis_vector_length target (mr_position (mr s))
    /\ (forall j, j <> mb_w (mb s) -> deref (mb s') j = deref (mb s) j)
    /\ mm_position (mm s') = mp_copy_vector target
    /\ mq s' = mq s /\ traps s' = traps s /\ mr s' = mr s.
Proof.
  intros Hr Hw Hq He Hmin Hlen'.
  assert (Hlen : (mb_w (mb s) < length (mb_bf (mb s)))%nat)
    by now rewrite (pool_ring_length K _ Hr).
  destruct (pool_ring_links K (mb s) _ Hr Hw) as [Hnx _].
  destruct s as [mm0 m0 m1 mr0 [w q r bf] mq0 tr0].
  cbn [mb mr mb_w mb_q mb_bf] in *. subst q.
  unfold mp_line. destruct (Rlt_dec minutes (EPSILON K)) as [|_]; [contradiction|].
  rewrite get_write_buffer_ok by assumption.
  pool_simpl'. proj_simpl.
  destruct (Rlt_dec _ _) as [|_]; [contradiction|].
  unfold _mp_queue_write_buffer, _mp_set_mm_position. pool_simpl'.
  unfold clear_keep_links. proj_simpl. rewrite ?Hnx.
  eexists. split; [reflexivity|]. pool_simpl'. proj_simpl.
  split; [ring_simpl; reflexivity|].
  do 9 (split; [reflexivity|]).
  split; [intros j Hj; pool_simpl'; reflexivity|].
  split; [|repeat split].
  unfold mp_copy_vector. cbv [vec_init vget AXES seq map nth]. reflexivity.
Qed.

Lemma copy_vector_idem v : mp_copy_vector (mp_copy_vector v) = mp_copy_vector v.
Proof. unfold mp_copy_vector. cbv [vec_init vget AXES seq map nth]. reflexivity. Qed.

Lemma vget_copy_vector v i : (i < AXES)%nat -> vget (mp_copy_vector v) i = vget v i.
Proof.
  unfold AXES. intros Hi. unfold mp_copy_vector.
  do 6 (destruct i as [|i]; [reflexivity|]). lia.
Qed.

Lemma dispatch_line_step K cfg s :
  (mb_r (mb s) < length (mb_bf (mb s)))%nat ->
  bf_buffer_state (deref (mb s) (mb_r (mb s))) = MP_BUFFER_QUEUED
  \/ bf_buffer_state (deref (mb s) (mb_r (mb s))) = MP_BUFFER_PENDING ->
  bf_move_state (deref (mb s) (mb_r (mb s))) = MP_STATE_NEW ->
  bf_move_type (deref (mb s) (mb_r (mb s))) = MP_TYPE_LINE ->
  exists s',
    mp_move_dispatcher K cfg true s = (TG_OK, s')
    /\ mq s' = mq s ++ [MqLine
                          (vec_init (fun i =>
                             vget (bf_target (deref (mb s) (mb_r (mb s)))) i
                             - vget (mr_position (mr s)) i))
                          (uSec (bf_time (deref (mb s) (mb_r (mb s)))))]
    /\ mr_position (mr s')
       = mp_copy_vector (bf_target (deref (mb s) (mb_r (mb s))))
    /\ traps s' = traps s
    /\ mm s' = mm s
    /\ mr_run_flag (mr s') = false
    /\ mb s' = _mp_finalize_run_buffer
                 (modify (mb_r (mb s)) (set_bf_buffer_state MP_BUFFER_RUNNING) (mb s)).
Proof.
  intros Hlen Hst Hnew Hty.
  unfold mp_move_dispatcher. rewrite get_run_buffer_ok by assumption.
  destruct s as [mm0 m0 m1 mr0 p mq0 tr0]. cbn [mb mr mq] in *.
  pool_simpl. proj_simpl. rewrite Hnew. rewrite decide_True by reflexivity.
  unfold run_move. pool_simpl. proj_simpl. rewrite Hty.
  unfold _mp_run_line. cbn [negb]. unfold mq_queue_line, _mp_set_mr_position.
  pool_simpl. proj_simpl.
  rewrite decide_False by discriminate. eexists. split; [reflexivity|].
  pool_simpl. proj_simpl. repeat split.
Qed.

(** X7: from an idle pool, [mp_line] of a move that is not zero-length
    returns TG_OK and moves mm.position to the target; one dispatcher call
    then queues one line from mr.position to the target that lasts
    uSec(minutes), moves mr.position to the target and leaves the pool idle,
    its write pointer one slot further. *)
Theorem line_is_run_as_one_segment (K : mpConstants) (cfg : cfgStructure)
    (target : list R) (minutes : R) (s : planner) :
  pool_idle K (mb s) ->
  ~ minutes < EPSILON K ->
  ~ mp_get_axis_vector_length target (mr_position (mr s)) < MIN_LINE_LENGTH K ->
  fst (mp_line K target minutes s) = TG_OK
  /\ mm_position (mm (snd (mp_line K target minutes s))) = mp_copy_vector target
  /\ fst (mp_move_dispatcher K cfg true (snd (mp_line K target minutes s))) = TG_OK
  /\ mq (snd (mp_move_dispatcher K cfg true (snd (mp_line K target minutes s))))
     = mq s ++ [MqLine (vec_init (fun i => vget target i - vget (mr_position (mr s)) i))
                  (uSec minutes)]
  /\ mr_position (mr (snd (mp_move_dispatcher K cfg true (snd (mp_line K target minutes s)))))
     = mp_copy_vector target
  /\ traps (snd (mp_move_dispatcher K cfg true (snd (mp_line K target minutes s))))
     = traps s
  /\ pool_idle K (mb (snd (mp_move_dispatcher K cfg true (snd (mp_line K target minutes s)))))
  /\ mb_w (mb (snd (mp_move_dispatcher K cfg true (snd (mp_line K target minutes s)))))
     = _mp_bump K (mb_w (mb s)).
Proof.
  intros ((Hr & Hw & Hq) & Hrw & He) Hmin Hlen'.
  destruct (line_step K target minutes s Hr Hw Hq (He _ Hw) Hmin Hlen')
    as (s1 & E1 & Hr1 & Hw1 & Hq1 & Hrr1 & Hst1 & Hnew1 & Hty1 & Htg1 & Htm1 & _
        & Ho1 & Hmm1 & Hmq1 & Htr1 & Hmr1).
  rewrite E1. cbn [fst snd].
  assert (Hrs1 : mb_r (mb s1) = mb_w (mb s)) by congruence.
  assert (Hlen1 : (mb_r (mb s1) < length (mb_bf (mb s1)))%nat).
  { rewrite (pool_ring_length K (mb s1)) by congruence. now rewrite Hrs1. }
  destruct (dispatch_line_step K cfg s1 Hlen1) as (s2 & E2 & Hmq2 & Hpos2 & Htr2 & _ & _ & Hmb2);
    rewrite ?Hrs1; auto.
  rewrite Hrs1 in *. rewrite E2. cbn [fst snd].
  split; [reflexivity|]. split; [exact Hmm1|]. split; [reflexivity|].
  split.
  { rewrite Hmq2, Hmq1, Htg1, Htm1, Hmr1. reflexivity. }
  split; [rewrite Hpos2, Htg1; apply copy_vector_idem|].
  split; [congruence|].
  set (w := mb_w (mb s)) in *.
  set (p1 := modify w (set_bf_buffer_state MP_BUFFER_RUNNING) (mb s1)) in *.
  assert (Hrp1 : ring_of p1 = ring_of (_mp_init_buffers K)).
  { unfold p1. ring_simpl. congruence. }
  assert (Hrrp1 : mb_r p1 = w) by (unfold p1; now rewrite mb_r_modify).
  assert (Hop1 : forall j, j <> w -> deref p1 j = deref (mb s) j).
  { intros j Hj. unfold p1. rewrite deref_modify_ne by congruence. now apply Ho1. }
  destruct (finalize_run_buffer_spec K p1 Hrp1) as (Hr2 & Hw2 & Hq2 & Hrr2 & He2 & _ & _ & Ho2);
    [now rewrite Hrrp1|].
  rewrite <- Hmb2 in *. rewrite Hrrp1 in *.
  assert (Hwp1 : mb_w p1 = _mp_bump K w) by (unfold p1; now rewrite mb_w_modify).
  assert (Hqp1 : mb_q p1 = _mp_bump K w) by (unfold p1; now rewrite mb_q_modify).
  split; [|congruence].
  split; [split; [congruence|split; [rewrite Hw2, Hwp1; now apply bump_lt|congruence]]|].
  split; [congruence|].
  intros j Hj. destruct (decide (j = w)) as [->|Hne]; [exact He2|].
  destruct (Ho2 j Hne) as [Esame|[Eq _]].
  - rewrite Esame, Hop1 by exact Hne. now apply He.
  - rewrite Hop1 in Eq by exact Hne. rewrite He in Eq by exact Hj. discriminate.
Qed.

Lemma line_is_run_as_one_segment_witness :
  fst (mp_line sample_constants [3; 0; 0; 0; 0; 0] 1 (mp_init sample_constants)) = TG_OK
  /\ mq (snd (mp_move_dispatcher sample_constants cfg_jerk_50e6 true
                (snd (mp_line sample_constants [3; 0; 0; 0; 0; 0] 1
                        (mp_init sample_constants)))))
     = [MqLine (vec_init (fun i => vget [3; 0; 0; 0; 0; 0] i
                                   - vget (mr_position (mr (mp_init sample_constants))) i))
          (uSec 1)]
  /\ mr_position (mr (snd (mp_move_dispatcher sample_constants cfg_jerk_50e6 true
                             (snd (mp_line sample_constants [3; 0; 0; 0; 0; 0] 1
                                     (mp_init sample_constants))))))
     = mp_copy_vector [3; 0; 0; 0; 0; 0].
Proof.
  destruct (line_is_run_as_one_segment sample_constants cfg_jerk_50e6
              [3; 0; 0; 0; 0; 0] 1 (mp_init sample_constants))
    as (H1 & _ & _ & H2 & H3 & _).
  - apply init_pool_idle. cbn. lia.
  - cbn. lra.
  - change (mr_position (mr (mp_init sample_constants))) with [0; 0; 0; 0; 0; 0].
    rewrite x_move_length by lra. cbn. lra.
  - split; [exact H1|]. split; [exact H2|exact H3].
Defined.

(** *** What the run routines leave alone *)

Lemma runner_frame_refl s : runner_frame s s.
Proof. repeat split. Qed.

Lemma mr_frame_refl r : mr_frame r r.
Proof. split; reflexivity. Qed.

Lemma states_of_modify f i p :
  (forall b, bf_buffer_state (f b) = bf_buffer_state b) ->
  states_of (modify i f p) = states_of p.
Proof. intros H. unfold states_of, modify. simpl. now apply fmap_alter_keep. Qed.

Lemma runner_frame_modify_run s s1 bf f :
  (forall b, links (f b) = links b) ->
  (forall b, bf_buffer_state (f b) = bf_buffer_state b) ->
  runner_frame s s1 -> runner_frame s (modify_run bf f s1).
Proof.
  intros Hl Hs (Hw & Hq & Hr & Hring & Hst & Hrest). unfold runner_frame, modify_run.
  cbn [mb mm mp_0 mp_1 mr set_mb].
  rewrite mb_w_modify, mb_q_modify, mb_r_modify, ring_of_modify, states_of_modify
    by assumption.
  tauto.
Qed.

Lemma runner_frame_set_mr s s1 r :
  mr_frame (mr s) r -> runner_frame s s1 -> runner_frame s (set_mr r s1).
Proof. unfold runner_frame. cbn [mb mm mp_0 mp_1 mr set_mr]. tauto. Qed.

Lemma runner_frame_set_mq s s1 q : runner_frame s s1 -> runner_frame s (set_mq q s1).
Proof. unfold runner_frame. cbn [mb mm mp_0 mp_1 mr set_mq]. tauto. Qed.

Lemma runner_frame_TRAP s s1 msg : runner_frame s s1 -> runner_frame s (TRAP msg s1).
Proof. unfold runner_frame. cbn [mb mm mp_0 mp_1 mr TRAP]. tauto. Qed.

Lemma let_rule {A B} (v : A) (k : A -> B) (P : B -> Prop) :
  (forall x, x = v -> P (k x)) -> P (let x := v in k x).
Proof. intros H. exact (H v eq_refl). Qed.

(** A fact of [mr_frame] about a runtime structure built from a known one
    by setters that leave the flag and the vector alone. *)
Ltac mr_frame_tac :=
  lazymatch goal with
  | |- mr_frame ?r0 ?r =>
      first
        [ assumption
        | match goal with
          | H : runner_frame _ _ |- _ =>
              let F := fresh in
              pose proof H as (_ & _ & _ & _ & _ & _ & _ & _ & F);
              destruct F; split; proj_simpl; congruence
          end
        | match goal with
          | H : mr_frame r0 _ |- _ => destruct H; split; proj_simpl; congruence
          end ]
  end.

Ltac frame_tac :=
  lazymatch goal with
  | |- runner_frame ?s0 (snd (let x := ?v in @?k x)) =>
      refine (let_rule v k (fun r => runner_frame s0 (snd r)) _);
      frame_intro
  | |- runner_frame ?s0 (let x := ?v in @?k x) =>
      refine (let_rule v k (fun r => runner_frame s0 r) _);
      frame_intro
  | |- runner_frame _ (snd (if _ then _ else _)) => case_decide; frame_tac
  | |- runner_frame _ (if _ then _ else _) => case_decide; frame_tac
  | |- runner_frame _ (snd (_, _)) => cbn [snd]; frame_tac
  | |- runner_frame _ (set_mr _ _) => apply runner_frame_set_mr; [mr_frame_tac|frame_tac]
  | |- runner_frame _ (set_mq _ _) => apply runner_frame_set_mq; frame_tac
  | |- runner_frame _ (TRAP _ _) => apply runner_frame_TRAP; frame_tac
  | |- runner_frame _ (mq_queue_line _ _ _) => apply runner_frame_set_mq; frame_tac
  | |- runner_frame _ (_mp_set_mr_position _ _) =>
      apply runner_frame_set_mr; [mr_frame_tac|frame_tac]
  | |- runner_frame _ (modify_run _ _ _) =>
      apply runner_frame_modify_run;
      [intros []; reflexivity|intros []; reflexivity|frame_tac]
  | |- runner_frame _ _ => assumption
  end
with frame_intro :=
  let x := fresh "x" in
  let Hx := fresh "Hx" in
  intros x Hx; cbv beta;
  lazymatch type of x with
  | planner =>
      let F := fresh "F" in
      lazymatch goal with
      | |- runner_frame ?s0 _ =>
          assert (F : runner_frame s0 x) by (rewrite Hx; frame_tac)
      end;
      clear Hx; frame_tac
  | mpMoveRuntimeSingleton =>
      let F := fresh "F" in
      lazymatch goal with
      | |- runner_frame ?s0 _ =>
          assert (F : mr_frame (mr s0) x) by (rewrite Hx; mr_frame_tac)
      end;
      clear Hx; frame_tac
  | _ => clear Hx; frame_tac
  end.

Ltac frame_let x Hx :=
  lazymatch goal with
  | |- runner_frame ?s0 (snd (let y := ?v in @?k y)) =>
      refine (let_rule v k (fun r => runner_frame s0 (snd r)) _); intros x Hx; cbv beta
  | |- runner_frame ?s0 (let y := ?v in @?k y) =>
      refine (let_rule v k (fun r => runner_frame s0 r) _); intros x Hx; cbv beta
  end.

Lemma accel_setup_frame cfg bf s0 s :
  runner_frame s0 s -> runner_frame s0 (snd (accel_setup cfg bf s)).
Proof. intros H. cbv beta delta [accel_setup]. frame_tac. Qed.

Lemma decel_setup_frame cfg bf s0 s :
  runner_frame s0 s -> runner_frame s0 (snd (decel_setup cfg bf s)).
Proof. intros H. cbv beta delta [decel_setup]. frame_tac. Qed.

Lemma accel_initialize_frame K cfg bf s0 s :
  runner_frame s0 s -> runner_frame s0 (snd (accel_initialize K cfg bf s)).
Proof.
  intros H. cbv beta delta [accel_initialize].
  frame_let x Hx.
  assert (F : runner_frame s0 x) by (rewrite Hx; frame_tac). clear Hx.
  case_decide; [frame_tac|]. now apply accel_setup_frame.
Qed.

Lemma decel_initialize_frame K cfg bf s0 s :
  runner_frame s0 s -> runner_frame s0 (snd (decel_initialize K cfg bf s)).
Proof.
  intros H. cbv beta delta [decel_initialize].
  frame_let x Hx.
  assert (F : runner_frame s0 x) by (rewrite Hx; frame_tac). clear Hx.
  case_decide; [frame_tac|]. now apply decel_setup_frame.
Qed.

Lemma aline_run_segment_frame bf s0 s :
  runner_frame s0 s -> runner_frame s0 (snd (_mp_aline_run_segment bf s)).
Proof. intros H. cbv beta delta [_mp_aline_run_segment]. frame_tac. Qed.

Lemma aline_run_finalize_frame K bf s0 s :
  runner_frame s0 s -> runner_frame s0 (_mp_aline_run_finalize K bf s).
Proof. intros H. cbv beta delta [_mp_aline_run_finalize]. frame_tac. Qed.

Lemma accel_first_half_frame bf s0 s :
  runner_frame s0 s -> runner_frame s0 (snd (accel_first_half bf s)).
Proof.
  intros H. cbv beta delta [accel_first_half].
  frame_let b Hb. clear Hb.
  frame_let x Hx.
  assert (F : runner_frame s0 x) by (rewrite Hx; frame_tac). clear Hx.
  pose proof (aline_run_segment_frame bf s0 x F) as F'.
  destruct (_mp_aline_run_segment bf x) as [status s1]. cbn [snd] in F'.
  frame_tac.
Qed.

Lemma decel_first_half_frame bf s0 s :
  runner_frame s0 s -> runner_frame s0 (snd (decel_first_half bf s)).
Proof.
  intros H. cbv beta delta [decel_first_half].
  frame_let b Hb. clear Hb.
  frame_let x Hx.
  assert (F : runner_frame s0 x) by (rewrite Hx; frame_tac). clear Hx.
  pose proof (aline_run_segment_frame bf s0 x F) as F'.
  destruct (_mp_aline_run_segment bf x) as [status s1]. cbn [snd] in F'.
  frame_tac.
Qed.

Lemma accel_second_half_frame K bf s0 s :
  runner_frame s0 s -> runner_frame s0 (snd (accel_second_half K bf s)).
Proof.
  intros H. cbv beta delta [accel_second_half]. case_decide.
  - frame_let x Hx.
    assert (F : runner_frame s0 x) by (rewrite Hx; frame_tac). clear Hx.
    now apply aline_run_segment_frame.
  - cbn [snd]. now apply aline_run_finalize_frame.
Qed.

Lemma decel_second_half_frame K bf s0 s :
  runner_frame s0 s -> runner_frame s0 (snd (decel_second_half K bf s)).
Proof.
  intros H. cbv beta delta [decel_second_half]. case_decide.
  - frame_let x Hx.
    assert (F : runner_frame s0 x) by (rewrite Hx; frame_tac). clear Hx.
    now apply aline_run_segment_frame.
  - cbn [snd]. now apply aline_run_finalize_frame.
Qed.

Lemma run_accel_frame K cfg room bf s0 s :
  runner_frame s0 s -> runner_frame s0 (snd (_mp_run_accel K cfg room bf s)).
Proof.
  intros H. unfold _mp_run_accel. destruct room; cbv beta iota delta [negb]; [|exact H].
  case_decide.
  - pose proof (accel_initialize_frame K cfg bf s0 s H) as F.
    destruct (accel_initialize K cfg bf s) as [[status|] s1]; cbn [snd] in F |- *;
      [exact F|].
    case_decide; [now apply accel_first_half_frame|].
    case_decide; [now apply accel_second_half_frame|exact F].
  - case_decide; [now apply accel_first_half_frame|].
    case_decide; [now apply accel_second_half_frame|exact H].
Qed.

Lemma run_decel_frame K cfg room bf s0 s :
  runner_frame s0 s -> runner_frame s0 (snd (_mp_run_decel K cfg room bf s)).
Proof.
  intros H. unfold _mp_run_decel. destruct room; cbv beta iota delta [negb]; [|exact H].
  case_decide.
  - pose proof (decel_initialize_frame K cfg bf s0 s H) as F.
    destruct (decel_initialize K cfg bf s) as [[status|] s1]; cbn [snd] in F |- *;
      [exact F|].
    case_decide; [now apply decel_first_half_frame|].
    case_decide; [now apply decel_second_half_frame|exact F].
  - case_decide; [now apply decel_first_half_frame|].
    case_decide; [now apply decel_second_half_frame|exact H].
Qed.

Lemma run_cruise_frame K room bf s0 s :
  runner_frame s0 s -> runner_frame s0 (snd (_mp_run_cruise K room bf s)).
Proof.
  intros H. cbv beta delta [_mp_run_cruise]. destruct room; cbv beta iota delta [negb]; [|exact H].
  frame_tac.
Qed.

Lemma arc_initialize_frame cfg bf s0 s :
  runner_frame s0 s -> runner_frame s0 (arc_initialize cfg bf s).
Proof. intros H. cbv beta delta [arc_initialize]. frame_tac. Qed.

Lemma arc_segment_frame bf s0 s :
  runner_frame s0 s -> runner_frame s0 (snd (arc_segment bf s)).
Proof. intros H. cbv beta delta [arc_segment]. frame_tac. Qed.

Lemma run_arc_frame cfg room bf s0 s :
  runner_frame s0 s -> runner_frame s0 (snd (_mp_run_arc cfg room bf s)).
Proof.
  intros H. cbv beta delta [_mp_run_arc]. destruct room; cbv beta iota delta [negb]; [|exact H].
  frame_let x Hx.
  assert (F : runner_frame s0 x).
  { rewrite Hx. case_decide; [now apply arc_initialize_frame|exact H]. }
  clear Hx. case_decide; [now apply arc_segment_frame|exact F].
Qed.

Lemma run_line_frame room bf s0 s :
  runner_frame s0 s -> runner_frame s0 (snd (_mp_run_line room bf s)).
Proof.
  intros H. cbv beta delta [_mp_run_line]. destruct room; cbv beta iota delta [negb]; [|exact H].
  frame_tac.
Qed.

Lemma run_move_frame K cfg room bf s0 s :
  runner_frame s0 s -> runner_frame s0 (snd (run_move K cfg room bf s)).
Proof.
  intros H. unfold run_move. destruct (mr_run_move (mr s)).
  - unfold _mp_run_null. frame_tac.
  - now apply run_accel_frame.
  - now apply run_cruise_frame.
  - now apply run_decel_frame.
  - now apply run_line_frame.
  - now apply run_arc_frame.
  - unfold _mp_run_dwell. destruct room; cbv beta iota delta [negb]; frame_tac.
  - unfold _mp_run_stops. destruct room; cbv beta iota delta [negb]; frame_tac.
  - unfold _mp_run_stops. destruct room; cbv beta iota delta [negb]; frame_tac.
  - unfold _mp_run_stops. destruct room; cbv beta iota delta [negb]; frame_tac.
Qed.

(** X8: no run routine changes the three pool pointers, the ring, the state
    of any buffer, mm, the planning structures, or the dispatcher's run flag
    and run vector. *)
Theorem run_routines_keep_the_pool_shape (K : mpConstants) (cfg : cfgStructure)
    (room : bool) (bf : nat) (s : planner) :
  runner_frame s (snd (_mp_run_null bf s))
  /\ runner_frame s (snd (_mp_run_stops room bf s))
  /\ runner_frame s (snd (_mp_run_dwell room bf s))
  /\ runner_frame s (snd (_mp_run_line room bf s))
  /\ runner_frame s (snd (_mp_run_arc cfg room bf s))
  /\ runner_frame s (snd (_mp_run_cruise K room bf s))
  /\ runner_frame s (snd (_mp_run_accel K cfg room bf s))
  /\ runner_frame s (snd (_mp_run_decel K cfg room bf s)).
Proof.
  pose proof (runner_frame_refl s) as H.
  split; [unfold _mp_run_null; frame_tac|].
  split; [unfold _mp_run_stops; destruct room; cbv beta iota delta [negb]; frame_tac|].
  split; [unfold _mp_run_dwell; destruct room; cbv beta iota delta [negb]; frame_tac|].
  split; [now apply run_line_frame|].
  split; [now apply run_arc_frame|].
  split; [now apply run_cruise_frame|].
  split; [now apply run_accel_frame|now apply run_decel_frame].
Qed.

(** *** The dispatcher *)

Lemma states_of_deref p p' j :
  states_of p' = states_of p ->
  bf_buffer_state (deref p' j) = bf_buffer_state (deref p j).
Proof.
  unfold states_of, deref. intros H.
  apply (f_equal (fun l => l !! j)) in H. rewrite !list_lookup_fmap in H.
  destruct (mb_bf p' !! j), (mb_bf p !! j); simpl in *; congruence.
Qed.

Lemma get_run_buffer_running p :
  bf_buffer_state (deref p (mb_r p)) = MP_BUFFER_RUNNING ->
  _mp_get_run_buffer p = (Some (mb_r p), p).
Proof.
  intros H. unfold _mp_get_run_buffer.
  destruct (decide (_ \/ _)) as [[E|E]|_]; [congruence..|].
  case_decide; [reflexivity|contradiction].
Qed.

(** The pool after [_mp_get_run_buffer] has found a buffer to run. *)
Lemma get_run_buffer_some K p :
  ring_of p = ring_of (_mp_init_buffers K) ->
  (mb_r p < MP_BUFFER_SIZE K)%nat ->
  bf_buffer_state (deref p (mb_r p)) = MP_BUFFER_QUEUED
  \/ bf_buffer_state (deref p (mb_r p)) = MP_BUFFER_PENDING
  \/ bf_buffer_state (deref p (mb_r p)) = MP_BUFFER_RUNNING ->
  exists p1,
    _mp_get_run_buffer p = (Some (mb_r p), p1)
    /\ ring_of p1 = ring_of p
    /\ mb_w p1 = mb_w p /\ mb_q p1 = mb_q p /\ mb_r p1 = mb_r p
    /\ bf_buffer_state (deref p1 (mb_r p)) = MP_BUFFER_RUNNING
    /\ bf_move_state (deref p1 (mb_r p)) = bf_move_state (deref p (mb_r p))
    /\ bf_move_type (deref p1 (mb_r p)) = bf_move_type (deref p (mb_r p))
    /\ forall j, j <> mb_r p -> deref p1 j = deref p j.
Proof.
  intros Hr Hlt H.
  assert (Hlen : (mb_r p < length (mb_bf p))%nat) by now rewrite (pool_ring_length K _ Hr).
  destruct H as [H|[H|H]].
  - rewrite get_run_buffer_ok by auto. eexists. split; [reflexivity|].
    rewrite deref_modify_same by exact Hlen.
    split; [ring_simpl; reflexivity|]. do 6 (split; [reflexivity|]).
    intros j Hj. now rewrite deref_modify_ne by congruence.
  - rewrite get_run_buffer_ok by auto. eexists. split; [reflexivity|].
    rewrite deref_modify_same by exact Hlen.
    split; [ring_simpl; reflexivity|]. do 6 (split; [reflexivity|]).
    intros j Hj. now rewrite deref_modify_ne by congruence.
  - rewrite get_run_buffer_running by exact H. eexists. split; [reflexivity|].
    do 4 (split; [reflexivity|]). split; [exact H|]. repeat split.
Qed.

Ltac let_step_in E x :=
  lazymatch type of E with
  | (let y := ?v in @?k y) = ?rhs =>
      pose (x := v); change (k x = rhs) in E; cbv beta in E
  end.

Lemma isbusy_flag st s :
  mp_isbusy st s = if mr_run_flag (mr s) then true else st.
Proof.
  unfold mp_isbusy. destruct (mr_run_flag (mr s)), st; case_decide; try reflexivity;
    exfalso; intuition congruence.
Qed.

(** The dispatcher on a pool whose run slot holds a buffer to run. *)
Lemma dispatcher_with_run_buffer K cfg room s st s' :
  ring_of (mb s) = ring_of (_mp_init_buffers K) ->
  (mb_r (mb s) < MP_BUFFER_SIZE K)%nat ->
  bf_buffer_state (deref (mb s) (mb_r (mb s))) = MP_BUFFER_QUEUED
  \/ bf_buffer_state (deref (mb s) (mb_r (mb s))) = MP_BUFFER_PENDING
  \/ bf_buffer_state (deref (mb s) (mb_r (mb s))) = MP_BUFFER_RUNNING ->
  mp_move_dispatcher K cfg room s = (st, s') ->
  ring_of (mb s') = ring_of (mb s)
  /\ mb_w (mb s') = mb_w (mb s) /\ mb_q (mb s') = mb_q (mb s) /\ mm s' = mm s
  /\ (st = TG_EAGAIN ->
      mb_r (mb s') = mb_r (mb s)
      /\ bf_buffer_state (deref (mb s') (mb_r (mb s))) = MP_BUFFER_RUNNING
      /\ (bf_move_state (deref (mb s) (mb_r (mb s))) = MP_STATE_NEW ->
          mr_run_flag (mr s') = true))
  /\ (st <> TG_EAGAIN ->
      mb_r (mb s') = _mp_bump K (mb_r (mb s))
      /\ bf_buffer_state (deref (mb s') (mb_r (mb s))) = MP_BUFFER_EMPTY
      /\ mr_run_flag (mr s') = false).
Proof.
  intros Hr Hlt Hst E.
  destruct (get_run_buffer_some K (mb s) Hr Hlt Hst)
    as (p1 & Eg & Hr1 & Hw1 & Hq1 & Hrr1 & Hst1 & Hms1 & Hmt1 & Ho1).
  cbv beta delta [mp_move_dispatcher] in E. rewrite Eg in E. cbv beta iota in E.
  set (r := mb_r (mb s)) in *.
  let_step_in E s1.
  assert (Hmb1 : mb s1 = p1) by reflexivity.
  assert (Hmm1 : mm s1 = mm s) by reflexivity.
  clearbody s1.
  let_step_in E s2.
  assert (Hmb2 : mb s2 = p1).
  { unfold s2. case_decide; [cbv zeta; proj_simpl|]; exact Hmb1. }
  assert (Hmm2 : mm s2 = mm s).
  { unfold s2. case_decide; [cbv zeta; proj_simpl|]; exact Hmm1. }
  assert (Hfl2 : bf_move_state (deref (mb s) r) = MP_STATE_NEW -> mr_run_flag (mr s2) = true).
  { intros Hnew. unfold s2. rewrite Hmb1, Hms1.
    rewrite (decide_True _ _ Hnew). reflexivity. }
  clearbody s2.
  pose proof (run_move_frame K cfg room r s2 s2 (runner_frame_refl s2))
    as (Fw & Fq & Fr & Fring & Fst & Fmm & _ & _ & Ffl & _).
  destruct (run_move K cfg room r s2) as [status s3]. cbn [snd] in *.
  rewrite Hmb2 in *.
  assert (Hr3 : ring_of (mb s3) = ring_of (_mp_init_buffers K)) by congruence.
  case_decide as Hs.
  - injection E as <- <-.
    split; [congruence|]. split; [congruence|]. split; [congruence|]. split; [congruence|].
    split; [|intros X; contradiction].
    intros _. split; [congruence|].
    split; [rewrite (states_of_deref _ _ r Fst); exact Hst1|].
    intros Hnew. rewrite Ffl. now apply Hfl2.
  - set (s4 := set_mr (set_mr_run_flag false (mr s3)) s3) in E.
    assert (Hmb4 : mb s4 = mb s3) by reflexivity.
    assert (Hmm4 : mm s4 = mm s3) by reflexivity.
    assert (Hfl4 : mr_run_flag (mr s4) = false) by reflexivity.
    clearbody s4. injection E as <- <-.
    destruct (finalize_run_buffer_spec K (mb s3) Hr3) as (Gr & Gw & Gq & Grr & Ge & _);
      [rewrite Fr, Hrr1; exact Hlt|].
    rewrite Hmb4. cbn [mb mm mr set_mb]. rewrite Fr, Hrr1 in *.
    split; [congruence|]. split; [congruence|]. split; [congruence|]. split; [congruence|].
    split; [intros X; contradiction|].
    intros _. split; [exact Grr|]. split; [exact Ge|exact Hfl4].
Qed.

(** X9: the dispatcher keeps the ring, the write and queue pointers and mm.
    On an EMPTY or LOADING run slot it returns TG_NOOP and changes nothing.
    Otherwise a TG_EAGAIN keeps the run pointer on a RUNNING buffer (and
    [mp_isbusy] is true for a buffer that was new), and any other status
    frees the buffer, advances the run pointer and clears the run flag. *)
Theorem dispatcher_frees_what_it_finishes (K : mpConstants) (cfg : cfgStructure)
    (room : bool) (s : planner) :
  ring_of (mb s) = ring_of (_mp_init_buffers K) ->
  (mb_r (mb s) < MP_BUFFER_SIZE K)%nat ->
  ring_of (mb (snd (mp_move_dispatcher K cfg room s))) = ring_of (mb s)
  /\ mb_w (mb (snd (mp_move_dispatcher K cfg room s))) = mb_w (mb s)
  /\ mb_q (mb (snd (mp_move_dispatcher K cfg room s))) = mb_q (mb s)
  /\ mm (snd (mp_move_dispatcher K cfg room s)) = mm s
  /\ (bf_buffer_state (deref (mb s) (mb_r (mb s))) = MP_BUFFER_EMPTY
      \/ bf_buffer_state (deref (mb s) (mb_r (mb s))) = MP_BUFFER_LOADING ->
      mp_move_dispatcher K cfg room s = (TG_NOOP, s))
  /\ (bf_buffer_state (deref (mb s) (mb_r (mb s))) = MP_BUFFER_QUEUED
      \/ bf_buffer_state (deref (mb s) (mb_r (mb s))) = MP_BUFFER_PENDING
      \/ bf_buffer_state (deref (mb s) (mb_r (mb s))) = MP_BUFFER_RUNNING ->
      (fst (mp_move_dispatcher K cfg room s) = TG_EAGAIN ->
       mb_r (mb (snd (mp_move_dispatcher K cfg room s))) = mb_r (mb s)
       /\ bf_buffer_state (deref (mb (snd (mp_move_dispatcher K cfg room s))) (mb_r (mb s)))
          = MP_BUFFER_RUNNING
       /\ (bf_move_state (deref (mb s) (mb_r (mb s))) = MP_STATE_NEW ->
           forall st_isbusy,
             mp_isbusy st_isbusy (snd (mp_move_dispatcher K cfg room s)) = true))
      /\ (fst (mp_move_dispatcher K cfg room s) <> TG_EAGAIN ->
          mb_r (mb (snd (mp_move_dispatcher K cfg room s))) = _mp_bump K (mb_r (mb s))
          /\ bf_buffer_state
               (deref (mb (snd (mp_move_dispatcher K cfg room s))) (mb_r (mb s)))
             = MP_BUFFER_EMPTY
          /\ forall st_isbusy,
               mp_isbusy st_isbusy (snd (mp_move_dispatcher K cfg room s)) = st_isbusy)).
Proof.
  intros Hr Hlt.
  destruct (bf_buffer_state (deref (mb s) (mb_r (mb s)))) eqn:Est.
  1,2: rewrite dispatcher_noop by (rewrite Est; auto); cbn [fst snd];
       do 4 (split; [reflexivity|]); split; [reflexivity|];
       intros [E|[E|E]]; discriminate.
  all: destruct (mp_move_dispatcher K cfg room s) as [st s'] eqn:E; cbn [fst snd].
  all: destruct (dispatcher_with_run_buffer K cfg room s st s' Hr Hlt) as
         (H1 & H2 & H3 & H4 & H5 & H6); [rewrite Est; auto|exact E|].
  all: do 4 (split; [assumption|]).
  all: split; [intros [X|X]; discriminate|]; intros _.
  all: split;
         [intros Hs; destruct (H5 Hs) as (A & B & C);
          split; [exact A|]; split; [exact B|];
          intros Hnew st0; rewrite isbusy_flag, (C Hnew); reflexivity
         |intros Hs; destruct (H6 Hs) as (A & B & C);
          split; [exact A|]; split; [exact B|];
          intros st0; rewrite isbusy_flag, C; reflexivity].
Qed.

Lemma dispatcher_frees_what_it_finishes_witness :
  mb_w (mb (snd (mp_move_dispatcher sample_constants cfg_jerk_50e6 true
                   (queue_directive DStop (mp_init sample_constants)))))
  = mb_w (mb (queue_directive DStop (mp_init sample_constants)))
  /\ (fst (mp_move_dispatcher sample_constants cfg_jerk_50e6 true
             (queue_directive DStop (mp_init sample_constants))) <> TG_EAGAIN ->
      bf_buffer_state
        (deref (mb (snd (mp_move_dispatcher sample_constants cfg_jerk_50e6 true
                           (queue_directive DStop (mp_init sample_constants)))))
           (mb_r (mb (queue_directive DStop (mp_init sample_constants)))))
      = MP_BUFFER_EMPTY).
Proof.
  destruct (dispatcher_frees_what_it_finishes sample_constants cfg_jerk_50e6 true
              (queue_directive DStop (mp_init sample_constants)))
    as (_ & Hw & _ & _ & _ & Hrun).
  - reflexivity.
  - vm_compute. lia.
  - split; [exact Hw|]. intros Hs.
    destruct Hrun as [_ Hdone]; [left; reflexivity|].
    destruct (Hdone Hs) as (_ & He & _). exact He.
Defined.

(** *** What replanning leaves alone *)

Lemma pool_frame_refl p : pool_frame p p.
Proof. repeat split. Qed.

Lemma pool_frame_trans p1 p2 p3 : pool_frame p1 p2 -> pool_frame p2 p3 -> pool_frame p1 p3.
Proof. unfold pool_frame. intros (? & ? & ? & ? & ?) (? & ? & ? & ? & ?). repeat split; congruence. Qed.

Lemma pool_frame_modify p0 p i f :
  (forall b, links (f b) = links b) ->
  (forall b, bf_buffer_state (f b) = bf_buffer_state b) ->
  pool_frame p0 p -> pool_frame p0 (modify i f p).
Proof.
  intros Hl Hs (Hw & Hq & Hr & Hring & Hst). unfold pool_frame.
  rewrite mb_w_modify, mb_q_modify, mb_r_modify, ring_of_modify, states_of_modify
    by assumption.
  tauto.
Qed.

Lemma pool_frame_modify_opt p0 p o f :
  (forall b, links (f b) = links b) ->
  (forall b, bf_buffer_state (f b) = bf_buffer_state b) ->
  pool_frame p0 p -> pool_frame p0 (modify_opt o f p).
Proof. intros Hl Hs H. destruct o; [now apply pool_frame_modify|exact H]. Qed.

Ltac pframe_tac :=
  lazymatch goal with
  | |- pool_frame ?p0 (let x := ?v in @?k x) =>
      refine (let_rule v k (fun r => pool_frame p0 r) _);
      let x := fresh "x" in
      let Hx := fresh "Hx" in
      intros x Hx; cbv beta;
      lazymatch type of x with
      | mpBufferPool =>
          let F := fresh "F" in
          assert (F : pool_frame p0 x) by (rewrite Hx; pframe_tac);
          clear Hx; pframe_tac
      | _ => clear Hx; pframe_tac
      end
  | |- pool_frame _ (if _ then _ else _) => case_decide; pframe_tac
  | |- pool_frame _ (modify_opt _ _ _) =>
      apply pool_frame_modify_opt;
      [intros []; reflexivity|intros []; reflexivity|pframe_tac]
  | |- pool_frame _ (modify _ _ _) =>
      apply pool_frame_modify;
      [intros []; reflexivity|intros []; reflexivity|pframe_tac]
  | |- pool_frame _ _ => assumption
  end.

Lemma update_move_frame K p m p0 pool :
  pool_frame p0 pool -> pool_frame p0 (_mp_update_move K p m pool).
Proof. intros H. cbv beta delta [_mp_update_move]. pframe_tac. Qed.

Lemma backplan_walk_frame K cfg n mm : forall b p0,
  pool_frame p0 (bk_pool b) -> pool_frame p0 (bk_pool (backplan_walk K cfg n mm b)).
Proof.
  induction n as [|n IH]; intros b p0 H.
  - cbn [backplan_walk].
    destruct (_mp_make_previous_move (bk_pool b) (bk_m b)) as [status p].
    case_decide; [exact H|].
    destruct (_mp_compute_regions K cfg mm _ _ _ p) as [[regions p'] t].
    cbn [bk_pool]. now apply update_move_frame.
  - cbn [backplan_walk].
    destruct (_mp_make_previous_move (bk_pool b) (bk_m b)) as [status p].
    case_decide; [exact H|].
    destruct (_mp_compute_regions K cfg mm _ _ _ p) as [[regions p'] t].
    apply IH. cbn [bk_pool]. now apply update_move_frame.
Qed.

Lemma backplan_frame K cfg s :
  pool_frame (mb s) (mb (_mp_backplan K cfg s))
  /\ mm (_mp_backplan K cfg s) = mm s
  /\ mq (_mp_backplan K cfg s) = mq s
  /\ mr (_mp_backplan K cfg s) = mr s.
Proof.
  unfold _mp_backplan. case_decide.
  - destruct (_mp_make_previous_move (mb s) (mp_0 s)) as [status p].
    cbn [mb mm mq mr set_mb set_mp_1]. split; [|repeat split].
    pose proof (pool_frame_refl (mb s)) as H0. pframe_tac.
  - destruct (_mp_set_braking_velocity K (mm s) (mb s) (mp_0 s)) as [p t].
    cbn [mb mm mq mr]. split; [|repeat split].
    apply backplan_walk_frame. cbn [bk_pool]. apply pool_frame_refl.
Qed.

(** *** The pool between calls *)

Lemma pool_ok_frame K p p' : pool_frame p p' -> pool_ok K p -> pool_ok K p'.
Proof.
  intros (Hw & Hq & _ & Hr & _) (Hr0 & Hw0 & Hq0). repeat split; congruence.
Qed.

Lemma queue_buffer_pool_ok K Vs Ve Vr len s :
  pool_ok K (mb s) ->
  pool_ok K (mb (snd (_mp_queue_buffer K Vs Ve Vr len s)))
  /\ mb_r (mb (snd (_mp_queue_buffer K Vs Ve Vr len s))) = mb_r (mb s).
Proof.
  intros Hok.
  destruct (decide (bf_buffer_state (deref (mb s) (mb_w (mb s))) = MP_BUFFER_EMPTY))
    as [He|He].
  - destruct (queue_buffer_ok K Vs Ve Vr len s) as (s' & E & Q);
      [now apply (pool_ok_lt K)|apply Hok|exact He|].
    rewrite E. cbn [snd].
    split; [now apply (queued_region_pool_ok K Vs Ve Vr len s s' Hok Q)|].
    now destruct Q as (_ & _ & _ & Hr & _).
  - rewrite queue_buffer_fail by exact He. cbn [snd]. split; [exact Hok|reflexivity].
Qed.

Lemma queue_move_pool_ok K m s :
  pool_ok K (mb s) ->
  pool_ok K (mb (snd (_mp_queue_move K m s)))
  /\ mb_r (mb (snd (_mp_queue_move K m s))) = mb_r (mb s).
Proof.
  intros Hok. unfold _mp_queue_move.
  pose proof (queue_buffer_pool_ok K (m_initial_velocity m) (m_cruise_velocity m)
                (m_initial_velocity_req m) (m_head_length m) s Hok) as [H1 R1].
  destruct (_mp_queue_buffer K _ _ _ (m_head_length m) s) as [head s1]. cbn [snd] in *.
  cbv zeta. case_decide; [cbn [snd]; tauto|].
  proj_simpl.
  pose proof (queue_buffer_pool_ok K (m_cruise_velocity m) (m_cruise_velocity m)
                (m_target_velocity m) (m_body_length m) s1 H1) as [H2 R2].
  destruct (_mp_queue_buffer K _ _ _ (m_body_length m) s1) as [body s2]. cbn [snd] in *.
  case_decide; [cbn [snd]; split; [assumption|congruence]|].
  pose proof (queue_buffer_pool_ok K (m_cruise_velocity m) (m_final_velocity m)
                (m_target_velocity m) (m_tail_length m) s2 H2) as [H3 R3].
  destruct (_mp_queue_buffer K _ _ _ (m_tail_length m) s2) as [tail s3]. cbn [snd] in *.
  case_decide; cbn [snd]; split; first [assumption|congruence].
Qed.

Lemma aline_queue_move_pool_ok K s0 s :
  mb s0 = mb s -> pool_ok K (mb s) ->
  pool_ok K (mb (snd (aline_queue_move K s0)))
  /\ mb_r (mb (snd (aline_queue_move K s0))) = mb_r (mb s).
Proof.
  intros Hmb Hok. unfold aline_queue_move.
  rewrite <- Hmb in Hok |- *.
  pose proof (queue_move_pool_ok K (mp_0 s0) s0 Hok) as H.
  destruct (_mp_queue_move K (mp_0 s0) s0) as [[status m] s1]. exact H.
Qed.

Lemma aline_pool_ok K cfg mode target minutes s :
  pool_ok K (mb s) ->
  pool_ok K (mb (snd (mp_aline K cfg mode target minutes s)))
  /\ mb_r (mb (snd (mp_aline K cfg mode target minutes s))) = mb_r (mb s).
Proof.
  intros Hok. unfold mp_aline.
  destruct (Rlt_dec minutes (EPSILON K)); [cbn [snd]; tauto|].
  destruct (Rlt_dec (m_length (mp_0 (aline_set_length target s))) (MIN_LINE_LENGTH K));
    [cbn [snd]; rewrite aline_set_length_mb; tauto|].
  set (s2 := aline_set_velocity_and_jerk cfg minutes (aline_set_length target s)).
  assert (Hmb2 : mb s2 = mb s) by reflexivity.
  clearbody s2.
  set (t := deref (mb s2) (_mp_get_prev_buffer_implicit (mb s2))). clearbody t.
  case_decide.
  - unfold aline_after_arc.
    set (s3 := set_mp_0 _ s2).
    assert (Hmb3 : mb s3 = mb s) by exact Hmb2. clearbody s3.
    pose proof (aline_compute_regions_mb K cfg s3) as Hc.
    destruct (aline_compute_regions K cfg s3) as [regions s4]. cbn [snd] in Hc.
    pose proof (aline_queue_move_pool_ok K s4 s ltac:(congruence) Hok) as Hq.
    destruct (aline_queue_move K s4) as [status s5]. cbn [snd] in Hq.
    case_decide; cbn [snd]; exact Hq.
  - unfold aline_after_line.
    pose proof (aline_set_initial_velocity_mb mode t s2) as Hmb3.
    set (s3 := aline_set_initial_velocity mode t s2) in *. clearbody s3.
    pose proof (aline_compute_regions_mb K cfg s3) as Hc.
    destruct (aline_compute_regions K cfg s3) as [regions s4]. cbn [snd] in Hc.
    case_decide; [cbn [snd]; rewrite Hc, Hmb3, Hmb2; tauto|].
    pose proof (aline_queue_move_pool_ok K s4 s ltac:(congruence) Hok) as Hq.
    destruct (aline_queue_move K s4) as [status s5]. cbn [snd] in Hq.
    case_decide; cbn [snd]; [|exact Hq].
    destruct (backplan_frame K cfg s5) as (Hf & _).
    split; [apply (pool_ok_frame K _ _ Hf), Hq|].
    destruct Hf as (_ & _ & Hr & _). rewrite Hr. apply Hq.
Qed.

Lemma directive_pool_ok K d s :
  pool_ok K (mb s) ->
  pool_ok K (mb (queue_directive d s))
  /\ mb_r (mb (queue_directive d s)) = mb_r (mb s).
Proof.
  intros Hok. pose proof Hok as (Hr & Hw & Hq).
  destruct (decide (bf_buffer_state (deref (mb s) (mb_w (mb s))) = MP_BUFFER_EMPTY))
    as [He|He].
  - destruct (queue_directive_step K d s Hr Hw Hq He) as (Hr' & Hw' & Hq' & Hrr & _).
    split; [|exact Hrr]. split; [congruence|]. split; [|congruence].
    rewrite Hw'. now apply bump_lt.
  - destruct d; cbn [queue_directive];
      unfold mp_queued_stop, mp_queued_start, mp_queued_end, mp_dwell;
      rewrite get_write_buffer_fail by exact He; cbn; tauto.
Qed.

Lemma line_pool_ok K target minutes s :
  pool_ok K (mb s) ->
  pool_ok K (mb (snd (mp_line K target minutes s)))
  /\ mb_r (mb (snd (mp_line K target minutes s))) = mb_r (mb s).
Proof.
  intros Hok. pose proof Hok as (Hr & Hw & Hq).
  destruct (Rlt_dec minutes (EPSILON K)) as [Hm|Hm].
  { unfold mp_line. destruct (Rlt_dec minutes (EPSILON K)); [|contradiction].
    cbn [snd]. tauto. }
  destruct (decide (bf_buffer_state (deref (mb s) (mb_w (mb s))) = MP_BUFFER_EMPTY))
    as [He|He].
  2:{ unfold mp_line. destruct (Rlt_dec minutes (EPSILON K)); [contradiction|].
      rewrite get_write_buffer_fail by exact He. cbn. tauto. }
  destruct (Rlt_dec (mp_get_axis_vector_length target (mr_position (mr s)))
              (MIN_LINE_LENGTH K)) as [Hl|Hl].
  - assert (Ez : fst (mp_line K target minutes s) = TG_ZERO_LENGTH_MOVE).
    { unfold mp_line. destruct (Rlt_dec minutes (EPSILON K)); [contradiction|].
      rewrite get_write_buffer_ok by (try apply (pool_ok_lt K); assumption).
      pool_simpl'. rewrite !deref_modify_same
        by (rewrite ?length_modify; now apply (pool_ok_lt K)).
      proj_simpl.
      destruct (Rlt_dec _ _); [reflexivity|contradiction]. }
    destruct (line_zero_length K target minutes s Hok Ez)
      as (_ & _ & _ & _ & _ & _ & Hw' & Hq' & Hr' & _ & Hring).
    split; [|exact Hr']. repeat split; congruence.
  - destruct (line_step K target minutes s Hr Hw Hq He Hm Hl)
      as (s' & E & Hr' & Hw' & Hq' & Hrr & _).
    rewrite E. cbn [snd]. split; [|exact Hrr].
    split; [congruence|]. split; [|congruence]. rewrite Hw'. now apply bump_lt.
Qed.

(** *** mp_arc *)

Lemma unget_after_get K p :
  ring_of p = ring_of (_mp_init_buffers K) ->
  (mb_w p < MP_BUFFER_SIZE K)%nat ->
  forall p1,
    ring_of p1 = ring_of p -> mb_w p1 = _mp_bump K (mb_w p) ->
    mb_w (_mp_unget_write_buffer p1) = mb_w p
    /\ mb_q (_mp_unget_write_buffer p1) = mb_q p1
    /\ mb_r (_mp_unget_write_buffer p1) = mb_r p1
    /\ ring_of (_mp_unget_write_buffer p1) = ring_of p
    /\ bf_buffer_state (deref (_mp_unget_write_buffer p1) (mb_w p)) = MP_BUFFER_EMPTY
    /\ forall j, j <> mb_w p -> deref (_mp_unget_write_buffer p1) j = deref p1 j.
Proof.
  intros Hr Hw p1 Hr1 Hw1.
  assert (Hr1' : ring_of p1 = ring_of (_mp_init_buffers K)) by congruence.
  destruct (pool_ring_links K p1 _ Hr1' (bump_lt K _ Hw)) as [_ Hpv].
  rewrite ring_pv_bump in Hpv by exact Hw.
  unfold _mp_unget_write_buffer. rewrite Hw1, Hpv. pool_simpl'.
  assert (Hlen : (mb_w p < length (mb_bf p1))%nat) by now rewrite (pool_ring_length K p1).
  rewrite deref_modify_same by exact Hlen.
  split; [reflexivity|]. split; [reflexivity|]. split; [reflexivity|].
  split; [ring_simpl; exact Hr1|]. split; [reflexivity|].
  intros j Hj. pool_simpl'. reflexivity.
Qed.

Section Arc.

Variable K : mpConstants.
Variable cfg : cfgStructure.
Variables (target : list R) (i j k theta radius angular_travel linear_travel : R).
Variables (axis_1 axis_2 axis_linear : nat) (minutes : R).
Variable s : planner.
Hypothesis Hok : pool_ok K (mb s).

Let arc := mp_arc cfg target i j k theta radius angular_travel linear_travel
             axis_1 axis_2 axis_linear minutes s.
Let w := mb_w (mb s).
Let len := hypot (angular_travel * radius) (fabs linear_travel).

Lemma arc_without_buffer :
  bf_buffer_state (deref (mb s) w) <> MP_BUFFER_EMPTY ->
  arc = (TG_BUFFER_FULL_FATAL, TRAP "Failed to get buffer in mp_arc()" s).
Proof.
  intros He. unfold arc, mp_arc. now rewrite get_write_buffer_fail by exact He.
Qed.

Lemma arc_too_short :
  bf_buffer_state (deref (mb s) w) = MP_BUFFER_EMPTY ->
  len < min_segment_len cfg ->
  fst arc = TG_ZERO_LENGTH_MOVE
  /\ mb_w (mb (snd arc)) = w /\ mb_q (mb (snd arc)) = mb_q (mb s)
  /\ mb_r (mb (snd arc)) = mb_r (mb s)
  /\ ring_of (mb (snd arc)) = ring_of (mb s)
  /\ states_of (mb (snd arc)) = states_of (mb s)
  /\ mm (snd arc) = mm s /\ mr (snd arc) = mr s /\ mq (snd arc) = mq s
  /\ traps (snd arc) = traps s.
Proof.
  intros He Hl. pose proof Hok as (Hr & Hw & Hq). pose proof (pool_ok_lt K _ Hok) as Hlen.
  unfold arc, mp_arc. rewrite get_write_buffer_ok by assumption.
  pool_simpl'. fold w.
  rewrite ?deref_modify_same by (rewrite ?length_modify; exact Hlen). proj_simpl.
  fold len. destruct (Rlt_dec len (min_segment_len cfg)); [|contradiction].
  cbn [fst snd mb mm mr mq traps set_mb].
  destruct (pool_ring_links K (mb s) w Hr Hw) as [Hnx _]. unfold clear_keep_links.
  proj_simpl. fold w in Hnx. rewrite Hnx.
  set (p1 := set_mb_w (_mp_bump K w) _).
  assert (Hr1 : ring_of p1 = ring_of (mb s)) by (unfold p1; ring_simpl; reflexivity).
  destruct (unget_after_get K (mb s) Hr Hw p1 Hr1 eq_refl)
    as (Hw2 & Hq2 & Hr2 & Hring2 & He2 & Ho2).
  split; [reflexivity|]. split; [exact Hw2|]. split; [exact Hq2|]. split; [exact Hr2|].
  split; [exact Hring2|]. split; [|repeat split].
  apply states_of_eq.
  - rewrite (pool_ring_length K _ Hr). apply (pool_ring_length K). congruence.
  - intros x. destruct (decide (x = w)) as [->|Hx].
    + fold w in He2. rewrite He2. symmetry. exact He.
    + rewrite Ho2 by exact Hx. unfold p1. pool_simpl'. reflexivity.
Qed.

Lemma arc_queued :
  bf_buffer_state (deref (mb s) w) = MP_BUFFER_EMPTY ->
  ~ len < min_segment_len cfg ->
  fst arc = TG_OK
  /\ mb_w (mb (snd arc)) = _mp_bump K w /\ mb_q (mb (snd arc)) = _mp_bump K w
  /\ mb_r (mb (snd arc)) = mb_r (mb s)
  /\ ring_of (mb (snd arc)) = ring_of (mb s)
  /\ bf_buffer_state (deref (mb (snd arc)) w) = MP_BUFFER_QUEUED
  /\ bf_move_state (deref (mb (snd arc)) w) = MP_STATE_NEW
  /\ bf_move_type (deref (mb (snd arc)) w) = MP_TYPE_ARC
  /\ bf_length (deref (mb (snd arc)) w) = len
  /\ bf_time (deref (mb (snd arc)) w) = minutes
  /\ bf_target (deref (mb (snd arc)) w) = mp_copy_vector target
  /\ bf_start_velocity (deref (mb (snd arc)) w) = len / minutes
  /\ bf_end_velocity (deref (mb (snd arc)) w) = len / minutes
  /\ bf_a (deref (mb (snd arc)) w)
     = {| a_theta := theta; a_radius := radius; a_angular_travel := angular_travel;
          a_linear_travel := linear_travel; a_axis_1 := axis_1; a_axis_2 := axis_2;
          a_axis_linear := axis_linear |}
  /\ (forall x, x <> w -> deref (mb (snd arc)) x = deref (mb s) x)
  /\ mm_position (mm (snd arc)) = mp_copy_vector target
  /\ mr (snd arc) = mr s /\ mq (snd arc) = mq s /\ traps (snd arc) = traps s.
Proof.
  intros He Hl. pose proof Hok as (Hr & Hw & Hq). pose proof (pool_ok_lt K _ Hok) as Hlen.
  destruct (pool_ring_links K (mb s) w Hr Hw) as [Hnx _].
  unfold arc, mp_arc. rewrite get_write_buffer_ok by assumption.
  destruct s as [mm0 m0 m1 mr0 [w0 q r bf] mq0 tr0].
  cbn [mb mr mb_w mb_q mb_bf] in *. subst q. subst w.
  pool_simpl'. proj_simpl. fold len.
  destruct (Rlt_dec len (min_segment_len cfg)); [contradiction|].
  unfold _mp_queue_write_buffer, _mp_set_mm_position. pool_simpl'.
  unfold clear_keep_links. proj_simpl. rewrite ?Hnx.
  split; [reflexivity|]. do 2 (split; [reflexivity|]). split; [reflexivity|].
  split; [ring_simpl; reflexivity|].
  do 9 (split; [reflexivity|]).
  split; [intros x Hx; pool_simpl'; reflexivity|].
  split; [|repeat split].
  unfold mp_copy_vector. cbv [vec_init vget AXES seq map nth]. reflexivity.
Qed.

End Arc.

Lemma arc_pool_ok K cfg target i j k theta radius angular_travel linear_travel
    axis_1 axis_2 axis_linear minutes s :
  pool_ok K (mb s) ->
  pool_ok K (mb (snd (mp_arc cfg target i j k theta radius angular_travel linear_travel
                        axis_1 axis_2 axis_linear minutes s)))
  /\ mb_r (mb (snd (mp_arc cfg target i j k theta radius angular_travel linear_travel
                      axis_1 axis_2 axis_linear minutes s))) = mb_r (mb s).
Proof.
  intros Hok. pose proof Hok as (Hr & Hw & Hq).
  destruct (decide (bf_buffer_state (deref (mb s) (mb_w (mb s))) = MP_BUFFER_EMPTY))
    as [He|He].
  - destruct (Rlt_dec (hypot (angular_travel * radius) (fabs linear_travel))
                (min_segment_len cfg)) as [Hl|Hl].
    + destruct (arc_too_short K cfg target i j k theta radius angular_travel linear_travel
                  axis_1 axis_2 axis_linear minutes s Hok He Hl)
        as (_ & Hw' & Hq' & Hr' & Hring & _).
      split; [|exact Hr']. repeat split; congruence.
    + destruct (arc_queued K cfg target i j k theta radius angular_travel linear_travel
                  axis_1 axis_2 axis_linear minutes s Hok He Hl)
        as (_ & Hw' & Hq' & Hr' & Hring & _).
      split; [|exact Hr']. split; [congruence|]. split; [|congruence].
      rewrite Hw'. now apply bump_lt.
  - rewrite (arc_without_buffer cfg target i j k theta radius angular_travel linear_travel
               axis_1 axis_2 axis_linear minutes s He).
    cbn. tauto.
Qed.

(** X10: the pool is well formed between calls.  The ring as initialized,
    w inside the pool and q = w hold after [mp_init] and are kept by every
    producer call, whatever it returns, and by the dispatcher; a producer
    never moves r, the dispatcher keeps r inside the pool, and
    [mp_set_position] does not touch the pool. *)
Theorem pool_is_well_formed_between_calls (K : mpConstants) (cfg : cfgStructure) :
  ((0 < MP_BUFFER_SIZE K)%nat ->
   pool_ok K (mb (mp_init K)) /\ (mb_r (mb (mp_init K)) < MP_BUFFER_SIZE K)%nat)
  /\ (forall c s,
        pool_ok K (mb s) ->
        pool_ok K (mb (snd (produce K cfg c s)))
        /\ mb_r (mb (snd (produce K cfg c s))) = mb_r (mb s))
  /\ (forall room s,
        pool_ok K (mb s) -> (mb_r (mb s) < MP_BUFFER_SIZE K)%nat ->
        pool_ok K (mb (snd (mp_move_dispatcher K cfg room s)))
        /\ (mb_r (mb (snd (mp_move_dispatcher K cfg room s))) < MP_BUFFER_SIZE K)%nat)
  /\ (forall position s, mb (snd (mp_set_position position s)) = mb s).
Proof.
  split; [|split; [|split]].
  - intros H. split; [now apply init_pool_ok|exact H].
  - intros c s Hok. destruct c; cbn [produce snd].
    + apply (directive_pool_ok K DStop s Hok).
    + apply (directive_pool_ok K DStart s Hok).
    + apply (directive_pool_ok K DEnd s Hok).
    + pose proof (directive_pool_ok K (DDwell seconds) s Hok) as H.
      cbn [queue_directive] in H. destruct (mp_dwell seconds s). exact H.
    + pose proof (line_pool_ok K target minutes s Hok) as H.
      destruct (mp_line K target minutes s). exact H.
    + pose proof (arc_pool_ok K cfg target i j k theta radius angular_travel linear_travel
                    axis_1 axis_2 axis_linear minutes s Hok) as H.
      destruct (mp_arc _ _ _ _ _ _ _ _ _ _ _ _ _ s). exact H.
    + pose proof (aline_pool_ok K cfg path_control_mode target minutes s Hok) as H.
      destruct (mp_aline K cfg path_control_mode target minutes s). exact H.
  - intros room s (Hr & Hw & Hq) Hlt.
    destruct (bf_buffer_state (deref (mb s) (mb_r (mb s)))) eqn:Est.
    1,2: rewrite dispatcher_noop by (rewrite Est; auto); cbn [snd];
         split; [repeat split; assumption|exact Hlt].
    all: destruct (mp_move_dispatcher K cfg room s) as [st s'] eqn:E; cbn [snd].
    all: destruct (dispatcher_with_run_buffer K cfg room s st s' Hr Hlt) as
           (H1 & H2 & H3 & _ & H5 & H6); [rewrite Est; auto|exact E|].
    all: split; [repeat split; congruence|].
    all: destruct (decide (st = TG_EAGAIN)) as [Hs|Hs];
           [destruct (H5 Hs) as (A & _); rewrite A; exact Hlt
           |destruct (H6 Hs) as (A & _); rewrite A; now apply bump_lt].
  - intros position s. reflexivity.
Qed.

(** X11: with a free write buffer, [mp_arc] of a length below
    min_segment_len returns TG_ZERO_LENGTH_MOVE and gives the buffer back
    (pointers, buffer states and mm as before); any other arc returns TG_OK,
    is queued as one ARC buffer of length hypot(angular_travel * radius,
    |linear_travel|) with start and end velocity length / minutes, and moves
    mm.position to the target. *)
Theorem arc_is_queued_or_rejected (K : mpConstants) (cfg : cfgStructure)
    (target : list R) (i j k theta radius angular_travel linear_travel : R)
    (axis_1 axis_2 axis_linear : nat) (minutes : R) (s : planner) :
  pool_ok K (mb s) ->
  bf_buffer_state (deref (mb s) (mb_w (mb s))) = MP_BUFFER_EMPTY ->
  (hypot (angular_travel * radius) (fabs linear_travel) < min_segment_len cfg ->
   fst (mp_arc cfg target i j k theta radius angular_travel linear_travel
          axis_1 axis_2 axis_linear minutes s) = TG_ZERO_LENGTH_MOVE
   /\ mb_w (mb (snd (mp_arc cfg target i j k theta radius angular_travel linear_travel
                       axis_1 axis_2 axis_linear minutes s))) = mb_w (mb s)
   /\ mb_q (mb (snd (mp_arc cfg target i j k theta radius angular_travel linear_travel
                       axis_1 axis_2 axis_linear minutes s))) = mb_q (mb s)
   /\ states_of (mb (snd (mp_arc cfg target i j k theta radius angular_travel linear_travel
                            axis_1 axis_2 axis_linear minutes s))) = states_of (mb s)
   /\ mm (snd (mp_arc cfg target i j k theta radius angular_travel linear_travel
                 axis_1 axis_2 axis_linear minutes s)) = mm s)
  /\ (~ hypot (angular_travel * radius) (fabs linear_travel) < min_segment_len cfg ->
      fst (mp_arc cfg target i j k theta radius angular_travel linear_travel
             axis_1 axis_2 axis_linear minutes s) = TG_OK
      /\ mb_w (mb (snd (mp_arc cfg target i j k theta radius angular_travel linear_travel
                          axis_1 axis_2 axis_linear minutes s))) = _mp_bump K (mb_w (mb s))
      /\ bf_buffer_state
           (deref (mb (snd (mp_arc cfg target i j k theta radius angular_travel
                              linear_travel axis_1 axis_2 axis_linear minutes s)))
              (mb_w (mb s))) = MP_BUFFER_QUEUED
      /\ bf_move_type
           (deref (mb (snd (mp_arc cfg target i j k theta radius angular_travel
                              linear_travel axis_1 axis_2 axis_linear minutes s)))
              (mb_w (mb s))) = MP_TYPE_ARC
      /\ bf_length
           (deref (mb (snd (mp_arc cfg target i j k theta radius angular_travel
                              linear_travel axis_1 axis_2 axis_linear minutes s)))
              (mb_w (mb s)))
         = hypot (angular_travel * radius) (fabs linear_travel)
      /\ bf_start_velocity
           (deref (mb (snd (mp_arc cfg target i j k theta radius angular_travel
                              linear_travel axis_1 axis_2 axis_linear minutes s)))
              (mb_w (mb s)))
         = hypot (angular_travel * radius) (fabs linear_travel) / minutes
      /\ bf_end_velocity
           (deref (mb (snd (mp_arc cfg target i j k theta radius angular_travel
                              linear_travel axis_1 axis_2 axis_linear minutes s)))
              (mb_w (mb s)))
         = hypot (angular_travel * radius) (fabs linear_travel) / minutes
      /\ mm_position
           (mm (snd (mp_arc cfg target i j k theta radius angular_travel linear_travel
                       axis_1 axis_2 axis_linear minutes s)))
         = mp_copy_vector target).
Proof.
  intros Hok He. split.
  - intros Hl.
    destruct (arc_too_short K cfg target i j k theta radius angular_travel linear_travel
                axis_1 axis_2 axis_linear minutes s Hok He Hl)
      as (H1 & H2 & H3 & _ & _ & H6 & H7 & _).
    repeat split; assumption.
  - intros Hl.
    destruct (arc_queued K cfg target i j k theta radius angular_travel linear_travel
                axis_1 axis_2 axis_linear minutes s Hok He Hl)
      as (H1 & H2 & _ & _ & _ & H6 & _ & H8 & H9 & _ & _ & H12 & H13 & _ & _ & H16 & _).
    repeat split; assumption.
Qed.

Lemma arc_is_queued_or_rejected_witness :
  (hypot (3 * 1) (fabs 0) < min_segment_len cfg_jerk_50e6 ->
   fst (mp_arc cfg_jerk_50e6 [0; 0; 0; 0; 0; 0] 1 0 0 0 1 3 0 0 1 2 1
          (mp_init sample_constants)) = TG_ZERO_LENGTH_MOVE)
  /\ (~ hypot (3 * 1) (fabs 0) < min_segment_len cfg_jerk_50e6 ->
      fst (mp_arc cfg_jerk_50e6 [0; 0; 0; 0; 0; 0] 1 0 0 0 1 3 0 0 1 2 1
             (mp_init sample_constants)) = TG_OK).
Proof.
  destruct (arc_is_queued_or_rejected sample_constants cfg_jerk_50e6
              [0; 0; 0; 0; 0; 0] 1 0 0 0 1 3 0 0%nat 1%nat 2%nat 1
              (mp_init sample_constants)) as [Hshort Hlong].
  - apply init_pool_ok. cbn. lia.
  - reflexivity.
  - split.
    + intros H. now destruct (Hshort H).
    + intros H. now destruct (Hlong H).
Defined.

(** *** An arc, segment by segment *)

Lemma arc_segment_buffer bf s :
  (bf < length (mb_bf (mb s)))%nat ->
  deref (mb (snd (arc_segment bf s))) bf
  = set_bf_a (set_a_theta (a_theta (bf_a (deref (mb s) bf)) + mr_segment_theta (mr s))
                (bf_a (deref (mb s) bf))) (deref (mb s) bf)
  /\ length (mb_bf (mb (snd (arc_segment bf s)))) = length (mb_bf (mb s)).
Proof.
  intros Hbf.
  pose proof (arc_segment_frame bf s s (runner_frame_refl s)) as (_ & _ & _ & Hring & _).
  split; [|now apply ring_of_length].
  unfold arc_segment, mq_queue_line, _mp_set_mr_position. proj_simpl.
  case_decide; proj_simpl; unfold modify_run; proj_simpl;
    now rewrite deref_modify_same by exact Hbf.
Qed.

Lemma run_arc_running cfg bf s :
  bf_move_state (deref (mb s) bf) = MP_STATE_RUNNING ->
  _mp_run_arc cfg true bf s = arc_segment bf s.
Proof.
  intros H. unfold _mp_run_arc. cbn [negb].
  destruct (decide (bf_move_state (deref (mb s) bf) = MP_STATE_NEW)) as [E|_];
    [rewrite H in E; discriminate|].
  cbv zeta. now rewrite (decide_True _ _ H).
Qed.

Lemma dec_uint32_S k :
  (Z.of_nat (S k) < 2 ^ 32)%Z -> dec_uint32 (Z.of_nat (S k)) = Z.of_nat k.
Proof. intros H. unfold dec_uint32. rewrite Z.mod_small; lia. Qed.

Lemma arc_segments_loop cfg bf k : forall s,
  (bf < length (mb_bf (mb s)))%nat ->
  bf_move_state (deref (mb s) bf) = MP_STATE_RUNNING ->
  mr_segment_count (mr s) = Z.of_nat (S k) ->
  (Z.of_nat (S k) < 2 ^ 32)%Z ->
  (forall j, (j <= k)%nat ->
     fst (_mp_run_arc cfg true bf (run_times (_mp_run_arc cfg true bf) j s))
     = if decide (j < k)%nat then TG_EAGAIN else TG_OK)
  /\ (exists l,
        mq (run_times (_mp_run_arc cfg true bf) (S k) s) = mq s ++ l
        /\ length l = S k
        /\ Forall (MqLine_lasting (mr_microseconds (mr s))) l)
  /\ a_theta (bf_a (deref (mb (run_times (_mp_run_arc cfg true bf) (S k) s)) bf))
     = a_theta (bf_a (deref (mb s) bf)) + INR (S k) * mr_segment_theta (mr s)
  /\ mr_segment_count (mr (run_times (_mp_run_arc cfg true bf) (S k) s)) = 0%Z.
Proof.
  induction k as [|k IH]; intros s Hbf Hrun Hcnt Hlt.
  - cbn [run_times]. rewrite run_arc_running by exact Hrun.
    destruct (arc_segment_spec bf s Hbf)
      as (Hst & Hth & Hc & (travel & Hmq) & _ & _ & _ & _ & _).
    rewrite Hcnt, dec_uint32_S in Hc by exact Hlt.
    split; [|split; [|split]].
    + intros j Hj. assert (j = 0%nat) by lia. subst j. cbn [run_times].
      rewrite run_arc_running by exact Hrun. rewrite Hst, Hc.
      rewrite decide_False by lia. now rewrite decide_False by lia.
    + exists [MqLine travel (mr_microseconds (mr s))]. split; [exact Hmq|].
      split; [reflexivity|]. constructor; [eexists; reflexivity|constructor].
    + rewrite Hth. cbn [INR]. lra.
    + exact Hc.
  - pose proof (run_arc_running cfg bf s Hrun) as Erun.
    destruct (arc_segment_spec bf s Hbf)
      as (Hst & Hth & Hc & (travel & Hmq) & _ & _ & Hsth & _ & Hus & _).
    destruct (arc_segment_buffer bf s Hbf) as (Hb & Hlen).
    rewrite Hcnt, dec_uint32_S in Hc by exact Hlt.
    set (s1 := snd (arc_segment bf s)) in *.
    assert (Hbf1 : (bf < length (mb_bf (mb s1)))%nat) by (rewrite Hlen; exact Hbf).
    assert (Hrun1 : bf_move_state (deref (mb s1) bf) = MP_STATE_RUNNING)
      by (rewrite Hb; exact Hrun).
    destruct (IH s1 Hbf1 Hrun1 Hc ltac:(lia)) as (Hj1 & (l & Hl & Hn & Hall) & Hth1 & Hc1).
    assert (Estep : forall n, run_times (_mp_run_arc cfg true bf) (S n) s
                              = run_times (_mp_run_arc cfg true bf) n s1).
    { intros n. cbn [run_times]. rewrite Erun. reflexivity. }
    split; [|split; [|split]].
    + intros [|j] Hj.
      * cbn [run_times]. rewrite Erun, Hst, Hc.
        rewrite decide_True by lia. now rewrite decide_True by lia.
      * rewrite Estep, Hj1 by lia.
        destruct (decide (j < k)%nat), (decide (S j < S k)%nat); try reflexivity; lia.
    + exists (MqLine travel (mr_microseconds (mr s)) :: l).
      rewrite Estep, Hl, Hmq, <- app_assoc. split; [reflexivity|].
      split; [cbn; lia|]. constructor; [eexists; reflexivity|]. now rewrite <- Hus.
    + rewrite Estep, Hth1, Hth, Hsth. rewrite (S_INR (S k)). lra.
    + rewrite Estep. exact Hc1.
Qed.

Lemma up_IZR z : up (IZR z) = (z + 1)%Z.
Proof.
  symmetry. apply tech_up.
  - rewrite plus_IZR. lra.
  - rewrite plus_IZR. lra.
Qed.

Lemma to_uint32_IZR z : (0 <= z < 2 ^ 32)%Z -> to_uint32 (IZR z) = z.
Proof.
  intros Hz. unfold to_uint32, truncZ, floorZ.
  destruct (Rle_dec 0 (IZR z)) as [_|Hn].
  - rewrite up_IZR. rewrite Z.mod_small; lia.
  - exfalso. apply Hn. apply IZR_le. lia.
Qed.

Lemma run_arc_new cfg bf s :
  (bf < length (mb_bf (mb s)))%nat ->
  bf_move_state (deref (mb s) bf) = MP_STATE_NEW ->
  _mp_run_arc cfg true bf s = _mp_run_arc cfg true bf (arc_initialize cfg bf s)
  /\ bf_move_state (deref (mb (arc_initialize cfg bf s)) bf) = MP_STATE_RUNNING.
Proof.
  intros Hbf Hnew.
  destruct (arc_initialize_spec cfg bf s Hbf) as (_ & _ & _ & _ & _ & _ & _ & Hb & _).
  assert (Hrun : bf_move_state (deref (mb (arc_initialize cfg bf s)) bf) = MP_STATE_RUNNING)
    by (rewrite Hb; reflexivity).
  split; [|exact Hrun].
  rewrite (run_arc_running cfg bf _ Hrun).
  unfold _mp_run_arc. cbn [negb]. rewrite (decide_True _ _ Hnew). cbv zeta.
  now rewrite (decide_True _ _ Hrun).
Qed.

(** X12: a new arc of n+1 = ceil(length / min_segment_len) segments is run
    in n+1 calls with room: n times TG_EAGAIN, then TG_OK; n+1 lines are
    queued, each lasting uSec(time / (n+1)), and theta has advanced by the
    angular travel. *)
Theorem arc_is_run_in_its_segments (cfg : cfgStructure) (bf n : nat) (s : planner) :
  (bf < length (mb_bf (mb s)))%nat ->
  bf_move_state (deref (mb s) bf) = MP_STATE_NEW ->
  ceilZ (bf_length (deref (mb s) bf) / min_segment_len cfg) = Z.of_nat (S n) ->
  (Z.of_nat (S n) < 2 ^ 32)%Z ->
  (forall j, (j <= n)%nat ->
     fst (_mp_run_arc cfg true bf (run_times (_mp_run_arc cfg true bf) j s))
     = if decide (j < n)%nat then TG_EAGAIN else TG_OK)
  /\ (exists l,
        mq (run_times (_mp_run_arc cfg true bf) (S n) s) = mq s ++ l
        /\ length l = S n
        /\ Forall (MqLine_lasting (uSec (bf_time (deref (mb s) bf) / INR (S n)))) l)
  /\ a_theta (bf_a (deref (mb (run_times (_mp_run_arc cfg true bf) (S n) s)) bf))
     = a_theta (bf_a (deref (mb s) bf)) + a_angular_travel (bf_a (deref (mb s) bf)).
Proof.
  intros Hbf Hnew Hseg Hlt.
  destruct (run_arc_new cfg bf s Hbf Hnew) as [Einit Hrun].
  destruct (arc_initialize_spec cfg bf s Hbf)
    as (Hsegs & Hcnt & Hth & _ & Hus & _ & _ & Hb & Hmq & Hlen).
  set (s0 := arc_initialize cfg bf s) in *.
  assert (Hsegs' : mr_segments (mr s0) = INR (S n)).
  { rewrite Hsegs. unfold ceil. rewrite Hseg. symmetry. apply INR_IZR_INZ. }
  assert (Hcnt' : mr_segment_count (mr s0) = Z.of_nat (S n)).
  { rewrite Hcnt, Hsegs', INR_IZR_INZ. apply to_uint32_IZR. lia. }
  assert (Hbf0 : (bf < length (mb_bf (mb s0)))%nat) by (rewrite Hlen; exact Hbf).
  destruct (arc_segments_loop cfg bf n s0 Hbf0 Hrun Hcnt' Hlt)
    as (Hj & (l & Hl & Hn & Hall) & Hth0 & _).
  assert (Estep : forall k, run_times (_mp_run_arc cfg true bf) (S k) s
                            = run_times (_mp_run_arc cfg true bf) (S k) s0).
  { intros k. cbn [run_times]. now rewrite Einit. }
  split; [|split].
  - intros [|j] Hle.
    + specialize (Hj 0%nat Hle). cbn [run_times] in Hj |- *. now rewrite Einit.
    + rewrite Estep. now apply Hj.
  - exists l. rewrite Estep, Hl, Hmq. split; [reflexivity|]. split; [exact Hn|].
    rewrite Hus, Hsegs' in Hall. exact Hall.
  - rewrite Estep, Hth0, Hth, Hsegs', Hb. proj_simpl.
    assert (INR (S n) <> 0) by (apply not_0_INR; lia).
    field. assumption.
Qed.

Lemma ceilZ_IZR z : ceilZ (IZR z) = z.
Proof. unfold ceilZ. rewrite <- opp_IZR, up_IZR. lia. Qed.

Lemma arc_is_run_in_its_segments_witness :
  fst (_mp_run_arc cfg_jerk_50e6 true 0
         (run_times (_mp_run_arc cfg_jerk_50e6 true 0) 99 (region_in_slot_0 MP_TYPE_ARC 3)))
  = TG_OK
  /\ fst (_mp_run_arc cfg_jerk_50e6 true 0
            (run_times (_mp_run_arc cfg_jerk_50e6 true 0) 98
               (region_in_slot_0 MP_TYPE_ARC 3)))
     = TG_EAGAIN
  /\ exists l,
       mq (run_times (_mp_run_arc cfg_jerk_50e6 true 0) 100 (region_in_slot_0 MP_TYPE_ARC 3))
       = mq (region_in_slot_0 MP_TYPE_ARC 3) ++ l
       /\ length l = 100%nat.
Proof.
  destruct (arc_is_run_in_its_segments cfg_jerk_50e6 0 99 (region_in_slot_0 MP_TYPE_ARC 3))
    as (Hst & (l & Hl & Hn & _) & _).
  - vm_compute. lia.
  - reflexivity.
  - replace (bf_length (deref (mb (region_in_slot_0 MP_TYPE_ARC 3)) 0)
             / min_segment_len cfg_jerk_50e6) with (IZR 100).
    + rewrite ceilZ_IZR. reflexivity.
    + rewrite region_in_slot_0_deref. cbn [bf_length set_bf_replannable set_bf_length
        min_segment_len cfg_jerk_50e6]. lra.
  - vm_compute. reflexivity.
  - split; [exact (Hst 99%nat (le_n 99))|].
    split; [exact (Hst 98%nat ltac:(lia))|].
    exists l. split; [exact Hl|exact Hn].
Defined.

(** *** Vectors over the axes *)

Lemma vget_vec_init f i : (i < AXES)%nat -> vget (vec_init f) i = f i.
Proof.
  unfold AXES. intros Hi. do 6 (destruct i as [|i]; [reflexivity|]). lia.
Qed.

Lemma axis_vector_length_sum target position :
  mp_get_axis_vector_length target position
  = sqrt (square (vget target 0 - vget position 0) + square (vget target 1 - vget position 1)
          + square (vget target 2 - vget position 2)
          + square (vget target 3 - vget position 3)
          + square (vget target 4 - vget position 4)
          + square (vget target 5 - vget position 5)).
Proof.
  unfold mp_get_axis_vector_length. cbv [fold_left seq AXES]. f_equal. ring.
Qed.

Lemma axis_vector_length_same target position :
  (forall i, (i < AXES)%nat -> vget target i = vget position i) ->
  mp_get_axis_vector_length target position = 0.
Proof.
  intros H. rewrite axis_vector_length_sum. unfold AXES in H.
  rewrite (H 0%nat), (H 1%nat), (H 2%nat), (H 3%nat), (H 4%nat), (H 5%nat) by lia.
  unfold square. rewrite <- sqrt_0. f_equal. ring.
Qed.

(** *** mp_set_position *)

(** X14: [mp_set_position] returns TG_OK, sets mm.position and mr.position
    to the position given and leaves pool and motor queue alone; a move to
    that same position is then not accepted by [mp_line] and is a
    TG_ZERO_LENGTH_MOVE for [mp_aline]. *)
Theorem set_position_moves_both_frames (K : mpConstants) (cfg : cfgStructure)
    (position : list R) (s : planner) :
  0 < MIN_LINE_LENGTH K ->
  pool_ok K (mb s) ->
  fst (mp_set_position position s) = TG_OK
  /\ mm_position (mm (snd (mp_set_position position s))) = mp_copy_vector position
  /\ mr_position (mr (snd (mp_set_position position s))) = mp_copy_vector position
  /\ mb (snd (mp_set_position position s)) = mb s
  /\ mq (snd (mp_set_position position s)) = mq s
  /\ (forall minutes,
        fst (mp_line K position minutes (snd (mp_set_position position s))) <> TG_OK)
  /\ (forall mode minutes,
        fst (mp_aline K cfg mode position minutes (snd (mp_set_position position s)))
        = TG_ZERO_LENGTH_MOVE).
Proof.
  intros Hmin Hok.
  set (s1 := snd (mp_set_position position s)).
  assert (Hmb : mb s1 = mb s) by reflexivity.
  assert (Hmm : mm_position (mm s1) = mp_copy_vector position) by reflexivity.
  assert (Hmr : mr_position (mr s1) = mp_copy_vector position).
  { unfold s1, mp_set_position, _mp_set_mr_position. cbn [snd]. proj_simpl.
    apply copy_vector_idem. }
  split; [reflexivity|]. split; [exact Hmm|]. split; [exact Hmr|].
  split; [reflexivity|]. split; [reflexivity|].
  assert (Hz : forall v, v = mp_copy_vector position ->
                         mp_get_axis_vector_length position v = 0).
  { intros v ->. apply axis_vector_length_same. intros i Hi.
    now rewrite vget_copy_vector by exact Hi. }
  clearbody s1. split.
  - intros minutes. unfold mp_line.
    destruct (Rlt_dec minutes (EPSILON K)); [discriminate|].
    destruct (decide (bf_buffer_state (deref (mb s1) (mb_w (mb s1))) = MP_BUFFER_EMPTY))
      as [He|He]; [|rewrite get_write_buffer_fail by exact He; discriminate].
    assert (Hlen : (mb_w (mb s1) < length (mb_bf (mb s1)))%nat)
      by (rewrite Hmb; now apply (pool_ok_lt K)).
    rewrite get_write_buffer_ok by assumption.
    pool_simpl'. proj_simpl. rewrite (Hz _ Hmr).
    destruct (Rlt_dec 0 (MIN_LINE_LENGTH K)); [discriminate|contradiction].
  - intros mode minutes. unfold mp_aline.
    destruct (Rlt_dec minutes (EPSILON K)); [reflexivity|].
    destruct (Rlt_dec _ _) as [|Hn]; [reflexivity|]. exfalso. apply Hn.
    unfold aline_set_length. proj_simpl.
    rewrite axis_vector_length_same; [exact Hmin|].
    intros i Hi. rewrite Hmm. rewrite !vget_copy_vector by exact Hi. reflexivity.
Qed.

Lemma set_position_moves_both_frames_witness :
  mr_position (mr (snd (mp_set_position [1; 2; 3; 0; 0; 0] (mp_init sample_constants))))
  = mp_copy_vector [1; 2; 3; 0; 0; 0]
  /\ fst (mp_aline sample_constants cfg_jerk_50e6 PATH_CONTINUOUS [1; 2; 3; 0; 0; 0] 1
            (snd (mp_set_position [1; 2; 3; 0; 0; 0] (mp_init sample_constants))))
     = TG_ZERO_LENGTH_MOVE.
Proof.
  destruct (set_position_moves_both_frames sample_constants cfg_jerk_50e6
              [1; 2; 3; 0; 0; 0] (mp_init sample_constants))
    as (_ & _ & Hmr & _ & _ & _ & Haline).
  - cbn. lra.
  - apply init_pool_ok. cbn. lia.
  - split; [exact Hmr|apply Haline].
Defined.

(** *** The length and velocity relations *)

(** X15: L(Vi, Vf) is non-negative, symmetric, zero when Vi = Vf, positive
    otherwise (Jm > 0) and monotone in |Vf - Vi|; V(V, L) is V at L = 0, at
    least V, and non-decreasing in L. *)
Theorem length_and_velocity_relations (cfg : cfgStructure) (mm : mpMoveMasterSingleton) :
  (forall Vi Vf, 0 <= _mp_get_length cfg Vi Vf)
  /\ (forall Vi Vf, _mp_get_length cfg Vi Vf = _mp_get_length cfg Vf Vi)
  /\ (forall V, _mp_get_length cfg V V = 0)
  /\ (forall Vi Vf, 0 < linear_jerk_max cfg -> Vi <> Vf -> 0 < _mp_get_length cfg Vi Vf)
  /\ (forall Vi Vf Vi' Vf',
        0 < linear_jerk_max cfg -> Rabs (Vf - Vi) <= Rabs (Vf' - Vi') ->
        _mp_get_length cfg Vi Vf <= _mp_get_length cfg Vi' Vf')
  /\ (forall V, _mp_get_velocity mm V 0 = V)
  /\ (forall V L, 0 <= mm_linear_jerk_rad3 mm -> V <= _mp_get_velocity mm V L)
  /\ (forall V L L',
        0 <= mm_linear_jerk_rad3 mm -> 0 <= L <= L' ->
        _mp_get_velocity mm V L <= _mp_get_velocity mm V L').
Proof.
  split; [intros; apply get_length_nonneg|].
  split; [intros; apply get_length_sym|].
  split.
  { intros V. unfold _mp_get_length, fabs. rewrite Rminus_diag, Rabs_R0. ring. }
  split.
  { intros Vi Vf HJ Hne. unfold _mp_get_length, fabs.
    assert (Hd : 0 < Rabs (Vf - Vi)) by (apply Rabs_pos_lt; lra).
    apply Rmult_lt_0_compat; [exact Hd|]. apply sqrt_lt_R0.
    now apply Rdiv_lt_0_compat. }
  split.
  { intros Vi Vf Vi' Vf' HJ Hle. unfold _mp_get_length, fabs.
    pose proof (Rabs_pos (Vf - Vi)) as H0.
    apply Rmult_le_compat; [exact H0|apply sqrt_pos|exact Hle|].
    apply sqrt_le_1_alt. unfold Rdiv. apply Rmult_le_compat_r; [|exact Hle].
    left. now apply Rinv_0_lt_compat. }
  split.
  { intros V. unfold _mp_get_velocity. rewrite pow_0. ring. }
  split.
  { intros V L Hr. unfold _mp_get_velocity.
    pose proof (pow_nonneg L 0.6666667) as Hp.
    pose proof (Rmult_le_pos _ _ Hr Hp). lra. }
  intros V L L' Hr [H0 Hle]. unfold _mp_get_velocity.
  apply Rplus_le_compat_r. apply Rmult_le_compat_l; [exact Hr|].
  unfold pow. destruct (Rle_dec L 0) as [HL|HL], (Rle_dec L' 0) as [HL'|HL']; try lra.
  - left. apply exp_pos.
  - apply Rle_Rpower_l; lra.
Qed.

(** *** What [_mp_compute_regions] keeps and what it plans *)

Lemma ht_adjust_keeps cfg mm m :
  same_request m (fst (ht_adjust cfg mm m))
  /\ m_initial_velocity (fst (ht_adjust cfg mm m)) = m_initial_velocity m
  /\ m_final_velocity (fst (ht_adjust cfg mm m)) = m_final_velocity m
  /\ 0 <= m_head_length (fst (ht_adjust cfg mm m))
  /\ 0 <= m_tail_length (fst (ht_adjust cfg mm m)).
Proof.
  unfold ht_adjust, same_request. destruct m as [pm hd bd tl len hl bl tll vir vi vt vc vf].
  proj_simpl. repeat split; apply get_length_nonneg.
Qed.

Lemma ht_iterate_keeps K cfg mm n : forall m,
  same_request m (fst (ht_iterate K cfg n mm m))
  /\ m_initial_velocity (fst (ht_iterate K cfg n mm m)) = m_initial_velocity m
  /\ m_final_velocity (fst (ht_iterate K cfg n mm m)) = m_final_velocity m
  /\ 0 <= m_head_length (fst (ht_iterate K cfg n mm m))
  /\ 0 <= m_tail_length (fst (ht_iterate K cfg n mm m)).
Proof.
  induction n as [|n IH]; intros m.
  - cbn [ht_iterate]. pose proof (ht_adjust_keeps cfg mm m) as H.
    destruct (ht_adjust cfg mm m) as [m1 t]. exact H.
  - rewrite ht_iterate_S. pose proof (ht_adjust_keeps cfg mm m) as H.
    destruct (ht_adjust cfg mm m) as [m1 t]. cbn [fst] in H.
    destruct (Rgt_dec _ _); [|exact H].
    destruct H as ((H1 & H2 & H3 & H4 & H5 & H6 & H7) & Hi & Hf & _ & _).
    destruct (IH m1) as ((G1 & G2 & G3 & G4 & G5 & G6 & G7) & Gi & Gf & Gh & Gt).
    unfold same_request. repeat split; congruence.
Qed.

Lemma regions_setup_fields Vir Vt Vf m :
  m_path_mode (regions_setup Vir Vt Vf m) = m_path_mode m
  /\ m_head (regions_setup Vir Vt Vf m) = m_head m
  /\ m_body (regions_setup Vir Vt Vf m) = m_body m
  /\ m_tail (regions_setup Vir Vt Vf m) = m_tail m
  /\ m_length (regions_setup Vir Vt Vf m) = m_length m
  /\ m_initial_velocity_req (regions_setup Vir Vt Vf m) = Vir
  /\ m_target_velocity (regions_setup Vir Vt Vf m) = Vt
  /\ m_initial_velocity (regions_setup Vir Vt Vf m) = Vir
  /\ m_cruise_velocity (regions_setup Vir Vt Vf m) = Vt
  /\ m_final_velocity (regions_setup Vir Vt Vf m) = Vf
  /\ m_head_length (regions_setup Vir Vt Vf m) = 0
  /\ m_body_length (regions_setup Vir Vt Vf m) = 0
  /\ m_tail_length (regions_setup Vir Vt Vf m) = 0.
Proof. destruct m. repeat split. Qed.

Lemma compute_regions_fields K cfg mm Vir Vt Vf m :
  (fst (fst (_mp_compute_regions K cfg mm Vir Vt Vf m)) <= 3)%nat
  /\ (fst (fst (_mp_compute_regions K cfg mm Vir Vt Vf m)) = 0%nat
      <-> m_length m < MIN_LINE_LENGTH K)
  /\ (m_length m < MIN_LINE_LENGTH K ->
      snd (_mp_compute_regions K cfg mm Vir Vt Vf m)
      = ["Line too short in _mp_compute_regions"%string]
      /\ m_head_length (snd (fst (_mp_compute_regions K cfg mm Vir Vt Vf m))) = 0
      /\ m_body_length (snd (fst (_mp_compute_regions K cfg mm Vir Vt Vf m))) = 0
      /\ m_tail_length (snd (fst (_mp_compute_regions K cfg mm Vir Vt Vf m))) = 0)
  /\ m_path_mode (snd (fst (_mp_compute_regions K cfg mm Vir Vt Vf m))) = m_path_mode m
  /\ m_head (snd (fst (_mp_compute_regions K cfg mm Vir Vt Vf m))) = m_head m
  /\ m_body (snd (fst (_mp_compute_regions K cfg mm Vir Vt Vf m))) = m_body m
  /\ m_tail (snd (fst (_mp_compute_regions K cfg mm Vir Vt Vf m))) = m_tail m
  /\ m_length (snd (fst (_mp_compute_regions K cfg mm Vir Vt Vf m))) = m_length m
  /\ m_initial_velocity_req (snd (fst (_mp_compute_regions K cfg mm Vir Vt Vf m))) = Vir
  /\ m_target_velocity (snd (fst (_mp_compute_regions K cfg mm Vir Vt Vf m))) = Vt
  /\ (m_initial_velocity (snd (fst (_mp_compute_regions K cfg mm Vir Vt Vf m))) = Vir
      \/ (Vf < Vir
          /\ fst (fst (_mp_compute_regions K cfg mm Vir Vt Vf m)) = 1%nat
          /\ m_initial_velocity (snd (fst (_mp_compute_regions K cfg mm Vir Vt Vf m)))
             = m_cruise_velocity (snd (fst (_mp_compute_regions K cfg mm Vir Vt Vf m)))))
  /\ (m_final_velocity (snd (fst (_mp_compute_regions K cfg mm Vir Vt Vf m))) = Vf
      \/ (Vf > Vir
          /\ fst (fst (_mp_compute_regions K cfg mm Vir Vt Vf m)) = 1%nat
          /\ m_final_velocity (snd (fst (_mp_compute_regions K cfg mm Vir Vt Vf m)))
             = m_cruise_velocity (snd (fst (_mp_compute_regions K cfg mm Vir Vt Vf m)))))
  /\ (0 <= MIN_LINE_LENGTH K ->
      0 <= m_head_length (snd (fst (_mp_compute_regions K cfg mm Vir Vt Vf m)))
      /\ 0 <= m_body_length (snd (fst (_mp_compute_regions K cfg mm Vir Vt Vf m)))
      /\ 0 <= m_tail_length (snd (fst (_mp_compute_regions K cfg mm Vir Vt Vf m)))).
Proof.
  destruct (regions_setup_fields Vir Vt Vf m)
    as (S1 & S2 & S3 & S4 & S5 & S6 & S7 & S8 & S9 & S10 & S11 & S12 & S13).
  unfold _mp_compute_regions.
  set (m0 := regions_setup Vir Vt Vf m) in *. clearbody m0.
  destruct (Rlt_dec (m_length m0) (MIN_LINE_LENGTH K)) as [Hs|Hs].
  { cbn [fst snd]. rewrite S5 in Hs.
    split; [lia|]. split; [tauto|]. split; [tauto|].
    repeat (split; [assumption|]). split; [left; assumption|].
    split; [left; assumption|]. intros _. lra. }
  rewrite S5 in Hs.
  assert (Hnz : forall n : nat, n <> 0%nat -> (n = 0%nat <-> m_length m < MIN_LINE_LENGTH K))
    by (intros n Hn; split; [contradiction|intros X; contradiction]).
  pose proof (get_length_nonneg cfg Vir Vt) as Lh.
  pose proof (get_length_nonneg cfg Vt Vf) as Lt.
  destruct (Rgt_dec _ _) as [Hb|Hb].
  { (* HBT *)
    cbn [fst snd]. revert Hb.
    unfold regions_hbt_fold, regions_hbt_lengths.
    destruct m0 as [pm hd bd tl len hl bl tll vir vi vt vc vf].
    cbn [m_path_mode m_head m_body m_tail m_length m_initial_velocity_req
         m_target_velocity m_initial_velocity m_cruise_velocity m_final_velocity
         m_head_length m_body_length m_tail_length] in *. subst. proj_simpl. intros Hb.
    split; [lia|]. split; [apply Hnz; lia|]. split; [intros X; contradiction|].
    destruct (Rlt_dec _ _); proj_simpl;
      match goal with |- context [Rlt_dec ?a ?b] => destruct (Rlt_dec a b) end;
      proj_simpl; repeat (split; [reflexivity|]);
      (split; [left; reflexivity|]); (split; [left; reflexivity|]);
      intros _; repeat split; lra. }
  assert (Hlen0 : 0 <= MIN_LINE_LENGTH K -> 0 <= m_length m) by (intros; lra).
  case_decide as HT.
  { cbn [fst snd]. unfold regions_tail_only, regions_hbt_lengths.
    destruct m0 as [pm hd bd tl len hl bl tll vir vi vt vc vf].
    cbn [m_path_mode m_head m_body m_tail m_length m_initial_velocity_req
         m_target_velocity m_initial_velocity m_cruise_velocity m_final_velocity
         m_head_length m_body_length m_tail_length] in *. subst. proj_simpl.
    split; [lia|]. split; [apply Hnz; lia|]. split; [intros X; contradiction|].
    repeat (split; [reflexivity|]).
    split; [right; split; [tauto|split; reflexivity]|].
    split; [left; reflexivity|]. intros Hm. specialize (Hlen0 Hm). repeat split; lra. }
  case_decide as HH.
  { cbn [fst snd]. unfold regions_head_only, regions_hbt_lengths.
    destruct m0 as [pm hd bd tl len hl bl tll vir vi vt vc vf].
    cbn [m_path_mode m_head m_body m_tail m_length m_initial_velocity_req
         m_target_velocity m_initial_velocity m_cruise_velocity m_final_velocity
         m_head_length m_body_length m_tail_length] in *. subst. proj_simpl.
    split; [lia|]. split; [apply Hnz; lia|]. split; [intros X; contradiction|].
    repeat (split; [reflexivity|]).
    split; [left; reflexivity|].
    split; [right; split; [tauto|split; reflexivity]|].
    intros Hm. specialize (Hlen0 Hm). repeat split; lra. }
  case_decide as HB.
  { cbn [fst snd]. unfold regions_body_only, regions_hbt_lengths.
    destruct m0 as [pm hd bd tl len hl bl tll vir vi vt vc vf].
    cbn [m_path_mode m_head m_body m_tail m_length m_initial_velocity_req
         m_target_velocity m_initial_velocity m_cruise_velocity m_final_velocity
         m_head_length m_body_length m_tail_length] in *. subst. proj_simpl.
    split; [lia|]. split; [apply Hnz; lia|]. split; [intros X; contradiction|].
    repeat (split; [reflexivity|]).
    split; [left; reflexivity|]. split; [left; reflexivity|].
    intros Hm. specialize (Hlen0 Hm). repeat split; lra. }
  (* HT *)
  set (m1 := set_m_body_length 0 (regions_hbt_lengths cfg Vir Vt Vf m0)).
  assert (Hreq1 : m_path_mode m1 = m_path_mode m /\ m_head m1 = m_head m
                  /\ m_body m1 = m_body m /\ m_tail m1 = m_tail m
                  /\ m_length m1 = m_length m /\ m_initial_velocity_req m1 = Vir
                  /\ m_target_velocity m1 = Vt /\ m_initial_velocity m1 = Vir
                  /\ m_final_velocity m1 = Vf).
  { unfold m1, regions_hbt_lengths. destruct m0. cbn in *. tauto. }
  clearbody m1.
  unfold regions_head_tail.
  destruct (ht_iterate_keeps K cfg mm 100 m1)
    as ((G1 & G2 & G3 & G4 & G5 & G6 & G7) & Gi & Gf & Gh & Gt).
  destruct (ht_iterate K cfg 100 mm m1) as [m2 t1]. cbn [fst snd] in *.
  destruct Hreq1 as (R1 & R2 & R3 & R4 & R5 & R6 & R7 & R8 & R9).
  split; [lia|]. split; [apply Hnz; lia|]. split; [intros X; contradiction|].
  destruct m2 as [pm hd bd tl len hl bl tll vir vi vt vc vf].
  cbn [m_path_mode m_head m_body m_tail m_length m_initial_velocity_req
       m_target_velocity m_initial_velocity m_cruise_velocity m_final_velocity
       m_head_length m_body_length m_tail_length] in *.
  proj_simpl.
  destruct (Rlt_dec hl (EPSILON K)); proj_simpl;
    match goal with |- context [Rlt_dec ?a ?b] => destruct (Rlt_dec a b) end;
    proj_simpl;
    (split; [congruence|]); (split; [congruence|]); (split; [congruence|]);
    (split; [congruence|]); (split; [congruence|]); (split; [congruence|]);
    (split; [congruence|]); (split; [left; congruence|]); (split; [left; congruence|]);
    intros _; repeat split; lra.
Qed.

(** X16: [_mp_compute_regions] returns at most 3, and 0 exactly for a move
    below MIN_LINE_LENGTH, which it traps with three zero lengths.  It keeps
    the path mode, the buffer pointers and the length, records Vir and Vt,
    leaves Vi = Vir except in the tail-only case and Vf as given except in
    the head-only case, and plans no negative length. *)
Theorem compute_regions_bookkeeping (K : mpConstants) (cfg : cfgStructure)
    (mm : mpMoveMasterSingleton) (Vir Vt Vf : R) (m : mpMovePlanner) :
  (fst (fst (_mp_compute_regions K cfg mm Vir Vt Vf m)) <= 3)%nat
  /\ (fst (fst (_mp_compute_regions K cfg mm Vir Vt Vf m)) = 0%nat
      <-> m_length m < MIN_LINE_LENGTH K)
  /\ (m_length m < MIN_LINE_LENGTH K ->
      snd (_mp_compute_regions K cfg mm Vir Vt Vf m)
      = ["Line too short in _mp_compute_regions"%string]
      /\ m_head_length (snd (fst (_mp_compute_regions K cfg mm Vir Vt Vf m))) = 0
      /\ m_body_length (snd (fst (_mp_compute_regions K cfg mm Vir Vt Vf m))) = 0
      /\ m_tail_length (snd (fst (_mp_compute_regions K cfg mm Vir Vt Vf m))) = 0)
  /\ m_path_mode (snd (fst (_mp_compute_regions K cfg mm Vir Vt Vf m))) = m_path_mode m
  /\ m_head (snd (fst (_mp_compute_regions K cfg mm Vir Vt Vf m))) = m_head m
  /\ m_body (snd (fst (_mp_compute_regions K cfg mm Vir Vt Vf m))) = m_body m
  /\ m_tail (snd (fst (_mp_compute_regions K cfg mm Vir Vt Vf m))) = m_tail m
  /\ m_length (snd (fst (_mp_compute_regions K cfg mm Vir Vt Vf m))) = m_length m
  /\ m_initial_velocity_req (snd (fst (_mp_compute_regions K cfg mm Vir Vt Vf m))) = Vir
  /\ m_target_velocity (snd (fst (_mp_compute_regions K cfg mm Vir Vt Vf m))) = Vt
  /\ (m_initial_velocity (snd (fst (_mp_compute_regions K cfg mm Vir Vt Vf m))) = Vir
      \/ (Vf < Vir
          /\ fst (fst (_mp_compute_regions K cfg mm Vir Vt Vf m)) = 1%nat
          /\ m_initial_velocity (snd (fst (_mp_compute_regions K cfg mm Vir Vt Vf m)))
             = m_cruise_velocity (snd (fst (_mp_compute_regions K cfg mm Vir Vt Vf m)))))
  /\ (m_final_velocity (snd (fst (_mp_compute_regions K cfg mm Vir Vt Vf m))) = Vf
      \/ (Vf > Vir
          /\ fst (fst (_mp_compute_regions K cfg mm Vir Vt Vf m)) = 1%nat
          /\ m_final_velocity (snd (fst (_mp_compute_regions K cfg mm Vir Vt Vf m)))
             = m_cruise_velocity (snd (fst (_mp_compute_regions K cfg mm Vir Vt Vf m)))))
  /\ (0 <= MIN_LINE_LENGTH K ->
      0 <= m_head_length (snd (fst (_mp_compute_regions K cfg mm Vir Vt Vf m)))
      /\ 0 <= m_body_length (snd (fst (_mp_compute_regions K cfg mm Vir Vt Vf m)))
      /\ 0 <= m_tail_length (snd (fst (_mp_compute_regions K cfg mm Vir Vt Vf m)))).
Proof. apply compute_regions_fields. Qed.

(** *** A committed aline *)

(** The pool after [_mp_queue_move] has written its three regions. *)
Lemma queue_move_pool K m s :
  pool_ok K (mb s) -> (3 <= MP_BUFFER_SIZE K)%nat ->
  bf_buffer_state (deref (mb s) (mb_w (mb s))) = MP_BUFFER_EMPTY ->
  bf_buffer_state (deref (mb s) (_mp_bump K (mb_w (mb s)))) = MP_BUFFER_EMPTY ->
  bf_buffer_state (deref (mb s) (_mp_bump K (_mp_bump K (mb_w (mb s))))) = MP_BUFFER_EMPTY ->
  exists s',
    _mp_queue_move K m s
    = (TG_OK,
       set_m_tail (Some (_mp_bump K (_mp_bump K (mb_w (mb s)))))
         (set_m_body (Some (_mp_bump K (mb_w (mb s))))
            (set_m_head (Some (mb_w (mb s))) m)), s')
    /\ ring_of (mb s') = ring_of (mb s)
    /\ mb_w (mb s') = _mp_bump K (_mp_bump K (_mp_bump K (mb_w (mb s))))
    /\ mb_q (mb s') = mb_w (mb s')
    /\ mb_r (mb s') = mb_r (mb s)
    /\ (forall x, x <> mb_w (mb s) -> x <> _mp_bump K (mb_w (mb s)) ->
                  x <> _mp_bump K (_mp_bump K (mb_w (mb s))) ->
                  deref (mb s') x = deref (mb s) x)
    /\ mq s' = mq s /\ mr s' = mr s /\ traps s' = traps s
    /\ mp_0 s' = mp_0 s /\ mp_1 s' = mp_1 s.
Proof.
  intros Hok Hsize H0 H1 H2.
  destruct (queue_move_ok K m s Hok Hsize H0 H1 H2)
    as (s1 & s2 & s' & E & Q1 & Q2 & Q3 & Hw1 & Hw2).
  exists s'. split; [exact E|].
  destruct (queued_region_pool_ok K _ _ _ _ _ _ Hok Q1) as [Hok1 _].
  destruct (queued_region_pool_ok K _ _ _ _ _ _ Hok1 Q2) as [Hok2 _].
  destruct (queued_region_pool_ok K _ _ _ _ _ _ Hok2 Q3) as [Hok3 Hw3].
  destruct Q1 as (R1 & _ & _ & Rr1 & J1 & _ & _ & _ & _ & _ & _ & _ & A1 & B1 & C1 & D1 & E1 & _).
  destruct Q2 as (R2 & _ & _ & Rr2 & J2 & _ & _ & _ & _ & _ & _ & _ & A2 & B2 & C2 & D2 & E2 & _).
  destruct Q3 as (R3 & _ & _ & Rr3 & J3 & _ & _ & _ & _ & _ & _ & _ & A3 & B3 & C3 & D3 & E3 & _).
  split; [congruence|]. split; [rewrite Hw3, Hw2; reflexivity|].
  split; [apply Hok3|]. split; [congruence|].
  split.
  { intros x X0 X1 X2. rewrite J3 by (rewrite Hw2; exact X2).
    rewrite J2 by (rewrite Hw1; exact X1). now apply J1. }
  repeat split; congruence.
Qed.

Lemma fold_trap_mq tr s : mq (fold_left (fun s msg => TRAP msg s) tr s) = mq s.
Proof. revert s. induction tr as [|a tr IH]; intros s; [reflexivity|]. cbn. now rewrite IH. Qed.

Lemma fold_trap_mr tr s : mr (fold_left (fun s msg => TRAP msg s) tr s) = mr s.
Proof. revert s. induction tr as [|a tr IH]; intros s; [reflexivity|]. cbn. now rewrite IH. Qed.

(** [aline_compute_regions] stores what [_mp_compute_regions] returns in
    [mp[0]] and touches neither queue nor runtime. *)
Lemma aline_compute_regions_snd K cfg s :
  mp_0 (snd (aline_compute_regions K cfg s))
  = snd (fst (_mp_compute_regions K cfg (mm s) (m_initial_velocity_req (mp_0 s))
                (m_target_velocity (mp_0 s)) 0 (mp_0 s)))
  /\ mq (snd (aline_compute_regions K cfg s)) = mq s
  /\ mr (snd (aline_compute_regions K cfg s)) = mr s.
Proof.
  unfold aline_compute_regions.
  destruct (_mp_compute_regions _ _ _ _ _ _ _) as [[regions m] tr].
  cbn [snd fst]. rewrite fold_trap_mp_0, fold_trap_mq, fold_trap_mr. auto.
Qed.

(** The previous move is found three [pv] links behind the head, whether it
    is replannable or not. *)
Lemma make_previous_move_links pool m :
  let p := snd (_mp_make_previous_move pool m) in
  let t1 := bf_pv (deref_opt pool (m_head m)) in
  let t2 := bf_pv (deref pool t1) in
  let t3 := bf_pv (deref pool t2) in
  m_tail p = Some t1 /\ m_body p = Some t2 /\ m_head p = Some t3.
Proof.
  cbv zeta. unfold _mp_make_previous_move. cbv zeta. case_decide; cbn; auto.
Qed.

Lemma replannable_stays_cleared i j p :
  bf_replannable (deref p i) = false ->
  bf_replannable (deref (modify j (set_bf_replannable false) p) i) = false.
Proof.
  intros H. destruct (decide (j = i)) as [->|Hne].
  - unfold deref, modify in *. cbn [mb_bf set_mb_bf] in *.
    rewrite list_lookup_alter_eq. destruct (mb_bf p !! i); reflexivity.
  - now rewrite deref_modify_ne.
Qed.

Lemma replannable_cleared i p :
  (i < length (mb_bf p))%nat ->
  bf_replannable (deref (modify i (set_bf_replannable false) p) i) = false.
Proof. intros Hi. now rewrite deref_modify_same. Qed.

(** [_mp_backplan] under exact stop: the three buffers behind the head lose
    their replannable flag, and no velocity is changed. *)
Lemma backplan_exact_stop K cfg s :
  m_path_mode (mp_0 s) = PATH_EXACT_STOP ->
  let t1 := bf_pv (deref_opt (mb s) (m_head (mp_0 s))) in
  let t2 := bf_pv (deref (mb s) t1) in
  let t3 := bf_pv (deref (mb s) t2) in
  (t1 < length (mb_bf (mb s)))%nat -> (t2 < length (mb_bf (mb s)))%nat ->
  (t3 < length (mb_bf (mb s)))%nat ->
  let s' := _mp_backplan K cfg s in
  mp_0 s' = mp_0 s
  /\ (forall x, bf_start_velocity (deref (mb s') x) = bf_start_velocity (deref (mb s) x)
                /\ bf_end_velocity (deref (mb s') x) = bf_end_velocity (deref (mb s) x)
                /\ bf_request_velocity (deref (mb s') x)
                   = bf_request_velocity (deref (mb s) x))
  /\ bf_replannable (deref (mb s') t1) = false
  /\ bf_replannable (deref (mb s') t2) = false
  /\ bf_replannable (deref (mb s') t3) = false.
Proof.
  intros Hmode t1 t2 t3 L1 L2 L3. cbv zeta. unfold _mp_backplan.
  rewrite (decide_True _ _ Hmode).
  destruct (make_previous_move_links (mb s) (mp_0 s)) as (Et & Eb & Eh).
  fold t1 t2 t3 in Et, Eb, Eh.
  destruct (_mp_make_previous_move (mb s) (mp_0 s)) as [status p].
  cbn [snd] in Et, Eb, Eh. rewrite Et, Eb, Eh.
  cbn [modify_opt mb mp_0 set_mb set_mp_1].
  split; [reflexivity|]. split; [|split; [|split]].
  - intros x. rewrite !(deref_modify_field bf_start_velocity) by (intros []; reflexivity).
    rewrite !(deref_modify_field bf_end_velocity) by (intros []; reflexivity).
    rewrite !(deref_modify_field bf_request_velocity) by (intros []; reflexivity).
    auto.
  - apply replannable_cleared. now rewrite !length_modify.
  - apply replannable_stays_cleared, replannable_cleared. now rewrite !length_modify.
  - do 2 apply replannable_stays_cleared. now apply replannable_cleared.
Qed.

Section AlineOk.

Variable K : mpConstants.
Variable cfg : cfgStructure.
Variable s : planner.
Hypothesis Hok : pool_ok K (mb s).
Hypothesis Hsize : (3 <= MP_BUFFER_SIZE K)%nat.

Let w := mb_w (mb s).
Let w1 := _mp_bump K w.
Let w2 := _mp_bump K w1.

Hypothesis H0 : bf_buffer_state (deref (mb s) w) = MP_BUFFER_EMPTY.
Hypothesis H1 : bf_buffer_state (deref (mb s) w1) = MP_BUFFER_EMPTY.
Hypothesis H2 : bf_buffer_state (deref (mb s) w2) = MP_BUFFER_EMPTY.

(** [_mp_queue_move] inside [mp_aline], on a state that shares the caller's
    pool. *)
Lemma aline_queue_move_ok s4 :
  mb s4 = mb s ->
  exists s5,
    _mp_queue_move K (mp_0 s4) s4
    = (TG_OK, set_m_tail (Some w2) (set_m_body (Some w1) (set_m_head (Some w) (mp_0 s4))),
       s5)
    /\ aline_queue_move K s4
       = (TG_OK,
          set_mp_0 (set_m_tail (Some w2) (set_m_body (Some w1)
                                            (set_m_head (Some w) (mp_0 s4)))) s5)
    /\ ring_of (mb s5) = ring_of (mb s)
    /\ mb_w (mb s5) = _mp_bump K w2 /\ mb_q (mb s5) = _mp_bump K w2
    /\ mb_r (mb s5) = mb_r (mb s)
    /\ (forall x, x <> w -> x <> w1 -> x <> w2 -> deref (mb s5) x = deref (mb s) x).
Proof.
  intros Hmb.
  destruct (queue_move_pool K (mp_0 s4) s4) as (s5 & E & Hr & Hw & Hq & Hrr & Ho & _);
    rewrite ?Hmb; try assumption.
  rewrite Hmb in E, Hr, Hw, Hrr, Ho. fold w w1 w2 in E, Hw, Ho.
  exists s5. split; [exact E|]. split; [unfold aline_queue_move; now rewrite E|].
  split; [exact Hr|]. split; [exact Hw|]. split; [congruence|]. split; [exact Hrr|exact Ho].
Qed.

Lemma aline_queue_move_three s4 :
  mb s4 = mb s ->
  exists s5,
    aline_queue_move K s4 = (TG_OK, s5)
    /\ three_queued K s s5
    /\ mq s5 = mq s4 /\ mr s5 = mr s4
    /\ m_path_mode (mp_0 s5) = m_path_mode (mp_0 s4)
    /\ m_head (mp_0 s5) = Some w
    /\ bf_start_velocity (deref (mb s5) w) = m_initial_velocity (mp_0 s4)
    /\ bf_request_velocity (deref (mb s5) w) = m_initial_velocity_req (mp_0 s4)
    /\ bf_end_velocity (deref (mb s5) w2) = m_final_velocity (mp_0 s4).
Proof.
  intros Hmb.
  destruct (aline_queue_move_ok s4 Hmb) as (s5 & E & Ea & Hr & Hw & Hq & Hrr & Ho).
  assert (Hok4 : pool_ok K (mb s4)) by (rewrite Hmb; exact Hok).
  destruct (queue_move_writes_regions K (mp_0 s4) s4 Hok4 Hsize)
    as (m' & s' & E' & _ & _ & _ & _ & _ & _ & _ & V1 & _ & _ & _ & _ & V6 & S0 & S1 & S2);
    rewrite ?Hmb; try assumption.
  rewrite E in E'. injection E' as <- <-.
  rewrite Hmb in V1, V6, S0, S1, S2. fold w w1 w2 in V1, V6, S0, S1, S2.
  destruct (queue_move_ok K (mp_0 s4) s4 Hok4 Hsize)
    as (t1 & t2 & t3 & E3 & Q1 & Q2 & Q3 & Hw1 & Hw2);
    rewrite ?Hmb; try assumption.
  rewrite E in E3. injection E3 as Ht3. subst t3.
  assert (Hne : w1 <> w) by (apply bump_ne; [lia|apply Hok]).
  assert (Hne2 : w2 <> w) by (apply bump_bump_ne; [lia|apply Hok]).
  assert (Vr : bf_request_velocity (deref (mb s5) w) = m_initial_velocity_req (mp_0 s4)).
  { destruct Q1 as (_ & _ & _ & _ & _ & _ & _ & _ & _ & _ & R1 & _).
    destruct Q2 as (_ & _ & _ & _ & J2 & _).
    destruct Q3 as (_ & _ & _ & _ & J3 & _).
    rewrite Hmb in R1. fold w in R1.
    rewrite J3 by (rewrite Hw2, Hmb; fold w w1 w2; congruence).
    rewrite J2 by (rewrite Hw1, Hmb; fold w w1; congruence).
    exact R1. }
  assert (Hmq : mq s5 = mq s4 /\ mr s5 = mr s4).
  { destruct Q1 as (_ & _ & _ & _ & _ & _ & _ & _ & _ & _ & _ & _ & A1 & B1 & _).
    destruct Q2 as (_ & _ & _ & _ & _ & _ & _ & _ & _ & _ & _ & _ & A2 & B2 & _).
    destruct Q3 as (_ & _ & _ & _ & _ & _ & _ & _ & _ & _ & _ & _ & A3 & B3 & _).
    split; congruence. }
  eexists. split; [exact Ea|]. cbn [mb mp_0 mq mr set_mp_0].
  split; [|split; [apply Hmq|split; [apply Hmq|split; [reflexivity|split; [reflexivity|
           split; [exact V1|split; [exact Vr|exact V6]]]]]]].
  unfold three_queued. cbv zeta. fold w w1 w2.
  do 4 (split; [assumption|]). do 3 (split; [assumption|]).
  intros x X0 X1 X2. now rewrite Ho.
Qed.

(** [mp_aline] past its zero-length tests, with three free buffers. *)
Lemma aline_ok_facts mode target minutes :
  ~ minutes < EPSILON K ->
  ~ m_length (mp_0 (aline_set_length target s)) < MIN_LINE_LENGTH K ->
  let r := mp_aline K cfg mode target minutes s in
  let t := deref (mb s) (_mp_get_prev_buffer_implicit (mb s)) in
  fst r = TG_OK /\ three_queued K s (snd r) /\ mq (snd r) = mq s /\ mr (snd r) = mr s
  /\ (bf_buffer_state t <> MP_BUFFER_QUEUED ->
      ~ (bf_move_type t = MP_TYPE_ARC /\ bf_buffer_state t <> MP_BUFFER_EMPTY) ->
      let t1 := _mp_get_prev_buffer_implicit (mb s) in
      let t2 := bf_pv (deref (mb s) t1) in
      let t3 := bf_pv (deref (mb s) t2) in
      m_path_mode (mp_0 (snd r)) = PATH_EXACT_STOP
      /\ bf_start_velocity (deref (mb (snd r)) w) = 0
      /\ bf_request_velocity (deref (mb (snd r)) w) = 0
      /\ bf_end_velocity (deref (mb (snd r)) w2) = 0
      /\ bf_replannable (deref (mb (snd r)) t1) = false
      /\ bf_replannable (deref (mb (snd r)) t2) = false
      /\ bf_replannable (deref (mb (snd r)) t3) = false).
Proof.
  intros Hm Hl. cbv zeta. unfold mp_aline.
  destruct (Rlt_dec minutes (EPSILON K)); [contradiction|].
  destruct (Rlt_dec (m_length (mp_0 (aline_set_length target s))) (MIN_LINE_LENGTH K));
    [contradiction|].
  set (s2 := aline_set_velocity_and_jerk cfg minutes (aline_set_length target s)).
  assert (Hmb2 : mb s2 = mb s) by reflexivity.
  assert (Hq2 : mq s2 = mq s /\ mr s2 = mr s) by (split; reflexivity).
  assert (Hl2 : m_length (mp_0 s2) = m_length (mp_0 (aline_set_length target s)))
    by reflexivity.
  rewrite Hmb2. clearbody s2.
  case_decide as Harc.
  - (* previous move is a queued or running arc *)
    unfold aline_after_arc.
    match goal with |- context [aline_compute_regions K cfg ?x] => set (s3 := x) end.
    pose proof (aline_compute_regions_mb K cfg s3) as Hmb4.
    destruct (aline_compute_regions_snd K cfg s3) as (_ & Hq4 & Hr4).
    destruct (aline_compute_regions K cfg s3) as [regions s4]. cbn [snd] in Hmb4, Hq4, Hr4.
    destruct (aline_queue_move_three s4) as (s5 & E5 & T & Hq5 & Hr5 & _);
      [rewrite Hmb4; exact Hmb2|].
    rewrite E5. rewrite (decide_True _ _ eq_refl). cbn [fst snd].
    split; [reflexivity|]. split; [exact T|].
    split; [rewrite Hq5, Hq4; apply Hq2|]. split; [rewrite Hr5, Hr4; apply Hq2|].
    intros _ Hn. contradiction.
  - unfold aline_after_line.
    set (s3 := aline_set_initial_velocity mode _ s2).
    assert (Hmb3 : mb s3 = mb s)
      by (unfold s3; rewrite aline_set_initial_velocity_mb; exact Hmb2).
    assert (Hq3 : mq s3 = mq s /\ mr s3 = mr s).
    { unfold s3, aline_set_initial_velocity. case_decide; exact Hq2. }
    assert (Hl3 : ~ m_length (mp_0 s3) < MIN_LINE_LENGTH K).
    { unfold s3. rewrite aline_set_initial_velocity_length, Hl2. exact Hl. }
    assert (Hstop : bf_buffer_state (deref (mb s) (_mp_get_prev_buffer_implicit (mb s)))
                    <> MP_BUFFER_QUEUED ->
                    m_path_mode (mp_0 s3) = PATH_EXACT_STOP
                    /\ m_initial_velocity_req (mp_0 s3) = 0).
    { intros Hnq. unfold s3, aline_set_initial_velocity.
      rewrite (decide_True _ _ Hnq). split; reflexivity. }
    clearbody s3.
    pose proof (aline_compute_regions_some K cfg s3 Hl3) as Hsome.
    pose proof (aline_compute_regions_mb K cfg s3) as Hmb4.
    destruct (aline_compute_regions_snd K cfg s3) as (Hm4 & Hq4 & Hr4).
    destruct (aline_compute_regions K cfg s3) as [regions s4].
    cbn [fst snd] in Hsome, Hmb4, Hm4, Hq4, Hr4.
    rewrite (decide_False _ _ Hsome).
    destruct (aline_queue_move_three s4) as (s5 & E5 & T & Hq5 & Hr5 & Hp5 & Hh5 & V1 & V2 & V3);
      [rewrite Hmb4; exact Hmb3|].
    rewrite E5. rewrite (decide_True _ _ eq_refl). cbn [fst snd].
    destruct (backplan_frame K cfg s5) as (F & _ & Fq & Fr).
    destruct F as (Fw & Fqq & Frr & Fring & Fst).
    destruct T as (T1 & T2 & T3 & T4 & T5 & T6 & T7 & T8). fold w w1 w2 in T2, T3, T5, T6, T7, T8.
    split; [reflexivity|]. split; [|split; [|split]].
    + unfold three_queued. cbv zeta. fold w w1 w2.
      rewrite Fw, Fqq, Frr, Fring, !(states_of_deref _ _ _ Fst).
      repeat (split; [assumption|]).
      intros x X0 X1 X2. rewrite (states_of_deref _ _ _ Fst). now apply T8.
    + rewrite Fq, Hq5, Hq4. apply Hq3.
    + rewrite Fr, Hr5, Hr4. apply Hq3.
    + intros Hnq _. destruct (Hstop Hnq) as [Hmode Hvir].
      pose proof (compute_regions_fields K cfg (mm s3) (m_initial_velocity_req (mp_0 s3))
                    (m_target_velocity (mp_0 s3)) 0 (mp_0 s3)) as C.
      rewrite <- Hm4 in C.
      assert (Hvir' : m_initial_velocity_req (mp_0 s4) = 0)
        by (destruct C as (_ & _ & _ & _ & _ & _ & _ & _ & Cr & _); congruence).
      destruct C as (_ & _ & _ & Cp & _ & _ & _ & _ & _ & _ & Ci & Cf & _).
      rewrite Hvir in Ci, Cf.
      assert (Hvi : m_initial_velocity (mp_0 s4) = 0)
        by (destruct Ci as [Ci|(Ci & _)]; [exact Ci|lra]).
      assert (Hvf : m_final_velocity (mp_0 s4) = 0)
        by (destruct Cf as [Cf|(Cf & _)]; [exact Cf|lra]).
      assert (Hmode5 : m_path_mode (mp_0 s5) = PATH_EXACT_STOP) by congruence.
      assert (Hring5 : ring_of (mb s5) = ring_of (_mp_init_buffers K))
        by (rewrite T1; apply Hok).
      assert (Hw : (w < MP_BUFFER_SIZE K)%nat) by apply Hok.
      assert (Hpv : forall x, (x < MP_BUFFER_SIZE K)%nat ->
                      bf_pv (deref (mb s5) x) = bf_pv (deref (mb s) x)
                      /\ (bf_pv (deref (mb s) x) < MP_BUFFER_SIZE K)%nat).
      { intros x Hx.
        destruct (pool_ring_links K (mb s5) x Hring5 Hx) as [_ ->].
        destruct (pool_ring_links K (mb s) x (proj1 Hok) Hx) as [_ ->].
        split; [reflexivity|now apply ring_pv_lt]. }
      pose proof (backplan_exact_stop K cfg s5 Hmode5) as B. cbv zeta in B.
      rewrite Hh5 in B. cbn [deref_opt] in B.
      unfold _mp_get_prev_buffer_implicit. fold w.
      destruct (Hpv w Hw) as [P1 L1].
      destruct (Hpv _ L1) as [P2 L2].
      destruct (Hpv _ L2) as [P3 L3].
      rewrite P1, P2, P3 in B.
      rewrite (pool_ring_length K _ Hring5) in B.
      destruct (B L1 L2 L3) as (B0 & Bv & B1 & B2 & B3).
      split; [rewrite B0; exact Hmode5|].
      destruct (Bv w) as (-> & _ & ->). destruct (Bv w2) as (_ & -> & _).
      rewrite V1, V2, V3, Hvi, Hvf, Hvir', B1, B2, B3. repeat split; reflexivity.
Qed.

End AlineOk.

Lemma three_free_buffers K p :
  ring_of p = ring_of (_mp_init_buffers K) -> (mb_w p < MP_BUFFER_SIZE K)%nat ->
  mp_check_for_write_buffers p 3 = true
  <-> bf_buffer_state (deref p (mb_w p)) = MP_BUFFER_EMPTY
      /\ bf_buffer_state (deref p (_mp_bump K (mb_w p))) = MP_BUFFER_EMPTY
      /\ bf_buffer_state (deref p (_mp_bump K (_mp_bump K (mb_w p)))) = MP_BUFFER_EMPTY.
Proof.
  intros Hr Hw. split; [now apply check_three_buffers|].
  intros (H0 & H1 & H2). unfold mp_check_for_write_buffers. cbn [check_from].
  destruct (pool_ring_links K p (mb_w p) Hr Hw) as [Hnx _].
  destruct (pool_ring_links K p _ Hr (bump_lt K _ Hw)) as [Hnx1 _].
  rewrite Hnx, Hnx1. rewrite (decide_True _ _ H0), (decide_True _ _ H1), (decide_True _ _ H2).
  reflexivity.
Qed.

(** X17: [mp_aline] returns TG_OK exactly when the move is not rejected as
    zero-length and three write buffers are free; it has then queued the
    three buffers at the write pointer and no other, moved w and q three
    slots on, kept r, and touched neither the motor queue nor mr. *)
Theorem aline_takes_three_buffers (K : mpConstants) (cfg : cfgStructure)
    (mode : cmPathControlMode) (target : list R) (minutes : R) (s : planner) :
  pool_ok K (mb s) -> (3 <= MP_BUFFER_SIZE K)%nat ->
  let r := mp_aline K cfg mode target minutes s in
  (fst r = TG_OK
   <-> ~ minutes < EPSILON K
       /\ ~ mp_get_axis_vector_length (mp_copy_vector target) (mm_position (mm s))
            < MIN_LINE_LENGTH K
       /\ mp_check_for_write_buffers (mb s) 3 = true)
  /\ (fst r = TG_OK ->
      three_queued K s (snd r) /\ mq (snd r) = mq s /\ mr (snd r) = mr s).
Proof.
  intros Hok Hsize r.
  assert (Hiff : fst r = TG_OK
   <-> ~ minutes < EPSILON K
       /\ ~ mp_get_axis_vector_length (mp_copy_vector target) (mm_position (mm s))
            < MIN_LINE_LENGTH K
       /\ mp_check_for_write_buffers (mb s) 3 = true).
  { split.
    - intros Hst.
      assert (Hm : ~ minutes < EPSILON K).
      { intros Hm. revert Hst. unfold r, mp_aline.
        destruct (Rlt_dec minutes (EPSILON K)); [discriminate|contradiction]. }
      assert (Hl : ~ m_length (mp_0 (aline_set_length target s)) < MIN_LINE_LENGTH K).
      { intros Hl. revert Hst. unfold r, mp_aline.
        destruct (Rlt_dec minutes (EPSILON K)); [discriminate|].
        destruct (Rlt_dec (m_length (mp_0 (aline_set_length target s))) (MIN_LINE_LENGTH K));
          [discriminate|contradiction]. }
      split; [exact Hm|]. split; [exact Hl|].
      apply (three_free_buffers K); [apply Hok|apply Hok|].
      destruct (aline_reaches_queue_move K cfg mode target minutes s Hm Hl)
        as (s0 & Hmb & Hfst & _).
      fold r in Hfst. rewrite Hst in Hfst.
      destruct (aline_queue_move_cases K s Hok Hsize s0 Hmb) as (C0 & C1 & C2 & _).
      cbv zeta in C0, C1, C2.
      destruct (decide (bf_buffer_state (deref (mb s) (mb_w (mb s))) = MP_BUFFER_EMPTY))
        as [H0|H0]; [|destruct (C0 H0) as [E _]; congruence].
      destruct (decide (bf_buffer_state (deref (mb s) (_mp_bump K (mb_w (mb s))))
                        = MP_BUFFER_EMPTY))
        as [H1|H1]; [|destruct (C1 H0 H1) as [E _]; congruence].
      destruct (decide (bf_buffer_state
                          (deref (mb s) (_mp_bump K (_mp_bump K (mb_w (mb s)))))
                        = MP_BUFFER_EMPTY))
        as [H2|H2]; [|destruct (C2 H0 H1 H2) as [E _]; congruence].
      auto.
    - intros (Hm & Hl & Hchk).
      destruct (check_three_buffers K (mb s)) as (H0 & H1 & H2);
        [apply Hok|apply Hok|exact Hchk|].
      apply (aline_ok_facts K cfg s Hok Hsize H0 H1 H2 mode target minutes Hm Hl). }
  split; [exact Hiff|].
  intros Hst. destruct (proj1 Hiff Hst) as (Hm & Hl & Hchk).
  destruct (check_three_buffers K (mb s)) as (H0 & H1 & H2);
    [apply Hok|apply Hok|exact Hchk|].
  destruct (aline_ok_facts K cfg s Hok Hsize H0 H1 H2 mode target minutes Hm Hl)
    as (_ & T & Hq & Hr & _).
  auto.
Qed.

Lemma init_three_free K :
  (3 <= MP_BUFFER_SIZE K)%nat -> mp_check_for_write_buffers (mb (mp_init K)) 3 = true.
Proof.
  intros H. destruct (init_pool_idle K) as (Hok & _ & He); [lia|].
  apply (three_free_buffers K); [apply Hok|apply Hok|].
  assert (Hw : (mb_w (mb (mp_init K)) < MP_BUFFER_SIZE K)%nat) by apply Hok.
  split; [now apply He|]. split; [now apply He, bump_lt|now apply He, bump_lt, bump_lt].
Qed.

Lemma aline_takes_three_buffers_witness :
  fst (mp_aline sample_constants cfg_jerk_50e6 PATH_CONTINUOUS [3; 0; 0; 0; 0; 0] 1
         (mp_init sample_constants)) = TG_OK
  /\ three_queued sample_constants (mp_init sample_constants)
       (snd (mp_aline sample_constants cfg_jerk_50e6 PATH_CONTINUOUS [3; 0; 0; 0; 0; 0] 1
               (mp_init sample_constants))).
Proof.
  destruct (aline_takes_three_buffers sample_constants cfg_jerk_50e6 PATH_CONTINUOUS
              [3; 0; 0; 0; 0; 0] 1 (mp_init sample_constants)) as [Hiff Hthen].
  - apply init_pool_ok. cbn. lia.
  - cbn. lia.
  - assert (Hst : fst (mp_aline sample_constants cfg_jerk_50e6 PATH_CONTINUOUS
                         [3; 0; 0; 0; 0; 0] 1 (mp_init sample_constants)) = TG_OK).
    { apply Hiff. split; [cbn; lra|]. split.
      - change (mm_position (mm (mp_init sample_constants))) with [0; 0; 0; 0; 0; 0].
        rewrite copy_vector_x, x_move_length by lra. cbn. lra.
      - apply init_three_free. cbn. lia. }
    split; [exact Hst|]. apply Hthen. exact Hst.
Defined.

(** X18: an aline accepted while the buffer before the write pointer is not
    QUEUED (and is no active arc) is an exact stop, whatever path mode was
    asked for: its head starts at velocity 0, its tail ends at velocity 0,
    and the three buffers behind its head are no longer replannable. *)
Theorem aline_behind_an_idle_queue_is_an_exact_stop (K : mpConstants) (cfg : cfgStructure)
    (mode : cmPathControlMode) (target : list R) (minutes : R) (s : planner) :
  pool_ok K (mb s) -> (3 <= MP_BUFFER_SIZE K)%nat ->
  ~ minutes < EPSILON K ->
  ~ mp_get_axis_vector_length (mp_copy_vector target) (mm_position (mm s))
    < MIN_LINE_LENGTH K ->
  mp_check_for_write_buffers (mb s) 3 = true ->
  let t1 := _mp_get_prev_buffer_implicit (mb s) in
  let t2 := bf_pv (deref (mb s) t1) in
  let t3 := bf_pv (deref (mb s) t2) in
  bf_buffer_state (deref (mb s) t1) <> MP_BUFFER_QUEUED ->
  ~ (bf_move_type (deref (mb s) t1) = MP_TYPE_ARC
     /\ bf_buffer_state (deref (mb s) t1) <> MP_BUFFER_EMPTY) ->
  let s' := snd (mp_aline K cfg mode target minutes s) in
  let head := mb_w (mb s) in
  let tail := _mp_bump K (_mp_bump K head) in
  m_path_mode (mp_0 s') = PATH_EXACT_STOP
  /\ bf_start_velocity (deref (mb s') head) = 0
  /\ bf_request_velocity (deref (mb s') head) = 0
  /\ bf_end_velocity (deref (mb s') tail) = 0
  /\ bf_replannable (deref (mb s') t1) = false
  /\ bf_replannable (deref (mb s') t2) = false
  /\ bf_replannable (deref (mb s') t3) = false.
Proof.
  intros Hok Hsize Hm Hl Hchk t1 t2 t3 Hnq Hna s' head tail.
  destruct (check_three_buffers K (mb s)) as (H0 & H1 & H2);
    [apply Hok|apply Hok|exact Hchk|].
  destruct (aline_ok_facts K cfg s Hok Hsize H0 H1 H2 mode target minutes Hm Hl)
    as (_ & _ & _ & _ & Hstop).
  exact (Hstop Hnq Hna).
Qed.

Lemma aline_behind_an_idle_queue_is_an_exact_stop_witness :
  m_path_mode (mp_0 (snd (mp_aline sample_constants cfg_jerk_50e6 PATH_CONTINUOUS
                            [3; 0; 0; 0; 0; 0] 1 (mp_init sample_constants))))
  = PATH_EXACT_STOP
  /\ bf_start_velocity
       (deref (mb (snd (mp_aline sample_constants cfg_jerk_50e6 PATH_CONTINUOUS
                          [3; 0; 0; 0; 0; 0] 1 (mp_init sample_constants)))) 0) = 0
  /\ bf_end_velocity
       (deref (mb (snd (mp_aline sample_constants cfg_jerk_50e6 PATH_CONTINUOUS
                          [3; 0; 0; 0; 0; 0] 1 (mp_init sample_constants)))) 2) = 0
  /\ bf_replannable
       (deref (mb (snd (mp_aline sample_constants cfg_jerk_50e6 PATH_CONTINUOUS
                          [3; 0; 0; 0; 0; 0] 1 (mp_init sample_constants)))) 6) = false.
Proof.
  destruct (aline_behind_an_idle_queue_is_an_exact_stop sample_constants cfg_jerk_50e6
              PATH_CONTINUOUS [3; 0; 0; 0; 0; 0] 1 (mp_init sample_constants))
    as (A & B & _ & C & D & _).
  - apply init_pool_ok. cbn. lia.
  - cbn. lia.
  - cbn. lra.
  - change (mm_position (mm (mp_init sample_constants))) with [0; 0; 0; 0; 0; 0].
    rewrite copy_vector_x, x_move_length by lra. cbn. lra.
  - apply init_three_free. cbn. lia.
  - discriminate.
  - intros [E _]. discriminate E.
  - split; [exact A|]. split; [exact B|]. split; [exact C|exact D].
Defined.

(** *** Reading a queued move back *)

(** X19: what [_mp_queue_move] writes, [_mp_make_previous_move] reads back
    for the move that follows: the three buffers, the five velocities and
    the three region lengths of the plan; the length it rebuilds is the sum
    of the three region lengths. *)
Theorem queued_move_is_read_back (K : mpConstants) (m next : mpMovePlanner) (s : planner) :
  pool_ok K (mb s) -> (3 <= MP_BUFFER_SIZE K)%nat ->
  mp_check_for_write_buffers (mb s) 3 = true ->
  let s' := snd (_mp_queue_move K m s) in
  m_head next = Some (mb_w (mb s')) ->
  let r := _mp_make_previous_move (mb s') next in
  fst r = TG_OK
  /\ m_head (snd r) = Some (mb_w (mb s))
  /\ m_body (snd r) = Some (_mp_bump K (mb_w (mb s)))
  /\ m_tail (snd r) = Some (_mp_bump K (_mp_bump K (mb_w (mb s))))
  /\ m_initial_velocity_req (snd r) = m_initial_velocity_req m
  /\ m_initial_velocity (snd r) = m_initial_velocity m
  /\ m_target_velocity (snd r) = m_target_velocity m
  /\ m_cruise_velocity (snd r) = m_cruise_velocity m
  /\ m_final_velocity (snd r) = m_final_velocity m
  /\ m_head_length (snd r) = m_head_length m
  /\ m_body_length (snd r) = m_body_length m
  /\ m_tail_length (snd r) = m_tail_length m
  /\ m_length (snd r) = m_head_length m + m_body_length m + m_tail_length m.
Proof.
  intros Hok Hsize Hchk.
  destruct (check_three_buffers K (mb s)) as (H0 & H1 & H2);
    [apply Hok|apply Hok|exact Hchk|].
  destruct (queue_move_ok K m s Hok Hsize H0 H1 H2)
    as (s1 & s2 & s3 & E & Q1 & Q2 & Q3 & Hw1 & Hw2).
  rewrite E. cbn [snd]. intros Hnext.
  destruct (queued_region_pool_ok K _ _ _ _ _ _ Hok Q1) as [Hok1 _].
  destruct (queued_region_pool_ok K _ _ _ _ _ _ Hok1 Q2) as [Hok2 _].
  destruct (queued_region_pool_ok K _ _ _ _ _ _ Hok2 Q3) as [Hok3 Hw3].
  set (w := mb_w (mb s)) in *.
  set (w1 := _mp_bump K w) in *.
  set (w2 := _mp_bump K w1) in *.
  assert (Hw : (w < MP_BUFFER_SIZE K)%nat) by apply Hok.
  assert (Hlt1 : (w1 < MP_BUFFER_SIZE K)%nat) by now apply bump_lt.
  assert (Hlt2 : (w2 < MP_BUFFER_SIZE K)%nat) by now apply bump_lt.
  assert (Hne : w1 <> w) by (apply bump_ne; [lia|exact Hw]).
  assert (Hne2 : w2 <> w) by (apply bump_bump_ne; [lia|exact Hw]).
  assert (Hne12 : w2 <> w1) by (apply bump_ne; [lia|exact Hlt1]).
  assert (Hpv : forall x, (x < MP_BUFFER_SIZE K)%nat -> bf_pv (deref (mb s3) x) = ring_pv K x).
  { intros x Hx. now destruct (pool_ring_links K (mb s3) x (proj1 Hok3) Hx). }
  rewrite Hw3, Hw2 in Hnext. fold w2 in Hnext.
  destruct Q1 as (_ & _ & _ & _ & J1 & _ & _ & R1 & A1 & B1 & C1 & D1 & _).
  destruct Q2 as (_ & _ & _ & _ & J2 & _ & _ & R2 & A2 & B2 & C2 & D2 & _).
  destruct Q3 as (_ & _ & _ & _ & J3 & _ & _ & R3 & A3 & B3 & C3 & D3 & _).
  rewrite Hw1 in *. rewrite Hw2 in *. fold w in J1, R1, A1, B1, C1, D1.
  assert (E0 : deref (mb s3) w = deref (mb s1) w).
  { rewrite J3 by congruence. now rewrite J2 by congruence. }
  assert (E1 : deref (mb s3) w1 = deref (mb s2) w1) by (rewrite J3 by congruence; reflexivity).
  unfold _mp_make_previous_move. cbv zeta.
  unfold _mp_get_prev_buffer. cbn [deref_opt m_tail m_body m_head set_m_tail set_m_body
                                     set_m_head zero_planner].
  rewrite Hnext. cbn [deref_opt].
  assert (P1 : bf_pv (deref (mb s3) (_mp_bump K w2)) = w2)
    by (rewrite (Hpv _ (bump_lt K _ Hlt2)); now apply ring_pv_bump).
  assert (P2 : bf_pv (deref (mb s3) w2) = w1)
    by (rewrite (Hpv _ Hlt2); now apply ring_pv_bump).
  assert (P3 : bf_pv (deref (mb s3) w1) = w)
    by (rewrite (Hpv _ Hlt1); now apply ring_pv_bump).
  rewrite !P1. rewrite !P2. rewrite !P3.
  rewrite decide_False by (rewrite R3, E1, R2; intros [X|X]; discriminate X).
  cbn. rewrite E0, E1, A1, C1, D1, C2, A2, B3, D2, D3.
  repeat split; reflexivity.
Qed.

Lemma queued_move_is_read_back_witness :
  fst (_mp_make_previous_move
         (mb (snd (_mp_queue_move sample_constants
                     (set_m_final_velocity 0 (set_m_cruise_velocity 200
                        (set_m_tail_length 2 (set_m_head_length 1 zero_planner))))
                     (mp_init sample_constants))))
         (set_m_head (Some 3%nat) zero_planner)) = TG_OK
  /\ m_length (snd (_mp_make_previous_move
         (mb (snd (_mp_queue_move sample_constants
                     (set_m_final_velocity 0 (set_m_cruise_velocity 200
                        (set_m_tail_length 2 (set_m_head_length 1 zero_planner))))
                     (mp_init sample_constants))))
         (set_m_head (Some 3%nat) zero_planner))) = 1 + 0 + 2.
Proof.
  destruct (queued_move_is_read_back sample_constants
              (set_m_final_velocity 0 (set_m_cruise_velocity 200
                 (set_m_tail_length 2 (set_m_head_length 1 zero_planner))))
              (set_m_head (Some 3%nat) zero_planner) (mp_init sample_constants))
    as (A & _ & _ & _ & _ & _ & _ & _ & _ & _ & _ & _ & B).
  - apply init_pool_ok. cbn. lia.
  - cbn. lia.
  - apply init_three_free. cbn. lia.
  - vm_compute. reflexivity.
  - split; [exact A|exact B].
Defined.

(** X22: a move whose tail or body is not replannable fences the backward
    pass: for a following move that is no exact stop, [_mp_backplan] changes
    no buffer and leaves mp[0], mm, mr and the motor queue as they were. *)
Theorem backplan_stops_at_a_fence (K : mpConstants) (cfg : cfgStructure) (s : planner) :
  m_path_mode (mp_0 s) <> PATH_EXACT_STOP ->
  let tail := bf_pv (deref_opt (mb s) (m_head (mp_0 s))) in
  let body := bf_pv (deref (mb s) tail) in
  bf_replannable (deref (mb s) tail) = false
  \/ bf_replannable (deref (mb s) body) = false ->
  mb (_mp_backplan K cfg s) = mb s
  /\ mp_0 (_mp_backplan K cfg s) = mp_0 s
  /\ mm (_mp_backplan K cfg s) = mm s
  /\ mq (_mp_backplan K cfg s) = mq s
  /\ mr (_mp_backplan K cfg s) = mr s.
Proof.
  intros Hmode tail body Hfence. unfold _mp_backplan.
  rewrite (decide_False _ _ Hmode).
  destruct (_mp_set_braking_velocity K (mm s) (mb s) (mp_0 s)) as [p t].
  assert (E : fst (_mp_make_previous_move (mb s) (mp_0 s)) = TG_COMPLETE).
  { unfold _mp_make_previous_move. cbv zeta. unfold _mp_get_prev_buffer.
    cbn [deref_opt m_tail m_body m_head set_m_tail set_m_body set_m_head zero_planner].
    fold tail. fold body. now rewrite (decide_True _ _ Hfence). }
  destruct (MP_MAX_LOOKBACK_DEPTH K) as [|n]; cbn [backplan_walk bk_pool bk_m];
    destruct (_mp_make_previous_move (mb s) (mp_0 s)) as [status p'];
    cbn [fst] in E; subst status; rewrite (decide_True _ _ eq_refl);
    cbn; repeat split.
Qed.

Lemma backplan_stops_at_a_fence_witness :
  mb (_mp_backplan sample_constants cfg_jerk_50e6
        (set_mp_0 (set_m_path_mode PATH_CONTINUOUS (set_m_head (Some 3%nat) zero_planner))
           (mp_init sample_constants)))
  = mb (mp_init sample_constants).
Proof.
  destruct (backplan_stops_at_a_fence sample_constants cfg_jerk_50e6
              (set_mp_0 (set_m_path_mode PATH_CONTINUOUS
                           (set_m_head (Some 3%nat) zero_planner))
                 (mp_init sample_constants)))
    as (H & _).
  - cbn. discriminate.
  - left. reflexivity.
  - exact H.
Defined.

(** *** Acceleration and deceleration regions, segment by segment *)

Lemma segment_frame_refl bf s : segment_frame bf s s.
Proof. repeat split. Qed.

Lemma segment_frame_trans bf s1 s2 s3 :
  segment_frame bf s1 s2 -> segment_frame bf s2 s3 -> segment_frame bf s1 s3.
Proof. intros (A1 & A2 & A3 & A4 & A5) (B1 & B2 & B3 & B4 & B5). repeat split; congruence. Qed.

(** One segment: a line of [mr.microseconds], one count less. *)
Lemma run_segment_spec bf v s :
  (bf < length (mb_bf (mb s)))%nat ->
  let r := _mp_aline_run_segment bf (set_mr (set_mr_segment_velocity v (mr s)) s) in
  fst r = (if decide (dec_uint32 (mr_segment_count (mr s)) > 0)%Z
           then TG_EAGAIN else TG_OK)
  /\ mr_segment_count (mr (snd r)) = dec_uint32 (mr_segment_count (mr s))
  /\ (exists travel, mq (snd r) = mq s ++ [MqLine travel (mr_microseconds (mr s))])
  /\ bf_move_state (deref (mb (snd r)) bf) = bf_move_state (deref (mb s) bf)
  /\ segment_frame bf s (snd r).
Proof.
  intros Hbf. cbv zeta.
  unfold _mp_aline_run_segment, mq_queue_line, _mp_set_mr_position, segment_frame.
  proj_simpl.
  rewrite !modify_run_same by (proj_simpl; exact Hbf). unfold modify_run. proj_simpl.
  case_decide; proj_simpl; rewrite ?deref_modify_same by exact Hbf; proj_simpl;
    rewrite ?length_modify;
    (split; [reflexivity|]); repeat split; eauto.
Qed.

Lemma run_times_add run a : forall b s,
  run_times run (a + b) s = run_times run b (run_times run a s).
Proof. induction a as [|a IH]; intros b s; [reflexivity|]. cbn [Nat.add run_times]. apply IH. Qed.

Lemma run_times_S run n s : run_times run (S n) s = snd (run (run_times run n s)).
Proof. replace (S n) with (n + 1)%nat by lia. now rewrite run_times_add. Qed.

(** The closing line of a region. *)
Lemma run_finalize_spec K bf s :
  let left := mp_get_axis_vector_length (mr_target (mr s)) (mr_position (mr s)) in
  let s' := _mp_aline_run_finalize K bf s in
  if decide (left < MIN_LINE_LENGTH K \/ bf_end_velocity (deref (mb s) bf) < EPSILON K)
  then mq s' = mq s /\ mr_position (mr s') = mr_position (mr s)
  else mq s' = mq s ++ [MqLine (vec_init (fun i => vget (mr_target (mr s)) i
                                                   - vget (mr_position (mr s)) i))
                          (uSec (left / bf_end_velocity (deref (mb s) bf)))]
       /\ mr_position (mr s') = vec_init (fun i => vget (mr_target (mr s)) i).
Proof.
  cbv zeta. unfold _mp_aline_run_finalize, mq_queue_line, _mp_set_mr_position. proj_simpl.
  case_decide; proj_simpl; split; reflexivity.
Qed.

Section SegmentedRegion.

Variable K : mpConstants.
Variable bf : nat.
Variable run : planner -> tgStatus * planner.
Variables vel1 vel2 : planner -> R.

Hypothesis run_first : forall s,
  bf_move_state (deref (mb s) bf) = MP_STATE_RUNNING_1 ->
  run s
  = (let '(status, s2) :=
       _mp_aline_run_segment bf (set_mr (set_mr_segment_velocity (vel1 s) (mr s)) s) in
     if decide (status <> TG_OK) then (status, s2)
     else
       let s3 := set_mr (set_mr_segment_count (to_uint32 (mr_segments (mr s2))) (mr s2)) s2 in
       let s4 := set_mr (set_mr_elapsed_time (mr_segment_time (mr s3) / 2) (mr s3)) s3 in
       (TG_EAGAIN, modify_run bf (set_bf_move_state MP_STATE_RUNNING_2) s4)).

Hypothesis run_second : forall s,
  bf_move_state (deref (mb s) bf) = MP_STATE_RUNNING_2 ->
  run s
  = if decide (mr_segment_count (mr s) > 1)%Z
    then _mp_aline_run_segment bf (set_mr (set_mr_segment_velocity (vel2 s) (mr s)) s)
    else (TG_OK, _mp_aline_run_finalize K bf s).

Lemma first_half_step k s :
  (bf < length (mb_bf (mb s)))%nat ->
  bf_move_state (deref (mb s) bf) = MP_STATE_RUNNING_1 ->
  mr_segment_count (mr s) = Z.of_nat (S k) ->
  (Z.of_nat (S k) < 2 ^ 32)%Z ->
  fst (run s) = TG_EAGAIN
  /\ (exists travel, mq (snd (run s)) = mq s ++ [MqLine travel (mr_microseconds (mr s))])
  /\ segment_frame bf s (snd (run s))
  /\ (k = 0%nat ->
      bf_move_state (deref (mb (snd (run s))) bf) = MP_STATE_RUNNING_2
      /\ mr_segment_count (mr (snd (run s))) = to_uint32 (mr_segments (mr s)))
  /\ ((0 < k)%nat ->
      bf_move_state (deref (mb (snd (run s))) bf) = MP_STATE_RUNNING_1
      /\ mr_segment_count (mr (snd (run s))) = Z.of_nat k).
Proof.
  intros Hbf Hst Hcnt Hlt. rewrite (run_first s Hst).
  destruct (run_segment_spec bf (vel1 s) s Hbf) as (Hr & Hc & Hmq & Hms & Hfr).
  destruct (_mp_aline_run_segment bf _) as [status s2]. cbn [fst snd] in Hr, Hc, Hmq, Hms, Hfr.
  rewrite Hcnt, dec_uint32_S in Hr, Hc by exact Hlt.
  destruct k as [|k].
  - rewrite decide_False in Hr by (cbn; lia). subst status.
    rewrite decide_False by (intros X; now apply X). cbv zeta. cbn [fst snd].
    unfold modify_run. proj_simpl.
    split; [reflexivity|]. split; [exact Hmq|].
    destruct Hfr as (F1 & F2 & F3 & F4 & F5).
    split.
    { unfold segment_frame. proj_simpl.
      rewrite (deref_modify_field bf_end_velocity) by (intros []; reflexivity).
      rewrite length_modify. repeat split; assumption. }
    split; [|intros X; lia]. intros _.
    rewrite deref_modify_same by (rewrite F5; exact Hbf). proj_simpl.
    split; [reflexivity|now rewrite F1].
  - rewrite decide_True in Hr by lia. subst status.
    rewrite decide_True by discriminate. cbn [fst snd].
    split; [reflexivity|]. split; [exact Hmq|]. split; [exact Hfr|].
    split; [intros X; discriminate X|]. intros _. split; [congruence|exact Hc].
Qed.

Lemma first_half_loop k : forall s,
  (bf < length (mb_bf (mb s)))%nat ->
  bf_move_state (deref (mb s) bf) = MP_STATE_RUNNING_1 ->
  mr_segment_count (mr s) = Z.of_nat (S k) ->
  (Z.of_nat (S k) < 2 ^ 32)%Z ->
  (forall j, (j <= k)%nat -> fst (run (run_times run j s)) = TG_EAGAIN)
  /\ (exists l, mq (run_times run (S k) s) = mq s ++ l /\ length l = S k
                /\ Forall (MqLine_lasting (mr_microseconds (mr s))) l)
  /\ segment_frame bf s (run_times run (S k) s)
  /\ bf_move_state (deref (mb (run_times run (S k) s)) bf) = MP_STATE_RUNNING_2
  /\ mr_segment_count (mr (run_times run (S k) s)) = to_uint32 (mr_segments (mr s)).
Proof.
  induction k as [|k IH]; intros s Hbf Hst Hcnt Hlt;
    destruct (first_half_step _ s Hbf Hst Hcnt Hlt) as (Hr & (travel & Hmq) & Hfr & H0 & Hpos).
  - destruct (H0 eq_refl) as [Hst2 Hc2]. cbn [run_times].
    split; [intros j Hj; assert (j = 0%nat) by lia; subst j; exact Hr|].
    split.
    { exists [MqLine travel (mr_microseconds (mr s))]. split; [exact Hmq|].
      split; [reflexivity|]. constructor; [eexists; reflexivity|constructor]. }
    split; [exact Hfr|]. split; assumption.
  - destruct (Hpos ltac:(lia)) as [Hst1 Hc1].
    set (s1 := snd (run s)) in *.
    assert (Hbf1 : (bf < length (mb_bf (mb s1)))%nat)
      by (destruct Hfr as (_ & _ & _ & _ & ->); exact Hbf).
    destruct (IH s1 Hbf1 Hst1 Hc1 ltac:(lia)) as (Hj & (l & Hl & Hn & Hall) & Hfr1 & Hst2 & Hc2).
    assert (Estep : forall n, run_times run (S n) s = run_times run n s1) by reflexivity.
    split.
    { intros [|j] Hle; [exact Hr|]. rewrite Estep. apply Hj. lia. }
    split.
    { exists (MqLine travel (mr_microseconds (mr s)) :: l).
      rewrite Estep, Hl, Hmq, <- app_assoc. split; [reflexivity|].
      split; [cbn; lia|]. constructor; [eexists; reflexivity|].
      destruct Hfr as (_ & <- & _). exact Hall. }
    split; [rewrite Estep; exact (segment_frame_trans _ _ _ _ Hfr Hfr1)|].
    split; [rewrite Estep; exact Hst2|].
    rewrite Estep, Hc2. now destruct Hfr as (-> & _).
Qed.

Lemma second_half_step k s :
  (bf < length (mb_bf (mb s)))%nat ->
  bf_move_state (deref (mb s) bf) = MP_STATE_RUNNING_2 ->
  mr_segment_count (mr s) = Z.of_nat (S (S k)) ->
  (Z.of_nat (S (S k)) < 2 ^ 32)%Z ->
  fst (run s) = TG_EAGAIN
  /\ (exists travel, mq (snd (run s)) = mq s ++ [MqLine travel (mr_microseconds (mr s))])
  /\ segment_frame bf s (snd (run s))
  /\ bf_move_state (deref (mb (snd (run s))) bf) = MP_STATE_RUNNING_2
  /\ mr_segment_count (mr (snd (run s))) = Z.of_nat (S k).
Proof.
  intros Hbf Hst Hcnt Hlt. rewrite (run_second s Hst).
  rewrite decide_True by lia.
  destruct (run_segment_spec bf (vel2 s) s Hbf) as (Hr & Hc & Hmq & Hms & Hfr).
  rewrite Hcnt, dec_uint32_S in Hr, Hc by exact Hlt.
  rewrite decide_True in Hr by lia.
  split; [exact Hr|]. split; [exact Hmq|]. split; [exact Hfr|].
  split; [congruence|exact Hc].
Qed.

Lemma second_half_loop k : forall s,
  (bf < length (mb_bf (mb s)))%nat ->
  bf_move_state (deref (mb s) bf) = MP_STATE_RUNNING_2 ->
  mr_segment_count (mr s) = Z.of_nat (S k) ->
  (Z.of_nat (S k) < 2 ^ 32)%Z ->
  (forall j, (j < k)%nat -> fst (run (run_times run j s)) = TG_EAGAIN)
  /\ (exists l, mq (run_times run k s) = mq s ++ l /\ length l = k
                /\ Forall (MqLine_lasting (mr_microseconds (mr s))) l)
  /\ segment_frame bf s (run_times run k s)
  /\ bf_move_state (deref (mb (run_times run k s)) bf) = MP_STATE_RUNNING_2
  /\ mr_segment_count (mr (run_times run k s)) = 1%Z.
Proof.
  induction k as [|k IH]; intros s Hbf Hst Hcnt Hlt.
  - cbn [run_times]. split; [intros j Hj; lia|].
    split; [exists []; rewrite app_nil_r; repeat split; constructor|].
    split; [apply segment_frame_refl|]. split; [exact Hst|exact Hcnt].
  - destruct (second_half_step _ s Hbf Hst Hcnt Hlt)
      as (Hr & (travel & Hmq) & Hfr & Hst1 & Hc1).
    set (s1 := snd (run s)) in *.
    assert (Hbf1 : (bf < length (mb_bf (mb s1)))%nat)
      by (destruct Hfr as (_ & _ & _ & _ & ->); exact Hbf).
    destruct (IH s1 Hbf1 Hst1 Hc1 ltac:(lia)) as (Hj & (l & Hl & Hn & Hall) & Hfr1 & Hst2 & Hc2).
    assert (Estep : forall n, run_times run (S n) s = run_times run n s1) by reflexivity.
    split.
    { intros [|j] Hle; [exact Hr|]. rewrite Estep. apply Hj. lia. }
    split.
    { exists (MqLine travel (mr_microseconds (mr s)) :: l).
      rewrite Estep, Hl, Hmq, <- app_assoc. split; [reflexivity|].
      split; [cbn; lia|]. constructor; [eexists; reflexivity|].
      destruct Hfr as (_ & <- & _). exact Hall. }
    split; [rewrite Estep; exact (segment_frame_trans _ _ _ _ Hfr Hfr1)|].
    split; [rewrite Estep; exact Hst2|rewrite Estep; exact Hc2].
Qed.

(** A region that has been set up for [S n] segments in each half. *)
Lemma running_region n s :
  (bf < length (mb_bf (mb s)))%nat ->
  bf_move_state (deref (mb s) bf) = MP_STATE_RUNNING_1 ->
  mr_segment_count (mr s) = Z.of_nat (S n) ->
  to_uint32 (mr_segments (mr s)) = Z.of_nat (S n) ->
  (Z.of_nat (S n) < 2 ^ 32)%Z ->
  (forall j, (j < 2 * S n)%nat ->
     fst (run (run_times run j s))
     = if decide (j < 2 * S n - 1)%nat then TG_EAGAIN else TG_OK)
  /\ (exists l, mq (run_times run (2 * S n - 1) s) = mq s ++ l
                /\ length l = (2 * S n - 1)%nat
                /\ Forall (MqLine_lasting (mr_microseconds (mr s))) l)
  /\ segment_frame bf s (run_times run (2 * S n - 1) s)
  /\ run (run_times run (2 * S n - 1) s)
     = (TG_OK, _mp_aline_run_finalize K bf (run_times run (2 * S n - 1) s)).
Proof.
  intros Hbf Hst Hcnt Hseg Hlt.
  destruct (first_half_loop n s Hbf Hst Hcnt Hlt)
    as (Hj1 & (l1 & Hl1 & Hn1 & Hall1) & Hfr1 & Hst1 & Hc1).
  set (s1 := run_times run (S n) s) in *.
  assert (Hbf1 : (bf < length (mb_bf (mb s1)))%nat)
    by (destruct Hfr1 as (_ & _ & _ & _ & ->); exact Hbf).
  rewrite Hseg in Hc1.
  destruct (second_half_loop n s1 Hbf1 Hst1 Hc1 Hlt)
    as (Hj2 & (l2 & Hl2 & Hn2 & Hall2) & Hfr2 & Hst2 & Hc2).
  assert (Esplit : forall j, run_times run (S n + j) s = run_times run j s1)
    by (intros j; apply run_times_add).
  replace (2 * S n - 1)%nat with (S n + n)%nat by lia.
  assert (Elast : run (run_times run n s1) = (TG_OK, _mp_aline_run_finalize K bf (run_times run n s1))).
  { rewrite (run_second _ Hst2). rewrite decide_False by (rewrite Hc2; lia). reflexivity. }
  split.
  { intros j Hj. destruct (decide (j <= n)%nat) as [Hle|Hgt].
    - rewrite decide_True by lia. now apply Hj1.
    - replace j with (S n + (j - S n))%nat by lia. rewrite Esplit.
      destruct (decide (j - S n < n)%nat) as [Hlt2|Hge].
      + rewrite decide_True by lia. now apply Hj2.
      + rewrite decide_False by lia.
        replace (j - S n)%nat with n by lia. now rewrite Elast. }
  split.
  { exists (l1 ++ l2). rewrite Esplit, Hl2, Hl1, <- app_assoc. split; [reflexivity|].
    split; [rewrite length_app; lia|].
    apply Forall_app. split; [exact Hall1|].
    destruct Hfr1 as (_ & <- & _). exact Hall2. }
  split; [rewrite Esplit; exact (segment_frame_trans _ _ _ _ Hfr1 Hfr2)|].
  rewrite Esplit. exact Elast.
Qed.

End SegmentedRegion.

Lemma to_uint16_IZR z : (0 <= z < 2 ^ 16)%Z -> to_uint16 (IZR z) = z.
Proof.
  intros Hz. unfold to_uint16, truncZ, floorZ.
  destruct (Rle_dec 0 (IZR z)) as [_|Hn].
  - rewrite up_IZR. rewrite Z.mod_small; lia.
  - exfalso. apply Hn. apply IZR_le. lia.
Qed.

Ltac let_step x Hx :=
  lazymatch goal with
  | |- ?P (let y := ?v in @?k y) => refine (let_rule v k P _); intros x Hx; cbv beta
  end.

(** "initialize for acceleration" and "initialize for deceleration" differ in
    the text of their traps only; [setup] is [accel_setup] or [decel_setup]. *)
Ltac region_setup_tac setup Hbf Hlen Hseg H16 :=
  let s1 := fresh "s1" in
  let Hb1 := fresh "Hb1" in let Hq1 := fresh "Hq1" in let Hl1 := fresh "Hl1" in
  let P' := fresh "P" in
  let b1 := fresh "b1" in let Eb1 := fresh "Eb1" in
  let x1 := fresh "x1" in let Ex1 := fresh "Ex1" in
  let x2 := fresh "x2" in let Ex2 := fresh "Ex2" in
  let F2 := fresh "F2" in
  let Fr := fresh "Fr" in let Fb := fresh "Fb" in
  let Fq := fresh "Fq" in let Fm := fresh "Fm" in
  rewrite modify_run_same by exact Hbf; proj_simpl;
  rewrite decide_False by exact Hlen;
  match goal with |- context [setup ?cfg ?bf (modify_run ?bf ?f ?s)] =>
    set (s1 := modify_run bf f s);
    assert (Hb1 : deref (mb s1) bf = f (deref (mb s) bf))
      by (unfold s1; now rewrite modify_run_same);
    assert (Hq1 : mq s1 = mq s) by reflexivity;
    assert (Hl1 : length (mb_bf (mb s1)) = length (mb_bf (mb s)))
      by (unfold s1, modify_run; proj_simpl; apply length_modify);
    clearbody s1;
    match goal with |- ?G =>
      let P := eval pattern (setup cfg bf s1) in G in
      match P with ?Q _ => set (P' := Q); change (P' (setup cfg bf s1)) end end;
    cbv beta delta [setup];
    let_step b1 Eb1; let_step x1 Ex1; let_step x2 Ex2;
    assert (F2 : mr x2 = mr x1 /\ mb x2 = mb x1 /\ mq x2 = mq x1 /\ mm x2 = mm x1)
      by (rewrite Ex2; case_decide; repeat split; reflexivity);
    clear Ex2; destruct F2 as (Fr & Fb & Fq & Fm);
    cbv zeta; proj_simpl; rewrite !Fr, ?Fb, ?Fq, ?Fm; subst x1 b1; proj_simpl;
    rewrite Hb1; proj_simpl;
    rewrite Hseg; rewrite (decide_False _ _ H16);
    subst P'; cbv beta; unfold modify_run; proj_simpl; rewrite ?Fr, ?Fb, ?Fq; proj_simpl;
    rewrite deref_modify_same by (rewrite Hl1; exact Hbf);
    rewrite length_modify; rewrite Hb1; proj_simpl
  end.

Lemma accel_new_spec K cfg bf n s :
  (bf < length (mb_bf (mb s)))%nat ->
  ~ bf_length (deref (mb s) bf) < MIN_LINE_LENGTH K ->
  round (round (ONE_MINUTE_OF_MICROSECONDS
                * (bf_length (deref (mb s) bf)
                   / ((bf_start_velocity (deref (mb s) bf)
                       + bf_end_velocity (deref (mb s) bf)) / 2)
                   / min_segment_time cfg)) / 2)
  = INR (S n) ->
  (Z.of_nat (S n) < 2 ^ 16)%Z ->
  fst (accel_initialize K cfg bf s) = None
  /\ bf_move_state (deref (mb (snd (accel_initialize K cfg bf s))) bf) = MP_STATE_RUNNING_1
  /\ mr_segment_count (mr (snd (accel_initialize K cfg bf s))) = Z.of_nat (S n)
  /\ to_uint32 (mr_segments (mr (snd (accel_initialize K cfg bf s)))) = Z.of_nat (S n)
  /\ mr_microseconds (mr (snd (accel_initialize K cfg bf s)))
     = uSec (bf_length (deref (mb s) bf)
             / ((bf_start_velocity (deref (mb s) bf)
                 + bf_end_velocity (deref (mb s) bf)) / 2)
             / (2 * INR (S n)))
  /\ mr_target (mr (snd (accel_initialize K cfg bf s)))
     = mp_copy_vector (bf_target (deref (mb s) bf))
  /\ bf_end_velocity (deref (mb (snd (accel_initialize K cfg bf s))) bf)
     = bf_end_velocity (deref (mb s) bf)
  /\ mq (snd (accel_initialize K cfg bf s)) = mq s
  /\ length (mb_bf (mb (snd (accel_initialize K cfg bf s)))) = length (mb_bf (mb s)).
Proof.
  intros Hbf Hlen Hseg Hlt.
  assert (H32 : to_uint32 (INR (S n)) = Z.of_nat (S n))
    by (rewrite INR_IZR_INZ; apply to_uint32_IZR; lia).
  assert (H16 : to_uint16 (INR (S n)) <> 0%Z)
    by (rewrite INR_IZR_INZ, to_uint16_IZR; lia).
  unfold accel_initialize.
  region_setup_tac accel_setup Hbf Hlen Hseg H16.
  repeat split; auto.
Qed.

Lemma decel_new_spec K cfg bf n s :
  (bf < length (mb_bf (mb s)))%nat ->
  ~ bf_length (deref (mb s) bf) < MIN_LINE_LENGTH K ->
  round (round (ONE_MINUTE_OF_MICROSECONDS
                * (bf_length (deref (mb s) bf)
                   / ((bf_start_velocity (deref (mb s) bf)
                       + bf_end_velocity (deref (mb s) bf)) / 2)
                   / min_segment_time cfg)) / 2)
  = INR (S n) ->
  (Z.of_nat (S n) < 2 ^ 16)%Z ->
  fst (decel_initialize K cfg bf s) = None
  /\ bf_move_state (deref (mb (snd (decel_initialize K cfg bf s))) bf) = MP_STATE_RUNNING_1
  /\ mr_segment_count (mr (snd (decel_initialize K cfg bf s))) = Z.of_nat (S n)
  /\ to_uint32 (mr_segments (mr (snd (decel_initialize K cfg bf s)))) = Z.of_nat (S n)
  /\ mr_microseconds (mr (snd (decel_initialize K cfg bf s)))
     = uSec (bf_length (deref (mb s) bf)
             / ((bf_start_velocity (deref (mb s) bf)
                 + bf_end_velocity (deref (mb s) bf)) / 2)
             / (2 * INR (S n)))
  /\ mr_target (mr (snd (decel_initialize K cfg bf s)))
     = mp_copy_vector (bf_target (deref (mb s) bf))
  /\ bf_end_velocity (deref (mb (snd (decel_initialize K cfg bf s))) bf)
     = bf_end_velocity (deref (mb s) bf)
  /\ mq (snd (decel_initialize K cfg bf s)) = mq s
  /\ length (mb_bf (mb (snd (decel_initialize K cfg bf s)))) = length (mb_bf (mb s)).
Proof.
  intros Hbf Hlen Hseg Hlt.
  assert (H32 : to_uint32 (INR (S n)) = Z.of_nat (S n))
    by (rewrite INR_IZR_INZ; apply to_uint32_IZR; lia).
  assert (H16 : to_uint16 (INR (S n)) <> 0%Z)
    by (rewrite INR_IZR_INZ, to_uint16_IZR; lia).
  unfold decel_initialize.
  region_setup_tac decel_setup Hbf Hlen Hseg H16.
  repeat split; auto.
Qed.

Lemma round_IZR z : (0 <= z)%Z -> round (IZR z) = IZR z.
Proof.
  intros Hz. unfold round, floorZ.
  destruct (Rle_dec 0 (IZR z)) as [_|Hn]; [|exfalso; apply Hn, IZR_le; lia].
  f_equal. assert (up (IZR z + / 2) = (z + 1)%Z); [|lia].
  symmetry. apply tech_up; rewrite plus_IZR; lra.
Qed.

(** From the first call on a new region to its last. *)
Lemma new_region_run K bf (run : planner -> tgStatus * planner) (vel1 vel2 : planner -> R)
    n s s0 :
  (forall s,
     bf_move_state (deref (mb s) bf) = MP_STATE_RUNNING_1 ->
     run s
     = (let '(status, s2) :=
          _mp_aline_run_segment bf (set_mr (set_mr_segment_velocity (vel1 s) (mr s)) s) in
        if decide (status <> TG_OK) then (status, s2)
        else
          let s3 := set_mr (set_mr_segment_count (to_uint32 (mr_segments (mr s2))) (mr s2))
                      s2 in
          let s4 := set_mr (set_mr_elapsed_time (mr_segment_time (mr s3) / 2) (mr s3)) s3 in
          (TG_EAGAIN, modify_run bf (set_bf_move_state MP_STATE_RUNNING_2) s4))) ->
  (forall s,
     bf_move_state (deref (mb s) bf) = MP_STATE_RUNNING_2 ->
     run s
     = if decide (mr_segment_count (mr s) > 1)%Z
       then _mp_aline_run_segment bf (set_mr (set_mr_segment_velocity (vel2 s) (mr s)) s)
       else (TG_OK, _mp_aline_run_finalize K bf s)) ->
  run s = run s0 ->
  (Z.of_nat (S n) < 2 ^ 16)%Z ->
  bf_move_state (deref (mb s0) bf) = MP_STATE_RUNNING_1
  /\ mr_segment_count (mr s0) = Z.of_nat (S n)
  /\ to_uint32 (mr_segments (mr s0)) = Z.of_nat (S n)
  /\ mr_microseconds (mr s0)
     = uSec (bf_length (deref (mb s) bf)
             / ((bf_start_velocity (deref (mb s) bf)
                 + bf_end_velocity (deref (mb s) bf)) / 2)
             / (2 * INR (S n)))
  /\ mr_target (mr s0) = mp_copy_vector (bf_target (deref (mb s) bf))
  /\ bf_end_velocity (deref (mb s0) bf) = bf_end_velocity (deref (mb s) bf)
  /\ mq s0 = mq s
  /\ length (mb_bf (mb s0)) = length (mb_bf (mb s)) ->
  (bf < length (mb_bf (mb s)))%nat ->
  run_in_segments K run bf (S n) s.
Proof.
  intros Hfirst Hsecond Hrun Hlt (Hst & Hcnt & H32 & Hus & Htg & Hve & Hmq & Hlen) Hbf.
  assert (Hbf0 : (bf < length (mb_bf (mb s0)))%nat) by (rewrite Hlen; exact Hbf).
  destruct (running_region K bf run vel1 vel2 Hfirst Hsecond n s0 Hbf0 Hst Hcnt H32)
    as (Hj & (l & Hl & Hn & Hall) & Hfr & Elast); [lia|].
  assert (Etimes : forall j, run_times run (S j) s = run_times run (S j) s0)
    by (intros j; cbn [run_times]; now rewrite Hrun).
  assert (Ecall : forall j, run (run_times run j s) = run (run_times run j s0))
    by (intros [|j]; [exact Hrun|now rewrite Etimes]).
  unfold run_in_segments. cbv zeta.
  replace (2 * S n - 1)%nat with (S (2 * n)) in * by lia.
  rewrite Etimes.
  set (before_last := run_times run (S (2 * n)) s0) in *.
  split; [intros j Hjlt; rewrite Ecall; now apply Hj|].
  split.
  { exists l. rewrite Hl, Hmq. split; [reflexivity|]. split; [exact Hn|].
    now rewrite <- Hus. }
  rewrite Elast. cbn [snd].
  pose proof (run_finalize_spec K bf before_last) as F. cbv zeta in F.
  destruct Hfr as (_ & _ & Ft & Fv & _).
  rewrite Ft, Htg, Fv, Hve in F.
  case_decide; [exact F|].
  destruct F as [F1 F2]. split; [exact F1|]. rewrite F2. apply copy_vector_idem.
Qed.

Lemma run_accel_first K cfg bf s :
  bf_move_state (deref (mb s) bf) = MP_STATE_RUNNING_1 ->
  _mp_run_accel K cfg true bf s = accel_first_half bf s.
Proof.
  intros H. unfold _mp_run_accel. cbn [negb].
  rewrite decide_False by (rewrite H; discriminate).
  cbv beta iota. now rewrite (decide_True _ _ H).
Qed.

Lemma run_accel_second K cfg bf s :
  bf_move_state (deref (mb s) bf) = MP_STATE_RUNNING_2 ->
  _mp_run_accel K cfg true bf s = accel_second_half K bf s.
Proof.
  intros H. unfold _mp_run_accel. cbn [negb].
  rewrite decide_False by (rewrite H; discriminate).
  cbv beta iota. rewrite decide_False by (rewrite H; discriminate).
  now rewrite (decide_True _ _ H).
Qed.

Lemma run_decel_first K cfg bf s :
  bf_move_state (deref (mb s) bf) = MP_STATE_RUNNING_1 ->
  _mp_run_decel K cfg true bf s = decel_first_half bf s.
Proof.
  intros H. unfold _mp_run_decel. cbn [negb].
  rewrite decide_False by (rewrite H; discriminate).
  cbv beta iota. now rewrite (decide_True _ _ H).
Qed.

Lemma run_decel_second K cfg bf s :
  bf_move_state (deref (mb s) bf) = MP_STATE_RUNNING_2 ->
  _mp_run_decel K cfg true bf s = decel_second_half K bf s.
Proof.
  intros H. unfold _mp_run_decel. cbn [negb].
  rewrite decide_False by (rewrite H; discriminate).
  cbv beta iota. rewrite decide_False by (rewrite H; discriminate).
  now rewrite (decide_True _ _ H).
Qed.

Lemma run_accel_new K cfg bf s :
  bf_move_state (deref (mb s) bf) = MP_STATE_NEW ->
  fst (accel_initialize K cfg bf s) = None ->
  bf_move_state (deref (mb (snd (accel_initialize K cfg bf s))) bf) = MP_STATE_RUNNING_1 ->
  _mp_run_accel K cfg true bf s
  = _mp_run_accel K cfg true bf (snd (accel_initialize K cfg bf s)).
Proof.
  intros Hnew Hnone Hst. rewrite (run_accel_first K cfg bf _ Hst).
  unfold _mp_run_accel. cbn [negb]. rewrite (decide_True _ _ Hnew).
  destruct (accel_initialize K cfg bf s) as [ret s0]. cbn [fst snd] in *. subst ret.
  now rewrite (decide_True _ _ Hst).
Qed.

Lemma run_decel_new K cfg bf s :
  bf_move_state (deref (mb s) bf) = MP_STATE_NEW ->
  fst (decel_initialize K cfg bf s) = None ->
  bf_move_state (deref (mb (snd (decel_initialize K cfg bf s))) bf) = MP_STATE_RUNNING_1 ->
  _mp_run_decel K cfg true bf s
  = _mp_run_decel K cfg true bf (snd (decel_initialize K cfg bf s)).
Proof.
  intros Hnew Hnone Hst. rewrite (run_decel_first K cfg bf _ Hst).
  unfold _mp_run_decel. cbn [negb]. rewrite (decide_True _ _ Hnew).
  destruct (decel_initialize K cfg bf s) as [ret s0]. cbn [fst snd] in *. subst ret.
  now rewrite (decide_True _ _ Hst).
Qed.

(** X20: a new acceleration or deceleration region of n segments in each
    half (0 < n < 2^16) is run in 2n calls with room.  All but the last
    return TG_EAGAIN and queue one line of uSec(time / 2n) each, where
    time = length / ((Vs + Ve) / 2).  The last call returns TG_OK and queues
    the closing line to the target of the region, which puts mr.position on
    that target; when the distance left is below MIN_LINE_LENGTH or the end
    velocity below EPSILON it queues nothing and mr.position stays. *)
Theorem ramps_are_run_in_two_halves (K : mpConstants) (cfg : cfgStructure) (bf n : nat)
    (s : planner) :
  (bf < length (mb_bf (mb s)))%nat ->
  bf_move_state (deref (mb s) bf) = MP_STATE_NEW ->
  ~ bf_length (deref (mb s) bf) < MIN_LINE_LENGTH K ->
  round (round (ONE_MINUTE_OF_MICROSECONDS
                * (bf_length (deref (mb s) bf)
                   / ((bf_start_velocity (deref (mb s) bf)
                       + bf_end_velocity (deref (mb s) bf)) / 2)
                   / min_segment_time cfg)) / 2)
  = INR n ->
  (0 < n)%nat -> (Z.of_nat n < 2 ^ 16)%Z ->
  run_in_segments K (_mp_run_accel K cfg true bf) bf n s
  /\ run_in_segments K (_mp_run_decel K cfg true bf) bf n s.
Proof.
  intros Hbf Hnew Hlen Hseg Hpos Hlt.
  destruct n as [|n]; [lia|]. split.
  - destruct (accel_new_spec K cfg bf n s Hbf Hlen Hseg Hlt) as (Hnone & Hst & Hrest).
    eapply (new_region_run K bf (_mp_run_accel K cfg true bf)
              (fun s => bf_start_velocity (deref (mb s) bf)
                        + mm_linear_jerk_div2 (mm s) * square (mr_elapsed_time (mr s)))
              (fun s => mr_midpoint_velocity (mr s)
                        + mr_elapsed_time (mr s) * mr_midpoint_acceleration (mr s)
                        - mm_linear_jerk_div2 (mm s) * square (mr_elapsed_time (mr s)))
              n s (snd (accel_initialize K cfg bf s))).
    + intros x Hx. now rewrite (run_accel_first K cfg bf x Hx).
    + intros x Hx. now rewrite (run_accel_second K cfg bf x Hx).
    + now apply run_accel_new.
    + exact Hlt.
    + split; [exact Hst|exact Hrest].
    + exact Hbf.
  - destruct (decel_new_spec K cfg bf n s Hbf Hlen Hseg Hlt) as (Hnone & Hst & Hrest).
    eapply (new_region_run K bf (_mp_run_decel K cfg true bf)
              (fun s => bf_start_velocity (deref (mb s) bf)
                        - mm_linear_jerk_div2 (mm s) * square (mr_elapsed_time (mr s)))
              (fun s => mr_midpoint_velocity (mr s)
                        - mr_elapsed_time (mr s) * mr_midpoint_acceleration (mr s)
                        + mm_linear_jerk_div2 (mm s) * square (mr_elapsed_time (mr s)))
              n s (snd (decel_initialize K cfg bf s))).
    + intros x Hx. now rewrite (run_decel_first K cfg bf x Hx).
    + intros x Hx. now rewrite (run_decel_second K cfg bf x Hx).
    + now apply run_decel_new.
    + exact Hlt.
    + split; [exact Hst|exact Hrest].
    + exact Hbf.
Qed.

Lemma ramp_in_slot_0_fields t Vs Ve :
  bf_length (deref (mb (ramp_in_slot_0 t Vs Ve)) 0) = 1
  /\ bf_start_velocity (deref (mb (ramp_in_slot_0 t Vs Ve)) 0) = Vs
  /\ bf_end_velocity (deref (mb (ramp_in_slot_0 t Vs Ve)) 0) = Ve
  /\ bf_move_state (deref (mb (ramp_in_slot_0 t Vs Ve)) 0) = MP_STATE_NEW.
Proof. repeat split. Qed.

Lemma ramps_are_run_in_two_halves_witness :
  run_in_segments sample_constants (_mp_run_accel sample_constants cfg_jerk_50e6 true 0)
    0 30 (ramp_in_slot_0 MP_TYPE_ACCEL 0 200)
  /\ run_in_segments sample_constants (_mp_run_decel sample_constants cfg_jerk_50e6 true 0)
       0 30 (ramp_in_slot_0 MP_TYPE_ACCEL 0 200).
Proof.
  destruct (ramp_in_slot_0_fields MP_TYPE_ACCEL 0 200) as (Hl & Hs & He & Hn).
  apply (ramps_are_run_in_two_halves sample_constants cfg_jerk_50e6 0 30
           (ramp_in_slot_0 MP_TYPE_ACCEL 0 200)).
  - vm_compute. lia.
  - exact Hn.
  - rewrite Hl. cbn. lra.
  - rewrite Hl, Hs, He.
    replace (ONE_MINUTE_OF_MICROSECONDS * (1 / ((0 + 200) / 2) / min_segment_time cfg_jerk_50e6))
      with (IZR 60) by (unfold ONE_MINUTE_OF_MICROSECONDS; cbn; lra).
    rewrite round_IZR by lia.
    replace (IZR 60 / 2) with (IZR 30) by lra.
    rewrite round_IZR by lia. rewrite INR_IZR_INZ. reflexivity.
  - lia.
  - vm_compute. reflexivity.
Defined.

(** *** A cruise region *)

Lemma run_cruise_tossed K bf s :
  (bf < length (mb_bf (mb s)))%nat ->
  bf_length (deref (mb s) bf) < MIN_LINE_LENGTH K
  \/ bf_end_velocity (deref (mb s) bf) < EPSILON K ->
  _mp_run_cruise K true bf s = (TG_OK, modify_run bf (set_bf_replannable false) s).
Proof.
  intros Hbf Hshort. unfold _mp_run_cruise. cbn [negb]. cbv zeta.
  rewrite modify_run_same by exact Hbf. proj_simpl. now rewrite (decide_True _ _ Hshort).
Qed.

Lemma run_cruise_line K bf s :
  (bf < length (mb_bf (mb s)))%nat ->
  ~ (bf_length (deref (mb s) bf) < MIN_LINE_LENGTH K
     \/ bf_end_velocity (deref (mb s) bf) < EPSILON K) ->
  let b := deref (mb s) bf in
  let r := _mp_run_cruise K true bf s in
  fst r = TG_OK
  /\ mq (snd r)
     = mq s ++ [MqLine (vec_init (fun i =>
                          vget (vec_init (fun i => vget (mr_position (mr s)) i
                                                   + vget (bf_unit_vec b) i * bf_length b)) i
                          - vget (mr_position (mr s)) i))
                  (uSec (bf_length b / bf_end_velocity b))]
  /\ mr_position (mr (snd r))
     = mp_copy_vector (vec_init (fun i => vget (mr_position (mr s)) i
                                          + vget (bf_unit_vec b) i * bf_length b))
  /\ mr_target (mr (snd r)) = mp_copy_vector (bf_target b)
  /\ bf_replannable (deref (mb (snd r)) bf) = false.
Proof.
  intros Hbf Hlong b r. subst r.
  match goal with |- ?G =>
    let P := eval pattern (_mp_run_cruise K true bf s) in G in
    match P with ?Q _ => set (P' := Q); change (P' (_mp_run_cruise K true bf s)) end end.
  cbv beta iota delta [_mp_run_cruise negb].
  let_step s0 Es0.
  assert (Hb0 : deref (mb s0) bf = set_bf_replannable false b)
    by (rewrite Es0; now rewrite modify_run_same).
  assert (Hl0 : length (mb_bf (mb s0)) = length (mb_bf (mb s)))
    by (rewrite Es0; unfold modify_run; proj_simpl; apply length_modify).
  assert (Hq0 : mq s0 = mq s /\ mr s0 = mr s) by (rewrite Es0; split; reflexivity).
  clear Es0. let_step b0 Eb0. rewrite Hb0 in Eb0.
  destruct (decide _) as [X|_]; [exfalso; rewrite Eb0 in X; apply Hlong; exact X|].
  clear Eb0 b0.
  let_step s1 Es1.
  assert (Hb1 : deref (mb s1) bf
                = set_bf_time (bf_length b / bf_end_velocity b) (set_bf_replannable false b))
    by (rewrite Es1, modify_run_same by (rewrite Hl0; exact Hbf); now rewrite Hb0).
  assert (Hl1 : length (mb_bf (mb s1)) = length (mb_bf (mb s)))
    by (rewrite Es1; unfold modify_run; proj_simpl; now rewrite length_modify).
  assert (Hq1 : mq s1 = mq s /\ mr s1 = mr s) by (rewrite Es1; exact Hq0).
  clear Es1. let_step s2 Es2.
  assert (F2 : mr s2 = mr s1 /\ mb s2 = mb s1 /\ mq s2 = mq s1)
    by (rewrite Es2; case_decide; repeat split; reflexivity).
  clear Es2. destruct F2 as (Fr & Fb & Fq). destruct Hq1 as [Hq1 Hr1].
  cbv zeta. subst P'. cbv beta.
  unfold mq_queue_line, _mp_set_mr_position, modify_run. proj_simpl.
  rewrite !Fb, !Fr, Fq, !Hb1, Hq1, !Hr1. proj_simpl.
  rewrite !deref_modify_same by (rewrite Hl1; exact Hbf).
  rewrite !Hb1. proj_simpl.
  repeat split.
Qed.

Lemma travelled_length position u len :
  is_unit_vector u -> 0 <= len ->
  mp_get_axis_vector_length
    (mp_copy_vector (vec_init (fun i => vget position i + vget u i * len))) position
  = len.
Proof.
  intros Hu Hlen. rewrite axis_vector_length_sum.
  rewrite !vget_copy_vector, !vget_vec_init by (unfold AXES; lia).
  unfold is_unit_vector, dot, Axis.X, Axis.Y, Axis.Z, Axis.A, Axis.B, Axis.C in Hu.
  replace (square (vget position 0 + vget u 0 * len - vget position 0)
           + square (vget position 1 + vget u 1 * len - vget position 1)
           + square (vget position 2 + vget u 2 * len - vget position 2)
           + square (vget position 3 + vget u 3 * len - vget position 3)
           + square (vget position 4 + vget u 4 * len - vget position 4)
           + square (vget position 5 + vget u 5 * len - vget position 5))
    with (len * len
          * (vget u 0 * vget u 0 + vget u 1 * vget u 1 + vget u 2 * vget u 2
             + vget u 3 * vget u 3 + vget u 4 * vget u 4 + vget u 5 * vget u 5))
    by (unfold square; ring).
  rewrite Hu, Rmult_1_r. now apply sqrt_square.
Qed.

(** X21: with room, the cruise runner returns TG_OK and stops replanning of
    the region.  A region below MIN_LINE_LENGTH or with an end velocity
    below EPSILON is tossed: no line, mr as it was.  Any other is one line of
    uSec(length / end_velocity) that travels unit_vec * length from
    mr.position, so that mr.position advances by the length of the region
    when unit_vec has norm 1; the planned target only goes to mr.target. *)
Theorem cruise_is_one_line_of_its_length (K : mpConstants) (bf : nat) (s : planner) :
  (bf < length (mb_bf (mb s)))%nat ->
  let b := deref (mb s) bf in
  let r := _mp_run_cruise K true bf s in
  fst r = TG_OK
  /\ bf_replannable (deref (mb (snd r)) bf) = false
  /\ (bf_length b < MIN_LINE_LENGTH K \/ bf_end_velocity b < EPSILON K ->
      mq (snd r) = mq s /\ mr (snd r) = mr s)
  /\ (~ (bf_length b < MIN_LINE_LENGTH K \/ bf_end_velocity b < EPSILON K) ->
      (exists travel,
          mq (snd r) = mq s ++ [MqLine travel (uSec (bf_length b / bf_end_velocity b))]
          /\ forall i, (i < AXES)%nat -> vget travel i = vget (bf_unit_vec b) i * bf_length b)
      /\ (forall i, (i < AXES)%nat ->
            vget (mr_position (mr (snd r))) i
            = vget (mr_position (mr s)) i + vget (bf_unit_vec b) i * bf_length b)
      /\ mr_target (mr (snd r)) = mp_copy_vector (bf_target b)
      /\ (is_unit_vector (bf_unit_vec b) -> 0 <= bf_length b ->
          mp_get_axis_vector_length (mr_position (mr (snd r))) (mr_position (mr s))
          = bf_length b)).
Proof.
  intros Hbf b r.
  destruct (decide (bf_length b < MIN_LINE_LENGTH K \/ bf_end_velocity b < EPSILON K))
    as [Hshort|Hlong].
  - subst r. rewrite (run_cruise_tossed K bf s Hbf Hshort). cbn [fst snd].
    split; [reflexivity|].
    split; [now rewrite modify_run_same by exact Hbf|].
    split; [intros _; split; reflexivity|]. intros Hn. contradiction.
  - destruct (run_cruise_line K bf s Hbf Hlong) as (Hst & Hmq & Hpos & Htg & Hrep).
    fold b in Hmq, Hpos, Htg. fold r in Hst, Hmq, Hpos, Htg, Hrep.
    split; [exact Hst|]. split; [exact Hrep|].
    split; [intros Hs; contradiction|]. intros _.
    split.
    { eexists. split; [exact Hmq|]. intros i Hi.
      rewrite !vget_vec_init by exact Hi. ring. }
    split.
    { intros i Hi. rewrite Hpos, vget_copy_vector, vget_vec_init by exact Hi. reflexivity. }
    split; [exact Htg|].
    intros Hu Hlen. rewrite Hpos. now apply travelled_length.
Qed.

Lemma cruise_is_one_line_of_its_length_witness :
  fst (_mp_run_cruise sample_constants true 0 (ramp_in_slot_0 MP_TYPE_CRUISE 200 200)) = TG_OK
  /\ exists travel,
       mq (snd (_mp_run_cruise sample_constants true 0
                  (ramp_in_slot_0 MP_TYPE_CRUISE 200 200)))
       = mq (ramp_in_slot_0 MP_TYPE_CRUISE 200 200) ++ [MqLine travel (uSec (1 / 200))].
Proof.
  destruct (cruise_is_one_line_of_its_length sample_constants 0
              (ramp_in_slot_0 MP_TYPE_CRUISE 200 200)) as (Hst & _ & _ & Hline).
  - vm_compute. lia.
  - split; [exact Hst|].
    destruct Hline as ((travel & Hmq & _) & _).
    + destruct (ramp_in_slot_0_fields MP_TYPE_CRUISE 200 200) as (Hl & _ & He & _).
      rewrite Hl, He. cbn. lra.
    + exists travel. exact Hmq.
Defined.

(** *** Regions below MIN_LINE_LENGTH *)








Lemma to_R_1 : Double.to_R PrimFloat.one = 1.
Proof.
  unfold Double.to_R.
  replace (FloatOps.Prim2SF PrimFloat.one)
    with (SpecFloat.S754_finite false 4503599627370496 (-52)) by (vm_compute; reflexivity).
  cbv beta iota.
  replace (0 <=? -52)%Z with false by reflexivity.
  replace (2 ^ (- -52))%Z with 4503599627370496%Z by reflexivity.
  field.
Qed.

(** C6: the factor of a straight join is not 1 in the code's doubles.  For the
    move from the origin to (0, 5, 12), 13 mm long, [_mp_get_unit_vector]
    stores (0, 5/13, 12/13) rounded to binary64; advancing the origin by 13
    times that vector gives (0, 5, 12) again, and the collinear move on to
    (0, 10, 24) has the same unit vector.  The dot product of the two equal
    vectors is 1 + 2^-52, above 1, where [acos] has a domain error: the
    factor is a NaN, neither 1 nor in [0, 1].  For a move along X the norm
    rounds to 1 and the factor is 1. *)
Theorem straight_join_in_doubles_is_nan :
  let u := Double._mp_get_unit_vector Double.target_5_12 Double.origin in
  Double.advance Double.origin u (Double.mp_get_axis_vector_length Double.target_5_12 Double.origin)
  = Double.target_5_12
  /\ Double._mp_get_unit_vector Double.target_10_24 Double.target_5_12 = u
  /\ Double.cosine u u = Double.next_after_1
  /\ PrimFloat.ltb PrimFloat.one (Double.cosine u u) = true
  /\ Double._mp_get_angular_jerk_factor u u = None
  /\ Double._mp_get_angular_jerk_factor
       (Double._mp_get_unit_vector Double.target_x Double.origin)
       (Double._mp_get_unit_vector Double.target_x Double.origin) = Some 1.
Proof.
  cbv zeta.
  split; [vm_compute; reflexivity|].
  split; [vm_compute; reflexivity|].
  split; [vm_compute; reflexivity|].
  split; [vm_compute; reflexivity|].
  split; [vm_compute; reflexivity|].
  unfold Double._mp_get_angular_jerk_factor.
  replace (Double.cosine _ _) with PrimFloat.one by (vm_compute; reflexivity).
  replace (Double.in_acos_domain PrimFloat.one) with true by (vm_compute; reflexivity).
  rewrite to_R_1, acos_1. replace (0 / 2) with 0 by lra. rewrite cos_0. reflexivity.
Qed.
